(** * PowerWorldCUA backend: extraction pipeline, job runners, connection
      registry and session coordinator.

    The development embeds the Python sources under [backend/app] as Rocq
    functions.  Awaited calls into collaborators (the automation engine, the
    HTTP oracle, the file system, the channel transport) take their outcome
    from an explicit environment value; exceptions are values of [outcome];
    object fields are record fields threaded through the functions.

    Python [str] values are Rocq strings holding the UTF-8 encoding of the
    text; slicing counts code points. *)

From Stdlib Require Import List String Ascii ZArith Bool Arith Lia.
From Stdlib Require Import Permutation Sorted DecimalString.
Import ListNotations.
Open Scope string_scope.
Open Scope list_scope.
Open Scope nat_scope.

(* ================================================================= *)
(** ** Python values and exceptions *)

Module Py.

(** Exceptions the sources distinguish.  [CancelledError] derives from
    [BaseException] only, so [except Exception] does not catch it. *)
Inductive exn : Type :=
| JSONDecodeError (msg : string)
| HTTPStatusError (status_code : nat) (msg : string)
| PyException (cls : string) (msg : string)
| CancelledError.

Definition is_Exception (e : exn) : bool :=
  match e with
  | CancelledError => false
  | _ => true
  end.

Definition is_JSONDecodeError (e : exn) : bool :=
  match e with
  | JSONDecodeError _ => true
  | _ => false
  end.

(** [str(e)] *)
Definition str_exn (e : exn) : string :=
  match e with
  | JSONDecodeError m => m
  | HTTPStatusError _ m => m
  | PyException _ m => m
  | CancelledError => ""
  end.

(** The result of evaluating a Python expression or block. *)
Inductive outcome (A : Type) : Type :=
| Returns (a : A)
| Raises (e : exn).
Arguments Returns {A} a.
Arguments Raises {A} e.

Definition bind {A B : Type} (m : outcome A) (f : A -> outcome B) : outcome B :=
  match m with
  | Returns a => f a
  | Raises e => Raises e
  end.

Definition returned {A : Type} (m : outcome A) : bool :=
  match m with
  | Returns _ => true
  | Raises _ => false
  end.

(** JSON documents as [json.loads] builds them: [dict], [list], [str],
    [int], [float], [bool] and [None].  A float keeps its literal. *)
#[warnings="-register-all"]
Inductive json : Type :=
| JNull
| JBool (b : bool)
| JInt (n : Z)
| JFloat (lit : string)
| JStr (s : string)
| JArr (items : list json)
| JObj (fields : list (string * json)).

Definition is_dict (v : json) : bool :=
  match v with
  | JObj _ => true
  | _ => false
  end.

Definition type_name (v : json) : string :=
  match v with
  | JNull => "NoneType"
  | JBool _ => "bool"
  | JInt _ => "int"
  | JFloat _ => "float"
  | JStr _ => "str"
  | JArr _ => "list"
  | JObj _ => "dict"
  end.

Fixpoint dict_lookup (k : string) (d : list (string * json)) : option json :=
  match d with
  | [] => None
  | (k', v) :: d' => if String.eqb k k' then Some v else dict_lookup k d'
  end.

(** [d[k] = v] on an insertion-ordered dict. *)
Fixpoint dict_set (k : string) (v : json) (d : list (string * json))
  : list (string * json) :=
  match d with
  | [] => [(k, v)]
  | (k', v') :: d' =>
      if String.eqb k k' then (k', v) :: d' else (k', v') :: dict_set k v d'
  end.

Definition AttributeError (v : json) (attr : string) : exn :=
  PyException "AttributeError"
    ("'" ++ type_name v ++ "' object has no attribute '" ++ attr ++ "'")%string.

(** [v.get(key, default)] *)
Definition get (v : json) (key : string) (default : json) : outcome json :=
  match v with
  | JObj d =>
      match dict_lookup key d with
      | Some x => Returns x
      | None => Returns default
      end
  | _ => Raises (AttributeError v "get")
  end.

(** A byte that continues a UTF-8 sequence does not start a code point. *)
Definition is_continuation (c : ascii) : bool :=
  let n := nat_of_ascii c in (128 <=? n) && (n <? 192).

(** Number of code points of a [str]. *)
Fixpoint str_len (s : string) : nat :=
  match s with
  | String c r => if is_continuation c then str_len r else S (str_len r)
  | EmptyString => 0
  end.

Fixpoint drop_continuation (s : string) : string :=
  match s with
  | String c r => if is_continuation c then String c (drop_continuation r) else ""
  | EmptyString => ""
  end.

(** [len(v)] *)
Definition len (v : json) : outcome nat :=
  match v with
  | JStr s => Returns (str_len s)
  | JArr l => Returns (List.length l)
  | JObj d => Returns (List.length d)
  | _ => Raises (PyException "TypeError"
                   ("object of type '" ++ type_name v ++ "' has no len()")%string)
  end.

Definition digit (c : ascii) : option Z :=
  let n := nat_of_ascii c in
  if (48 <=? n) && (n <=? 57) then Some (Z.of_nat (n - 48)) else None.

(** The digits of a float literal up to its exponent mark: the whole number
    they spell, and how many of them follow the point. *)
Fixpoint mantissa (s : string) (m : Z) (after_point : bool) (places : Z)
  : Z * Z * string :=
  match s with
  | String c r =>
      match digit c with
      | Some d =>
          mantissa r (m * 10 + d)%Z after_point
                   (if after_point then places + 1 else places)%Z
      | None =>
          if Ascii.eqb c "." then mantissa r m true places else (m, places, s)
      end
  | EmptyString => (m, places, s)
  end.

Fixpoint whole (s : string) (acc : Z) : Z :=
  match s with
  | String c r =>
      match digit c with
      | Some d => whole r (acc * 10 + d)%Z
      | None => acc
      end
  | EmptyString => acc
  end.

(** The exponent part of a float literal, [0] when there is none. *)
Definition exponent (s : string) : Z :=
  match s with
  | String _ (String "-" r) => (- whole r 0)%Z
  | String _ (String "+" r) => whole r 0
  | String _ r => whole r 0
  | EmptyString => 0%Z
  end.

(** [float(lit) == 0.0] for a literal of the JSON grammar: its digits are
    all zeros, or its value is at most [2 ** -1075], which rounds to zero.
    [NaN] and the infinities are not zero. *)
Definition float_is_zero (lit : string) : bool :=
  let body := match lit with
              | String "-" r => r
              | _ => lit
              end in
  match body with
  | String c _ =>
      match digit c with
      | Some _ =>
          let '(m, places, rest) := mantissa body 0 false 0 in
          let e := (exponent rest - places)%Z in
          (m =? 0)%Z || ((e <? 0)%Z && (m * 2 ^ 1075 <=? 10 ^ (- e))%Z)
      | None => false
      end
  | EmptyString => false
  end.

(** Truth value of [v] in a condition. *)
Definition truthy (v : json) : bool :=
  match v with
  | JNull => false
  | JBool b => b
  | JInt n => negb (Z.eqb n 0)
  | JFloat lit => negb (float_is_zero lit)
  | JStr s => negb (String.eqb s "")
  | JArr l => match l with [] => false | _ => true end
  | JObj d => match d with [] => false | _ => true end
  end.

(** [v[0]] *)
Definition item0 (v : json) : outcome json :=
  match v with
  | JArr (x :: _) => Returns x
  | JArr [] => Raises (PyException "IndexError" "list index out of range")
  | JStr (String c r) => Returns (JStr (String c (drop_continuation r)))
  | JStr EmptyString => Raises (PyException "IndexError" "string index out of range")
  | JObj _ => Raises (PyException "KeyError" "0")
  | _ => Raises (PyException "TypeError"
                   ("'" ++ type_name v ++ "' object is not subscriptable")%string)
  end.

(** Decimal rendering of a number inside an f-string. *)
Definition str_nat (n : nat) : string := NilEmpty.string_of_uint (Nat.to_uint n).

(** The limits of the interpreter that [json.loads] can run into: the
    longest digit string [int] converts ([sys.get_int_max_str_digits()],
    [0] when there is no limit), and the nested calls the scanner may
    still enter before the recursion limit is reached. *)
Record interpreter : Type := {
  int_max_str_digits : nat;
  recursion_left : nat
}.

(** [s[:n]]: the first [n] code points of [s]. *)
Fixpoint slice_to (n : nat) (s : string) : string :=
  match n, s with
  | O, _ => ""
  | S _, EmptyString => ""
  | S n', String c r =>
      if is_continuation c then String c (slice_to n r)
      else match n' with
           | O => String c (drop_continuation r)
           | S _ => String c (slice_to n' r)
           end
  end.

(** [max(xs, key=key)]: keys are computed in order; a later element
    replaces the current one only when its key is strictly greater. *)
Fixpoint max_from {A : Type} (key : A -> outcome Z) (best : A) (kbest : Z)
         (xs : list A) : outcome A :=
  match xs with
  | [] => Returns best
  | x :: rest =>
      bind (key x) (fun k =>
        if (kbest <? k)%Z then max_from key x k rest
        else max_from key best kbest rest)
  end.

Definition max_by {A : Type} (key : A -> outcome Z) (xs : list A) : outcome A :=
  match xs with
  | [] => Raises (PyException "ValueError" "max() arg is an empty sequence")
  | x :: rest => bind (key x) (fun k => max_from key x k rest)
  end.

(** Keys of all elements, left to right. *)
Fixpoint keyed {A : Type} (key : A -> outcome Z) (xs : list A)
  : outcome (list (Z * A)) :=
  match xs with
  | [] => Returns []
  | x :: rest =>
      bind (key x) (fun k =>
        bind (keyed key rest) (fun ks => Returns ((k, x) :: ks)))
  end.

(** Insertion that keeps an element before the elements it does not exceed. *)
Fixpoint insert_keyed {A : Type} (kx : Z * A) (l : list (Z * A)) : list (Z * A) :=
  match l with
  | [] => [kx]
  | ky :: l' =>
      if (fst kx <=? fst ky)%Z then kx :: ky :: l' else ky :: insert_keyed kx l'
  end.

(** [xs.sort(key=key)]: ascending and stable. *)
Definition sort_by {A : Type} (key : A -> outcome Z) (xs : list A)
  : outcome (list A) :=
  bind (keyed key xs) (fun ks =>
    Returns (map snd (fold_right insert_keyed [] ks))).

End Py.

(* ================================================================= *)
(** ** Blocks of statements over a mutable object *)

(** A block of a method acts on the object [S] it runs against: it leaves
    an outcome and the object as the block leaves it.  Assignments made
    before an exception is raised stay. *)
Module Block.
Import Py.

Definition M (S A : Type) : Type := S -> outcome A * S.

Section Combinators.
Context {S : Type}.

Definition ret {A : Type} (a : A) : M S A := fun s => (Returns a, s).
Definition raise {A : Type} (e : exn) : M S A := fun s => (Raises e, s).
Definition lift {A : Type} (o : outcome A) : M S A := fun s => (o, s).
Definition update (f : S -> S) : M S unit := fun s => (Returns tt, f s).
Definition read {A : Type} (f : S -> A) : M S A := fun s => (Returns (f s), s).

Definition bindM {A B : Type} (m : M S A) (f : A -> M S B) : M S B :=
  fun s =>
    match m s with
    | (Returns a, s') => f a s'
    | (Raises e, s') => (Raises e, s')
    end.

(** [try: body except Exception as e: handler e] *)
Definition try_except_Exception {A : Type} (body : M S A)
           (handler : exn -> M S A) : M S A :=
  fun s =>
    match body s with
    | (Returns a, s') => (Returns a, s')
    | (Raises e, s') => if is_Exception e then handler e s' else (Raises e, s')
    end.

(** [try: body finally: final]: [final] runs on every exit of [body]; an
    exception leaving [final] replaces the outcome of [body]. *)
Definition try_finally {A : Type} (body : M S A) (final : M S unit) : M S A :=
  fun s =>
    match body s with
    | (r, s') =>
        match final s' with
        | (Returns _, s'') => (r, s'')
        | (Raises e, s'') => (Raises e, s'')
        end
    end.

(** [for x in xs: body x] *)
Fixpoint for_each {A : Type} (xs : list A) (body : A -> M S unit) : M S unit :=
  match xs with
  | [] => ret tt
  | x :: xs' => bindM (body x) (fun _ => for_each xs' body)
  end.
End Combinators.

Declare Scope block_scope.
Delimit Scope block_scope with block.
Notation "x <- m ;; k" := (bindM m (fun x => k))
  (at level 61, m at next level, right associativity) : block_scope.
Notation "m ;;; k" := (bindM m (fun _ => k))
  (at level 61, right associativity) : block_scope.

End Block.

(* ================================================================= *)
(** ** The [re] module: backtracking search for the patterns in use *)

Module Re.

(** The constructs the patterns of [anthropic_processor.py] are built from.
    Alternatives are tried in the order of the backtracking matcher: a greedy
    operator tries the longer match first, a lazy one the shorter. *)
Inductive regex : Type :=
| Lit (s : string)              (* literal characters *)
| StarG (cls : ascii -> bool)   (* [cls*], [cls] a class of single bytes *)
| StarL (cls : ascii -> bool)   (* [cls*?] *)
| Spaces                        (* [\s*] *)
| OptG (r : regex)              (* [(?:r)?] *)
| Cat (r1 r2 : regex)
| Grp (r : regex).              (* capturing group 1 *)

(** [.] under [re.DOTALL] *)
Definition dot (_ : ascii) : bool := true.

(** [\s] on a [str] matches the code points [str.isspace] accepts.  Those
    of one byte: U+0009..U+000D, U+001C..U+0020. *)
Definition space1 (a : ascii) : bool :=
  let n := nat_of_ascii a in
  ((9 <=? n) && (n <=? 13)) || ((28 <=? n) && (n <=? 32)).

(** Those of two bytes: U+0085 and U+00A0. *)
Definition space2 (a b : ascii) : bool :=
  (nat_of_ascii a =? 194)
  && ((nat_of_ascii b =? 133) || (nat_of_ascii b =? 160)).

(** Those of three bytes: U+1680, U+2000..U+200A, U+2028, U+2029, U+202F,
    U+205F and U+3000. *)
Definition space3 (a b c : ascii) : bool :=
  let x := nat_of_ascii a in
  let y := nat_of_ascii b in
  let z := nat_of_ascii c in
  ((x =? 225) && (y =? 154) && (z =? 128))
  || ((x =? 226) && (y =? 128)
      && (((128 <=? z) && (z <=? 138)) || (z =? 168) || (z =? 169) || (z =? 175)))
  || ((x =? 226) && (y =? 129) && (z =? 159))
  || ((x =? 227) && (y =? 128) && (z =? 128)).

(** [[^{}]] *)
Definition not_brace (c : ascii) : bool :=
  negb (Ascii.eqb c "{" || Ascii.eqb c "}").

Fixpoint strip_prefix (p s : string) : option string :=
  match p, s with
  | EmptyString, _ => Some s
  | String a p', String b s' => if Ascii.eqb a b then strip_prefix p' s' else None
  | String _ _, EmptyString => None
  end.

(** The text between two suffixes of one string. *)
Definition consumed (from to : string) : string :=
  String.substring 0 (String.length from - String.length to) from.

Section Matcher.
Context {R : Type}.

(** Continuations receive the rest of the input and the text of group 1. *)
Definition cont : Type := string -> option string -> option R.

Fixpoint star_greedy (cls : ascii -> bool) (s : string) (g : option string)
         (k : cont) : option R :=
  match s with
  | String c s' =>
      if cls c then
        match star_greedy cls s' g k with
        | Some r => Some r
        | None => k s g
        end
      else k s g
  | EmptyString => k s g
  end.

Fixpoint star_lazy (cls : ascii -> bool) (s : string) (g : option string)
         (k : cont) : option R :=
  match k s g with
  | Some r => Some r
  | None =>
      match s with
      | String c s' => if cls c then star_lazy cls s' g k else None
      | EmptyString => None
      end
  end.

(** [\s*]: as many whitespace code points as the rest of the pattern
    allows, the longest run tried first. *)
Fixpoint spaces_greedy (s : string) (g : option string) (k : cont) : option R :=
  match s with
  | String a s1 =>
      if space1 a then
        match spaces_greedy s1 g k with
        | Some r => Some r
        | None => k s g
        end
      else
        match s1 with
        | String b s2 =>
            if space2 a b then
              match spaces_greedy s2 g k with
              | Some r => Some r
              | None => k s g
              end
            else
              match s2 with
              | String c s3 =>
                  if space3 a b c then
                    match spaces_greedy s3 g k with
                    | Some r => Some r
                    | None => k s g
                    end
                  else k s g
              | EmptyString => k s g
              end
        | EmptyString => k s g
        end
  | EmptyString => k s g
  end.

Fixpoint run (r : regex) (s : string) (g : option string) (k : cont)
  : option R :=
  match r with
  | Lit l =>
      match strip_prefix l s with
      | Some s' => k s' g
      | None => None
      end
  | StarG cls => star_greedy cls s g k
  | StarL cls => star_lazy cls s g k
  | Spaces => spaces_greedy s g k
  | OptG r1 =>
      match run r1 s g k with
      | Some x => Some x
      | None => k s g
      end
  | Cat r1 r2 => run r1 s g (fun s' g' => run r2 s' g' k)
  | Grp r1 => run r1 s g (fun s' _ => k s' (Some (consumed s s')))
  end.
End Matcher.

(** A match object: [group(0)] and [group(1)]. *)
Record Match : Type := { group0 : string; group1 : option string }.

Definition match_at (r : regex) (s : string) : option Match :=
  run r s None (fun s' g => Some {| group0 := consumed s s'; group1 := g |}).

(** [re.search(r, s, re.DOTALL)]: the match at the leftmost position that
    has one. *)
Fixpoint search (r : regex) (s : string) : option Match :=
  match match_at r s with
  | Some m => Some m
  | None =>
      match s with
      | String _ s' => search r s'
      | EmptyString => None
      end
  end.

End Re.

(* ================================================================= *)
(** ** The [json] module: [json.loads] *)

Module Json.
Import Py.

Definition dquote : ascii := "034"%char.
Definition backslash : ascii := "092"%char.
Definition newline : ascii := "010"%char.

(** Result of a scanning function: the value, the input left and the index
    reached; the message and index of a [JSONDecodeError]; or the class and
    message of another exception raised while scanning. *)
Inductive scan (A : Type) : Type :=
| Scanned (v : A) (rest : string) (idx : nat)
| Stop (msg : string) (idx : nat)
| Fails (cls msg : string).
Arguments Scanned {A} v rest idx.
Arguments Stop {A} msg idx.
Arguments Fails {A} cls msg.

Definition is_whitespace (c : ascii) : bool :=
  Ascii.eqb c " " || Ascii.eqb c "009" || Ascii.eqb c newline || Ascii.eqb c "013".

Fixpoint skip_whitespace (s : string) (idx : nat) : string * nat :=
  match s with
  | String c r => if is_whitespace c then skip_whitespace r (S idx) else (s, idx)
  | EmptyString => (s, idx)
  end.

Definition is_digit (c : ascii) : bool :=
  let n := nat_of_ascii c in (48 <=? n) && (n <=? 57).

Definition hex_digit (c : ascii) : option N :=
  let n := N_of_ascii c in
  (if (48 <=? n) && (n <=? 57) then Some (n - 48)
   else if (65 <=? n) && (n <=? 70) then Some (n - 55)
   else if (97 <=? n) && (n <=? 102) then Some (n - 87)
   else None)%N.

Definition hex4 (s : string) : option (N * string) :=
  match s with
  | String a (String b (String c (String d r))) =>
      match hex_digit a, hex_digit b, hex_digit c, hex_digit d with
      | Some x, Some y, Some z, Some w =>
          Some ((((x * 16 + y) * 16 + z) * 16 + w)%N, r)
      | _, _, _, _ => None
      end
  | _ => None
  end.

Definition byte (n : N) : string := String (ascii_of_N n) "".

(** UTF-8 encoding of one code point. *)
Definition utf8 (cp : N) : string :=
  if (cp <? 128)%N then byte cp
  else if (cp <? 2048)%N then
    (byte (192 + cp / 64) ++ byte (128 + cp mod 64))%string
  else if (cp <? 65536)%N then
    (byte (224 + cp / 4096) ++ byte (128 + (cp / 64) mod 64)
       ++ byte (128 + cp mod 64))%string
  else
    (byte (240 + cp / 262144) ++ byte (128 + (cp / 4096) mod 64)
       ++ byte (128 + (cp / 64) mod 64) ++ byte (128 + cp mod 64))%string.

Definition is_high_surrogate (cp : N) : bool :=
  ((55296 <=? cp) && (cp <=? 56319))%N.
Definition is_low_surrogate (cp : N) : bool :=
  ((56320 <=? cp) && (cp <=? 57343))%N.
Definition join_surrogates (hi lo : N) : N :=
  (65536 + (hi - 55296) * 1024 + (lo - 56320))%N.

Definition unescape (c : ascii) : option string :=
  if Ascii.eqb c dquote then Some (String dquote "")
  else if Ascii.eqb c backslash then Some (String backslash "")
  else if Ascii.eqb c "/" then Some "/"
  else if Ascii.eqb c "b" then Some (byte 8)
  else if Ascii.eqb c "f" then Some (byte 12)
  else if Ascii.eqb c "n" then Some (byte 10)
  else if Ascii.eqb c "r" then Some (byte 13)
  else if Ascii.eqb c "t" then Some (byte 9)
  else None.

(** The body of a string literal, after its opening quote at [start].  An
    escape [\uXXXX] has to be followed by a character, and a second one is
    read as the low half of a pair only when a character follows it. *)
Fixpoint scanstring (fuel : nat) (s : string) (idx start : nat) (acc : string)
  : scan string :=
  match fuel with
  | O => Stop "Unterminated string starting at" start
  | S fuel' =>
      match s with
      | EmptyString => Stop "Unterminated string starting at" start
      | String c r =>
          if Ascii.eqb c dquote then Scanned acc r (idx + 1)
          else if Ascii.eqb c backslash then
            match r with
            | EmptyString => Stop "Unterminated string starting at" start
            | String e r' =>
                if Ascii.eqb e "u" then
                  match hex4 r' with
                  | None => Stop "Invalid \uXXXX escape" (idx + 1)
                  | Some (cp, EmptyString) => Stop "Invalid \uXXXX escape" (idx + 1)
                  | Some (cp, r2) =>
                      let alone :=
                        scanstring fuel' r2 (idx + 6) start (acc ++ utf8 cp)%string in
                      if is_high_surrogate cp && (7 <=? String.length r2) then
                        match r2 with
                        | String b1 (String b2 r3) =>
                            if Ascii.eqb b1 backslash && Ascii.eqb b2 "u" then
                              match hex4 r3 with
                              | None => Stop "Invalid \uXXXX escape" (idx + 7)
                              | Some (lo, r4) =>
                                  if is_low_surrogate lo then
                                    scanstring fuel' r4 (idx + 12) start
                                      (acc ++ utf8 (join_surrogates cp lo))%string
                                  else alone
                              end
                            else alone
                        | _ => alone
                        end
                      else alone
                  end
                else
                  match unescape e with
                  | Some ch => scanstring fuel' r' (idx + 2) start (acc ++ ch)%string
                  | None => Stop "Invalid \escape" idx
                  end
            end
          else if nat_of_ascii c <=? 31 then Stop "Invalid control character at" idx
          else scanstring fuel' r (idx + 1) start (acc ++ String c "")%string
      end
  end.

Fixpoint take_digits (s : string) : string * string :=
  match s with
  | String c r =>
      if is_digit c then let (d, r') := take_digits r in (String c d, r') else ("", s)
  | EmptyString => ("", s)
  end.

Fixpoint Z_of_digits (acc : Z) (s : string) : Z :=
  match s with
  | String c r => Z_of_digits (acc * 10 + Z.of_nat (nat_of_ascii c - 48))%Z r
  | EmptyString => acc
  end.

Definition consumed_length (from to : string) : nat :=
  String.length from - String.length to.

(** [int] refuses a digit string longer than the limit of the interpreter,
    when there is a limit and the string has more than 640 digits. *)
Definition int_too_long (py : interpreter) (ds : string) : bool :=
  (640 <? String.length ds) && (0 <? int_max_str_digits py)
  && (int_max_str_digits py <? String.length ds).

Definition int_error (py : interpreter) (ds : string) : string :=
  ("Exceeds the limit (" ++ str_nat (int_max_str_digits py)
     ++ " digits) for integer string conversion: value has "
     ++ str_nat (String.length ds)
     ++ " digits; use sys.set_int_max_str_digits() to increase the limit")%string.

(** A number literal at the head of [s]: sign, integer part, then fraction
    and exponent when complete. *)
Definition match_number (py : interpreter) (s : string) (idx : nat) : scan json :=
  let (neg, s1) :=
    match s with
    | String "-" r => (true, r)
    | _ => (false, s)
    end in
  let int_part :=
    match s1 with
    | String c r =>
        if Ascii.eqb c "0" then Some ("0", r)
        else if is_digit c then let (d, r') := take_digits r in Some (String c d, r')
        else None
    | EmptyString => None
    end in
  match int_part with
  | None => Stop "Expecting value" idx
  | Some (ds, s2) =>
      let (frac, s3) :=
        match s2 with
        | String "." r =>
            match take_digits r with
            | (EmptyString, _) => ("", s2)
            | (fd, r') => (String "." fd, r')
            end
        | _ => ("", s2)
        end in
      let (exp, s4) :=
        match s3 with
        | String e r =>
            if Ascii.eqb e "e" || Ascii.eqb e "E" then
              let (sign, r1) :=
                match r with
                | String g r0 =>
                    if Ascii.eqb g "-" || Ascii.eqb g "+" then (String g "", r0)
                    else ("", r)
                | EmptyString => ("", r)
                end in
              match take_digits r1 with
              | (EmptyString, _) => ("", s3)
              | (ed, r') => (String e (sign ++ ed), r')
              end
            else ("", s3)
        | EmptyString => ("", s3)
        end in
      let is_float := negb (String.eqb frac "" && String.eqb exp "") in
      if is_float then
        Scanned (JFloat ((if neg then "-" else "") ++ ds ++ frac ++ exp)%string)
                s4 (idx + consumed_length s s4)
      else if int_too_long py ds then Fails "ValueError" (int_error py ds)
      else
        Scanned (JInt (if neg then - Z_of_digits 0 ds else Z_of_digits 0 ds)%Z)
                s4 (idx + consumed_length s s4)
  end.

(** The error of a container nested deeper than the interpreter allows. *)
Definition too_deep (container : string) : scan json :=
  Fails "RecursionError"
        ("maximum recursion depth exceeded while decoding a JSON " ++ container
           ++ " from a unicode string").

(** [depth] counts the containers the scanner may still enter. *)
Fixpoint scan_once (py : interpreter) (fuel depth : nat) (s : string) (idx : nat)
  : scan json :=
  match fuel with
  | O => Stop "Expecting value" idx
  | S fuel' =>
      match s with
      | EmptyString => Stop "Expecting value" idx
      | String c r =>
          if Ascii.eqb c dquote then
            match scanstring (S (String.length r)) r (idx + 1) idx "" with
            | Scanned v r' i => Scanned (JStr v) r' i
            | Stop m i => Stop m i
            | Fails cls m => Fails cls m
            end
          else if Ascii.eqb c "{" then
            match depth with
            | O => too_deep "object"
            | S depth' =>
                let (r1, i1) := skip_whitespace r (idx + 1) in
                match r1 with
                | String "}" r2 => Scanned (JObj []) r2 (i1 + 1)
                | _ => parse_object py fuel' depth' r1 i1 []
                end
            end
          else if Ascii.eqb c "[" then
            match depth with
            | O => too_deep "array"
            | S depth' =>
                let (r1, i1) := skip_whitespace r (idx + 1) in
                match r1 with
                | String "]" r2 => Scanned (JArr []) r2 (i1 + 1)
                | _ => parse_array py fuel' depth' r1 i1 []
                end
            end
          else
            match Re.strip_prefix "null" s, Re.strip_prefix "true" s,
                  Re.strip_prefix "false" s, Re.strip_prefix "NaN" s,
                  Re.strip_prefix "Infinity" s, Re.strip_prefix "-Infinity" s with
            | Some r', _, _, _, _, _ => Scanned JNull r' (idx + 4)
            | _, Some r', _, _, _, _ => Scanned (JBool true) r' (idx + 4)
            | _, _, Some r', _, _, _ => Scanned (JBool false) r' (idx + 5)
            | _, _, _, Some r', _, _ => Scanned (JFloat "NaN") r' (idx + 3)
            | _, _, _, _, Some r', _ => Scanned (JFloat "Infinity") r' (idx + 8)
            | _, _, _, _, _, Some r' => Scanned (JFloat "-Infinity") r' (idx + 9)
            | None, None, None, None, None, None =>
                match_number py s idx
            end
      end
  end

with parse_object (py : interpreter) (fuel depth : nat) (s : string) (idx : nat)
                  (pairs : list (string * json)) : scan json :=
  match fuel with
  | O => Stop "Expecting value" idx
  | S fuel' =>
      match s with
      | String c r =>
          if Ascii.eqb c dquote then
            match scanstring (S (String.length r)) r (idx + 1) idx "" with
            | Stop m i => Stop m i
            | Fails cls m => Fails cls m
            | Scanned key r1 i1 =>
                let (r2, i2) := skip_whitespace r1 i1 in
                match r2 with
                | String ":" r3 =>
                    let (r4, i4) := skip_whitespace r3 (i2 + 1) in
                    match scan_once py fuel' depth r4 i4 with
                    | Stop m i => Stop m i
                    | Fails cls m => Fails cls m
                    | Scanned v r5 i5 =>
                        let pairs' := dict_set key v pairs in
                        let (r6, i6) := skip_whitespace r5 i5 in
                        match r6 with
                        | String "}" r7 => Scanned (JObj pairs') r7 (i6 + 1)
                        | String "," r7 =>
                            let (r8, i8) := skip_whitespace r7 (i6 + 1) in
                            parse_object py fuel' depth r8 i8 pairs'
                        | _ => Stop "Expecting ',' delimiter" i6
                        end
                    end
                | _ => Stop "Expecting ':' delimiter" i2
                end
            end
          else Stop "Expecting property name enclosed in double quotes" idx
      | EmptyString => Stop "Expecting property name enclosed in double quotes" idx
      end
  end

with parse_array (py : interpreter) (fuel depth : nat) (s : string) (idx : nat)
                 (values : list json) : scan json :=
  match fuel with
  | O => Stop "Expecting value" idx
  | S fuel' =>
      match scan_once py fuel' depth s idx with
      | Stop m i => Stop m i
      | Fails cls m => Fails cls m
      | Scanned v r1 i1 =>
          let values' := values ++ [v] in
          let (r2, i2) := skip_whitespace r1 i1 in
          match r2 with
          | String "]" r3 => Scanned (JArr values') r3 (i2 + 1)
          | String "," r3 =>
              let (r4, i4) := skip_whitespace r3 (i2 + 1) in
              parse_array py fuel' depth r4 i4 values'
          | _ => Stop "Expecting ',' delimiter" i2
          end
      end
  end.

(** Line, column and character index of byte [idx] of [doc], as
    [JSONDecodeError] reports them. *)
Fixpoint locate (doc : string) (idx : nat) (line col char : nat) : nat * nat * nat :=
  match idx, doc with
  | S idx', String c r =>
      if is_continuation c then locate r idx' line col char
      else if Ascii.eqb c newline then locate r idx' (S line) 1 (S char)
      else locate r idx' line (S col) (S char)
  | _, _ => (line, col, char)
  end.

Definition errmsg (msg doc : string) (idx : nat) : string :=
  let '(line, col, char) := locate doc idx 1 1 0 in
  (msg ++ ": line " ++ str_nat line ++ " column " ++ str_nat col
       ++ " (char " ++ str_nat char ++ ")")%string.

Definition BOM : string := (byte 239 ++ byte 187 ++ byte 191)%string.

(** [json.loads(s)] for a [str]. *)
Definition loads_str (py : interpreter) (s : string) : outcome json :=
  match Re.strip_prefix BOM s with
  | Some _ =>
      Raises (JSONDecodeError
                (errmsg "Unexpected UTF-8 BOM (decode using utf-8-sig)" s 0))
  | None =>
      let (s1, i1) := skip_whitespace s 0 in
      match scan_once py (S (String.length s)) (recursion_left py) s1 i1 with
      | Stop m i => Raises (JSONDecodeError (errmsg m s i))
      | Fails cls m => Raises (PyException cls m)
      | Scanned v r i =>
          let (r', i') := skip_whitespace r i in
          match r' with
          | EmptyString => Returns v
          | String _ _ => Raises (JSONDecodeError (errmsg "Extra data" s i'))
          end
      end
  end.

(** [json.loads(v)] for any value [v]. *)
Definition loads (py : interpreter) (v : json) : outcome json :=
  match v with
  | JStr s => loads_str py s
  | _ => Raises (PyException "TypeError"
                   ("the JSON object must be str, bytes or bytearray, not "
                      ++ type_name v)%string)
  end.

End Json.

(* ================================================================= *)
(** ** [api/anthropic_processor.py] *)

Module AnthropicProcessor.
Import Py.

(** The instruction texts; only their identity matters to the request. *)
Inductive prompt : Type :=
| EXTRACTION_PROMPT
| CONTINGENCY_EXTRACTION_PROMPT
| CONTINGENCY_MULTI_EXTRACTION_PROMPT
| GRID_EXTRACTION_PROMPT.

(** One image block of the request content. *)
Record image_block : Type := { media_type : string; data : string }.

(** The request handed to [client.post]. *)
Record request : Type := {
  req_timeout : N;
  req_api_key : string;
  req_max_tokens : N;
  req_images : list image_block;
  req_text : prompt
}.

(** What [httpx] makes of a body when asked for [response.json()]: the
    decoded document, or the exception of a body that is not one
    ([JSONDecodeError], [UnicodeDecodeError]), by class and message. *)
Inductive body : Type :=
| Document (v : json)
| Undecodable (cls msg : string).

(** The response of the oracle: its status code, its body, and the message
    [httpx] attaches to the error it raises for a failure status. *)
Record response : Type := {
  status_code : nat;
  content : body;
  status_message : string
}.

(** [client.post]: a response, or the exception of a transport failure. *)
Definition oracle : Type := request -> outcome response.

(** [response.raise_for_status()] *)
Definition raise_for_status (r : response) : outcome unit :=
  if (200 <=? status_code r) && (status_code r <? 300) then Returns tt
  else Raises (HTTPStatusError (status_code r) (status_message r)).

(** [response.json()] *)
Definition response_json (r : response) : outcome json :=
  match content r with
  | Document v => Returns v
  | Undecodable cls msg =>
      if String.eqb cls "JSONDecodeError" then Raises (JSONDecodeError msg)
      else Raises (PyException cls msg)
  end.

(** [s.startswith(p)] *)
Definition startswith (p s : string) : bool :=
  match Re.strip_prefix p s with
  | Some _ => true
  | None => false
  end.

(** [p in s] *)
Fixpoint contains (p s : string) : bool :=
  startswith p s ||
  match s with
  | String _ s' => contains p s'
  | EmptyString => false
  end.

(** [s.split(",", 1)]: the text before the first comma and the text after
    it, when there is a comma. *)
Fixpoint split_comma (s : string) : option (string * string) :=
  match s with
  | EmptyString => None
  | String c r =>
      if Ascii.eqb c "," then Some ("", r)
      else match split_comma r with
           | Some (a, b) => Some (String c a, b)
           | None => None
           end
  end.

(** Raw base64 or a data URL, as every extraction function unpacks it. *)
Definition image_of (screenshot_base64 : string) : image_block :=
  if startswith "data:" screenshot_base64 then
    match split_comma screenshot_base64 with
    | Some (head, tail) =>
        {| media_type := if contains "jpeg" head then "image/jpeg" else "image/png";
           data := tail |}
    | None => {| media_type := "image/png"; data := screenshot_base64 |}
    end
  else {| media_type := "image/png"; data := screenshot_base64 |}.

Definition quoted (s : string) : string :=
  (String Json.dquote s ++ String Json.dquote "")%string.

Definition cat (rs : list Re.regex) : Re.regex :=
  fold_right Re.Cat (Re.Lit "") rs.

(** [```(?:json)?\s*(\{.*?\})\s*```] *)
Definition code_block_re : Re.regex :=
  cat [Re.Lit "```"; Re.OptG (Re.Lit "json"); Re.Spaces;
       Re.Grp (cat [Re.Lit "{"; Re.StarL Re.dot; Re.Lit "}"]);
       Re.Spaces; Re.Lit "```"].

(** [\{[^{}]*"key"[^{}]*\[.*?\][^{}]*\}] *)
Definition flat_object_re (key : string) : Re.regex :=
  cat [Re.Lit "{"; Re.StarG Re.not_brace; Re.Lit (quoted key);
       Re.StarG Re.not_brace; Re.Lit "["; Re.StarL Re.dot; Re.Lit "]";
       Re.StarG Re.not_brace; Re.Lit "}"].

(** [\{.*"key".*\}] *)
Definition outer_object_re (key : string) : Re.regex :=
  cat [Re.Lit "{"; Re.StarG Re.dot; Re.Lit (quoted key); Re.StarG Re.dot;
       Re.Lit "}"].

(** [re.search(r, v, re.DOTALL)] *)
Definition re_search (r : Re.regex) (v : json) : outcome (option Re.Match) :=
  match v with
  | JStr s => Returns (Re.search r s)
  | _ => Raises (PyException "TypeError"
                   ("expected string or bytes-like object, got '"
                      ++ type_name v ++ "'")%string)
  end.

(** [m.group(1)] *)
Definition group1 (m : Re.Match) : json :=
  match Re.group1 m with
  | Some s => JStr s
  | None => JNull
  end.

(** [v[:n]] *)
Definition slice (n : nat) (v : json) : outcome json :=
  match v with
  | JStr s => Returns (JStr (slice_to n s))
  | JArr l => Returns (JArr (firstn n l))
  | _ => Raises (PyException "TypeError"
                   ("'" ++ type_name v ++ "' object is not subscriptable")%string)
  end.

Declare Scope py_scope.
Delimit Scope py_scope with py.
Notation "x <- m ;; k" := (bind m (fun x => k))
  (at level 61, m at next level, right associativity) : py_scope.
Notation "m ;;; k" := (bind m (fun _ => k))
  (at level 61, right associativity) : py_scope.
Open Scope py_scope.

(** [try: body] followed by [except] clauses, tried in order. *)
Definition try_except {A : Type} (body : outcome A)
           (clauses : list ((exn -> bool) * (exn -> outcome A))) : outcome A :=
  match body with
  | Returns a => Returns a
  | Raises e =>
      match find (fun c => fst c e) clauses with
      | Some c => snd c e
      | None => Raises e
      end
  end.

Definition is_HTTPStatusError (e : exn) : bool :=
  match e with
  | HTTPStatusError _ _ => true
  | _ => false
  end.

(** [e.response.status_code] *)
Definition response_status_code (e : exn) : nat :=
  match e with
  | HTTPStatusError c _ => c
  | _ => 0
  end.

(** [content and len(content) > 0] *)
Definition has_items (content : json) : outcome bool :=
  if truthy content then n <- len content ;; Returns (0 <? n)
  else Returns false.

Definition extract_bus_data (py : interpreter) (post : oracle)
           (screenshot_base64 api_key : string) : outcome json :=
  let payload :=
    {| req_timeout := 60%N; req_api_key := api_key; req_max_tokens := 4096%N;
       req_images := [image_of screenshot_base64];
       req_text := EXTRACTION_PROMPT |} in
  try_except
    (response <- post payload ;;
     raise_for_status response ;;;
     result <- response_json response ;;
     content <- get result "content" (JArr []) ;;
     nonempty <- has_items content ;;
     if nonempty then
       first <- item0 content ;;
       text_response <- get first "text" (JStr "") ;;
       try_except
         (bus_data <- Json.loads py text_response ;;
          buses <- get bus_data "buses" (JArr []) ;;
          len buses ;;;
          Returns bus_data)
         [(is_JSONDecodeError, fun _ =>
             json_match <- re_search code_block_re text_response ;;
             match json_match with
             | Some m =>
                 bus_data <- Json.loads py (group1 m) ;;
                 buses <- get bus_data "buses" (JArr []) ;;
                 len buses ;;;
                 Returns bus_data
             | None =>
                 json_match <- re_search (flat_object_re "buses") text_response ;;
                 match json_match with
                 | Some m => Json.loads py (JStr (Re.group0 m))
                 | None =>
                     raw <- slice 500 text_response ;;
                     Returns (JObj [("buses", JArr []);
                                    ("error", JStr "Could not parse response");
                                    ("raw_response", raw)])
                 end
             end)]
     else
       Returns (JObj [("buses", JArr []);
                      ("error", JStr "Empty response from Anthropic")]))
    [(is_HTTPStatusError, fun e =>
        Returns (JObj [("buses", JArr []);
                       ("error", JStr ("API error: "
                                         ++ str_nat (response_status_code e)))]));
     (is_Exception, fun e =>
        Returns (JObj [("buses", JArr []); ("error", JStr (str_exn e))]))].

Definition extract_contingency_data (py : interpreter) (post : oracle)
           (screenshot_base64 api_key : string) : outcome json :=
  let payload :=
    {| req_timeout := 60%N; req_api_key := api_key; req_max_tokens := 4096%N;
       req_images := [image_of screenshot_base64];
       req_text := CONTINGENCY_EXTRACTION_PROMPT |} in
  try_except
    (response <- post payload ;;
     raise_for_status response ;;;
     result <- response_json response ;;
     content <- get result "content" (JArr []) ;;
     nonempty <- has_items content ;;
     if nonempty then
       first <- item0 content ;;
       text_response <- get first "text" (JStr "") ;;
       try_except
         (contingency_data <- Json.loads py text_response ;;
          contingencies <- get contingency_data "contingencies" (JArr []) ;;
          len contingencies ;;;
          Returns contingency_data)
         [(is_JSONDecodeError, fun _ =>
             json_match <- re_search code_block_re text_response ;;
             match json_match with
             | Some m => Json.loads py (group1 m)
             | None =>
                 json_match <-
                   re_search (flat_object_re "contingencies") text_response ;;
                 match json_match with
                 | Some m => Json.loads py (JStr (Re.group0 m))
                 | None =>
                     raw <- slice 500 text_response ;;
                     Returns (JObj [("contingencies", JArr []);
                                    ("error", JStr "Could not parse response");
                                    ("raw_response", raw)])
                 end
             end)]
     else
       Returns (JObj [("contingencies", JArr []);
                      ("error", JStr "Empty response from Anthropic")]))
    [(is_HTTPStatusError, fun e =>
        Returns (JObj [("contingencies", JArr []);
                       ("error", JStr ("API error: "
                                         ++ str_nat (response_status_code e)))]));
     (is_Exception, fun e =>
        Returns (JObj [("contingencies", JArr []); ("error", JStr (str_exn e))]))].

Definition extract_contingency_data_multi (py : interpreter) (post : oracle)
           (screenshots : list string) (api_key : string) : outcome json :=
  let payload :=
    {| req_timeout := 120%N; req_api_key := api_key; req_max_tokens := 8192%N;
       req_images := map image_of screenshots;
       req_text := CONTINGENCY_MULTI_EXTRACTION_PROMPT |} in
  try_except
    (response <- post payload ;;
     raise_for_status response ;;;
     result <- response_json response ;;
     content <- get result "content" (JArr []) ;;
     nonempty <- has_items content ;;
     if nonempty then
       first <- item0 content ;;
       text_response <- get first "text" (JStr "") ;;
       try_except
         (contingency_data <- Json.loads py text_response ;;
          contingencies <- get contingency_data "contingencies" (JArr []) ;;
          len contingencies ;;;
          Returns contingency_data)
         [(is_JSONDecodeError, fun _ =>
             json_match <- re_search code_block_re text_response ;;
             match json_match with
             | Some m => Json.loads py (group1 m)
             | None =>
                 json_match <-
                   re_search (outer_object_re "contingencies") text_response ;;
                 match json_match with
                 | Some m => Json.loads py (JStr (Re.group0 m))
                 | None =>
                     raw <- slice 500 text_response ;;
                     Returns (JObj [("contingencies", JArr []);
                                    ("error", JStr "Could not parse response");
                                    ("raw_response", raw)])
                 end
             end)]
     else
       Returns (JObj [("contingencies", JArr []);
                      ("error", JStr "Empty response from Anthropic")]))
    [(is_HTTPStatusError, fun e =>
        Returns (JObj [("contingencies", JArr []);
                       ("error", JStr ("API error: "
                                         ++ str_nat (response_status_code e)))]));
     (is_Exception, fun e =>
        Returns (JObj [("contingencies", JArr []); ("error", JStr (str_exn e))]))].

Definition extract_grid_data (py : interpreter) (post : oracle)
           (screenshot_base64 api_key : string) : outcome json :=
  let payload :=
    {| req_timeout := 60%N; req_api_key := api_key; req_max_tokens := 4096%N;
       req_images := [image_of screenshot_base64];
       req_text := GRID_EXTRACTION_PROMPT |} in
  try_except
    (response <- post payload ;;
     raise_for_status response ;;;
     result <- response_json response ;;
     content <- get result "content" (JArr []) ;;
     nonempty <- has_items content ;;
     if nonempty then
       first <- item0 content ;;
       text_response <- get first "text" (JStr "") ;;
       try_except
         (Json.loads py text_response)
         [(is_JSONDecodeError, fun _ =>
             json_match <- re_search code_block_re text_response ;;
             match json_match with
             | Some m => Json.loads py (group1 m)
             | None =>
                 json_match <- re_search (outer_object_re "grid") text_response ;;
                 match json_match with
                 | Some m => Json.loads py (JStr (Re.group0 m))
                 | None =>
                     raw <- slice 500 text_response ;;
                     Returns (JObj [("grid", JObj []);
                                    ("error", JStr "Could not parse response");
                                    ("raw_response", raw)])
                 end
             end)]
     else
       Returns (JObj [("grid", JObj []);
                      ("error", JStr "Empty response from Anthropic")]))
    [(is_HTTPStatusError, fun e =>
        Returns (JObj [("grid", JObj []);
                       ("error", JStr ("API error: "
                                         ++ str_nat (response_status_code e)))]));
     (is_Exception, fun e =>
        Returns (JObj [("grid", JObj []); ("error", JStr (str_exn e))]))].

End AnthropicProcessor.

(* ================================================================= *)
(** ** [api/bus_service.py] and [api/contingency_service.py] *)

(** Both files declare the same two dataclasses. *)
Module LogEntry.
Record t : Type := { timestamp : Z; message : string; level : string }.
End LogEntry.

Module APIResult.
Record t : Type := {
  status : string;
  data : option Py.json;
  error : option string;
  logs : list LogEntry.t;
  final_screenshot : option string
}.
End APIResult.

(** [config.py] *)
Module Settings.
Record t : Type := {
  anthropic_api_key : string;
  cua_api_key : string;
  cua_sandbox_name : string;
  target_url : string
}.
End Settings.

(** What the automation engine yields and what the runners read from it.
    The engine hands out dictionaries; a value of the wrong shape, on which
    an accessor raises [e], is the element [Raises e]. *)
Module Engine.
Import Py.

(** A content block of a message: [text] and [output_text], [""] when absent. *)
Record block : Type := { block_text : string; block_output_text : string }.

(** An entry of a computer call output: [type] and [image_url]. *)
Record output_item : Type := { output_type : string; image_url : string }.

Inductive item : Type :=
| message (content : list (outcome block))
| computer_call_output (content : list (outcome output_item))
| computer_call (action_type : string)   (* ["unknown"] when absent *)
| reasoning (summary : list string)
| other (type : string).

(** One value of the stream: its [output] list. *)
Definition result : Type := outcome (list (outcome item)).

(** [Computer(os_type=..., provider_type=..., name=..., api_key=...)] *)
Record Computer : Type := {
  os_type : string;
  provider_type : string;
  name : string;
  api_key : string
}.

(** [ComputerAgent(...)]; budgets are whole dollars in every caller. *)
Record ComputerAgent : Type := {
  model : string;
  tools : list Computer;
  only_n_most_recent_images : nat;
  max_trajectory_budget : nat;
  trajectory_dir : option string
}.

End Engine.

(** The state and environment shared by the two runner classes. *)
Module Runner.
Import Py Block.

(** The fields of a runner object.  [dispatched] lists the entries handed
    to [log_callback] through [asyncio.create_task]. *)
Record self : Type := {
  computer : option Engine.Computer;
  agent : option Engine.ComputerAgent;
  is_running : bool;
  logs : list LogEntry.t;
  final_screenshot : option string;
  log_callback : bool;
  trajectory_path : option string;
  dispatched : list LogEntry.t
}.

Definition set_computer (c : option Engine.Computer) (s : self) : self :=
  {| computer := c; agent := agent s; is_running := is_running s; logs := logs s;
     final_screenshot := final_screenshot s; log_callback := log_callback s;
     trajectory_path := trajectory_path s; dispatched := dispatched s |}.

Definition set_agent (a : option Engine.ComputerAgent) (s : self) : self :=
  {| computer := computer s; agent := a; is_running := is_running s; logs := logs s;
     final_screenshot := final_screenshot s; log_callback := log_callback s;
     trajectory_path := trajectory_path s; dispatched := dispatched s |}.

Definition set_is_running (b : bool) (s : self) : self :=
  {| computer := computer s; agent := agent s; is_running := b; logs := logs s;
     final_screenshot := final_screenshot s; log_callback := log_callback s;
     trajectory_path := trajectory_path s; dispatched := dispatched s |}.

Definition set_logs (l : list LogEntry.t) (s : self) : self :=
  {| computer := computer s; agent := agent s; is_running := is_running s; logs := l;
     final_screenshot := final_screenshot s; log_callback := log_callback s;
     trajectory_path := trajectory_path s; dispatched := dispatched s |}.

Definition set_final_screenshot (f : option string) (s : self) : self :=
  {| computer := computer s; agent := agent s; is_running := is_running s;
     logs := logs s; final_screenshot := f; log_callback := log_callback s;
     trajectory_path := trajectory_path s; dispatched := dispatched s |}.

Definition set_trajectory_path (p : option string) (s : self) : self :=
  {| computer := computer s; agent := agent s; is_running := is_running s;
     logs := logs s; final_screenshot := final_screenshot s;
     log_callback := log_callback s; trajectory_path := p;
     dispatched := dispatched s |}.

Definition set_dispatched (d : list LogEntry.t) (s : self) : self :=
  {| computer := computer s; agent := agent s; is_running := is_running s;
     logs := logs s; final_screenshot := final_screenshot s;
     log_callback := log_callback s; trajectory_path := trajectory_path s;
     dispatched := d |}.

(** [__init__(self, log_callback=None)] *)
Definition __init__ (log_callback : bool) : self :=
  {| computer := None; agent := None; is_running := false; logs := [];
     final_screenshot := None; log_callback := log_callback;
     trajectory_path := None; dispatched := [] |}.

(** [_log(self, message, level)], the clock reading passed in. *)
Definition _log (now : Z) (message level : string) (s : self) : self :=
  let entry := {| LogEntry.timestamp := now; LogEntry.message := message;
                  LogEntry.level := level |} in
  let s' := set_logs (logs s ++ [entry]) s in
  if log_callback s' then set_dispatched (dispatched s' ++ [entry]) s' else s'.

(** [stop(self)] *)
Definition stop (now : Z) (s : self) : self :=
  set_is_running false (_log now "Stopping task..." "info" s).

(** The points where [run] is suspended and another coroutine may call
    [stop] on the runner. *)
Inductive suspension : Type :=
| at_computer_run
| at_next_result (n : nat)
| at_extract
| at_disconnect.

(** The trajectory directory as the runner reads it after the stream. *)
Record filesystem : Type := {
  exists_ : string -> bool;                  (* [os.path.exists] *)
  glob : string -> list string;              (* [glob.glob(pattern, recursive=True)] *)
  getmtime : string -> outcome Z;            (* [os.path.getmtime] *)
  read_base64 : string -> outcome string     (* [open], [read], [b64encode], [decode] *)
}.

(** Everything a run takes from outside the runner object. *)
Record environment : Type := {
  settings : Settings.t;
  interpreter : Py.interpreter;              (* limits [json.loads] runs into *)
  time : nat -> Z;                           (* [time.time()] at the n-th entry *)
  stops : suspension -> nat;                 (* [stop()] calls while suspended *)
  new_Computer : outcome unit;               (* the [Computer] constructor *)
  computer_run : outcome unit;               (* [await self.computer.run()] *)
  trajectory_base : string;
  run_id : string;                           (* [datetime.now().strftime(...)] *)
  makedirs : outcome unit;                   (* [os.makedirs] *)
  new_ComputerAgent : outcome unit;          (* the [ComputerAgent] constructor *)
  agent_run : list Engine.result;            (* values the stream yields *)
  agent_run_end : outcome unit;              (* how the stream ends *)
  files : filesystem;
  post : AnthropicProcessor.oracle;
  computer_disconnect : outcome unit         (* [await self.computer.disconnect()] *)
}.

(** [f"{self.trajectory_path}"] *)
Definition str_path (p : option string) : string :=
  match p with
  | Some path => path
  | None => "None"
  end.

Definition M (A : Type) : Type := Block.M self A.

Open Scope block_scope.

Section WithEnvironment.
Variable env : environment.

(** [self._log(message, level)] *)
Definition log (message level : string) : M unit :=
  update (fun s => _log (time env (List.length (logs s))) message level s).

(** The [stop()] calls that reach the runner during one suspension. *)
Definition interrupted (p : suspension) : M unit :=
  update (fun s =>
    Nat.iter (stops env p)
             (fun s' => stop (time env (List.length (logs s'))) s') s).

(** [await] of a call into a collaborator. *)
Definition await {A : Type} (p : suspension) (o : outcome A) : M A :=
  interrupted p ;;; lift o.

(** [initialize(self)] *)
Definition initialize : M unit :=
  log "Connecting to Windows sandbox..." "info" ;;;
  lift (new_Computer env) ;;;
  update (set_computer
            (Some {| Engine.os_type := "windows";
                     Engine.provider_type := "cloud";
                     Engine.name := Settings.cua_sandbox_name (settings env);
                     Engine.api_key := Settings.cua_api_key (settings env) |})).

(** [os.path.join(a, b)] for a relative [b] *)
Definition path_join (a b : string) : string := (a ++ "/" ++ b)%string.

(** [create_agent(self)], for the directory prefix and budget of the class. *)
Definition create_agent (prefix : string) (budget : nat) : M unit :=
  c <- read computer ;;
  match c with
  | None => raise (PyException "RuntimeError" "Computer not initialized")
  | Some the_computer =>
      log "Creating CUA agent..." "info" ;;;
      let path := path_join (trajectory_base env) (prefix ++ run_id env)%string in
      update (set_trajectory_path (Some path)) ;;;
      lift (makedirs env) ;;;
      log ("Trajectory will be saved to: " ++ path)%string "info" ;;;
      lift (new_ComputerAgent env) ;;;
      update (set_agent
                (Some {| Engine.model := "cua/anthropic/claude-sonnet-4.5";
                         Engine.tools := [the_computer];
                         Engine.only_n_most_recent_images := 5;
                         Engine.max_trajectory_budget := budget;
                         Engine.trajectory_dir := Some path |}))
  end.

(** [block.get("text", "") or block.get("output_text", "")] *)
Definition text_of (b : Engine.block) : string :=
  if String.eqb (Engine.block_text b) "" then Engine.block_output_text b
  else Engine.block_text b.

(** The branch for [item_type == "message"]. *)
Definition log_message (content : list (outcome Engine.block)) : M unit :=
  for_each content (fun b =>
    block <- lift b ;;
    let text := text_of block in
    if String.eqb text "" then ret tt
    else log ("Agent: " ++ slice_to 200 text ++ "...")%string "info").

(** The branch for [item_type == "computer_call"]. *)
Definition log_action (action_type : string) : M unit :=
  log ("Executing: " ++ action_type)%string "info".

(** [async for result in self.agent.run(messages)], the body given per item:
    the flag is read before each value is processed. *)
Fixpoint observe (n : nat) (results : list Engine.result)
         (on_item : Engine.item -> M unit) : M unit :=
  match results with
  | [] => await (at_next_result n) (agent_run_end env)
  | result :: rest =>
      interrupted (at_next_result n) ;;;
      running <- read is_running ;;
      if negb running then ret tt
      else
        output <- lift result ;;
        for_each output (fun i => item <- lift i ;; on_item item) ;;;
        observe (S n) rest on_item
  end.

(** The [finally] block of [run]. *)
Definition teardown : M unit :=
  update (set_is_running false) ;;;
  c <- read computer ;;
  match c with
  | None => ret tt
  | Some _ =>
      try_except_Exception
        (await at_disconnect (computer_disconnect env) ;;;
         log "Disconnected from sandbox" "info")
        (fun _ => ret tt)
  end.

(** The result object holds the list object [self.logs]: entries appended
    after the [return] statement show in the value the caller receives. *)
Definition returning (m : M APIResult.t) : M APIResult.t :=
  fun s =>
    match m s with
    | (Returns r, s') =>
        (Returns {| APIResult.status := APIResult.status r;
                    APIResult.data := APIResult.data r;
                    APIResult.error := APIResult.error r;
                    APIResult.logs := logs s';
                    APIResult.final_screenshot := APIResult.final_screenshot r |},
         s')
    | (Raises e, s') => (Raises e, s')
    end.

End WithEnvironment.

End Runner.

Module BusAPIService.
Import Py Block Runner.

Section WithEnvironment.
Variable env : environment.

(** [_get_latest_screenshot(self)] *)
Definition _get_latest_screenshot : M (option string) :=
  p <- read trajectory_path ;;
  match p with
  | None => ret None
  | Some path =>
      if String.eqb path "" || negb (exists_ (files env) path) then ret None
      else
        let pattern := path_join (path_join path "**") "*.png" in
        match glob (files env) pattern with
        | [] => ret None
        | screenshots =>
            latest <- lift (max_by (getmtime (files env)) screenshots) ;;
            log env ("Found screenshot: " ++ latest)%string "info" ;;;
            image_data <- lift (read_base64 (files env) latest) ;;
            ret (Some ("data:image/png;base64," ++ image_data)%string)
        end
  end.

(** The body of the loop over [result.get("output", [])]. *)
Definition on_item (item : Engine.item) : M unit :=
  match item with
  | Engine.message content => log_message env content
  | Engine.computer_call_output content =>
      for_each content (fun o =>
        output_item <- lift o ;;
        if String.eqb (Engine.output_type output_item) "computer_screenshot"
           || String.eqb (Engine.output_type output_item) "input_image"
        then
          if String.eqb (Engine.image_url output_item) "" then ret tt
          else
            update (set_final_screenshot (Some (Engine.image_url output_item))) ;;;
            log env "Screenshot captured" "info"
        else ret tt)
  | Engine.computer_call action_type => log_action env action_type
  | _ => ret tt
  end.

(** The [else] branch of [if self.final_screenshot]. *)
Definition no_screenshot : M APIResult.t :=
  p <- read trajectory_path ;;
  let msg := ("No screenshot found in trajectory: " ++ str_path p)%string in
  log env msg "error" ;;;
  l <- read logs ;;
  ret {| APIResult.status := "error"; APIResult.data := None;
         APIResult.error := Some msg; APIResult.logs := l;
         APIResult.final_screenshot := None |}.

(** The [try] block of [run], up to the end of the stream. *)
Definition connect_and_observe : M unit :=
  initialize env ;;;
  log env "Starting sandbox connection..." "info" ;;;
  await env at_computer_run (computer_run env) ;;;
  log env "Sandbox connected successfully" "info" ;;;
  create_agent env "bus_api_" 15 ;;;
  log env "Agent initialized, starting task..." "info" ;;;
  observe env 0 (agent_run env) on_item ;;;
  log env "Task completed, reading screenshot from trajectory..." "info".

(** The [if self.final_screenshot] branch. *)
Definition extract (screenshot : string) : M APIResult.t :=
  log env "Sending screenshot to Anthropic for analysis..." "info" ;;;
  bus_data <-
    await env at_extract
      (AnthropicProcessor.extract_bus_data (interpreter env) (post env) screenshot
         (Settings.anthropic_api_key (settings env))) ;;
  buses <- lift (get bus_data "buses" (JArr [])) ;;
  n <- lift (len buses) ;;
  log env ("Extracted " ++ str_nat n ++ " buses")%string "info" ;;;
  l <- read logs ;;
  ret {| APIResult.status := "success";
         APIResult.data := Some bus_data;
         APIResult.error := None;
         APIResult.logs := l;
         APIResult.final_screenshot := Some screenshot |}.

(** The [try] block of [run], from the reading of the trajectory on. *)
Definition collect_and_extract : M APIResult.t :=
  shot <- _get_latest_screenshot ;;
  update (set_final_screenshot shot) ;;;
  match shot with
  | Some screenshot =>
      if String.eqb screenshot "" then no_screenshot else extract screenshot
  | None => no_screenshot
  end.

(** The [except Exception as e] clause of [run]. *)
Definition on_exception (e : exn) : M APIResult.t :=
  let error_msg := str_exn e in
  log env ("Error: " ++ error_msg)%string "error" ;;;
  l <- read logs ;;
  ret {| APIResult.status := "error"; APIResult.data := None;
         APIResult.error := Some error_msg; APIResult.logs := l;
         APIResult.final_screenshot := None |}.

(** The three assignments that open [run]. *)
Definition reset (s : self) : self :=
  set_final_screenshot None (set_logs [] (set_is_running true s)).

(** [run(self)] *)
Definition run : M APIResult.t :=
  returning
    (update reset ;;;
     try_finally
       (try_except_Exception (connect_and_observe ;;; collect_and_extract)
                             on_exception)
       (teardown env)).

End WithEnvironment.

End BusAPIService.

Module ContingencyAPIService.
Import Py Block Runner.

Section WithEnvironment.
Variable env : environment.

(** [_get_all_screenshots(self)] *)
Definition _get_all_screenshots : M (list string) :=
  p <- read trajectory_path ;;
  match p with
  | None => ret []
  | Some path =>
      if String.eqb path "" || negb (exists_ (files env) path) then ret []
      else
        let pattern := path_join (path_join path "**") "*.png" in
        match glob (files env) pattern with
        | [] => ret []
        | screenshots =>
            sorted <- lift (sort_by (getmtime (files env)) screenshots) ;;
            result <-
              lift (fold_right
                      (fun screenshot_path acc =>
                         bind (read_base64 (files env) screenshot_path)
                           (fun image_data =>
                              bind acc (fun rest =>
                                Returns (("data:image/png;base64," ++ image_data)%string
                                           :: rest))))
                      (Returns []) sorted) ;;
            log env ("Found " ++ str_nat (List.length result)
                       ++ " screenshots in trajectory")%string "info" ;;;
            ret result
        end
  end.

(** The body of the loop over [result.get("output", [])]. *)
Definition on_item (item : Engine.item) : M unit :=
  match item with
  | Engine.message content => log_message env content
  | Engine.computer_call action_type => log_action env action_type
  | _ => ret tt
  end.

(** The [try] block of [run], up to the end of the stream. *)
Definition connect_and_observe : M unit :=
  initialize env ;;;
  log env "Starting sandbox connection..." "info" ;;;
  await env at_computer_run (computer_run env) ;;;
  log env "Sandbox connected successfully" "info" ;;;
  create_agent env "contingency_api_" 20 ;;;
  log env "Agent initialized, starting task..." "info" ;;;
  observe env 0 (agent_run env) on_item ;;;
  log env "Task completed, reading screenshots from trajectory..." "info".

(** The [if screenshots] branch. *)
Definition extract (screenshots : list string) : M APIResult.t :=
  log env ("Sending " ++ str_nat (List.length screenshots)
             ++ " screenshots to Anthropic for analysis...")%string "info" ;;;
  contingency_data <-
    await env at_extract
      (AnthropicProcessor.extract_contingency_data_multi (interpreter env) (post env)
         screenshots (Settings.anthropic_api_key (settings env))) ;;
  contingencies <- lift (get contingency_data "contingencies" (JArr [])) ;;
  num_contingencies <- lift (len contingencies) ;;
  log env ("Extracted " ++ str_nat num_contingencies
             ++ " contingencies")%string "info" ;;;
  l <- read logs ;;
  ret {| APIResult.status := "success";
         APIResult.data := Some contingency_data;
         APIResult.error := None;
         APIResult.logs := l;
         APIResult.final_screenshot := Some (last screenshots "") |}.

(** The [else] branch of [if screenshots]. *)
Definition no_screenshots : M APIResult.t :=
  p <- read trajectory_path ;;
  let msg := ("No screenshots found in trajectory: " ++ str_path p)%string in
  log env msg "error" ;;;
  l <- read logs ;;
  ret {| APIResult.status := "error"; APIResult.data := None;
         APIResult.error := Some msg; APIResult.logs := l;
         APIResult.final_screenshot := None |}.

(** The [try] block of [run], from the reading of the trajectory on. *)
Definition collect_and_extract : M APIResult.t :=
  screenshots <- _get_all_screenshots ;;
  match screenshots with
  | _ :: _ => extract screenshots
  | [] => no_screenshots
  end.

(** The [except Exception as e] clause of [run]. *)
Definition on_exception (e : exn) : M APIResult.t :=
  let error_msg := str_exn e in
  log env ("Error: " ++ error_msg)%string "error" ;;;
  l <- read logs ;;
  ret {| APIResult.status := "error"; APIResult.data := None;
         APIResult.error := Some error_msg; APIResult.logs := l;
         APIResult.final_screenshot := None |}.

(** The three assignments that open [run]. *)
Definition reset (s : self) : self :=
  set_final_screenshot None (set_logs [] (set_is_running true s)).

(** [run(self)] *)
Definition run : M APIResult.t :=
  returning
    (update reset ;;;
     try_finally
       (try_except_Exception (connect_and_observe ;;; collect_and_extract)
                             on_exception)
       (teardown env)).

End WithEnvironment.

End ContingencyAPIService.

(* ================================================================= *)
(** ** [api/routes.py] *)

Module Routes.
Import Py.

Module LogEntryResponse.
Record t : Type := { timestamp : Z; message : string; level : string }.
End LogEntryResponse.

Section WithValidation.
(** What the validation of a field declared [Dict[str, Any]] makes of a
    value that is not a [dict]: a [ValidationError] or a converted value. *)
Variable not_a_dict : json -> outcome json.

(** Validation of a field declared [Optional[Dict[str, Any]]]. *)
Definition Optional_Dict (v : option json) : outcome (option json) :=
  match v with
  | None => Returns None
  | Some d =>
      if is_dict d then Returns (Some d)
      else bind (not_a_dict d) (fun d' => Returns (Some d'))
  end.

(** [BusesResponse] and [ContingencyResponse] declare the same fields. *)
Record Response : Type := {
  status : string;
  data : option json;
  error : option string;
  logs : list LogEntryResponse.t
}.

Definition BusesResponse (status : string) (data : option json)
           (error : option string) (logs : list LogEntryResponse.t)
  : outcome Response :=
  bind (Optional_Dict data) (fun d =>
    Returns {| status := status; data := d; error := error; logs := logs |}).

Definition ContingencyResponse (status : string) (data : option json)
           (error : option string) (logs : list LogEntryResponse.t)
  : outcome Response :=
  bind (Optional_Dict data) (fun d =>
    Returns {| status := status; data := d; error := error; logs := logs |}).

(** The list comprehension over [result.logs]. *)
Definition to_response (l : list LogEntry.t) : list LogEntryResponse.t :=
  map (fun log => {| LogEntryResponse.timestamp := LogEntry.timestamp log;
                     LogEntryResponse.message := LogEntry.message log;
                     LogEntryResponse.level := LogEntry.level log |}) l.

(** The runner of a request is local to it: nothing calls its [stop]. *)
Definition unshared (env : Runner.environment) : Runner.environment :=
  {| Runner.settings := Runner.settings env;
     Runner.interpreter := Runner.interpreter env;
     Runner.time := Runner.time env;
     Runner.stops := fun _ => 0;
     Runner.new_Computer := Runner.new_Computer env;
     Runner.computer_run := Runner.computer_run env;
     Runner.trajectory_base := Runner.trajectory_base env;
     Runner.run_id := Runner.run_id env;
     Runner.makedirs := Runner.makedirs env;
     Runner.new_ComputerAgent := Runner.new_ComputerAgent env;
     Runner.agent_run := Runner.agent_run env;
     Runner.agent_run_end := Runner.agent_run_end env;
     Runner.files := Runner.files env;
     Runner.post := Runner.post env;
     Runner.computer_disconnect := Runner.computer_disconnect env |}.

(** The body both routes share, for the [run] of their service and the
    constructor of their response. *)
Definition respond (run : Runner.M APIResult.t)
           (new_Response : string -> option json -> option string ->
                           list LogEntryResponse.t -> outcome Response)
  : outcome Response :=
  let service := Runner.__init__ false in
  let attempt :=
    bind (fst (run service)) (fun result =>
      let logs := to_response (APIResult.logs result) in
      if String.eqb (APIResult.status result) "success" then
        new_Response "success" (APIResult.data result) None logs
      else
        new_Response "error" None (APIResult.error result) logs) in
  match attempt with
  | Returns response => Returns response
  | Raises e =>
      if is_Exception e then new_Response "error" None (Some (str_exn e)) []
      else Raises e
  end.

(** [get_buses()] *)
Definition get_buses (env : Runner.environment) : outcome Response :=
  respond (BusAPIService.run (unshared env)) BusesResponse.

(** [run_contingency_analysis()] *)
Definition run_contingency_analysis (env : Runner.environment) : outcome Response :=
  respond (ContingencyAPIService.run (unshared env)) ContingencyResponse.

End WithValidation.

End Routes.

(* ================================================================= *)
(** ** [cua/message_types.py] *)

Module MessageType.
Inductive t : Type :=
| START_AGENT | STOP_AGENT | RUN_API
| SCREENSHOT | STATUS | MESSAGE | ERROR | AGENT_COMPLETE | API_LOG | API_RESPONSE.

Definition value (m : t) : string :=
  match m with
  | START_AGENT => "start_agent"
  | STOP_AGENT => "stop_agent"
  | RUN_API => "run_api"
  | SCREENSHOT => "screenshot"
  | STATUS => "status"
  | MESSAGE => "message"
  | ERROR => "error"
  | AGENT_COMPLETE => "agent_complete"
  | API_LOG => "api_log"
  | API_RESPONSE => "api_response"
  end.
End MessageType.

Module WebSocketMessage.
(** The payload models, as [model_dump()] passes them on. *)
Inductive payload : Type :=
| ScreenshotPayload (image_data : string) (step : nat)
| StatusPayload (status : string) (message : option string)
| AgentMessagePayload (role content : string) (action : option string)
| APILogPayload (message : string) (timestamp : Z) (level : string)
| APIResponsePayload (endpoint status : string) (data : option Py.json)
                     (error : option string).

Record t : Type := { type : MessageType.t; payload_ : payload; timestamp : Z }.
End WebSocketMessage.

(* ================================================================= *)
(** ** [websocket/manager.py] *)

Module ConnectionManager.
Import Py Block.

(** A channel handle; two handles are the same object when equal. *)
Definition WebSocket : Type := nat.

Section WithTransport.
Context {Data : Type}.

(** One call of [websocket.send_json]. *)
Record call : Type := { to : WebSocket; frame : Data; delivered : bool }.

(** The manager object, and the calls made on the channels so far.  The
    lock is held for the whole of each critical section, none of which is
    entered while another is open. *)
Record self : Type := {
  active_connections : list WebSocket;
  calls : list call
}.

(** [websocket.accept()] and [websocket.send_json(data)] *)
Variable accept : WebSocket -> outcome unit.
Variable transport : WebSocket -> Data -> outcome unit.

Definition M (A : Type) : Type := Block.M self A.

Definition set_active_connections (l : list WebSocket) (s : self) : self :=
  {| active_connections := l; calls := calls s |}.

(** [websocket in self.active_connections] *)
Definition registered (websocket : WebSocket) (l : list WebSocket) : bool :=
  existsb (Nat.eqb websocket) l.

(** [l.remove(websocket)]: the first occurrence goes. *)
Fixpoint remove_first (websocket : WebSocket) (l : list WebSocket)
  : list WebSocket :=
  match l with
  | [] => []
  | w :: l' => if Nat.eqb websocket w then l' else w :: remove_first websocket l'
  end.

Definition __init__ : self := {| active_connections := []; calls := [] |}.

(** [connect(self, websocket)] *)
Definition connect (websocket : WebSocket) : M unit :=
  bindM (lift (accept websocket)) (fun _ =>
    update (fun s =>
      set_active_connections (active_connections s ++ [websocket]) s)).

(** [disconnect(self, websocket)] *)
Definition disconnect (websocket : WebSocket) : M unit :=
  update (fun s =>
    if registered websocket (active_connections s)
    then set_active_connections (remove_first websocket (active_connections s)) s
    else s).

(** [await websocket.send_json(data)] *)
Definition websocket_send_json (websocket : WebSocket) (data : Data) : M unit :=
  fun s =>
    let r := transport websocket data in
    (r, {| active_connections := active_connections s;
           calls := calls s ++ [{| to := websocket; frame := data;
                                   delivered := returned r |}] |}).

(** [send_json(self, websocket, data)] *)
Definition send_json (websocket : WebSocket) (data : Data) : M unit :=
  try_except_Exception (websocket_send_json websocket data)
                       (fun _ => disconnect websocket).

(** The loop of [broadcast]: the connections still to visit and the
    [disconnected] list so far. *)
Fixpoint deliver (connections disconnected : list WebSocket) (data : Data)
  : M (list WebSocket) :=
  match connections with
  | [] => ret disconnected
  | connection :: rest =>
      bindM
        (try_except_Exception
           (bindM (websocket_send_json connection data)
                  (fun _ => ret disconnected))
           (fun _ => ret (disconnected ++ [connection])))
        (fun disconnected' => deliver rest disconnected' data)
  end.

(** [broadcast(self, data)] *)
Definition broadcast (data : Data) : M unit :=
  bindM (read active_connections) (fun connections =>
    bindM (deliver connections [] data) (fun disconnected =>
      for_each disconnected disconnect)).

End WithTransport.

End ConnectionManager.

(* ================================================================= *)
(** ** [cua/agent_service.py]: the fields the session reads *)

Module CUAAgentService.

Record self : Type := {
  computer : option Engine.Computer;
  agent : option Engine.ComputerAgent;
  is_running : bool;
  step_count : nat
}.

Definition __init__ : self :=
  {| computer := None; agent := None; is_running := false; step_count := 0 |}.

Definition set_is_running (b : bool) (s : self) : self :=
  {| computer := computer s; agent := agent s; is_running := b;
     step_count := step_count s |}.

(** The two assignments that open [run_task]. *)
Definition begin_run_task (s : self) : self :=
  {| computer := computer s; agent := agent s; is_running := true;
     step_count := 0 |}.

(** [stop(self)] *)
Definition stop (s : self) : self := set_is_running false s.

End CUAAgentService.

(* ================================================================= *)
(** ** [cua/agent_service.py]: the generator [run_task] *)

Module AgentTask.
Import Py Block.

(** A content block of a message: [type] and [text] ([""] when absent). *)
Record block : Type := { block_type : string; block_text : string }.

(** The items of an [output] list, as [run_task] reads them. *)
Inductive item : Type :=
| message (content : list (outcome block))
| computer_call_output (content : list (outcome Engine.output_item))
| computer_call (action_type : string)   (* ["unknown"] when absent *)
| reasoning (summary : list (outcome string))   (* the [text] of each entry *)
| other (type : string).

(** One value of the stream: its [output] list. *)
Definition result : Type := outcome (list (outcome item)).

(** The points where the generator is suspended and another coroutine may
    call [stop] on the service: at a [yield], numbered by the messages
    yielded before it, and in an [await]. *)
Inductive suspension : Type :=
| at_yield (k : nat)
| at_computer_run
| at_next_result (n : nat)
| at_disconnect.

(** Everything a run takes from outside the service object. *)
Record environment : Type := {
  settings : Settings.t;
  time : nat -> Z;                   (* [time.time()] at the k-th message *)
  stops : suspension -> bool;        (* a [stop()] call while suspended *)
  new_Computer : outcome unit;       (* the [Computer] constructor *)
  computer_run : outcome unit;       (* [await self.computer.run()] *)
  new_ComputerAgent : outcome unit;  (* the [ComputerAgent] constructor *)
  agent_run : list result;           (* values the stream yields *)
  agent_run_end : outcome unit;      (* how the stream ends *)
  computer_disconnect : outcome unit (* [await self.computer.disconnect()] *)
}.

(** The service object and the messages its generator has yielded. *)
Record generator : Type := {
  service : CUAAgentService.self;
  yielded : list WebSocketMessage.t
}.

Definition G (A : Type) : Type := Block.M generator A.

Definition set_computer (c : option Engine.Computer) (s : CUAAgentService.self)
  : CUAAgentService.self :=
  {| CUAAgentService.computer := c;
     CUAAgentService.agent := CUAAgentService.agent s;
     CUAAgentService.is_running := CUAAgentService.is_running s;
     CUAAgentService.step_count := CUAAgentService.step_count s |}.

Definition set_agent (a : option Engine.ComputerAgent) (s : CUAAgentService.self)
  : CUAAgentService.self :=
  {| CUAAgentService.computer := CUAAgentService.computer s;
     CUAAgentService.agent := a;
     CUAAgentService.is_running := CUAAgentService.is_running s;
     CUAAgentService.step_count := CUAAgentService.step_count s |}.

(** [self.step_count += 1] *)
Definition count_step (s : CUAAgentService.self) : CUAAgentService.self :=
  {| CUAAgentService.computer := CUAAgentService.computer s;
     CUAAgentService.agent := CUAAgentService.agent s;
     CUAAgentService.is_running := CUAAgentService.is_running s;
     CUAAgentService.step_count := S (CUAAgentService.step_count s) |}.

Open Scope block_scope.

Section WithEnvironment.
Variable env : environment.

(** A statement on the fields of the service. *)
Definition on_service (f : CUAAgentService.self -> CUAAgentService.self) : G unit :=
  update (fun g => {| service := f (service g); yielded := yielded g |}).

(** A [stop()] call that reaches the service during a suspension. *)
Definition interrupted (p : suspension) : G unit :=
  if stops env p then on_service CUAAgentService.stop else ret tt.

(** [await] of a call into a collaborator. *)
Definition await {A : Type} (p : suspension) (o : outcome A) : G A :=
  interrupted p ;;; lift o.

(** [yield WebSocketMessage(type=..., payload=....model_dump())]: the
    constructor reads the clock, and the consumer runs until it asks for
    the next message. *)
Definition yield_ (type : MessageType.t) (payload : WebSocketMessage.payload)
  : G unit :=
  k <- read (fun g => List.length (yielded g)) ;;
  update (fun g =>
    {| service := service g;
       yielded := yielded g ++ [{| WebSocketMessage.type := type;
                                   WebSocketMessage.payload_ := payload;
                                   WebSocketMessage.timestamp := time env k |}] |}) ;;;
  interrupted (at_yield k).

(** [initialize(self)] *)
Definition initialize : G unit :=
  lift (new_Computer env) ;;;
  on_service
    (set_computer
       (Some {| Engine.os_type := "windows";
                Engine.provider_type := "cloud";
                Engine.name := Settings.cua_sandbox_name (settings env);
                Engine.api_key := Settings.cua_api_key (settings env) |})).

(** [create_agent(self)] *)
Definition create_agent : G unit :=
  c <- read (fun g => CUAAgentService.computer (service g)) ;;
  match c with
  | None => raise (PyException "RuntimeError" "Computer not initialized")
  | Some the_computer =>
      lift (new_ComputerAgent env) ;;;
      on_service
        (set_agent
           (Some {| Engine.model := "cua/anthropic/claude-sonnet-4.5";
                    Engine.tools := [the_computer];
                    Engine.only_n_most_recent_images := 3;
                    Engine.max_trajectory_budget := 10;
                    Engine.trajectory_dir := None |}))
  end.

(** The body of [if text: yield ...] for a role. *)
Definition yield_text (role text : string) : G unit :=
  if String.eqb text "" then ret tt
  else yield_ MessageType.MESSAGE
              (WebSocketMessage.AgentMessagePayload role text None).

(** The body of [if image_url: yield ...]. *)
Definition yield_screenshot (image_url : string) : G unit :=
  if String.eqb image_url "" then ret tt
  else
    step <- read (fun g => CUAAgentService.step_count (service g)) ;;
    yield_ MessageType.SCREENSHOT (WebSocketMessage.ScreenshotPayload image_url step).

(** The branches on [item_type]. *)
Definition on_item (i : item) : G unit :=
  match i with
  | message content =>
      for_each content (fun b =>
        the_block <- lift b ;;
        if String.eqb (block_type the_block) "text" then
          yield_text "assistant" (block_text the_block)
        else if String.eqb (block_type the_block) "output_text" then
          yield_text "assistant" (block_text the_block)
        else ret tt)
  | computer_call_output content =>
      for_each content (fun o =>
        output_item <- lift o ;;
        if String.eqb (Engine.output_type output_item) "computer_screenshot" then
          yield_screenshot (Engine.image_url output_item)
        else if String.eqb (Engine.output_type output_item) "input_image" then
          yield_screenshot (Engine.image_url output_item)
        else ret tt)
  | computer_call action_type =>
      yield_ MessageType.MESSAGE
             (WebSocketMessage.AgentMessagePayload
                "system" ("Executing action: " ++ action_type)%string
                (Some action_type))
  | reasoning summary =>
      for_each summary (fun t =>
        text <- lift t ;;
        yield_text "reasoning" text)
  | other _ => ret tt
  end.

(** [async for result in self.agent.run(messages)]: the flag is read
    before each value is processed, and each item is counted before it is
    looked at. *)
Fixpoint observe (n : nat) (results : list result) : G unit :=
  match results with
  | [] => await (at_next_result n) (agent_run_end env)
  | the_result :: rest =>
      interrupted (at_next_result n) ;;;
      running <- read (fun g => CUAAgentService.is_running (service g)) ;;
      if negb running then ret tt
      else
        output <- lift the_result ;;
        for_each output (fun i =>
          on_service count_step ;;;
          the_item <- lift i ;;
          on_item the_item) ;;;
        observe (S n) rest
  end.

(** The [try] block of [run_task] up to the end of the stream. *)
Definition connect_and_stream : G unit :=
  yield_ MessageType.STATUS
         (WebSocketMessage.StatusPayload
            "connecting" (Some "Connecting to Windows sandbox...")) ;;;
  initialize ;;;
  await at_computer_run (computer_run env) ;;;
  create_agent ;;;
  yield_ MessageType.STATUS
         (WebSocketMessage.StatusPayload
            "running" (Some "Agent started, navigating to PowerWorld...")) ;;;
  observe 0 (agent_run env).

(** The statement after the loop. *)
Definition report_completion : G unit :=
  yield_ MessageType.AGENT_COMPLETE
         (WebSocketMessage.StatusPayload
            "completed" (Some "Agent task completed successfully")).

(** The [except Exception as e] clause. *)
Definition on_exception (e : exn) : G unit :=
  yield_ MessageType.ERROR
         (WebSocketMessage.StatusPayload "error" (Some (str_exn e))).

(** The [finally] block. *)
Definition teardown : G unit :=
  on_service (CUAAgentService.set_is_running false) ;;;
  c <- read (fun g => CUAAgentService.computer (service g)) ;;
  match c with
  | None => ret tt
  | Some _ =>
      try_except_Exception (await at_disconnect (computer_disconnect env))
                           (fun _ => ret tt)
  end.

(** [run_task(self)], driven by its consumer to the end. *)
Definition run_task : G unit :=
  on_service CUAAgentService.begin_run_task ;;;
  try_finally
    (try_except_Exception (connect_and_stream ;;; report_completion) on_exception)
    teardown.

End WithEnvironment.

End AgentTask.

(* ================================================================= *)
(** ** [websocket/handler.py] *)

Module WebSocketHandler.
Import Py Block.

(** The two closures handed to [asyncio.create_task]. *)
Inductive coroutine : Type :=
| run_agent
| run_api (endpoint : json).

(** Where a task stands: created and not yet entered; suspended, with the
    runner whose [run] or [run_task] it called and whether it is suspended
    inside that method; or finished. *)
Inductive progress : Type :=
| created
| suspended (runner : option nat) (inside : bool)
| finished.

Record Task : Type := { coro : coroutine; state : progress }.

Inductive runner_class : Type := bus_runner | contingency_runner.

(** A runner object on the heap, with the environment its run takes its
    collaborators from. *)
Record runner : Type := {
  class : runner_class;
  world : Runner.environment;
  object : Runner.self
}.

(** The handler object of one connection, the objects its fields refer to
    (by position), the tasks it created, and the history of [run()] calls. *)
Record self : Type := {
  manager : @ConnectionManager.self WebSocketMessage.t;
  agent_service : option nat;
  api_service : option nat;
  agent_task : option nat;
  api_task : option nat;
  agents : list CUAAgentService.self;
  runners : list runner;
  tasks : list Task;
  run_calls : list nat;
  receiving : bool
}.

Definition set_manager m (s : self) : self :=
  {| manager := m; agent_service := agent_service s; api_service := api_service s;
     agent_task := agent_task s; api_task := api_task s; agents := agents s;
     runners := runners s; tasks := tasks s; run_calls := run_calls s;
     receiving := receiving s |}.

Definition set_agent_service a (s : self) : self :=
  {| manager := manager s; agent_service := a; api_service := api_service s;
     agent_task := agent_task s; api_task := api_task s; agents := agents s;
     runners := runners s; tasks := tasks s; run_calls := run_calls s;
     receiving := receiving s |}.

Definition set_api_service a (s : self) : self :=
  {| manager := manager s; agent_service := agent_service s; api_service := a;
     agent_task := agent_task s; api_task := api_task s; agents := agents s;
     runners := runners s; tasks := tasks s; run_calls := run_calls s;
     receiving := receiving s |}.

Definition set_agent_task t (s : self) : self :=
  {| manager := manager s; agent_service := agent_service s;
     api_service := api_service s; agent_task := t; api_task := api_task s;
     agents := agents s; runners := runners s; tasks := tasks s;
     run_calls := run_calls s; receiving := receiving s |}.

Definition set_api_task t (s : self) : self :=
  {| manager := manager s; agent_service := agent_service s;
     api_service := api_service s; agent_task := agent_task s; api_task := t;
     agents := agents s; runners := runners s; tasks := tasks s;
     run_calls := run_calls s; receiving := receiving s |}.

Definition set_agents l (s : self) : self :=
  {| manager := manager s; agent_service := agent_service s;
     api_service := api_service s; agent_task := agent_task s;
     api_task := api_task s; agents := l; runners := runners s; tasks := tasks s;
     run_calls := run_calls s; receiving := receiving s |}.

Definition set_runners l (s : self) : self :=
  {| manager := manager s; agent_service := agent_service s;
     api_service := api_service s; agent_task := agent_task s;
     api_task := api_task s; agents := agents s; runners := l; tasks := tasks s;
     run_calls := run_calls s; receiving := receiving s |}.

Definition set_tasks l (s : self) : self :=
  {| manager := manager s; agent_service := agent_service s;
     api_service := api_service s; agent_task := agent_task s;
     api_task := api_task s; agents := agents s; runners := runners s; tasks := l;
     run_calls := run_calls s; receiving := receiving s |}.

Definition set_run_calls l (s : self) : self :=
  {| manager := manager s; agent_service := agent_service s;
     api_service := api_service s; agent_task := agent_task s;
     api_task := api_task s; agents := agents s; runners := runners s;
     tasks := tasks s; run_calls := l; receiving := receiving s |}.

Definition set_receiving b (s : self) : self :=
  {| manager := manager s; agent_service := agent_service s;
     api_service := api_service s; agent_task := agent_task s;
     api_task := api_task s; agents := agents s; runners := runners s;
     tasks := tasks s; run_calls := run_calls s; receiving := b |}.

(** Assignment to the object at one position of a heap. *)
Fixpoint modify_nth {A : Type} (i : nat) (f : A -> A) (l : list A) : list A :=
  match l, i with
  | [], _ => []
  | x :: l', O => f x :: l'
  | x :: l', S i' => x :: modify_nth i' f l'
  end.

Definition set_object (o : Runner.self) (r : runner) : runner :=
  {| class := class r; world := world r; object := o |}.

Definition set_state (p : progress) (t : Task) : Task :=
  {| coro := coro t; state := p |}.

(** [__init__(self, manager)] *)
Definition __init__ (manager : @ConnectionManager.self WebSocketMessage.t) : self :=
  {| manager := manager; agent_service := None; api_service := None;
     agent_task := None; api_task := None; agents := []; runners := [];
     tasks := []; run_calls := []; receiving := false |}.

Definition H (A : Type) : Type := Block.M self A.

Open Scope block_scope.

Section Connection.
(** The channel of this handler and what lies outside the process. *)
Variable websocket : ConnectionManager.WebSocket.
Variable accept : ConnectionManager.WebSocket -> outcome unit.
Variable transport :
  ConnectionManager.WebSocket -> WebSocketMessage.t -> outcome unit.
Variable time : nat -> Z.           (* readings of [time.time()] *)
Variable str_of : json -> string.   (* an f-string field that is not a [str] *)
Variable py : interpreter.          (* limits [json.loads] runs into *)

(** [f"{v}"] *)
Definition render (v : json) : string :=
  match v with
  | JStr s => s
  | _ => str_of v
  end.

(** A method of the manager, run on the manager this handler holds. *)
Definition on_manager {A : Type} (m : @ConnectionManager.M WebSocketMessage.t A)
  : H A :=
  fun s => let (r, m') := m (manager s) in (r, set_manager m' s).

(** [await self.manager.send_json(websocket, WebSocketMessage(...).model_dump())] *)
Definition send (type : MessageType.t) (payload : WebSocketMessage.payload)
  : H unit :=
  now <- read (fun s => time (List.length (ConnectionManager.calls (manager s)))) ;;
  on_manager
    (ConnectionManager.send_json transport websocket
       {| WebSocketMessage.type := type; WebSocketMessage.payload_ := payload;
          WebSocketMessage.timestamp := now |}).

(** [self.agent_service and self.agent_service.is_running] *)
Definition agent_is_running (s : self) : bool :=
  match agent_service s with
  | Some a =>
      match nth_error (agents s) a with
      | Some o => CUAAgentService.is_running o
      | None => false
      end
  | None => false
  end.

(** [self.api_service and self.api_service.is_running] *)
Definition api_is_running (s : self) : bool :=
  match api_service s with
  | Some a =>
      match nth_error (runners s) a with
      | Some r => Runner.is_running (object r)
      | None => false
      end
  | None => false
  end.

(** [asyncio.create_task(c)] *)
Definition create_task (c : coroutine) : H nat :=
  t <- read (fun s => List.length (tasks s)) ;;
  update (fun s => set_tasks (tasks s ++ [{| coro := c; state := created |}]) s) ;;;
  ret t.

(** [_start_agent(self, websocket)] *)
Definition _start_agent : H unit :=
  running <- read agent_is_running ;;
  if running then
    send MessageType.ERROR
         (WebSocketMessage.StatusPayload "error" (Some "Agent is already running"))
  else
    a <- read (fun s => List.length (agents s)) ;;
    update (fun s => set_agents (agents s ++ [CUAAgentService.__init__]) s) ;;;
    update (set_agent_service (Some a)) ;;;
    t <- create_task run_agent ;;
    update (set_agent_task (Some t)).

(** [_run_api(self, websocket, endpoint)] *)
Definition _run_api (endpoint : json) : H unit :=
  running <- read api_is_running ;;
  if running then
    send MessageType.ERROR
         (WebSocketMessage.StatusPayload "error" (Some "An API is already running"))
  else
    send MessageType.STATUS
         (WebSocketMessage.StatusPayload "running"
            (Some ("Starting API: " ++ render endpoint)%string)) ;;;
    t <- create_task (run_api endpoint) ;;
    update (set_api_task (Some t)).

(** [task.cancel()] followed by [await task] with [CancelledError]
    swallowed.  A task not yet entered never runs; a suspended one leaves
    through its [finally] blocks: that of [run] or [run_task] when it is
    inside the method, then that of [run_api].

    The pair is one step of the session.  In the code the handler is
    suspended in [await task], and a task that was made ready before the
    [cancel()] has its turn before the cancelled one ends; here such a task
    has its turn after the command.  What is stated about this function
    and about [_stop_agent] is therefore about the cancelled task and the
    objects it holds, for schedules in which no other task of the session is
    ready at that point. *)
Definition cancel_and_await (t : nat) : H unit :=
  update (fun s =>
    match nth_error (tasks s) t with
    | Some task =>
        match state task with
        | created => set_tasks (modify_nth t (set_state finished) (tasks s)) s
        | suspended r inside =>
            let s1 :=
              match inside, r, coro task with
              | true, Some a, run_agent =>
                  set_agents
                    (modify_nth a (CUAAgentService.set_is_running false) (agents s)) s
              | true, Some a, run_api _ =>
                  set_runners
                    (modify_nth a
                       (fun x => set_object
                                   (snd (Runner.teardown (world x) (object x))) x)
                       (runners s)) s
              | _, _, _ => s
              end in
            let s2 :=
              match coro task with
              | run_api _ => set_api_service None s1
              | run_agent => s1
              end in
            set_tasks (modify_nth t (set_state finished) (tasks s2)) s2
        | finished => s
        end
    | None => s
    end).

(** [await self.api_service.stop()] on the object the field refers to. *)
Definition stop_api_service : H unit :=
  update (fun s =>
    match api_service s with
    | Some a =>
        set_runners
          (modify_nth a
             (fun x =>
                set_object
                  (Runner.stop
                     (Runner.time (world x) (List.length (Runner.logs (object x))))
                     (object x)) x)
             (runners s)) s
    | None => s
    end).

(** [await self.agent_service.stop()] *)
Definition stop_agent_service : H unit :=
  update (fun s =>
    match agent_service s with
    | Some a => set_agents (modify_nth a CUAAgentService.stop (agents s)) s
    | None => s
    end).

(** [_stop_agent(self, websocket)] *)
Definition _stop_agent : H unit :=
  stop_agent_service ;;;
  stop_api_service ;;;
  at_ <- read agent_task ;;
  match at_ with
  | Some t => cancel_and_await t
  | None => ret tt
  end ;;;
  pt <- read api_task ;;
  match pt with
  | Some t => cancel_and_await t
  | None => ret tt
  end ;;;
  send MessageType.STATUS
       (WebSocketMessage.StatusPayload "stopped" (Some "Stopped by user")).

(** [_cleanup(self, websocket)] *)
Definition _cleanup : H unit :=
  stop_agent_service ;;;
  stop_api_service ;;;
  on_manager (ConnectionManager.disconnect websocket).

(** [v == "..."] against a string literal *)
Definition equals (v : json) (literal : string) : bool :=
  match v with
  | JStr s => String.eqb s literal
  | _ => false
  end.

(** [msg_type == MessageType.X.value] *)
Definition is_type (msg_type : json) (m : MessageType.t) : bool :=
  equals msg_type (MessageType.value m).

(** [_handle_message(self, websocket, message)] *)
Definition _handle_message (message : json) : H unit :=
  msg_type <- lift (get message "type" JNull) ;;
  if is_type msg_type MessageType.START_AGENT then _start_agent
  else if is_type msg_type MessageType.STOP_AGENT then _stop_agent
  else if is_type msg_type MessageType.RUN_API then
    payload <- lift (get message "payload" (JObj [])) ;;
    endpoint <- lift (get payload "endpoint" (JStr "")) ;;
    _run_api endpoint
  else ret tt.

(** The opening of [handle_connection]: registration and the first frame. *)
Definition open_connection : H unit :=
  on_manager (ConnectionManager.connect accept websocket) ;;;
  send MessageType.STATUS
       (WebSocketMessage.StatusPayload "idle" (Some "Connected. Ready to start.")) ;;;
  update (set_receiving true).

(** One turn of the loop of [handle_connection] on a received text: an
    exception that is an [Exception] ends the loop through [_cleanup]. *)
Definition on_text (data : string) : H unit :=
  fun s =>
    if receiving s then
      match (message <- lift (Json.loads_str py data) ;;
             _handle_message message) s with
      | (Returns _, s') => (Returns tt, s')
      | (Raises e, s') =>
          if is_Exception e then (_cleanup ;;; update (set_receiving false)) s'
          else (Raises e, set_receiving false s')
      end
    else (Returns tt, s).

(** *** The tasks, as the event loop runs them *)

(** [result = await self.api_service.run()] for the class of the runner. *)
Definition run_of (c : runner_class) (env : Runner.environment)
  : Runner.M APIResult.t :=
  match c with
  | bus_runner => BusAPIService.run env
  | contingency_runner => ContingencyAPIService.run env
  end.

(** The assignment of a fresh runner to [self.api_service] and the call of
    its [run], up to the first suspension: the object is constructed with
    the callback, [run] is recorded as called and the flag is set.  The body
    of [run] is carried out as a whole by [finish_task]; the API_LOG frames
    the callback sends through tasks of its own are not among the calls
    recorded on the manager. *)
Definition start_runner (t : nat) (c : runner_class) (env : Runner.environment)
  : H unit :=
  a <- read (fun s => List.length (runners s)) ;;
  update (fun s =>
    set_runners
      (runners s ++ [{| class := c; world := env;
                        object := Runner.set_is_running true (Runner.__init__ true) |}])
      s) ;;;
  update (set_api_service (Some a)) ;;;
  update (fun s => set_run_calls (run_calls s ++ [a]) s) ;;;
  update (fun s =>
    set_tasks (modify_nth t (set_state (suspended (Some a) true)) (tasks s)) s).

Definition finish (t : nat) : H unit :=
  update (fun s => set_tasks (modify_nth t (set_state finished) (tasks s)) s).

(** The first step of a task the loop has not entered yet. *)
Definition enter_task (t : nat) (env : Runner.environment) : H unit :=
  task <- read (fun s => nth_error (tasks s) t) ;;
  match task with
  | Some {| coro := run_agent; state := created |} =>
      held <- read agent_service ;;
      match held with
      | Some a =>
          update (fun s =>
            set_agents (modify_nth a CUAAgentService.begin_run_task (agents s)) s) ;;;
          update (fun s =>
            set_tasks (modify_nth t (set_state (suspended (Some a) false)) (tasks s)) s) ;;;
          send MessageType.STATUS
               (WebSocketMessage.StatusPayload "connecting"
                  (Some "Connecting to Windows sandbox..."))
      | None =>
          send MessageType.ERROR
               (WebSocketMessage.StatusPayload "error"
                  (Some "'NoneType' object has no attribute 'run_task'")) ;;;
          finish t
      end
  | Some {| coro := run_api endpoint; state := created |} =>
      if equals endpoint "buses" then start_runner t bus_runner env
      else if equals endpoint "contingency" then
        start_runner t contingency_runner env
      else
        try_finally
          (send MessageType.ERROR
                (WebSocketMessage.StatusPayload "error"
                   (Some ("Unknown API endpoint: " ++ render endpoint)%string)))
          (update (set_api_service None) ;;; finish t)
  | _ => ret tt
  end.

(** A suspended [run_agent] forwards the frames its generator yields and
    suspends again, inside the generator or in the closure. *)
Definition advance_task (t : nat) (inside : bool)
           (frames : list (MessageType.t * WebSocketMessage.payload)) : H unit :=
  task <- read (fun s => nth_error (tasks s) t) ;;
  match task with
  | Some {| coro := run_agent; state := suspended r _ |} =>
      for_each frames (fun f => send (fst f) (snd f)) ;;;
      update (fun s =>
        set_tasks (modify_nth t (set_state (suspended r inside)) (tasks s)) s)
  | _ => ret tt
  end.

(** A suspended task runs to its end. *)
Definition finish_task (t : nat) : H unit :=
  task <- read (fun s => nth_error (tasks s) t) ;;
  match task with
  | Some {| coro := run_agent; state := suspended (Some a) _ |} =>
      update (fun s =>
        set_agents
          (modify_nth a (CUAAgentService.set_is_running false) (agents s)) s) ;;;
      finish t
  | Some {| coro := run_api endpoint; state := suspended (Some a) _ |} =>
      r <- read (fun s => nth_error (runners s) a) ;;
      match r with
      | Some x =>
          try_finally
            (try_except_Exception
               (result <-
                  (fun s =>
                     let (o, obj) := run_of (class x) (world x) (object x) in
                     (o, set_runners
                           (modify_nth a (set_object obj) (runners s)) s)) ;;
                send MessageType.API_RESPONSE
                     (WebSocketMessage.APIResponsePayload (render endpoint)
                        (APIResult.status result) (APIResult.data result)
                        (APIResult.error result)) ;;;
                send MessageType.STATUS
                     (WebSocketMessage.StatusPayload "completed"
                        (Some ("API " ++ render endpoint ++ " completed")%string)))
               (fun e =>
                  send MessageType.ERROR
                       (WebSocketMessage.StatusPayload "error" (Some (str_exn e)))))
            (update (set_api_service None) ;;; finish t)
      | None => ret tt
      end
  | _ => ret tt
  end.

(** What can happen to a session. *)
Inductive event : Type :=
| text_received (data : string)
| task_entered (t : nat) (env : Runner.environment)
| task_advanced (t : nat) (inside : bool)
                (frames : list (MessageType.t * WebSocketMessage.payload))
| task_finished (t : nat).

Definition step (e : event) : H unit :=
  match e with
  | text_received data => on_text data
  | task_entered t env => enter_task t env
  | task_advanced t inside frames => advance_task t inside frames
  | task_finished t => finish_task t
  end.

(** The states a session passes through. *)
Inductive reachable : self -> Prop :=
| reachable_open : forall m, reachable (snd (open_connection (__init__ m)))
| reachable_step : forall s e, reachable s -> reachable (snd (step e s)).

(** The number of [run()] calls made on the runner at position [a]. *)
Definition run_count (a : nat) (s : self) : nat :=
  count_occ Nat.eq_dec (run_calls s) a.

End Connection.

End WebSocketHandler.

(* ================================================================= *)
(** ** Vocabulary of the statements *)

Module Spec.
Import Py.

(** An evaluation that raises nothing [except Exception] would let through. *)
Definition contained {A : Type} (o : outcome A) : Prop :=
  match o with
  | Returns _ => True
  | Raises e => is_Exception e = true
  end.

(** The same for a block, from every state of its object. *)
Definition containedM {S A : Type} (m : Block.M S A) : Prop :=
  forall s, contained (fst (m s)).

(** The reply read by the extraction functions up to [text_response]:
    [None] when the content list is empty. *)
Definition text_response (r : AnthropicProcessor.response) : outcome (option json) :=
  bind (AnthropicProcessor.raise_for_status r) (fun _ =>
  bind (AnthropicProcessor.response_json r) (fun result =>
  bind (get result "content" (JArr [])) (fun content =>
  bind (AnthropicProcessor.has_items content) (fun nonempty =>
    if nonempty then
      bind (item0 content) (fun first =>
      bind (get first "text" (JStr "")) (fun t => Returns (Some t)))
    else Returns None)))).

(** The failure shape of the parsing chain. *)
Definition could_not_parse (key : string) (empty : json) (raw : string) : json :=
  JObj [(key, empty); ("error", JStr "Could not parse response");
        ("raw_response", JStr (slice_to 500 raw))].

(** A reply with status 200 whose single content block carries [t]. *)
Definition completion (t : string) : AnthropicProcessor.response :=
  {| AnthropicProcessor.status_code := 200;
     AnthropicProcessor.content :=
       AnthropicProcessor.Document
         (JObj [("content",
                 JArr [JObj [("type", JStr "text"); ("text", JStr t)]])]);
     AnthropicProcessor.status_message := "" |}.

(** A value of the stream, and an element of its [output] list, on which
    the accessors raise nothing but an [Exception]. *)
Definition quiet_item (i : outcome Engine.item) : Prop :=
  match i with
  | Returns (Engine.message content) => Forall contained content
  | Returns (Engine.computer_call_output content) => Forall contained content
  | Returns _ => True
  | Raises e => is_Exception e = true
  end.

Definition quiet_result (r : Engine.result) : Prop :=
  match r with
  | Returns output => Forall quiet_item output
  | Raises e => is_Exception e = true
  end.

(** No collaborator of a run is interrupted by a cancellation. *)
Record no_cancellation (env : Runner.environment) : Prop := {
  nc_new_Computer : contained (Runner.new_Computer env);
  nc_computer_run : contained (Runner.computer_run env);
  nc_makedirs : contained (Runner.makedirs env);
  nc_new_ComputerAgent : contained (Runner.new_ComputerAgent env);
  nc_agent_run : Forall quiet_result (Runner.agent_run env);
  nc_agent_run_end : contained (Runner.agent_run_end env);
  nc_getmtime : forall p, contained (Runner.getmtime (Runner.files env) p);
  nc_read_base64 : forall p, contained (Runner.read_base64 (Runner.files env) p);
  nc_post : forall req, contained (Runner.post env req);
  nc_computer_disconnect : contained (Runner.computer_disconnect env)
}.

(** The oracle of [env] replaced by another one. *)
Definition with_post (post : AnthropicProcessor.oracle) (env : Runner.environment)
  : Runner.environment :=
  {| Runner.settings := Runner.settings env;
     Runner.interpreter := Runner.interpreter env;
     Runner.time := Runner.time env;
     Runner.stops := Runner.stops env;
     Runner.new_Computer := Runner.new_Computer env;
     Runner.computer_run := Runner.computer_run env;
     Runner.trajectory_base := Runner.trajectory_base env;
     Runner.run_id := Runner.run_id env;
     Runner.makedirs := Runner.makedirs env;
     Runner.new_ComputerAgent := Runner.new_ComputerAgent env;
     Runner.agent_run := Runner.agent_run env;
     Runner.agent_run_end := Runner.agent_run_end env;
     Runner.files := Runner.files env;
     Runner.post := post;
     Runner.computer_disconnect := Runner.computer_disconnect env |}.

(** The frame both [run] methods put around their [try] block. *)
Definition framed (env : Runner.environment) (attempt : Runner.M APIResult.t)
  : Runner.M APIResult.t :=
  Runner.returning
    (Block.bindM (Block.update BusAPIService.reset) (fun _ =>
       Block.try_finally
         (Block.try_except_Exception attempt (BusAPIService.on_exception env))
         (Runner.teardown env))).

(** The request [extract_bus_data] posts for a screenshot. *)
Definition bus_request (screenshot_base64 api_key : string)
  : AnthropicProcessor.request :=
  {| AnthropicProcessor.req_timeout := 60%N;
     AnthropicProcessor.req_api_key := api_key;
     AnthropicProcessor.req_max_tokens := 4096%N;
     AnthropicProcessor.req_images := [AnthropicProcessor.image_of screenshot_base64];
     AnthropicProcessor.req_text := AnthropicProcessor.EXTRACTION_PROMPT |}.

(** The error an extraction function reports for an exception of the
    oracle call. *)
Definition oracle_error (e : exn) : string :=
  match e with
  | HTTPStatusError status_code _ => ("API error: " ++ str_nat status_code)%string
  | _ => str_exn e
  end.

(** The oracle call fails softly, and the value the failure leaves an
    extraction function to return: the transport raises an [Exception], the
    status is outside 2xx, the body is not a document, or the text of the
    reply neither parses nor holds a fenced block or an object with the
    key. *)
Inductive soft_failure (py : interpreter) (key : string) (object_re : Re.regex)
          (o : outcome AnthropicProcessor.response) : json -> Prop :=
| transport_failed e :
    o = Raises e -> is_Exception e = true ->
    soft_failure py key object_re o
      (JObj [(key, JArr []); ("error", JStr (oracle_error e))])
| status_refused reply :
    o = Returns reply ->
    (200 <=? AnthropicProcessor.status_code reply)
      && (AnthropicProcessor.status_code reply <? 300) = false ->
    soft_failure py key object_re o
      (JObj [(key, JArr []);
             ("error",
              JStr ("API error: "
                      ++ str_nat (AnthropicProcessor.status_code reply)))])
| body_refused reply cls msg :
    o = Returns reply ->
    (200 <=? AnthropicProcessor.status_code reply)
      && (AnthropicProcessor.status_code reply <? 300) = true ->
    AnthropicProcessor.content reply = AnthropicProcessor.Undecodable cls msg ->
    soft_failure py key object_re o (JObj [(key, JArr []); ("error", JStr msg)])
| could_not_decode reply t m :
    o = Returns reply ->
    text_response reply = Returns (Some (JStr t)) ->
    Json.loads_str py t = Raises (JSONDecodeError m) ->
    Re.search AnthropicProcessor.code_block_re t = None ->
    Re.search object_re t = None ->
    soft_failure py key object_re o (could_not_parse key (JArr []) t).

(** The soft-failure shape: the key mapped to an empty list, then an error. *)
Definition failed_softly (key : string) (v : json) : Prop :=
  exists msg extra, v = JObj ((key, JArr []) :: ("error", JStr msg) :: extra).

(** The pattern [_get_latest_screenshot] and [_get_all_screenshots] glob. *)
Definition png_pattern (path : string) : string :=
  Runner.path_join (Runner.path_join path "**") "*.png".

(** The part of [run] up to the end of the stream, by class of runner. *)
Definition connect_and_observe_of (c : WebSocketHandler.runner_class)
           (env : Runner.environment) : Runner.M unit :=
  match c with
  | WebSocketHandler.bus_runner => BusAPIService.connect_and_observe env
  | WebSocketHandler.contingency_runner =>
      ContingencyAPIService.connect_and_observe env
  end.

(** The result a returned [try] block leads to: its fields, with the log
    list of the object after the [finally] block. *)
Definition completed (r0 : APIResult.t) (s2 : Runner.self) : APIResult.t :=
  {| APIResult.status := APIResult.status r0;
     APIResult.data := APIResult.data r0;
     APIResult.error := APIResult.error r0;
     APIResult.logs := Runner.logs s2;
     APIResult.final_screenshot := APIResult.final_screenshot r0 |}.

(** The [try] block of [run], by class of runner. *)
Definition attempt_of (c : WebSocketHandler.runner_class)
           (env : Runner.environment) : Runner.M APIResult.t :=
  match c with
  | WebSocketHandler.bus_runner =>
      Block.bindM (BusAPIService.connect_and_observe env)
                  (fun _ => BusAPIService.collect_and_extract env)
  | WebSocketHandler.contingency_runner =>
      Block.bindM (ContingencyAPIService.connect_and_observe env)
                  (fun _ => ContingencyAPIService.collect_and_extract env)
  end.

(** The branch either runner takes when it finds no screenshot, from the
    object as the stream left it. *)
Definition reports_missing (c : WebSocketHandler.runner_class)
           (env : Runner.environment) (s0 : Runner.self)
  : outcome APIResult.t * Runner.self :=
  match c with
  | WebSocketHandler.bus_runner =>
      BusAPIService.no_screenshot env (Runner.set_final_screenshot None s0)
  | WebSocketHandler.contingency_runner =>
      ContingencyAPIService.no_screenshots env s0
  end.

(** The order of [sort] on elements paired with their keys. *)
Definition by_key {A : Type} (a b : Z * A) : Prop := (fst a <= fst b)%Z.

(** The data URL a runner builds for a file it read. *)
Definition data_url (image_data : string) : string :=
  ("data:image/png;base64," ++ image_data)%string.

(** The record of one [send_json] call on a channel. *)
Definition attempt_on {Data : Type}
           (transport : ConnectionManager.WebSocket -> Data -> outcome unit)
           (data : Data) (websocket : ConnectionManager.WebSocket)
  : @ConnectionManager.call Data :=
  {| ConnectionManager.to := websocket; ConnectionManager.frame := data;
     ConnectionManager.delivered := returned (transport websocket data) |}.

(** The call on a channel returned. *)
Definition accepted {Data : Type}
           (transport : ConnectionManager.WebSocket -> Data -> outcome unit)
           (data : Data) (websocket : ConnectionManager.WebSocket) : bool :=
  returned (transport websocket data).

(** What [disconnect] makes of the list of connections. *)
Definition without (websocket : ConnectionManager.WebSocket)
           (l : list ConnectionManager.WebSocket) : list ConnectionManager.WebSocket :=
  if ConnectionManager.registered websocket l
  then ConnectionManager.remove_first websocket l else l.

(** The [send_json] call that [send] makes on a manager [m]. *)
Definition sent (websocket : ConnectionManager.WebSocket)
           (transport : ConnectionManager.WebSocket -> WebSocketMessage.t -> outcome unit)
           (time : nat -> Z) (m : @ConnectionManager.self WebSocketMessage.t)
           (type : MessageType.t) (payload : WebSocketMessage.payload)
  : @ConnectionManager.call WebSocketMessage.t :=
  let frame := {| WebSocketMessage.type := type;
                  WebSocketMessage.payload_ := payload;
                  WebSocketMessage.timestamp :=
                    time (List.length (ConnectionManager.calls m)) |} in
  {| ConnectionManager.to := websocket;
     ConnectionManager.frame := frame;
     ConnectionManager.delivered := returned (transport websocket frame) |}.

(** Every [run()] call on record is on a runner that exists, and no runner
    has two of them. *)
Definition run_once (s : WebSocketHandler.self) : Prop :=
  NoDup (WebSocketHandler.run_calls s)
  /\ Forall (fun a => a < List.length (WebSocketHandler.runners s))
            (WebSocketHandler.run_calls s).

(** A block of the handler that makes no [run()] call and creates no
    runner. *)
Definition keeps_runs {A : Type} (m : WebSocketHandler.H A) : Prop :=
  forall s,
    List.length (WebSocketHandler.runners (snd (m s)))
    = List.length (WebSocketHandler.runners s)
    /\ WebSocketHandler.run_calls (snd (m s)) = WebSocketHandler.run_calls s.

(** The task [t] is the closure [run_api] of this endpoint, suspended inside
    the [run()] of the runner at [a]. *)
Definition inside_run (t : nat) (endpoint : json) (a : nat)
           (s : WebSocketHandler.self) : Prop :=
  nth_error (WebSocketHandler.tasks s) t
  = Some {| WebSocketHandler.coro := WebSocketHandler.run_api endpoint;
            WebSocketHandler.state := WebSocketHandler.suspended (Some a) true |}
  /\ a < List.length (WebSocketHandler.runners s).

(** The task [t] is over and the runner at [a] is not running. *)
Definition settled (t : nat) (endpoint : json) (a : nat)
           (s : WebSocketHandler.self) : Prop :=
  nth_error (WebSocketHandler.tasks s) t
  = Some {| WebSocketHandler.coro := WebSocketHandler.run_api endpoint;
            WebSocketHandler.state := WebSocketHandler.finished |}
  /\ exists x, nth_error (WebSocketHandler.runners s) a = Some x
               /\ Runner.is_running (WebSocketHandler.object x) = false.

(** What leaving [run()] through its [finally] makes of a runner. *)
Definition torn_down (x : WebSocketHandler.runner) : WebSocketHandler.runner :=
  WebSocketHandler.set_object
    (snd (Runner.teardown (WebSocketHandler.world x) (WebSocketHandler.object x))) x.

(** An evaluation that returns a [dict] when it returns. *)
Definition yields_dict (o : outcome json) : Prop :=
  match o with
  | Returns v => is_dict v = true
  | Raises _ => True
  end.

(** From [s] to [s'] the runner only logged: entries were appended to
    [logs], and the same entries were handed to the callback when there is
    one. *)
Definition appends (s s' : Runner.self) : Prop :=
  Runner.log_callback s' = Runner.log_callback s
  /\ exists l,
      Runner.logs s' = Runner.logs s ++ l
      /\ Runner.dispatched s'
         = Runner.dispatched s ++ (if Runner.log_callback s then l else []).

Definition appendsM {A : Type} (m : Runner.M A) : Prop :=
  forall s, appends s (snd (m s)).

(** The collaborators a run turns to after the sandbox is connected,
    replaced by others. *)
Definition with_later (makedirs new_ComputerAgent : outcome unit)
           (agent_run : list Engine.result) (agent_run_end : outcome unit)
           (files : Runner.filesystem) (post : AnthropicProcessor.oracle)
           (env : Runner.environment) : Runner.environment :=
  {| Runner.settings := Runner.settings env;
     Runner.interpreter := Runner.interpreter env;
     Runner.time := Runner.time env;
     Runner.stops := Runner.stops env;
     Runner.new_Computer := Runner.new_Computer env;
     Runner.computer_run := Runner.computer_run env;
     Runner.trajectory_base := Runner.trajectory_base env;
     Runner.run_id := Runner.run_id env;
     Runner.makedirs := makedirs;
     Runner.new_ComputerAgent := new_ComputerAgent;
     Runner.agent_run := agent_run;
     Runner.agent_run_end := agent_run_end;
     Runner.files := files;
     Runner.post := post;
     Runner.computer_disconnect := Runner.computer_disconnect env |}.

(** The runner when [computer.run()] is awaited: the computer is set and
    two entries are logged. *)
Definition connecting (env : Runner.environment) (s : Runner.self) : Runner.self :=
  snd (Runner.log env "Starting sandbox connection..." "info"
         (Runner.set_computer
            (Some {| Engine.os_type := "windows";
                     Engine.provider_type := "cloud";
                     Engine.name := Settings.cua_sandbox_name (Runner.settings env);
                     Engine.api_key := Settings.cua_api_key (Runner.settings env) |})
            (snd (Runner.log env "Connecting to Windows sandbox..." "info"
                    (BusAPIService.reset s))))).

(** The two shapes of a result: a success carries a dictionary and a
    screenshot and no error text, an error carries its text and neither. *)
Definition well_formed (r : APIResult.t) : Prop :=
  (APIResult.status r = "success"
   /\ (exists fields, APIResult.data r = Some (JObj fields))
   /\ APIResult.error r = None
   /\ exists screenshot, APIResult.final_screenshot r = Some screenshot)
  \/ (APIResult.status r = "error"
      /\ APIResult.data r = None
      /\ (exists msg, APIResult.error r = Some msg)
      /\ APIResult.final_screenshot r = None).

Definition shapedM (m : Runner.M APIResult.t) : Prop :=
  forall s, match fst (m s) with
            | Returns r => well_formed r
            | Raises _ => True
            end.

(** The entry every run logs first. *)
Definition first_entry (env : Runner.environment) : LogEntry.t :=
  {| LogEntry.timestamp := Runner.time env 0;
     LogEntry.message := "Connecting to Windows sandbox...";
     LogEntry.level := "info" |}.

(** The response a route builds from a result of [run]. *)
Definition response_of (result : APIResult.t) : Routes.Response :=
  {| Routes.status := APIResult.status result;
     Routes.data := APIResult.data result;
     Routes.error := APIResult.error result;
     Routes.logs := Routes.to_response (APIResult.logs result) |}.

(** The same for the stream [run_task] reads. *)
Definition quiet_task_item (i : outcome AgentTask.item) : Prop :=
  match i with
  | Returns (AgentTask.message content) => Forall contained content
  | Returns (AgentTask.computer_call_output content) => Forall contained content
  | Returns (AgentTask.reasoning summary) => Forall contained summary
  | Returns _ => True
  | Raises e => is_Exception e = true
  end.

Definition quiet_task_result (r : AgentTask.result) : Prop :=
  match r with
  | Returns output => Forall quiet_task_item output
  | Raises e => is_Exception e = true
  end.

(** No collaborator of [run_task] is interrupted by a cancellation. *)
Record no_task_cancellation (env : AgentTask.environment) : Prop := {
  ntc_new_Computer : contained (AgentTask.new_Computer env);
  ntc_computer_run : contained (AgentTask.computer_run env);
  ntc_new_ComputerAgent : contained (AgentTask.new_ComputerAgent env);
  ntc_agent_run : Forall quiet_task_result (AgentTask.agent_run env);
  ntc_agent_run_end : contained (AgentTask.agent_run_end env);
  ntc_computer_disconnect : contained (AgentTask.computer_disconnect env)
}.

(** A message that reports progress: neither of the two that end a run. *)
Definition progress (m : WebSocketMessage.t) : Prop :=
  match WebSocketMessage.type m with
  | MessageType.STATUS | MessageType.MESSAGE | MessageType.SCREENSHOT => True
  | _ => False
  end.

(** From [g] on the generator only yielded progress messages. *)
Definition streamsM {A : Type} (m : AgentTask.G A) : Prop :=
  forall g, exists body,
    AgentTask.yielded (snd (m g)) = AgentTask.yielded g ++ body
    /\ Forall progress body.

(** The message that opens every run, for the clock reading it carries. *)
Definition connecting_message (now : Z) : WebSocketMessage.t :=
  {| WebSocketMessage.type := MessageType.STATUS;
     WebSocketMessage.payload_ :=
       WebSocketMessage.StatusPayload
         "connecting" (Some "Connecting to Windows sandbox...");
     WebSocketMessage.timestamp := now |}.

(** What the consumer sees of a message. *)
Definition frame_of (m : WebSocketMessage.t)
  : MessageType.t * WebSocketMessage.payload :=
  (WebSocketMessage.type m, WebSocketMessage.payload_ m).

(** The step numbers of the screenshots among [l], in order. *)
Definition steps (l : list WebSocketMessage.t) : list nat :=
  flat_map (fun m => match WebSocketMessage.payload_ m with
                     | WebSocketMessage.ScreenshotPayload _ step => [step]
                     | _ => []
                     end) l.

(** The screenshots yielded so far are numbered in order, from 1 and up
    to the count of the service. *)
Definition numbered (g : AgentTask.generator) : Prop :=
  StronglySorted le (steps (AgentTask.yielded g))
  /\ Forall (fun step => 1 <= step
                         /\ step <= CUAAgentService.step_count (AgentTask.service g))
            (steps (AgentTask.yielded g)).

(** [numbered] while an item is being read: it has been counted. *)
Definition counted (g : AgentTask.generator) : Prop :=
  numbered g /\ 1 <= CUAAgentService.step_count (AgentTask.service g).

(** A property of the step numbers yielded and of the count only. *)
Definition stable (P : AgentTask.generator -> Prop) : Prop :=
  forall g g',
    steps (AgentTask.yielded g') = steps (AgentTask.yielded g) ->
    CUAAgentService.step_count (AgentTask.service g')
    = CUAAgentService.step_count (AgentTask.service g) ->
    P g -> P g'.

Definition preserves {A : Type} (P : AgentTask.generator -> Prop)
           (m : AgentTask.G A) : Prop :=
  forall g, P g -> P (snd (m g)).

(** A log entry with this text and level is among [l]. *)
Definition logged (message level : string) (l : list LogEntry.t) : Prop :=
  exists e, In e l /\ LogEntry.message e = message /\ LogEntry.level e = level.

End Spec.

(* ================================================================= *)
(** ** Concrete runs *)

Module Examples.
Import Py.

Definition settings : Settings.t :=
  {| Settings.anthropic_api_key := "sk-ant";
     Settings.cua_api_key := "cua-key";
     Settings.cua_sandbox_name := "m-windows-i87anaus";
     Settings.target_url := "https://www.powerworld.com" |}.

(** An interpreter with the defaults of CPython 3.11 and later: integers
    of at most 4300 digits, and room for 900 nested containers when
    [json.loads] is called. *)
Definition cpython : interpreter :=
  {| int_max_str_digits := 4300; recursion_left := 900 |}.

(** A trajectory directory with three screenshots, listed in the order the
    file system happens to give. *)
Definition three_files : Runner.filesystem :=
  {| Runner.exists_ := fun _ => true;
     Runner.glob := fun _ => ["shot_a.png"; "shot_b.png"; "shot_c.png"];
     Runner.getmtime := fun p =>
       Returns (if String.eqb p "shot_a.png" then 20
                else if String.eqb p "shot_b.png" then 30 else 10)%Z;
     Runner.read_base64 := fun p => Returns ("base64/" ++ p)%string |}.

(** The same directory when the run left no screenshot in it. *)
Definition no_files : Runner.filesystem :=
  {| Runner.exists_ := fun _ => true;
     Runner.glob := fun _ => [];
     Runner.getmtime := fun _ => Raises (PyException "FileNotFoundError" "no file");
     Runner.read_base64 := fun _ => Raises (PyException "FileNotFoundError" "no file") |}.

(** The stream of a short session: an action, a message, a screenshot. *)
Definition stream : list Engine.result :=
  [Returns [Returns (Engine.computer_call "click")];
   Returns [Returns (Engine.message
                       [Returns {| Engine.block_text := "Opening the buses dialog";
                                   Engine.block_output_text := "" |}]);
            Returns (Engine.computer_call_output
                       [Returns {| Engine.output_type := "computer_screenshot";
                                   Engine.image_url := "data:image/png;base64,AAAA" |}])]].

(** A run in which every collaborator answers; the oracle's answer,
    the file system and the connection are the parameters. *)
Definition environment (computer_run : outcome unit) (files : Runner.filesystem)
           (post : AnthropicProcessor.oracle) : Runner.environment :=
  {| Runner.settings := settings;
     Runner.interpreter := cpython;
     Runner.time := fun n => Z.of_nat n;
     Runner.stops := fun _ => 0;
     Runner.new_Computer := Returns tt;
     Runner.computer_run := computer_run;
     Runner.trajectory_base := "trajectories";
     Runner.run_id := "20250101_120000";
     Runner.makedirs := Returns tt;
     Runner.new_ComputerAgent := Returns tt;
     Runner.agent_run := stream;
     Runner.agent_run_end := Returns tt;
     Runner.files := files;
     Runner.post := post;
     Runner.computer_disconnect := Returns tt |}.

(** A stream as [run_task] reads it: an action and its screenshot, then a
    text of the agent. *)
Definition task_stream : list AgentTask.result :=
  [Returns [Returns (AgentTask.computer_call "click");
            Returns (AgentTask.computer_call_output
                       [Returns {| Engine.output_type := "computer_screenshot";
                                   Engine.image_url := "data:image/png;base64,AAAA" |}])];
   Returns [Returns (AgentTask.message
                       [Returns {| AgentTask.block_type := "text";
                                   AgentTask.block_text := "Download started" |}])]].

(** A task in which every collaborator answers; the [stop()] calls and the
    connection are the parameters. *)
Definition task_environment (stops : AgentTask.suspension -> bool)
           (computer_run : outcome unit) : AgentTask.environment :=
  {| AgentTask.settings := settings;
     AgentTask.time := fun n => Z.of_nat n;
     AgentTask.stops := stops;
     AgentTask.new_Computer := Returns tt;
     AgentTask.computer_run := computer_run;
     AgentTask.new_ComputerAgent := Returns tt;
     AgentTask.agent_run := task_stream;
     AgentTask.agent_run_end := Returns tt;
     AgentTask.computer_disconnect := Returns tt |}.

(** A [stop()] arrives while the task waits for the sandbox. *)
Definition stop_while_connecting (p : AgentTask.suspension) : bool :=
  match p with
  | AgentTask.at_computer_run => true
  | _ => false
  end.

(** A fenced block whose object is set off from the fences by no-break
    spaces (U+00A0, the bytes C2 A0). *)
Definition nbsp : string := String (ascii_of_nat 194) (String (ascii_of_nat 160) "").

Definition padded_block : string :=
  ("```json" ++ nbsp ++ "{" ++ AnthropicProcessor.quoted "buses" ++ ": []}"
             ++ nbsp ++ "```")%string.

(** The oracle answers with status 500. *)
Definition status_500 : AnthropicProcessor.oracle :=
  fun _ => Returns {| AnthropicProcessor.status_code := 500;
                      AnthropicProcessor.content :=
                        AnthropicProcessor.Undecodable
                          "JSONDecodeError"
                          "Expecting value: line 1 column 1 (char 0)";
                      AnthropicProcessor.status_message := "Server error" |}.

(** The oracle answers with prose. *)
Definition prose : AnthropicProcessor.oracle :=
  fun _ => Returns (Spec.completion "I cannot read this image").

(** The sandbox cannot be reached. *)
Definition unreachable : outcome unit :=
  Raises (PyException "ConnectionError" "sandbox unreachable").

(** A transport on which the channel [2] is broken. *)
Definition broken_2 (websocket : ConnectionManager.WebSocket) (_ : string)
  : outcome unit :=
  if Nat.eqb websocket 2 then Raises (PyException "RuntimeError" "connection closed")
  else Returns tt.

(** A registry of three channels. *)
Definition three_channels : @ConnectionManager.self string :=
  {| ConnectionManager.active_connections := [1; 2; 3];
     ConnectionManager.calls := [] |}.

(** A connection whose channel takes every frame. *)
Definition accepts (_ : ConnectionManager.WebSocket) : outcome unit := Returns tt.

Definition carries (_ : ConnectionManager.WebSocket) (_ : WebSocketMessage.t)
  : outcome unit := Returns tt.

Definition clock (n : nat) : Z := Z.of_nat n.

Definition repr (_ : json) : string := "None".

(** The text frames of a client. *)
Definition command (type : string) : string :=
  ("{" ++ AnthropicProcessor.quoted "type" ++ ": "
       ++ AnthropicProcessor.quoted type ++ "}")%string.

Definition run_api_command (endpoint : string) : string :=
  ("{" ++ AnthropicProcessor.quoted "type" ++ ": "
       ++ AnthropicProcessor.quoted "run_api" ++ ", "
       ++ AnthropicProcessor.quoted "payload" ++ ": {"
       ++ AnthropicProcessor.quoted "endpoint" ++ ": "
       ++ AnthropicProcessor.quoted endpoint ++ "}}")%string.

(** A session on channel [7]: connected, told to start the agent and to run
    the bus extraction, with both tasks entered and suspended. *)
Definition events : list WebSocketHandler.event :=
  [WebSocketHandler.text_received (command "start_agent");
   WebSocketHandler.task_entered 0 (environment (Returns tt) three_files prose);
   WebSocketHandler.text_received (run_api_command "buses");
   WebSocketHandler.task_entered 1 (environment (Returns tt) three_files prose)].

Definition opened : WebSocketHandler.self :=
  snd (WebSocketHandler.open_connection 7 accepts carries clock
         (WebSocketHandler.__init__ ConnectionManager.__init__)).

Definition session : WebSocketHandler.self :=
  fold_left (fun s e => snd (WebSocketHandler.step 7 carries clock repr cpython e s))
            events opened.

(** The start command sent twice, the second frame handled before the
    event loop has entered the task of the first; then the two tasks are
    entered in the order of their creation. *)
Definition double_start : list WebSocketHandler.event :=
  [WebSocketHandler.text_received (command "start_agent");
   WebSocketHandler.text_received (command "start_agent");
   WebSocketHandler.task_entered 0 (environment (Returns tt) three_files prose);
   WebSocketHandler.task_entered 1 (environment (Returns tt) three_files prose)].

Definition started_twice : WebSocketHandler.self :=
  fold_left (fun s e => snd (WebSocketHandler.step 7 carries clock repr cpython e s))
            double_start opened.

End Examples.

(* ================================================================= *)
(** ** The extraction pipeline *)

Section ExtractionFacts.
Import Py AnthropicProcessor Spec.

Lemma contained_bind {A B : Type} (m : outcome A) (f : A -> outcome B) :
  contained m -> (forall a, contained (f a)) -> contained (bind m f).
Proof.
  intros Hm Hf. destruct m as [a | e]; simpl; [apply Hf | exact Hm].
Qed.

Lemma contained_get v k d : contained (get v k d).
Proof.
  destruct v; simpl; trivial. destruct (dict_lookup k fields); simpl; trivial.
Qed.

Lemma contained_len v : contained (len v).
Proof. destruct v; simpl; trivial. Qed.

Lemma contained_item0 v : contained (item0 v).
Proof.
  destruct v as [ | | | | s | l | d]; simpl; trivial.
  - destruct s; simpl; trivial.
  - destruct l; simpl; trivial.
Qed.

Lemma contained_has_items v : contained (has_items v).
Proof.
  unfold has_items. destruct (truthy v); simpl; trivial.
  apply contained_bind; [apply contained_len | simpl; trivial].
Qed.

(** What [json.loads] raises on a [str] is an [Exception]. *)
Lemma contained_loads_str py s : contained (Json.loads_str py s).
Proof.
  unfold Json.loads_str.
  destruct (Re.strip_prefix Json.BOM s); [exact eq_refl | ].
  destruct (Json.skip_whitespace s 0) as [s1 i1].
  destruct (Json.scan_once py (S (String.length s)) (recursion_left py) s1 i1)
    as [v r i | m i | cls m]; try exact eq_refl.
  destruct (Json.skip_whitespace r i) as [r' i'].
  destruct r'; [exact I | exact eq_refl].
Qed.

Lemma contained_loads py v : contained (Json.loads py v).
Proof. destruct v; simpl; trivial. apply contained_loads_str. Qed.

Lemma contained_response_json r : contained (response_json r).
Proof.
  unfold response_json. destruct (content r) as [v | cls msg]; [exact I | ].
  destruct (String.eqb cls "JSONDecodeError"); exact eq_refl.
Qed.

Lemma contained_re_search r v : contained (re_search r v).
Proof. destruct v; simpl; trivial. Qed.

Lemma contained_slice n v : contained (slice n v).
Proof. destruct v; simpl; trivial. Qed.

Lemma contained_raise_for_status r : contained (raise_for_status r).
Proof.
  unfold raise_for_status.
  destruct ((200 <=? status_code r) && (status_code r <? 300)); simpl; trivial.
Qed.

(** A [try] statement whose clauses contain what they raise contains
    whatever its body contains. *)
Lemma contained_try_except {A : Type} (body : outcome A) clauses :
  contained body ->
  Forall (fun c => forall e, contained (snd c e)) clauses ->
  contained (try_except body clauses).
Proof.
  intros Hb Hc. destruct body as [a | e]; simpl; trivial.
  destruct (find (fun c => fst c e) clauses) as [c | ] eqn:F; simpl; trivial.
  apply find_some in F. destruct F as [Hin _].
  rewrite Forall_forall in Hc. apply Hc. exact Hin.
Qed.

(** The two clauses that close an extraction function turn every
    contained outcome of the body into a returned value. *)
Lemma closing_clauses_return (body : outcome json) (h1 h2 : exn -> json) :
  contained body ->
  exists v,
    try_except body
      [(is_HTTPStatusError, fun e => Returns (h1 e));
       (is_Exception, fun e => Returns (h2 e))] = Returns v.
Proof.
  intros Hb. destruct body as [a | e]; simpl.
  - eauto.
  - simpl in Hb. destruct (is_HTTPStatusError e); simpl; [eauto | ].
    rewrite Hb. simpl. eauto.
Qed.

End ExtractionFacts.

Section ExtractionReturns.
Import Py AnthropicProcessor Spec.

Variable py : interpreter.
Variable post : oracle.
Hypothesis post_contained : forall req, contained (post req).

Ltac contain :=
  repeat first
    [ apply contained_bind; [ | intros ? ]
    | apply contained_try_except
    | apply contained_get | apply contained_len | apply contained_item0
    | apply contained_has_items | apply contained_loads
    | apply contained_loads_str | apply contained_re_search
    | apply contained_slice | apply contained_raise_for_status
    | apply post_contained
    | apply Forall_cons; [ intros ? | ]
    | apply Forall_nil
    | match goal with
      | |- contained (match ?x with _ => _ end) => destruct x
      | |- contained (if ?b then _ else _) => destruct b
      | |- contained (Returns _) => exact I
      end
    | apply contained_response_json ].

(** Whatever the oracle answers, short of a cancellation, the call of
    [extract_bus_data] returns a value. *)
Lemma extract_bus_data_returns screenshot_base64 api_key :
  exists v, extract_bus_data py post screenshot_base64 api_key = Returns v.
Proof. unfold extract_bus_data. apply closing_clauses_return. contain. Qed.

Lemma extract_contingency_data_returns screenshot_base64 api_key :
  exists v, extract_contingency_data py post screenshot_base64 api_key = Returns v.
Proof. unfold extract_contingency_data. apply closing_clauses_return. contain. Qed.

Lemma extract_contingency_data_multi_returns screenshots api_key :
  exists v, extract_contingency_data_multi py post screenshots api_key = Returns v.
Proof.
  unfold extract_contingency_data_multi. apply closing_clauses_return. contain.
Qed.

Lemma extract_grid_data_returns screenshot_base64 api_key :
  exists v, extract_grid_data py post screenshot_base64 api_key = Returns v.
Proof. unfold extract_grid_data. apply closing_clauses_return. contain. Qed.

End ExtractionReturns.

Section ParsingChain.
Import Py AnthropicProcessor Spec.

Lemma bind_returns {A B : Type} (m : outcome A) (f : A -> outcome B) b :
  bind m f = Returns b -> exists a, m = Returns a /\ f a = Returns b.
Proof. destruct m as [a | e]; simpl; intros H; [eauto | discriminate]. Qed.

(** The reading of [text_response] is the prefix of every extraction
    function.  When direct parsing raises [JSONDecodeError] and neither
    pattern occurs in the text, [extract_bus_data] returns the failure
    shape with the first 500 characters of the text. *)
Lemma extract_bus_data_could_not_parse py post screenshot_base64 api_key reply t m :
  post (bus_request screenshot_base64 api_key) = Returns reply ->
  text_response reply = Returns (Some (JStr t)) ->
  Json.loads_str py t = Raises (JSONDecodeError m) ->
  Re.search code_block_re t = None ->
  Re.search (flat_object_re "buses") t = None ->
  extract_bus_data py post screenshot_base64 api_key
  = Returns (could_not_parse "buses" (JArr []) t).
Proof.
  intros Hpost Htext Hloads Hblock Hflat.
  unfold extract_bus_data. fold (bus_request screenshot_base64 api_key).
  rewrite Hpost. simpl bind.
  unfold text_response in Htext.
  destruct (raise_for_status reply) as [[] | e]; simpl in Htext; [ | discriminate].
  simpl bind.
  destruct (response_json reply) as [result | e]; simpl in Htext; [ | discriminate].
  simpl bind.
  destruct (get result "content" (JArr [])) as [content | e];
    simpl in Htext; [ | discriminate].
  simpl bind.
  destruct (has_items content) as [[ | ] | e]; simpl in Htext; try discriminate.
  simpl bind.
  destruct (item0 content) as [first | e]; simpl in Htext; [ | discriminate].
  simpl bind.
  destruct (get first "text" (JStr "")) as [t' | e]; simpl in Htext; [ | discriminate].
  inversion Htext; subst t'. simpl bind.
  simpl Json.loads. rewrite Hloads. simpl.
  rewrite Hblock. simpl. rewrite Hflat. reflexivity.
Qed.

End ParsingChain.

(** C1, at the input where the code departs from it: the oracle answers
    with the text [[]].  Direct parsing succeeds and [extract_grid_data]
    hands the parsed list to its caller: the result is returned without an
    exception, but it is not a dictionary. *)
Theorem extract_grid_data_returns_a_list :
  forall screenshot_base64 api_key,
    Spec.text_response (Spec.completion "[]") = Py.Returns (Some (Py.JStr "[]")) /\
    AnthropicProcessor.extract_grid_data
      Examples.cpython (fun _ => Py.Returns (Spec.completion "[]")) screenshot_base64 api_key
    = Py.Returns (Py.JArr []) /\
    Py.is_dict (Py.JArr []) = false.
Proof. intros. repeat split; vm_compute; reflexivity. Qed.

(** C2, at the input where the code departs from it: on the text
    [```{a}```] direct parsing fails, the fenced block is found but its
    content does not parse, and the pattern for an object with the key does
    not occur; [extract_bus_data] then returns the decoder's message under
    [error], without [raw_response], instead of the failure shape. *)
Theorem unparsable_code_block_skips_failure_shape :
  forall screenshot_base64 api_key,
    let t := "```{a}```" in
    let msg :=
      "Expecting property name enclosed in double quotes: line 1 column 2 (char 1)" in
    Spec.text_response (Spec.completion t) = Py.Returns (Some (Py.JStr t)) /\
    Json.loads_str Examples.cpython t
    = Py.Raises (Py.JSONDecodeError "Expecting value: line 1 column 1 (char 0)") /\
    Re.search AnthropicProcessor.code_block_re t
    = Some {| Re.group0 := t; Re.group1 := Some "{a}" |} /\
    Json.loads_str Examples.cpython "{a}" = Py.Raises (Py.JSONDecodeError msg) /\
    Re.search (AnthropicProcessor.flat_object_re "buses") t = None /\
    AnthropicProcessor.extract_bus_data
      Examples.cpython (fun _ => Py.Returns (Spec.completion t)) screenshot_base64 api_key
    = Py.Returns (Py.JObj [("buses", Py.JArr []); ("error", Py.JStr msg)]) /\
    Py.JObj [("buses", Py.JArr []); ("error", Py.JStr msg)]
    <> Spec.could_not_parse "buses" (Py.JArr []) t.
Proof.
  intros. repeat split; try (vm_compute; reflexivity).
  vm_compute. discriminate.
Qed.

(** Whatever the oracle answers or raises, short of a cancellation, each of
    the four extraction functions returns a value: no exception reaches the
    caller. *)
Theorem extraction_never_raises :
  forall py (post : AnthropicProcessor.oracle) screenshot_base64 screenshots api_key,
    (forall req, Spec.contained (post req)) ->
    (exists v, AnthropicProcessor.extract_bus_data py post screenshot_base64 api_key
               = Py.Returns v)
    /\ (exists v, AnthropicProcessor.extract_contingency_data
                    py post screenshot_base64 api_key = Py.Returns v)
    /\ (exists v, AnthropicProcessor.extract_contingency_data_multi
                    py post screenshots api_key = Py.Returns v)
    /\ (exists v, AnthropicProcessor.extract_grid_data py post screenshot_base64 api_key
                  = Py.Returns v).
Proof.
  intros py post screenshot_base64 screenshots api_key Hpost. repeat split.
  - apply extract_bus_data_returns, Hpost.
  - apply extract_contingency_data_returns, Hpost.
  - apply extract_contingency_data_multi_returns, Hpost.
  - apply extract_grid_data_returns, Hpost.
Qed.

(** An oracle that answers every request with status 500. *)
Lemma extraction_never_raises_witness :
  (forall req, Spec.contained (Examples.status_500 req))
  /\ (exists v, AnthropicProcessor.extract_bus_data Examples.cpython Examples.status_500 "AAAA" "key"
                = Py.Returns v)
  /\ (exists v, AnthropicProcessor.extract_contingency_data
                  Examples.cpython Examples.status_500 "AAAA" "key" = Py.Returns v)
  /\ (exists v, AnthropicProcessor.extract_contingency_data_multi
                  Examples.cpython Examples.status_500 ["AAAA"; "BBBB"] "key" = Py.Returns v)
  /\ (exists v, AnthropicProcessor.extract_grid_data Examples.cpython Examples.status_500 "AAAA" "key"
                = Py.Returns v).
Proof.
  assert (H : forall req, Spec.contained (Examples.status_500 req))
    by (intros req; exact I).
  exact (conj H (extraction_never_raises Examples.cpython Examples.status_500
                   "AAAA" ["AAAA"; "BBBB"] "key" H)).
Defined.

(** When the text of the reply does not parse and neither pattern occurs in
    it, [extract_bus_data] returns the failure shape: the empty list, the
    error "Could not parse response" and the first 500 characters of the
    text. *)
Theorem no_match_gives_failure_shape :
  forall py (post : AnthropicProcessor.oracle) screenshot_base64 api_key reply t m,
    post (Spec.bus_request screenshot_base64 api_key) = Py.Returns reply ->
    Spec.text_response reply = Py.Returns (Some (Py.JStr t)) ->
    Json.loads_str py t = Py.Raises (Py.JSONDecodeError m) ->
    Re.search AnthropicProcessor.code_block_re t = None ->
    Re.search (AnthropicProcessor.flat_object_re "buses") t = None ->
    AnthropicProcessor.extract_bus_data py post screenshot_base64 api_key
    = Py.Returns
        (Py.JObj [("buses", Py.JArr []);
                  ("error", Py.JStr "Could not parse response");
                  ("raw_response", Py.JStr (Py.slice_to 500 t))]).
Proof.
  intros py post screenshot_base64 api_key reply t m H1 H2 H3 H4 H5.
  exact (extract_bus_data_could_not_parse py post screenshot_base64 api_key reply
           t m H1 H2 H3 H4 H5).
Qed.

(** The oracle answers in prose. *)
Lemma no_match_gives_failure_shape_witness :
  Examples.prose (Spec.bus_request "AAAA" "key")
  = Py.Returns (Spec.completion "I cannot read this image")
  /\ Spec.text_response (Spec.completion "I cannot read this image")
     = Py.Returns (Some (Py.JStr "I cannot read this image"))
  /\ Json.loads_str Examples.cpython "I cannot read this image"
     = Py.Raises (Py.JSONDecodeError "Expecting value: line 1 column 1 (char 0)")
  /\ AnthropicProcessor.extract_bus_data Examples.cpython Examples.prose "AAAA" "key"
     = Py.Returns
         (Py.JObj [("buses", Py.JArr []);
                   ("error", Py.JStr "Could not parse response");
                   ("raw_response", Py.JStr "I cannot read this image")]).
Proof.
  assert (H1 : Examples.prose (Spec.bus_request "AAAA" "key")
               = Py.Returns (Spec.completion "I cannot read this image"))
    by reflexivity.
  assert (H2 : Spec.text_response (Spec.completion "I cannot read this image")
               = Py.Returns (Some (Py.JStr "I cannot read this image")))
    by (vm_compute; reflexivity).
  assert (H3 : Json.loads_str Examples.cpython "I cannot read this image"
               = Py.Raises (Py.JSONDecodeError
                              "Expecting value: line 1 column 1 (char 0)"))
    by (vm_compute; reflexivity).
  assert (H4 : Re.search AnthropicProcessor.code_block_re "I cannot read this image"
               = None) by (vm_compute; reflexivity).
  assert (H5 : Re.search (AnthropicProcessor.flat_object_re "buses")
                         "I cannot read this image" = None)
    by (vm_compute; reflexivity).
  exact (conj H1 (conj H2 (conj H3
           (no_match_gives_failure_shape Examples.cpython Examples.prose "AAAA" "key"
              _ _ _
              H1 H2 H3 H4 H5)))).
Defined.

(** The white space of the fenced-block pattern is that of [str.isspace],
    not of ASCII alone: a block padded with no-break spaces is found, and
    the object inside it is what the extraction returns. *)
Example fenced_block_padded_with_no_break_spaces :
  Json.loads_str Examples.cpython Examples.padded_block
  = Py.Raises (Py.JSONDecodeError "Expecting value: line 1 column 1 (char 0)")
  /\ option_map Re.group1
       (Re.search AnthropicProcessor.code_block_re Examples.padded_block)
     = Some (Some ("{" ++ AnthropicProcessor.quoted "buses" ++ ": []}")%string)
  /\ AnthropicProcessor.extract_bus_data
       Examples.cpython (fun _ => Py.Returns (Spec.completion Examples.padded_block))
       "AAAA" "key"
     = Py.Returns (Py.JObj [("buses", Py.JArr [])]).
Proof. repeat split; vm_compute; reflexivity. Qed.

(* ================================================================= *)
(** ** The job runners *)

Section RunnerFacts.
Import Py Block Runner Spec.

Variable env : environment.

Lemma is_running__log now message level s :
  is_running (_log now message level s) = is_running s.
Proof. unfold _log. simpl. destruct (log_callback s); reflexivity. Qed.

Lemma logs__log now message level s :
  logs (_log now message level s)
  = logs s ++ [{| LogEntry.timestamp := now; LogEntry.message := message;
                  LogEntry.level := level |}].
Proof. unfold _log. simpl. destruct (log_callback s); reflexivity. Qed.

Lemma computer__log now message level s :
  computer (_log now message level s) = computer s.
Proof. unfold _log. simpl. destruct (log_callback s); reflexivity. Qed.

Lemma trajectory_path__log now message level s :
  trajectory_path (_log now message level s) = trajectory_path s.
Proof. unfold _log. simpl. destruct (log_callback s); reflexivity. Qed.

(** [stop] calls leave the flag cleared once it is, and only add entries. *)
Lemma interrupted_run p s :
  exists s', interrupted env p s = (Returns tt, s')
             /\ (is_running s = false -> is_running s' = false)
             /\ (exists l, logs s' = logs s ++ l)
             /\ computer s' = computer s
             /\ trajectory_path s' = trajectory_path s.
Proof.
  unfold interrupted, update. eexists. split; [reflexivity | ].
  induction (stops env p) as [ | n IH]; simpl.
  - repeat split; auto. exists []. rewrite app_nil_r. reflexivity.
  - destruct IH as (Hr & (l & Hl) & Hc & Ht).
    unfold stop at 1. simpl. repeat split.
    + rewrite logs__log, Hl, <- app_assoc. eauto.
    + rewrite computer__log. exact Hc.
    + rewrite trajectory_path__log. exact Ht.
Qed.

Lemma await_run {A : Type} p (o : outcome A) s :
  exists s', await env p o s = (o, s')
             /\ (is_running s = false -> is_running s' = false)
             /\ (exists l, logs s' = logs s ++ l)
             /\ computer s' = computer s
             /\ trajectory_path s' = trajectory_path s.
Proof.
  unfold await, bindM, lift.
  destruct (interrupted_run p s) as (s' & E & H).
  rewrite E. exists s'. split; [ | exact H]. reflexivity.
Qed.

Lemma teardown_unfold s :
  teardown env s
  = match computer s with
    | None => (Returns tt, set_is_running false s)
    | Some _ =>
        try_except_Exception
          (bindM (await env at_disconnect (computer_disconnect env))
                 (fun _ => log env "Disconnected from sandbox" "info"))
          (fun _ => ret tt) (set_is_running false s)
    end.
Proof. unfold teardown, bindM, update, read. simpl. destruct (computer s); reflexivity. Qed.

(** The [finally] block always leaves the flag cleared. *)
Lemma teardown_clears s : is_running (snd (teardown env s)) = false.
Proof.
  rewrite teardown_unfold. destruct (computer s); [ | reflexivity].
  unfold try_except_Exception, bindM.
  destruct (await_run at_disconnect (computer_disconnect env)
                      (set_is_running false s)) as (s1 & E & Hr & _).
  rewrite E.
  destruct (computer_disconnect env) as [[] | e].
  - unfold log, update. simpl. rewrite is_running__log. auto.
  - destruct (is_Exception e); simpl; auto.
Qed.

(** When the disconnection is not cancelled the [finally] block ends
    normally; it keeps the entries logged so far. *)
Lemma teardown_returns s :
  contained (computer_disconnect env) ->
  exists s', teardown env s = (Returns tt, s')
             /\ exists l, logs s' = logs s ++ l.
Proof.
  intros Hd. rewrite teardown_unfold. destruct (computer s).
  - unfold try_except_Exception, bindM.
    destruct (await_run at_disconnect (computer_disconnect env)
                        (set_is_running false s)) as (s1 & E & _ & (l & Hl) & _).
    rewrite E.
    destruct (computer_disconnect env) as [[] | e].
    + unfold log, update. eexists. split; [reflexivity | ].
      rewrite logs__log, Hl. simpl. rewrite <- app_assoc. eauto.
    + simpl in Hd. rewrite Hd. simpl. eexists. split; [reflexivity | ].
      rewrite Hl. simpl. eauto.
  - eexists. split; [reflexivity | ]. exists []. simpl. rewrite app_nil_r. reflexivity.
Qed.

Lemma framed_unfold attempt s :
  framed env attempt s
  = returning
      (try_finally (try_except_Exception attempt (BusAPIService.on_exception env))
                   (teardown env))
      (BusAPIService.reset s).
Proof. reflexivity. Qed.

(** Whatever its [try] block does, the frame leaves the flag cleared. *)
Lemma framed_clears attempt s : is_running (snd (framed env attempt s)) = false.
Proof.
  rewrite framed_unfold. unfold returning, try_finally.
  destruct (try_except_Exception attempt (BusAPIService.on_exception env)
              (BusAPIService.reset s)) as [r s1].
  pose proof (teardown_clears s1) as H.
  destruct (teardown env s1) as [[[] | e] s2]; simpl in H.
  - destruct r; simpl; exact H.
  - simpl. exact H.
Qed.

Lemma on_exception_run e s :
  BusAPIService.on_exception env e s
  = (Returns {| APIResult.status := "error"; APIResult.data := None;
                APIResult.error := Some (str_exn e);
                APIResult.logs :=
                  logs (_log (time env (List.length (logs s)))
                             ("Error: " ++ str_exn e)%string "error" s);
                APIResult.final_screenshot := None |},
     _log (time env (List.length (logs s))) ("Error: " ++ str_exn e)%string "error" s).
Proof. reflexivity. Qed.

(** What the frame makes of its [try] block when the block lets no
    cancellation through and the disconnection is not cancelled: the call
    returns; a raised exception becomes an error result that carries its
    message, after an entry at error level; a returned result keeps its
    fields; and the result holds the log list of the object. *)
Lemma framed_returns attempt s :
  contained (computer_disconnect env) ->
  containedM attempt ->
  exists r s',
    framed env attempt s = (Returns r, s')
    /\ is_running s' = false
    /\ APIResult.logs r = logs s'
    /\ (forall e s1, attempt (BusAPIService.reset s) = (Raises e, s1) ->
          APIResult.status r = "error"
          /\ APIResult.data r = None
          /\ APIResult.error r = Some (str_exn e)
          /\ logged ("Error: " ++ str_exn e)%string "error" (APIResult.logs r))
    /\ (forall r0 s1, attempt (BusAPIService.reset s) = (Returns r0, s1) ->
          APIResult.status r = APIResult.status r0
          /\ APIResult.data r = APIResult.data r0
          /\ APIResult.error r = APIResult.error r0
          /\ APIResult.final_screenshot r = APIResult.final_screenshot r0
          /\ exists l, logs s' = logs s1 ++ l).
Proof.
  intros Hd Ha.
  pose proof (framed_clears attempt s) as Hclear.
  rewrite framed_unfold in *. unfold returning, try_finally in *.
  unfold try_except_Exception in *.
  pose proof (Ha (BusAPIService.reset s)) as Hc.
  destruct (attempt (BusAPIService.reset s)) as [[r0 | e] s1] eqn:E.
  - destruct (teardown_returns s1 Hd) as (s2 & T & l & Hl).
    rewrite T in *. simpl in *.
    eexists; eexists. split; [reflexivity | ]. simpl.
    repeat split; auto; try (intros; discriminate);
      match goal with
      | Heq : (_, _) = (_, _) |- _ => inversion Heq; subst
      end; eauto.
  - simpl in Hc. rewrite Hc in *. rewrite on_exception_run in *.
    destruct (teardown_returns
                (_log (time env (List.length (logs s1)))
                      ("Error: " ++ str_exn e)%string "error" s1) Hd)
      as (s2 & T & l & Hl).
    rewrite T in *. simpl in *.
    eexists; eexists. split; [reflexivity | ]. simpl.
    repeat split; auto; try (intros; discriminate);
      match goal with
      | Heq : (_, _) = (_, _) |- _ => inversion Heq; subst
      end; auto.
    rewrite Hl, logs__log.
    eexists. split.
    + apply in_or_app. left. apply in_or_app. right. left. reflexivity.
    + split; reflexivity.
Qed.

End RunnerFacts.

Section Containment.
Import Py Block Runner Spec.

Variable env : environment.
Hypothesis quiet : no_cancellation env.

Lemma containedM_ret {S A : Type} (a : A) : containedM (S := S) (ret a).
Proof. intros s. exact I. Qed.

Lemma containedM_lift {S A : Type} (o : outcome A) :
  contained o -> containedM (S := S) (lift o).
Proof. intros H s. exact H. Qed.

Lemma containedM_update {S : Type} (f : S -> S) : containedM (update f).
Proof. intros s. exact I. Qed.

Lemma containedM_read {S A : Type} (f : S -> A) : containedM (read f).
Proof. intros s. exact I. Qed.

Lemma containedM_raise {S A : Type} e :
  is_Exception e = true -> containedM (S := S) (A := A) (raise e).
Proof. intros H s. exact H. Qed.

Lemma containedM_bind {S A B : Type} (m : Block.M S A) (f : A -> Block.M S B) :
  containedM m -> (forall a, containedM (f a)) -> containedM (bindM m f).
Proof.
  intros Hm Hf s. unfold bindM. specialize (Hm s).
  destruct (m s) as [[a | e] s']; simpl in *; [apply Hf | exact Hm].
Qed.

(** Binding the value of an expression: only the value it has matters. *)
Lemma containedM_bind_lift {S A B : Type} (o : outcome A) (f : A -> Block.M S B) :
  match o with
  | Returns a => containedM (f a)
  | Raises e => is_Exception e = true
  end ->
  containedM (bindM (lift o) f).
Proof.
  intros H s. unfold bindM, lift. destruct o as [a | e]; simpl; [apply H | exact H].
Qed.

Lemma containedM_for_each {S A : Type} (xs : list A) (body : A -> Block.M S unit) :
  Forall (fun x => containedM (body x)) xs -> containedM (for_each xs body).
Proof.
  induction 1 as [ | x xs Hx _ IH]; simpl.
  - apply containedM_ret.
  - apply containedM_bind; [exact Hx | intros _; exact IH].
Qed.

Lemma containedM_log message level : containedM (log env message level).
Proof. intros s. exact I. Qed.

Lemma containedM_interrupted p : containedM (interrupted env p).
Proof. intros s. exact I. Qed.

Lemma containedM_await {A : Type} p (o : outcome A) :
  contained o -> containedM (await env p o).
Proof.
  intros H. apply containedM_bind; [apply containedM_interrupted | ].
  intros _. apply containedM_lift. exact H.
Qed.

Lemma containedM_initialize : containedM (initialize env).
Proof.
  unfold initialize.
  apply containedM_bind; [apply containedM_log | intros _].
  apply containedM_bind; [ | intros _; apply containedM_update].
  apply containedM_lift. apply (nc_new_Computer _ quiet).
Qed.

Lemma containedM_create_agent prefix budget :
  containedM (create_agent env prefix budget).
Proof.
  unfold create_agent.
  apply containedM_bind; [apply containedM_read | intros [c | ]].
  - apply containedM_bind; [apply containedM_log | intros _].
    apply containedM_bind; [apply containedM_update | intros _].
    apply containedM_bind;
      [apply containedM_lift; apply (nc_makedirs _ quiet) | intros _].
    apply containedM_bind; [apply containedM_log | intros _].
    apply containedM_bind;
      [apply containedM_lift; apply (nc_new_ComputerAgent _ quiet) | intros _].
    apply containedM_update.
  - apply containedM_raise. reflexivity.
Qed.

Lemma containedM_log_message content :
  Forall contained content -> containedM (log_message env content).
Proof.
  intros H. unfold log_message. apply containedM_for_each.
  induction H as [ | b bs Hb _ IH].
  - constructor.
  - constructor; [ | exact IH].
    apply containedM_bind; [apply containedM_lift; exact Hb | intros block].
    destruct (String.eqb (text_of block) "");
      [apply containedM_ret | apply containedM_log].
Qed.

(** The loop over the stream, for a loop body that contains what the
    values of the stream make it raise. *)
Lemma containedM_observe on_item :
  (forall item, quiet_item (Returns item) -> containedM (on_item item)) ->
  forall results n,
    Forall quiet_result results -> containedM (observe env n results on_item).
Proof.
  intros Hitem results. induction results as [ | r rest IH]; intros n H; simpl.
  - apply containedM_await. apply (nc_agent_run_end _ quiet).
  - inversion H as [ | ? ? Hr Hrest]; subst.
    apply containedM_bind; [apply containedM_interrupted | intros _].
    apply containedM_bind; [apply containedM_read | intros running].
    destruct running; simpl; [ | apply containedM_ret].
    apply containedM_bind_lift. destruct r as [output | e]; [ | exact Hr].
    apply containedM_bind; [ | intros _; apply IH; exact Hrest].
    apply containedM_for_each. simpl in Hr. clear H.
    induction Hr as [ | i is_ Hi _ IHi].
    + constructor.
    + constructor; [ | exact IHi].
      apply containedM_bind_lift. destruct i as [item | e]; [ | exact Hi].
      apply Hitem. exact Hi.
Qed.

Lemma quiet_stream : Forall quiet_result (agent_run env).
Proof. exact (nc_agent_run _ quiet). Qed.

Lemma contained_max_from {A : Type} (key : A -> outcome Z) xs :
  (forall x, contained (key x)) ->
  forall best kbest, contained (max_from key best kbest xs).
Proof.
  intros Hk. induction xs as [ | x xs IH]; intros best kbest; simpl; [exact I | ].
  apply contained_bind; [apply Hk | intros k].
  destruct (kbest <? k)%Z; apply IH.
Qed.

Lemma contained_max_by {A : Type} (key : A -> outcome Z) xs :
  (forall x, contained (key x)) -> contained (max_by key xs).
Proof.
  intros Hk. destruct xs as [ | x xs]; simpl; [reflexivity | ].
  apply contained_bind; [apply Hk | intros k]. apply contained_max_from. exact Hk.
Qed.

Lemma contained_keyed {A : Type} (key : A -> outcome Z) xs :
  (forall x, contained (key x)) -> contained (keyed key xs).
Proof.
  intros Hk. induction xs as [ | x xs IH]; simpl; [exact I | ].
  apply contained_bind; [apply Hk | intros k].
  apply contained_bind; [exact IH | intros ks; exact I].
Qed.

Lemma contained_sort_by {A : Type} (key : A -> outcome Z) xs :
  (forall x, contained (key x)) -> contained (sort_by key xs).
Proof.
  intros Hk. unfold sort_by.
  apply contained_bind; [apply contained_keyed; exact Hk | intros ks; exact I].
Qed.

Lemma containedM__get_latest_screenshot :
  containedM (BusAPIService._get_latest_screenshot env).
Proof.
  unfold BusAPIService._get_latest_screenshot.
  apply containedM_bind; [apply containedM_read | intros [path | ]];
    [ | apply containedM_ret].
  destruct (String.eqb path "" || negb (exists_ (files env) path));
    [apply containedM_ret | ].
  destruct (glob (files env) (path_join (path_join path "**") "*.png"))
    as [ | p ps]; [apply containedM_ret | ].
  apply containedM_bind; [ | intros latest].
  - apply containedM_lift. apply contained_max_by. apply (nc_getmtime _ quiet).
  - apply containedM_bind; [apply containedM_log | intros _].
    apply containedM_bind; [ | intros image_data; apply containedM_ret].
    apply containedM_lift. apply (nc_read_base64 _ quiet).
Qed.

Lemma containedM__get_all_screenshots :
  containedM (ContingencyAPIService._get_all_screenshots env).
Proof.
  unfold ContingencyAPIService._get_all_screenshots.
  apply containedM_bind; [apply containedM_read | intros [path | ]];
    [ | apply containedM_ret].
  destruct (String.eqb path "" || negb (exists_ (files env) path));
    [apply containedM_ret | ].
  destruct (glob (files env) (path_join (path_join path "**") "*.png"))
    as [ | p ps]; [apply containedM_ret | ].
  apply containedM_bind; [ | intros sorted].
  - apply containedM_lift. apply contained_sort_by. apply (nc_getmtime _ quiet).
  - apply containedM_bind; [ | intros result].
    + apply containedM_lift.
      induction sorted as [ | x xs IH]; simpl; [exact I | ].
      apply contained_bind; [apply (nc_read_base64 _ quiet) | intros image_data].
      apply contained_bind; [exact IH | intros rest; exact I].
    + apply containedM_bind; [apply containedM_log | intros _; apply containedM_ret].
Qed.

Lemma containedM_bus_on_item item :
  quiet_item (Returns item) -> containedM (BusAPIService.on_item env item).
Proof.
  intros H. destruct item as [content | content | action | summary | type]; simpl.
  - apply containedM_log_message. exact H.
  - apply containedM_for_each. simpl in H.
    induction H as [ | o os Ho _ IH].
    + constructor.
    + constructor; [ | exact IH].
      apply containedM_bind_lift. destruct o as [output_item | e]; [ | exact Ho].
      destruct (String.eqb (Engine.output_type output_item) "computer_screenshot"
                || String.eqb (Engine.output_type output_item) "input_image");
        [ | apply containedM_ret].
      destruct (String.eqb (Engine.image_url output_item) "");
        [apply containedM_ret | ].
      apply containedM_bind;
        [apply containedM_update | intros _; apply containedM_log].
  - apply containedM_log.
  - apply containedM_ret.
  - apply containedM_ret.
Qed.

Lemma containedM_contingency_on_item item :
  quiet_item (Returns item) -> containedM (ContingencyAPIService.on_item env item).
Proof.
  intros H. destruct item as [content | content | action | summary | type]; simpl.
  - apply containedM_log_message. exact H.
  - apply containedM_ret.
  - apply containedM_log.
  - apply containedM_ret.
  - apply containedM_ret.
Qed.

Lemma containedM_bus_connect_and_observe :
  containedM (BusAPIService.connect_and_observe env).
Proof.
  unfold BusAPIService.connect_and_observe.
  apply containedM_bind; [apply containedM_initialize | intros _].
  apply containedM_bind; [apply containedM_log | intros _].
  apply containedM_bind;
    [apply containedM_await; apply (nc_computer_run _ quiet) | intros _].
  apply containedM_bind; [apply containedM_log | intros _].
  apply containedM_bind; [apply containedM_create_agent | intros _].
  apply containedM_bind; [apply containedM_log | intros _].
  apply containedM_bind; [ | intros _; apply containedM_log].
  apply containedM_observe; [apply containedM_bus_on_item | apply quiet_stream].
Qed.

Lemma containedM_contingency_connect_and_observe :
  containedM (ContingencyAPIService.connect_and_observe env).
Proof.
  unfold ContingencyAPIService.connect_and_observe.
  apply containedM_bind; [apply containedM_initialize | intros _].
  apply containedM_bind; [apply containedM_log | intros _].
  apply containedM_bind;
    [apply containedM_await; apply (nc_computer_run _ quiet) | intros _].
  apply containedM_bind; [apply containedM_log | intros _].
  apply containedM_bind; [apply containedM_create_agent | intros _].
  apply containedM_bind; [apply containedM_log | intros _].
  apply containedM_bind; [ | intros _; apply containedM_log].
  apply containedM_observe; [apply containedM_contingency_on_item | apply quiet_stream].
Qed.

Lemma containedM_bus_extract screenshot :
  containedM (BusAPIService.extract env screenshot).
Proof.
  unfold BusAPIService.extract.
  apply containedM_bind; [apply containedM_log | intros _].
  apply containedM_bind; [ | intros bus_data].
  - apply containedM_await.
    destruct (extract_bus_data_returns (interpreter env) (post env) (nc_post _ quiet) screenshot
                (Settings.anthropic_api_key (settings env))) as [v Hv].
    rewrite Hv. exact I.
  - apply containedM_bind; [apply containedM_lift; apply contained_get | intros buses].
    apply containedM_bind; [apply containedM_lift; apply contained_len | intros n].
    apply containedM_bind; [apply containedM_log | intros _].
    apply containedM_bind; [apply containedM_read | intros l; apply containedM_ret].
Qed.

Lemma containedM_bus_no_screenshot : containedM (BusAPIService.no_screenshot env).
Proof.
  unfold BusAPIService.no_screenshot.
  apply containedM_bind; [apply containedM_read | intros p].
  apply containedM_bind; [apply containedM_log | intros _].
  apply containedM_bind; [apply containedM_read | intros l; apply containedM_ret].
Qed.

Lemma containedM_bus_attempt :
  containedM (bindM (BusAPIService.connect_and_observe env)
                    (fun _ => BusAPIService.collect_and_extract env)).
Proof.
  apply containedM_bind; [apply containedM_bus_connect_and_observe | intros _].
  unfold BusAPIService.collect_and_extract.
  apply containedM_bind; [apply containedM__get_latest_screenshot | intros shot].
  apply containedM_bind; [apply containedM_update | intros _].
  destruct shot as [screenshot | ]; [ | apply containedM_bus_no_screenshot].
  destruct (String.eqb screenshot "");
    [apply containedM_bus_no_screenshot | apply containedM_bus_extract].
Qed.

Lemma containedM_contingency_attempt :
  containedM (bindM (ContingencyAPIService.connect_and_observe env)
                    (fun _ => ContingencyAPIService.collect_and_extract env)).
Proof.
  apply containedM_bind; [apply containedM_contingency_connect_and_observe | intros _].
  unfold ContingencyAPIService.collect_and_extract.
  apply containedM_bind; [apply containedM__get_all_screenshots | intros shots].
  destruct shots as [ | shot shots].
  - unfold ContingencyAPIService.no_screenshots.
    apply containedM_bind; [apply containedM_read | intros p].
    apply containedM_bind; [apply containedM_log | intros _].
    apply containedM_bind; [apply containedM_read | intros l; apply containedM_ret].
  - unfold ContingencyAPIService.extract.
    apply containedM_bind; [apply containedM_log | intros _].
    apply containedM_bind; [ | intros contingency_data].
    + apply containedM_await.
      destruct (extract_contingency_data_multi_returns (interpreter env) (post env)
                  (nc_post _ quiet)
                  (shot :: shots) (Settings.anthropic_api_key (settings env)))
        as [v Hv].
      rewrite Hv. exact I.
    + apply containedM_bind; [apply containedM_lift; apply contained_get | intros c].
      apply containedM_bind; [apply containedM_lift; apply contained_len | intros n].
      apply containedM_bind; [apply containedM_log | intros _].
      apply containedM_bind; [apply containedM_read | intros l; apply containedM_ret].
Qed.

End Containment.

Section RunFacts.
Import Py Block Runner Spec.

Lemma bus_run_framed env :
  BusAPIService.run env
  = framed env (bindM (BusAPIService.connect_and_observe env)
                      (fun _ => BusAPIService.collect_and_extract env)).
Proof. reflexivity. Qed.

Lemma contingency_run_framed env :
  ContingencyAPIService.run env
  = framed env (bindM (ContingencyAPIService.connect_and_observe env)
                      (fun _ => ContingencyAPIService.collect_and_extract env)).
Proof. reflexivity. Qed.

Lemma no_cancellation_example computer_run files post :
  contained computer_run ->
  (forall p, contained (getmtime files p)) ->
  (forall p, contained (read_base64 files p)) ->
  (forall req, contained (post req)) ->
  no_cancellation (Examples.environment computer_run files post).
Proof.
  intros Hc Hm Hr Hp. constructor; simpl; auto.
  repeat constructor.
Qed.

End RunFacts.

(** C4, as amended: the conversion covers the exceptions that derive from
    [Exception], which is what [except Exception] catches.  When every
    exception a collaborator raises is one of those, [run] of either runner
    returns a result whose log list is the one of the object; and when its
    [try] block (connect, configure, dispatch and observe, collect, extract)
    raises an exception [e], the result has status ["error"], carries
    [str(e)] as its error, and the log holds an entry at error level for
    it. *)
Theorem run_converts_exceptions :
  forall env s,
    Spec.no_cancellation env ->
    (exists r s',
        BusAPIService.run env s = (Py.Returns r, s')
        /\ APIResult.logs r = Runner.logs s'
        /\ forall e s1,
            Block.bindM (BusAPIService.connect_and_observe env)
                        (fun _ => BusAPIService.collect_and_extract env)
                        (BusAPIService.reset s) = (Py.Raises e, s1) ->
            APIResult.status r = "error"
            /\ APIResult.error r = Some (Py.str_exn e)
            /\ Spec.logged ("Error: " ++ Py.str_exn e)%string "error" (APIResult.logs r))
    /\ (exists r s',
        ContingencyAPIService.run env s = (Py.Returns r, s')
        /\ APIResult.logs r = Runner.logs s'
        /\ forall e s1,
            Block.bindM (ContingencyAPIService.connect_and_observe env)
                        (fun _ => ContingencyAPIService.collect_and_extract env)
                        (ContingencyAPIService.reset s) = (Py.Raises e, s1) ->
            APIResult.status r = "error"
            /\ APIResult.error r = Some (Py.str_exn e)
            /\ Spec.logged ("Error: " ++ Py.str_exn e)%string "error" (APIResult.logs r)).
Proof.
  intros env s Hq. split.
  - rewrite bus_run_framed.
    destruct (framed_returns env _ s (Spec.nc_computer_disconnect _ Hq)
                (containedM_bus_attempt env Hq))
      as (r & s' & Hrun & _ & Hlogs & Hraise & _).
    exists r, s'. repeat split; auto; apply (Hraise e s1); assumption.
  - rewrite contingency_run_framed.
    destruct (framed_returns env _ s (Spec.nc_computer_disconnect _ Hq)
                (containedM_contingency_attempt env Hq))
      as (r & s' & Hrun & _ & Hlogs & Hraise & _).
    exists r, s'. repeat split; auto; apply (Hraise e s1); assumption.
Qed.

(** The sandbox cannot be reached: [computer.run()] raises, and the call of
    [run] returns the error result. *)
Lemma run_converts_exceptions_witness :
  let env := Examples.environment Examples.unreachable Examples.three_files
                                  Examples.prose in
  let s := Runner.__init__ false in
  let e := Py.PyException "ConnectionError" "sandbox unreachable" in
  Spec.no_cancellation env
  /\ (exists s1,
         Block.bindM (BusAPIService.connect_and_observe env)
                     (fun _ => BusAPIService.collect_and_extract env)
                     (BusAPIService.reset s) = (Py.Raises e, s1))
  /\ exists r s',
      BusAPIService.run env s = (Py.Returns r, s')
      /\ APIResult.status r = "error"
      /\ APIResult.error r = Some "sandbox unreachable"
      /\ Spec.logged "Error: sandbox unreachable" "error" (APIResult.logs r).
Proof.
  intros env s e.
  assert (Hq : Spec.no_cancellation env).
  { constructor; simpl; auto. repeat constructor. }
  assert (Ha : exists s1,
             Block.bindM (BusAPIService.connect_and_observe env)
                         (fun _ => BusAPIService.collect_and_extract env)
                         (BusAPIService.reset s) = (Py.Raises e, s1)).
  { eexists. vm_compute. reflexivity. }
  split; [exact Hq | split; [exact Ha | ] ].
  destruct Ha as [s1 Ha].
  destruct (run_converts_exceptions env s Hq) as [(r & s' & Hrun & _ & Hraise) _].
  destruct (Hraise e s1 Ha) as (Hstatus & Herror & Hlogged).
  exists r, s'. repeat split; assumption.
Defined.

(** C4, the case the claim does not survive: the task is cancelled while
    [run] awaits the sandbox, so [await self.computer.run()] raises
    [asyncio.CancelledError].  That is a [BaseException]: the clause
    [except Exception] lets it pass, the [finally] block runs (the flag is
    cleared, the sandbox disconnected), and the exception leaves [run] of
    either runner.  No result is returned and none of the three log entries
    is at error level. *)
Lemma cancellation_leaves_run :
  let env := Examples.environment (Py.Raises Py.CancelledError) Examples.three_files
                                  Examples.prose in
  let s := Runner.__init__ false in
  Py.is_Exception Py.CancelledError = false
  /\ fst (BusAPIService.run env s) = Py.Raises Py.CancelledError
  /\ fst (ContingencyAPIService.run env s) = Py.Raises Py.CancelledError
  /\ Runner.is_running (snd (BusAPIService.run env s)) = false
  /\ map LogEntry.level (Runner.logs (snd (BusAPIService.run env s)))
     = ["info"; "info"; "info"]
  /\ map LogEntry.level (Runner.logs (snd (ContingencyAPIService.run env s)))
     = ["info"; "info"; "info"].
Proof. vm_compute. repeat split. Qed.

Section RunOutcomes.
Import Py Block Runner Spec.

Variable env : environment.

Lemma framed_of_returned attempt s r0 s1 :
  attempt (BusAPIService.reset s) = (Returns r0, s1) ->
  framed env attempt s
  = match teardown env s1 with
    | (Returns _, s2) => (Returns (completed r0 s2), s2)
    | (Raises e, s2) => (Raises e, s2)
    end.
Proof.
  intros H. rewrite framed_unfold. unfold returning, try_finally, try_except_Exception.
  rewrite H. destruct (teardown env s1) as [[[] | e] s2]; reflexivity.
Qed.

Lemma _get_latest_screenshot_none s0 :
  (forall path, trajectory_path s0 = Some path ->
                glob (files env) (png_pattern path) = []) ->
  BusAPIService._get_latest_screenshot env s0 = (Returns None, s0).
Proof.
  intros H. unfold BusAPIService._get_latest_screenshot, bindM, read.
  destruct (trajectory_path s0) as [path | ]; [ | reflexivity].
  destruct (String.eqb path "" || negb (exists_ (files env) path)); [reflexivity | ].
  fold (png_pattern path). rewrite (H path eq_refl). reflexivity.
Qed.

Lemma _get_all_screenshots_none s0 :
  (forall path, trajectory_path s0 = Some path ->
                glob (files env) (png_pattern path) = []) ->
  ContingencyAPIService._get_all_screenshots env s0 = (Returns [], s0).
Proof.
  intros H. unfold ContingencyAPIService._get_all_screenshots, bindM, read.
  destruct (trajectory_path s0) as [path | ]; [ | reflexivity].
  destruct (String.eqb path "" || negb (exists_ (files env) path)); [reflexivity | ].
  fold (png_pattern path). rewrite (H path eq_refl). reflexivity.
Qed.

Lemma attempt_without_screenshots c s s0 :
  connect_and_observe_of c env (BusAPIService.reset s) = (Returns tt, s0) ->
  (forall path, trajectory_path s0 = Some path ->
                glob (files env) (png_pattern path) = []) ->
  attempt_of c env (BusAPIService.reset s) = reports_missing c env s0.
Proof.
  intros Hobs Hglob. destruct c; simpl in *; unfold bindM; rewrite Hobs.
  - unfold BusAPIService.collect_and_extract, bindM.
    rewrite (_get_latest_screenshot_none s0 Hglob). reflexivity.
  - unfold ContingencyAPIService.collect_and_extract, bindM.
    rewrite (_get_all_screenshots_none s0 Hglob). reflexivity.
Qed.

(** That branch returns the error result that names the missing
    screenshot. *)
Lemma reports_missing_run c s0 :
  exists r0 s1 msg,
    reports_missing c env s0 = (Returns r0, s1)
    /\ APIResult.status r0 = "error"
    /\ APIResult.error r0 = Some msg
    /\ AnthropicProcessor.contains "No screenshot" msg = true.
Proof.
  destruct c; simpl.
  - unfold BusAPIService.no_screenshot, bindM, read, log, update, ret.
    eexists; eexists; eexists. split; [reflexivity | ]. simpl. repeat split.
  - unfold ContingencyAPIService.no_screenshots, bindM, read, log, update, ret.
    eexists; eexists; eexists. split; [reflexivity | ]. simpl. repeat split.
Qed.

Lemma run_of_framed c : WebSocketHandler.run_of c env = framed env (attempt_of c env).
Proof. destruct c; reflexivity. Qed.

End RunOutcomes.

(** C7.  After the stream has ended, when the trajectory directory of the
    run holds no PNG file, [run] of either runner returns a result with
    status ["error"] whose message contains ["No screenshot"]; and the
    oracle plays no part: with any other oracle the run is the same.  (The
    disconnection of the [finally] block is taken not to be cancelled.) *)
Theorem run_without_screenshots :
  forall c env s s0,
    Spec.contained (Runner.computer_disconnect env) ->
    Spec.connect_and_observe_of c env (BusAPIService.reset s) = (Py.Returns tt, s0) ->
    (forall path, Runner.trajectory_path s0 = Some path ->
                  Runner.glob (Runner.files env) (Spec.png_pattern path) = []) ->
    (exists r s' msg,
        WebSocketHandler.run_of c env s = (Py.Returns r, s')
        /\ APIResult.status r = "error"
        /\ APIResult.error r = Some msg
        /\ AnthropicProcessor.contains "No screenshot" msg = true)
    /\ forall post,
        WebSocketHandler.run_of c (Spec.with_post post env) s
        = WebSocketHandler.run_of c env s.
Proof.
  intros c env s s0 Hd Hobs Hglob.
  pose proof (attempt_without_screenshots env c s s0 Hobs Hglob) as Hatt.
  destruct (reports_missing_run env c s0)
    as (r0 & s1 & msg & Hrep & Hstatus & Herror & Hmsg).
  rewrite Hrep in Hatt.
  destruct (teardown_returns env s1 Hd) as (s2 & Htd & _).
  assert (Hrun : WebSocketHandler.run_of c env s
                 = (Py.Returns (Spec.completed r0 s2), s2)).
  { rewrite run_of_framed, (framed_of_returned env _ s r0 s1 Hatt), Htd.
    reflexivity. }
  split.
  - exists (Spec.completed r0 s2), s2, msg. repeat split; assumption.
  - intros post. rewrite Hrun.
    pose proof (attempt_without_screenshots (Spec.with_post post env) c s s0 Hobs Hglob)
      as Hatt'.
    change (Spec.reports_missing c (Spec.with_post post env) s0)
      with (Spec.reports_missing c env s0) in Hatt'.
    rewrite Hrep in Hatt'.
    rewrite run_of_framed,
      (framed_of_returned (Spec.with_post post env) _ s r0 s1 Hatt').
    change (Runner.teardown (Spec.with_post post env) s1)
      with (Runner.teardown env s1).
    rewrite Htd. reflexivity.
Qed.

(** A run whose trajectory directory stays empty. *)
Lemma run_without_screenshots_witness :
  let env := Examples.environment (Py.Returns tt) Examples.no_files Examples.prose in
  let s := Runner.__init__ false in
  let s0 := snd (Spec.connect_and_observe_of WebSocketHandler.bus_runner env
                   (BusAPIService.reset s)) in
  Spec.contained (Runner.computer_disconnect env)
  /\ Spec.connect_and_observe_of WebSocketHandler.bus_runner env
       (BusAPIService.reset s) = (Py.Returns tt, s0)
  /\ (forall path, Runner.trajectory_path s0 = Some path ->
                   Runner.glob (Runner.files env) (Spec.png_pattern path) = [])
  /\ ((exists r s' msg,
          WebSocketHandler.run_of WebSocketHandler.bus_runner env s = (Py.Returns r, s')
          /\ APIResult.status r = "error"
          /\ APIResult.error r = Some msg
          /\ AnthropicProcessor.contains "No screenshot" msg = true)
      /\ forall post,
          WebSocketHandler.run_of WebSocketHandler.bus_runner
            (Spec.with_post post env) s
          = WebSocketHandler.run_of WebSocketHandler.bus_runner env s).
Proof.
  intros env s s0.
  assert (H1 : Spec.contained (Runner.computer_disconnect env)) by exact I.
  assert (H2 : Spec.connect_and_observe_of WebSocketHandler.bus_runner env
                 (BusAPIService.reset s) = (Py.Returns tt, s0))
    by (vm_compute; reflexivity).
  assert (H3 : forall path, Runner.trajectory_path s0 = Some path ->
                            Runner.glob (Runner.files env) (Spec.png_pattern path) = [])
    by (intros; reflexivity).
  repeat (split; [assumption | ]).
  exact (run_without_screenshots WebSocketHandler.bus_runner env s s0 H1 H2 H3).
Defined.

Section SoftFailure.
Import Py Block Runner AnthropicProcessor Spec.

(** A soft failure of the oracle call comes back from [extract_bus_data]
    as the value the failure determines: the key mapped to an empty list,
    with the error. *)
Lemma extract_bus_data_soft_failure py post screenshot_base64 api_key d :
  soft_failure py "buses" (flat_object_re "buses")
               (post (bus_request screenshot_base64 api_key)) d ->
  extract_bus_data py post screenshot_base64 api_key = Returns d
  /\ failed_softly "buses" d.
Proof.
  intros [e Hpost He | reply Hpost Hstatus | reply cls msg Hpost Hstatus Hbody
          | reply t m Hpost Htext Hloads Hblock Hflat].
  - unfold extract_bus_data. fold (bus_request screenshot_base64 api_key).
    rewrite Hpost. cbn [bind try_except find fst snd].
    destruct e; cbn in He |- *; try discriminate He;
      (split; [reflexivity | eexists; eexists; reflexivity]).
  - unfold extract_bus_data. fold (bus_request screenshot_base64 api_key).
    rewrite Hpost. simpl bind. unfold raise_for_status. rewrite Hstatus. simpl.
    split; [reflexivity | eexists; eexists; reflexivity].
  - unfold extract_bus_data. fold (bus_request screenshot_base64 api_key).
    rewrite Hpost. simpl bind. unfold raise_for_status. rewrite Hstatus.
    simpl bind. unfold response_json. rewrite Hbody.
    destruct (String.eqb cls "JSONDecodeError"); simpl;
      (split; [reflexivity | eexists; eexists; reflexivity]).
  - rewrite (extract_bus_data_could_not_parse py post _ _ reply t m
               Hpost Htext Hloads Hblock Hflat).
    split; [reflexivity | eexists; eexists; reflexivity].
Qed.

Lemma _get_latest_screenshot_data_url env s0 s1 screenshot :
  BusAPIService._get_latest_screenshot env s0 = (Returns (Some screenshot), s1) ->
  String.eqb screenshot "" = false.
Proof.
  unfold BusAPIService._get_latest_screenshot, bindM, read, ret.
  destruct (trajectory_path s0) as [path | ]; [ | discriminate].
  destruct (String.eqb path "" || negb (exists_ (files env) path)); [discriminate | ].
  destruct (glob (files env) (path_join (path_join path "**") "*.png"));
    [discriminate | ].
  unfold lift.
  destruct (max_by (getmtime (files env)) (s :: l)) as [latest | e]; [ | discriminate].
  unfold log, update.
  destruct (read_base64 (files env) latest) as [image_data | e]; [ | discriminate].
  intros H. inversion H. reflexivity.
Qed.

End SoftFailure.

(** C6.  The stream has ended and [_get_latest_screenshot] found a
    screenshot; the oracle call fails softly (transport error, status
    outside 2xx, a body that is no document, or text that cannot be
    parsed).  Then [run] returns a result with status ["success"] and no
    job-level error, whose data is exactly the value the failure leaves
    [extract_bus_data] to return: ["buses"] mapped to an empty list, with
    the oracle's error.  The screenshot is the final screenshot of the
    result and the log says that no bus was extracted.  (The disconnection
    of the [finally] block is taken not to be cancelled.) *)
Theorem soft_oracle_failure_is_job_success :
  forall env s s0 s1 screenshot d,
    Spec.contained (Runner.computer_disconnect env) ->
    BusAPIService.connect_and_observe env (BusAPIService.reset s)
    = (Py.Returns tt, s0) ->
    BusAPIService._get_latest_screenshot env s0 = (Py.Returns (Some screenshot), s1) ->
    Spec.soft_failure (Runner.interpreter env) "buses"
      (AnthropicProcessor.flat_object_re "buses")
      (Runner.post env
         (Spec.bus_request screenshot
            (Settings.anthropic_api_key (Runner.settings env)))) d ->
    exists r s',
      BusAPIService.run env s = (Py.Returns r, s')
      /\ APIResult.status r = "success"
      /\ APIResult.error r = None
      /\ APIResult.data r = Some d
      /\ Spec.failed_softly "buses" d
      /\ APIResult.final_screenshot r = Some screenshot
      /\ Spec.logged "Extracted 0 buses" "info" (APIResult.logs r).
Proof.
  intros env s s0 s1 screenshot d Hd Hobs Hshot Hsoft.
  destruct (extract_bus_data_soft_failure _ (Runner.post env) screenshot _ d Hsoft)
    as (Hextract & msg & extra & Hshape).
  pose proof (_get_latest_screenshot_data_url env s0 s1 screenshot Hshot) as Hnonempty.
  destruct (interrupted_run env Runner.at_extract
              (Runner._log
                 (Runner.time env
                    (List.length (Runner.logs (Runner.set_final_screenshot
                                                 (Some screenshot) s1))))
                 "Sending screenshot to Anthropic for analysis..." "info"
                 (Runner.set_final_screenshot (Some screenshot) s1)))
    as (s2 & Hint & _).
  assert (Hatt : exists r0 s3,
             Spec.attempt_of WebSocketHandler.bus_runner env (BusAPIService.reset s)
             = (Py.Returns r0, s3)
             /\ APIResult.status r0 = "success"
             /\ APIResult.error r0 = None
             /\ APIResult.data r0 = Some d
             /\ APIResult.final_screenshot r0 = Some screenshot
             /\ Spec.logged "Extracted 0 buses" "info" (Runner.logs s3)).
  { simpl. unfold Block.bindM at 1. rewrite Hobs.
    unfold BusAPIService.collect_and_extract, Block.bindM at 1. rewrite Hshot.
    unfold Block.bindM at 1, Block.update at 1. rewrite Hnonempty.
    unfold BusAPIService.extract, Block.bindM at 1, Runner.log at 1, Block.update at 1.
    unfold Block.bindM at 1, Runner.await, Block.bindM at 1. rewrite Hint.
    unfold Block.lift at 1. rewrite Hextract. subst d.
    eexists; eexists. split; [reflexivity | ].
    do 4 (split; [reflexivity | ]).
    eexists. split.
    - cbn [snd]. rewrite logs__log. apply in_or_app. right. left. reflexivity.
    - split; reflexivity. }
  destruct Hatt as (r0 & s3 & Hatt & Hstatus & Herror & Hdata & Hshot' & Hlog).
  destruct (teardown_returns env s3 Hd) as (s4 & Htd & l & Hl).
  exists (Spec.completed r0 s4), s4.
  rewrite bus_run_framed.
  change (Block.bindM (BusAPIService.connect_and_observe env)
                      (fun _ => BusAPIService.collect_and_extract env))
    with (Spec.attempt_of WebSocketHandler.bus_runner env).
  rewrite (framed_of_returned env _ s r0 s3 Hatt), Htd.
  split; [reflexivity | ].
  split; [exact Hstatus | ]. split; [exact Herror | ]. split; [exact Hdata | ].
  split; [exists msg, extra; exact Hshape | ]. split; [exact Hshot' | ].
  cbn [Spec.completed APIResult.logs]. rewrite Hl.
  destruct Hlog as (entry & Hin & Hfields).
  exists entry. split; [apply in_or_app; left; exact Hin | exact Hfields].
Qed.

(** An oracle that answers 500, on a run that found its screenshot. *)
Lemma soft_oracle_failure_is_job_success_witness :
  let env := Examples.environment (Py.Returns tt) Examples.three_files
                                  Examples.status_500 in
  let s := Runner.__init__ false in
  let s0 := snd (BusAPIService.connect_and_observe env (BusAPIService.reset s)) in
  let s1 := snd (BusAPIService._get_latest_screenshot env s0) in
  let screenshot := "data:image/png;base64,base64/shot_b.png" in
  let d := Py.JObj [("buses", Py.JArr []); ("error", Py.JStr "API error: 500")] in
  (Spec.contained (Runner.computer_disconnect env)
   /\ BusAPIService.connect_and_observe env (BusAPIService.reset s)
      = (Py.Returns tt, s0)
   /\ BusAPIService._get_latest_screenshot env s0 = (Py.Returns (Some screenshot), s1)
   /\ Spec.soft_failure (Runner.interpreter env) "buses"
        (AnthropicProcessor.flat_object_re "buses")
        (Runner.post env
           (Spec.bus_request screenshot
              (Settings.anthropic_api_key (Runner.settings env)))) d)
  /\ (exists r s',
         BusAPIService.run env s = (Py.Returns r, s')
         /\ APIResult.status r = "success"
         /\ APIResult.error r = None
         /\ APIResult.data r = Some d
         /\ Spec.failed_softly "buses" d
         /\ APIResult.final_screenshot r = Some screenshot
         /\ Spec.logged "Extracted 0 buses" "info" (APIResult.logs r)).
Proof.
  intros env s s0 s1 screenshot d.
  assert (H1 : Spec.contained (Runner.computer_disconnect env)) by exact I.
  assert (H2 : BusAPIService.connect_and_observe env (BusAPIService.reset s)
               = (Py.Returns tt, s0)) by (vm_compute; reflexivity).
  assert (H3 : BusAPIService._get_latest_screenshot env s0
               = (Py.Returns (Some screenshot), s1)) by (vm_compute; reflexivity).
  assert (H4 : Spec.soft_failure (Runner.interpreter env) "buses"
                 (AnthropicProcessor.flat_object_re "buses")
                 (Runner.post env
                    (Spec.bus_request screenshot
                       (Settings.anthropic_api_key (Runner.settings env)))) d).
  { exact (Spec.status_refused _ _ _ _
             {| AnthropicProcessor.status_code := 500;
                AnthropicProcessor.content :=
                  AnthropicProcessor.Undecodable
                    "JSONDecodeError" "Expecting value: line 1 column 1 (char 0)";
                AnthropicProcessor.status_message := "Server error" |}
             eq_refl eq_refl). }
  split; [exact (conj H1 (conj H2 (conj H3 H4))) | ].
  exact (soft_oracle_failure_is_job_success env s s0 s1 screenshot d H1 H2 H3 H4).
Defined.

(* ================================================================= *)
(** ** Selection of the artifacts *)

Section Selection.
Import Py.

Variable A : Type.
Variable key : A -> outcome Z.
Variable mt : A -> Z.

Lemma max_from_spec xs :
  forall best,
    (forall x, In x xs -> key x = Returns (mt x)) ->
    exists p, max_from key best (mt best) xs = Returns p
              /\ In p (best :: xs)
              /\ forall q, In q (best :: xs) -> (mt q <= mt p)%Z.
Proof.
  induction xs as [ | x xs IH]; intros best Hk; simpl.
  - exists best. repeat split; auto. intros q [<- | []]. lia.
  - rewrite (Hk x (or_introl eq_refl)). simpl.
    assert (Hk' : forall y, In y xs -> key y = Returns (mt y))
      by (intros y Hy; apply Hk; right; exact Hy).
    destruct (mt best <? mt x)%Z eqn:E.
    + destruct (IH x Hk') as (p & Hp & Hin & Hmax).
      exists p. split; [exact Hp | ]. split.
      * destruct Hin as [<- | Hin]; [right; left; reflexivity | right; right; exact Hin].
      * intros q [<- | [<- | Hq]].
        -- apply Z.ltb_lt in E. specialize (Hmax x (or_introl eq_refl)). lia.
        -- apply Hmax. left. reflexivity.
        -- apply Hmax. right. exact Hq.
    + destruct (IH best Hk') as (p & Hp & Hin & Hmax).
      exists p. split; [exact Hp | ]. split.
      * destruct Hin as [<- | Hin]; [left; reflexivity | right; right; exact Hin].
      * intros q [<- | [<- | Hq]].
        -- apply Hmax. left. reflexivity.
        -- apply Z.ltb_ge in E. specialize (Hmax best (or_introl eq_refl)). lia.
        -- apply Hmax. right. exact Hq.
Qed.

(** [max(xs, key=key)] picks an element no other exceeds. *)
Lemma max_by_spec xs :
  xs <> [] ->
  (forall x, In x xs -> key x = Returns (mt x)) ->
  exists p, max_by key xs = Returns p
            /\ In p xs
            /\ forall q, In q xs -> (mt q <= mt p)%Z.
Proof.
  intros Hne Hk. destruct xs as [ | x xs]; [congruence | ]. simpl.
  rewrite (Hk x (or_introl eq_refl)). simpl.
  apply max_from_spec. intros y Hy. apply Hk. right. exact Hy.
Qed.

Lemma keyed_spec xs :
  (forall x, In x xs -> key x = Returns (mt x)) ->
  keyed key xs = Returns (map (fun x => (mt x, x)) xs).
Proof.
  induction xs as [ | x xs IH]; intros Hk; simpl; [reflexivity | ].
  rewrite (Hk x (or_introl eq_refl)). simpl.
  rewrite IH; [reflexivity | ]. intros y Hy. apply Hk. right. exact Hy.
Qed.

Lemma insert_keyed_perm (kx : Z * A) l : Permutation (insert_keyed kx l) (kx :: l).
Proof.
  induction l as [ | ky l IH]; simpl; [reflexivity | ].
  destruct (fst kx <=? fst ky)%Z; [reflexivity | ].
  rewrite IH. apply perm_swap.
Qed.

Lemma insert_keyed_sorted (kx : Z * A) l :
  StronglySorted (Spec.by_key (A := A)) l -> StronglySorted (Spec.by_key (A := A)) (insert_keyed kx l).
Proof.
  induction 1 as [ | ky l Hs IH Hall]; simpl.
  - constructor; constructor.
  - destruct (fst kx <=? fst ky)%Z eqn:E.
    + apply Z.leb_le in E. constructor; [constructor; assumption | ].
      constructor; [exact E | ].
      rewrite Forall_forall in *. intros z Hz. specialize (Hall z Hz).
      unfold Spec.by_key in *. lia.
    + apply Z.leb_gt in E. constructor; [exact IH | ].
      rewrite Forall_forall in *. intros z Hz.
      apply (Permutation_in _ (insert_keyed_perm kx l)) in Hz.
      destruct Hz as [<- | Hz]; [unfold Spec.by_key; lia | apply Hall; exact Hz].
Qed.

Lemma sort_keyed l :
  Permutation (fold_right insert_keyed [] l) l
  /\ StronglySorted (Spec.by_key (A := A)) (fold_right insert_keyed [] l).
Proof.
  induction l as [ | kx l [IHp IHs]]; simpl.
  - split; [reflexivity | constructor].
  - split.
    + rewrite insert_keyed_perm. constructor. exact IHp.
    + apply insert_keyed_sorted. exact IHs.
Qed.

Lemma StronglySorted_map_snd l :
  Forall (fun kx : Z * A => fst kx = mt (snd kx)) l ->
  StronglySorted (Spec.by_key (A := A)) l ->
  StronglySorted (fun a b => (mt a <= mt b)%Z) (map snd l).
Proof.
  intros Hk Hs. induction Hs as [ | kx l Hs IH Hall]; simpl; [constructor | ].
  inversion Hk as [ | ? ? Hx Hl]; subst.
  constructor; [apply IH; exact Hl | ].
  rewrite Forall_forall in *. intros b Hb.
  apply in_map_iff in Hb. destruct Hb as (kb & <- & Hin).
  specialize (Hall kb Hin). specialize (Hl kb Hin). unfold Spec.by_key in Hall. lia.
Qed.

(** [xs.sort(key=key)] leaves the same elements in ascending order of key. *)
Lemma sort_by_spec xs :
  (forall x, In x xs -> key x = Returns (mt x)) ->
  exists sorted, sort_by key xs = Returns sorted
                 /\ Permutation sorted xs
                 /\ StronglySorted (fun a b => (mt a <= mt b)%Z) sorted.
Proof.
  intros Hk. unfold sort_by. rewrite (keyed_spec xs Hk). simpl.
  destruct (sort_keyed (map (fun x => (mt x, x)) xs)) as [Hp Hs].
  eexists. split; [reflexivity | ]. split.
  - rewrite Hp, map_map. simpl. rewrite map_id. reflexivity.
  - apply StronglySorted_map_snd; [ | exact Hs].
    rewrite Forall_forall. intros kx Hin.
    apply (Permutation_in _ Hp) in Hin. apply in_map_iff in Hin.
    destruct Hin as (x & <- & _). reflexivity.
Qed.

Lemma NoDup_map_injective (l : list A) a b :
  NoDup (map mt l) -> In a l -> In b l -> mt a = mt b -> a = b.
Proof.
  induction l as [ | x l IH]; intros Hnd Ha Hb E; [destruct Ha | ].
  simpl in Hnd. inversion Hnd as [ | ? ? Hnotin Hnd']; subst.
  destruct Ha as [<- | Ha], Hb as [<- | Hb]; auto.
  - exfalso. apply Hnotin. rewrite E. apply in_map. exact Hb.
  - exfalso. apply Hnotin. rewrite <- E. apply in_map. exact Ha.
Qed.

(** With distinct keys the ascending order is strict. *)
Lemma StronglySorted_strict (l : list A) :
  NoDup (map mt l) ->
  StronglySorted (fun a b => (mt a <= mt b)%Z) l ->
  StronglySorted (fun a b => (mt a < mt b)%Z) l.
Proof.
  intros Hnd Hs. induction Hs as [ | x l Hs IH Hall]; [constructor | ].
  simpl in Hnd. inversion Hnd as [ | ? ? Hnotin Hnd']; subst.
  constructor; [apply IH; exact Hnd' | ].
  rewrite Forall_forall in *. intros b Hb. specialize (Hall b Hb).
  assert (mt x <> mt b).
  { intros E. apply Hnotin. rewrite E. apply in_map. exact Hb. }
  lia.
Qed.

End Selection.

(** C8.  The trajectory directory exists and holds the files
    [screenshots], not none, with modification times [mtime], pairwise
    distinct, and contents [content].  Then [_get_latest_screenshot] returns
    the data URL of a file of the directory whose modification time is
    greater than that of every other file, and [_get_all_screenshots]
    returns the data URLs of all the files, in strictly ascending order of
    modification time. *)
Theorem screenshots_selected_by_mtime :
  forall env s path screenshots (mtime : string -> Z) (content : string -> string),
    Runner.trajectory_path s = Some path ->
    String.eqb path "" = false ->
    Runner.exists_ (Runner.files env) path = true ->
    Runner.glob (Runner.files env) (Spec.png_pattern path) = screenshots ->
    screenshots <> [] ->
    (forall p, In p screenshots ->
               Runner.getmtime (Runner.files env) p = Py.Returns (mtime p)) ->
    (forall p, In p screenshots ->
               Runner.read_base64 (Runner.files env) p = Py.Returns (content p)) ->
    NoDup (map mtime screenshots) ->
    (exists latest,
        fst (BusAPIService._get_latest_screenshot env s)
        = Py.Returns (Some (Spec.data_url (content latest)))
        /\ In latest screenshots
        /\ forall q, In q screenshots -> q <> latest -> (mtime q < mtime latest)%Z)
    /\ (exists sorted,
           fst (ContingencyAPIService._get_all_screenshots env s)
           = Py.Returns (map (fun p => Spec.data_url (content p)) sorted)
           /\ Permutation sorted screenshots
           /\ StronglySorted (fun a b => (mtime a < mtime b)%Z) sorted).
Proof.
  intros env s path screenshots mtime content Hpath Hne Hex Hglob Hsome Hmt Hrd Hnd.
  split.
  - destruct (max_by_spec _ _ mtime screenshots Hsome Hmt) as (latest & Hmax & Hin & Hle).
    exists latest. split; [ | split; [exact Hin | ] ].
    + unfold BusAPIService._get_latest_screenshot, Block.bindM, Block.read.
      rewrite Hpath, Hne, Hex. cbn -[Py.max_by Runner.log String.append].
      fold (Spec.png_pattern path). rewrite Hglob.
      destruct screenshots as [ | p ps]; [congruence | ].
      unfold Block.lift. rewrite Hmax. unfold Runner.log, Block.update.
      rewrite (Hrd latest Hin). reflexivity.
    + intros q Hq Hdiff. specialize (Hle q Hq).
      assert (mtime q <> mtime latest).
      { intros E. apply Hdiff.
        apply (NoDup_map_injective _ mtime screenshots q latest Hnd Hq Hin E). }
      lia.
  - destruct (sort_by_spec _ _ mtime screenshots Hmt) as (sorted & Hsort & Hperm & Hasc).
    exists sorted. split; [ | split; [exact Hperm | ] ].
    + unfold ContingencyAPIService._get_all_screenshots, Block.bindM, Block.read.
      rewrite Hpath, Hne, Hex. cbn -[Py.sort_by Runner.log fold_right String.append].
      fold (Spec.png_pattern path). rewrite Hglob.
      destruct screenshots as [ | p ps]; [congruence | ].
      unfold Block.lift. rewrite Hsort.
      assert (Hread :
                fold_right
                  (fun screenshot_path acc =>
                     Py.bind (Runner.read_base64 (Runner.files env) screenshot_path)
                       (fun image_data =>
                          Py.bind acc (fun rest =>
                            Py.Returns (("data:image/png;base64," ++ image_data)%string
                                          :: rest))))
                  (Py.Returns []) sorted
                = Py.Returns (map (fun p => Spec.data_url (content p)) sorted)).
      { assert (Hall : forall q, In q sorted -> In q (p :: ps))
          by (intros q Hq; apply (Permutation_in _ Hperm); exact Hq).
        clear - Hall Hrd. induction sorted as [ | x xs IH]; [reflexivity | ].
        cbn [fold_right map]. rewrite (Hrd x (Hall x (or_introl eq_refl))).
        cbn [Py.bind]. rewrite IH; [reflexivity | ].
        intros q Hq. apply Hall. right. exact Hq. }
      rewrite Hread. reflexivity.
    + apply StronglySorted_strict; [ | exact Hasc].
      apply (Permutation_NoDup (l := map mtime screenshots)); [ | exact Hnd].
      apply Permutation_map. symmetry. exact Hperm.
Qed.

(** Three files whose modification times are 20, 30 and 10. *)
Lemma screenshots_selected_by_mtime_witness :
  let env := Examples.environment (Py.Returns tt) Examples.three_files
                                  Examples.prose in
  let s := Runner.set_trajectory_path (Some "trajectories/run") (Runner.__init__ false) in
  let mtime := fun p =>
    (if String.eqb p "shot_a.png" then 20
     else if String.eqb p "shot_b.png" then 30 else 10)%Z in
  let content := fun p => ("base64/" ++ p)%string in
  fst (BusAPIService._get_latest_screenshot env s)
  = Py.Returns (Some "data:image/png;base64,base64/shot_b.png")
  /\ fst (ContingencyAPIService._get_all_screenshots env s)
     = Py.Returns ["data:image/png;base64,base64/shot_c.png";
                   "data:image/png;base64,base64/shot_a.png";
                   "data:image/png;base64,base64/shot_b.png"]
  /\ (exists latest,
         fst (BusAPIService._get_latest_screenshot env s)
         = Py.Returns (Some (Spec.data_url (content latest)))
         /\ In latest ["shot_a.png"; "shot_b.png"; "shot_c.png"]
         /\ forall q, In q ["shot_a.png"; "shot_b.png"; "shot_c.png"] ->
                      q <> latest -> (mtime q < mtime latest)%Z)
  /\ (exists sorted,
         fst (ContingencyAPIService._get_all_screenshots env s)
         = Py.Returns (map (fun p => Spec.data_url (content p)) sorted)
         /\ Permutation sorted ["shot_a.png"; "shot_b.png"; "shot_c.png"]
         /\ StronglySorted (fun a b => (mtime a < mtime b)%Z) sorted).
Proof.
  intros env s mtime content.
  split; [vm_compute; reflexivity | ].
  split; [vm_compute; reflexivity | ].
  apply (screenshots_selected_by_mtime env s "trajectories/run"
           ["shot_a.png"; "shot_b.png"; "shot_c.png"] mtime content).
  - reflexivity.
  - reflexivity.
  - reflexivity.
  - reflexivity.
  - discriminate.
  - intros p Hp. reflexivity.
  - intros p Hp. reflexivity.
  - vm_compute. repeat constructor; simpl; intuition discriminate.
Defined.

(* ================================================================= *)
(** ** The connection registry *)

Section Registry.
Import Py Block ConnectionManager Spec.

Context {Data : Type}.
Variable transport : WebSocket -> Data -> outcome unit.
Variable data : Data.
Hypothesis transport_contained : forall websocket, contained (transport websocket data).

(** The loop of [broadcast] makes one call per connection, in order,
    collects the connections whose call raised, and leaves the registry
    as it is. *)
Lemma deliver_run connections :
  forall disconnected s,
    exists s',
      deliver transport connections disconnected data s
      = (Returns (disconnected ++ filter (fun w => negb (accepted transport data w)) connections), s')
      /\ calls s' = calls s ++ map (attempt_on transport data) connections
      /\ active_connections s' = active_connections s.
Proof.
  induction connections as [ | c rest IH]; intros disconnected s; simpl.
  - exists s. rewrite !app_nil_r. repeat split.
  - unfold bindM at 1, try_except_Exception, bindM at 1, websocket_send_json.
    pose proof (transport_contained c) as Hc. unfold accepted at 1.
    destruct (transport c data) as [[] | e] eqn:E; simpl.
    + destruct (IH disconnected
                  {| active_connections := active_connections s;
                     calls := calls s ++ [{| to := c; frame := data; delivered := true |}] |})
        as (s' & Hrun & Hcalls & Hactive).
      exists s'. rewrite Hrun. repeat split.
      * rewrite Hcalls. simpl. rewrite <- app_assoc. simpl.
        unfold attempt_on at 2. rewrite E. reflexivity.
      * exact Hactive.
    + simpl in Hc. rewrite Hc. simpl.
      destruct (IH (disconnected ++ [c])
                  {| active_connections := active_connections s;
                     calls := calls s ++ [{| to := c; frame := data; delivered := false |}] |})
        as (s' & Hrun & Hcalls & Hactive).
      exists s'. rewrite Hrun. rewrite <- app_assoc. repeat split.
      * rewrite Hcalls. simpl. rewrite <- app_assoc. simpl.
        unfold attempt_on at 2. rewrite E. reflexivity.
      * exact Hactive.
Qed.

Lemma disconnect_all_run disconnected :
  forall s,
    exists s',
      for_each disconnected (disconnect (Data := Data)) s = (Returns tt, s')
      /\ calls s' = calls s
      /\ active_connections s'
         = fold_left (fun l w => without w l) disconnected (active_connections s).
Proof.
  induction disconnected as [ | w rest IH]; intros s; simpl.
  - exists s. repeat split.
  - unfold bindM, disconnect at 1, update.
    assert (Hw : active_connections
                   (if registered w (active_connections s)
                    then set_active_connections
                           (remove_first w (active_connections s)) s
                    else s)
                 = without w (active_connections s)).
    { unfold without. destruct (registered w (active_connections s)); reflexivity. }
    assert (Hc : calls
                   (if registered w (active_connections s)
                    then set_active_connections
                           (remove_first w (active_connections s)) s
                    else s)
                 = calls s).
    { destruct (registered w (active_connections s)); reflexivity. }
    destruct (IH (if registered w (active_connections s)
                  then set_active_connections
                         (remove_first w (active_connections s)) s
                  else s)) as (s' & Hrun & Hcalls & Hactive).
    exists s'. rewrite Hrun. rewrite Hcalls, Hactive, Hw, Hc. repeat split.
Qed.

Lemma remove_first_filter w l :
  NoDup l -> remove_first w l = filter (fun x => negb (Nat.eqb w x)) l.
Proof.
  induction 1 as [ | x l Hnotin Hnd IH]; simpl; [reflexivity | ].
  destruct (Nat.eqb w x) eqn:E; simpl.
  - apply Nat.eqb_eq in E. subst x.
    symmetry. apply forallb_filter_id. apply forallb_forall. intros y Hy.
    destruct (Nat.eqb w y) eqn:E'; [ | reflexivity].
    apply Nat.eqb_eq in E'. subst y. contradiction.
  - rewrite IH. reflexivity.
Qed.

Lemma without_filter w l :
  NoDup l -> without w l = filter (fun x => negb (Nat.eqb w x)) l.
Proof.
  intros Hnd. unfold without. destruct (registered w l) eqn:E.
  - apply remove_first_filter. exact Hnd.
  - symmetry. apply forallb_filter_id. apply forallb_forall. intros y Hy.
    destruct (Nat.eqb w y) eqn:E'; [ | reflexivity].
    unfold registered in E. assert (existsb (Nat.eqb w) l = true)
      by (apply existsb_exists; eauto).
    congruence.
Qed.

Lemma without_all disconnected :
  forall l,
    NoDup l ->
    fold_left (fun l w => without w l) disconnected l
    = filter (fun x => negb (existsb (fun w => Nat.eqb w x) disconnected)) l.
Proof.
  induction disconnected as [ | w rest IH]; intros l Hnd; simpl.
  - symmetry. apply forallb_filter_id. apply forallb_forall. reflexivity.
  - rewrite IH; [ | rewrite (without_filter w l Hnd); apply NoDup_filter; exact Hnd].
    rewrite (without_filter w l Hnd).
    induction l as [ | x l IHl]; simpl; [reflexivity | ].
    inversion Hnd; subst.
    destruct (Nat.eqb w x); simpl.
    + apply IHl. assumption.
    + destruct (existsb (fun w0 => Nat.eqb w0 x) rest); simpl;
        [ | f_equal]; apply IHl; assumption.
Qed.

End Registry.

(** C9.  On a registry without repeated channels, and a transport whose
    failures are exceptions [except Exception] catches, [broadcast] returns
    after one [send_json] call on every registered channel, in order, each
    made whatever the others did; and the registry it leaves holds exactly
    the channels whose call returned. *)
Theorem broadcast_reaches_all_and_prunes :
  forall (Data : Type)
         (transport : ConnectionManager.WebSocket -> Data -> Py.outcome unit)
         (data : Data) (s : ConnectionManager.self),
    NoDup (ConnectionManager.active_connections s) ->
    (forall websocket, Spec.contained (transport websocket data)) ->
    exists s',
      ConnectionManager.broadcast transport data s = (Py.Returns tt, s')
      /\ ConnectionManager.calls s'
         = ConnectionManager.calls s
             ++ map (Spec.attempt_on transport data)
                    (ConnectionManager.active_connections s)
      /\ ConnectionManager.active_connections s'
         = filter (Spec.accepted transport data)
                  (ConnectionManager.active_connections s).
Proof.
  intros Data transport data s Hnd Hc.
  unfold ConnectionManager.broadcast, Block.bindM at 1, Block.read.
  unfold Block.bindM at 1.
  destruct (deliver_run transport data Hc (ConnectionManager.active_connections s) [] s)
    as (s1 & Hrun & Hcalls & Hactive).
  rewrite Hrun. simpl app.
  destruct (disconnect_all_run (Data := Data)
              (filter (fun w => negb (Spec.accepted transport data w))
                      (ConnectionManager.active_connections s)) s1)
    as (s2 & Hrun2 & Hcalls2 & Hactive2).
  exists s2. rewrite Hrun2. split; [reflexivity | ]. split.
  - rewrite Hcalls2, Hcalls. reflexivity.
  - rewrite Hactive2, Hactive. rewrite (without_all _ _ Hnd).
    apply filter_ext_in. intros x Hx.
    destruct (Spec.accepted transport data x) eqn:E.
    + apply negb_true_iff. apply not_true_is_false. intros Hex.
      apply existsb_exists in Hex. destruct Hex as (w & Hw & Heq).
      apply Nat.eqb_eq in Heq. subst w.
      apply filter_In in Hw. destruct Hw as [_ Hw]. rewrite E in Hw. discriminate.
    + apply negb_false_iff. apply existsb_exists. exists x. split.
      * apply filter_In. split; [exact Hx | ]. rewrite E. reflexivity.
      * apply Nat.eqb_refl.
Qed.

(** Three channels, of which the second raises on [send_json]: all three
    calls are made, the other two are delivered, and the second leaves the
    registry. *)
Lemma broadcast_reaches_all_and_prunes_witness :
  NoDup (ConnectionManager.active_connections Examples.three_channels)
  /\ (forall websocket, Spec.contained (Examples.broken_2 websocket "frame"))
  /\ exists s',
      ConnectionManager.broadcast Examples.broken_2 "frame" Examples.three_channels
      = (Py.Returns tt, s')
      /\ ConnectionManager.calls s'
         = [ {| ConnectionManager.to := 1; ConnectionManager.frame := "frame";
                ConnectionManager.delivered := true |};
             {| ConnectionManager.to := 2; ConnectionManager.frame := "frame";
                ConnectionManager.delivered := false |};
             {| ConnectionManager.to := 3; ConnectionManager.frame := "frame";
                ConnectionManager.delivered := true |} ]
      /\ ConnectionManager.active_connections s' = [1; 3].
Proof.
  assert (Hnd : NoDup (ConnectionManager.active_connections Examples.three_channels)).
  { simpl. repeat constructor; simpl; intuition discriminate. }
  assert (Hc : forall websocket, Spec.contained (Examples.broken_2 websocket "frame")).
  { intros websocket. unfold Examples.broken_2.
    destruct (Nat.eqb websocket 2); reflexivity. }
  split; [exact Hnd | split; [exact Hc | ] ].
  exact (broadcast_reaches_all_and_prunes string Examples.broken_2 "frame"
           Examples.three_channels Hnd Hc).
Defined.

(* ================================================================= *)
(** ** The session *)

Section Heap.
Import WebSocketHandler.

Lemma length_modify_nth {A : Type} i (f : A -> A) l :
  List.length (modify_nth i f l) = List.length l.
Proof.
  revert i. induction l as [ | x l IH]; intros [ | i]; simpl; auto.
Qed.

Lemma nth_error_modify_nth {A : Type} i (f : A -> A) l j :
  nth_error (modify_nth i f l) j
  = if Nat.eqb i j then option_map f (nth_error l j) else nth_error l j.
Proof.
  revert i j. induction l as [ | x l IH]; intros [ | i] [ | j]; simpl; auto.
  destruct (Nat.eqb i j); reflexivity.
Qed.

End Heap.

Section Session.
Import Py Block WebSocketHandler Spec.

Variable websocket : ConnectionManager.WebSocket.
Variable accept : ConnectionManager.WebSocket -> outcome unit.
Variable transport :
  ConnectionManager.WebSocket -> WebSocketMessage.t -> outcome unit.
Variable time : nat -> Z.
Variable str_of : json -> string.
Variable py : interpreter.

(** A frame sent through the manager is one more call on this channel, and
    nothing of the handler but its manager changes. *)
Lemma send_run type payload s :
  exists r m',
    send websocket transport time type payload s = (r, set_manager m' s)
    /\ ConnectionManager.calls m'
       = ConnectionManager.calls (manager s)
           ++ [sent websocket transport time (manager s) type payload].
Proof.
  unfold send, bindM, read, on_manager, ConnectionManager.send_json,
    try_except_Exception, ConnectionManager.websocket_send_json, sent.
  cbn zeta.
  destruct (transport websocket _) as [ [] | e] eqn:E.
  - do 2 eexists. split; [reflexivity | ]. reflexivity.
  - destruct (is_Exception e).
    + unfold ConnectionManager.disconnect, update. cbn.
      destruct (existsb _ _);
        do 2 eexists; (split; [reflexivity | ]); reflexivity.
    + do 2 eexists. split; [reflexivity | ]. reflexivity.
Qed.

(** When the transport raises nothing but an [Exception], the frame is
    sent and [send] returns. *)
Lemma send_returns type payload s :
  (forall frame, contained (transport websocket frame)) ->
  exists m',
    send websocket transport time type payload s = (Returns tt, set_manager m' s)
    /\ ConnectionManager.calls m'
       = ConnectionManager.calls (manager s)
           ++ [sent websocket transport time (manager s) type payload].
Proof.
  intros Hc.
  unfold send, bindM, read, on_manager, ConnectionManager.send_json,
    try_except_Exception, ConnectionManager.websocket_send_json, sent.
  cbn zeta.
  match goal with
  | |- context [transport websocket ?f] =>
      specialize (Hc f); destruct (transport websocket f) as [ [] | e]
  end.
  - eexists. split; reflexivity.
  - cbn in Hc. rewrite Hc.
    unfold ConnectionManager.disconnect, update. cbn.
    destruct (existsb _ _); eexists; split; reflexivity.
Qed.

Lemma keeps_ret {A : Type} (a : A) : keeps_runs (ret a).
Proof. intros s. split; reflexivity. Qed.

Lemma keeps_lift {A : Type} (o : outcome A) : keeps_runs (lift o).
Proof. intros s. split; reflexivity. Qed.

Lemma keeps_read {A : Type} (f : self -> A) : keeps_runs (read f).
Proof. intros s. split; reflexivity. Qed.

Lemma keeps_update (f : self -> self) :
  (forall s, List.length (runners (f s)) = List.length (runners s)
             /\ run_calls (f s) = run_calls s) ->
  keeps_runs (update f).
Proof. intros Hf s. exact (Hf s). Qed.

Lemma keeps_bind {A B : Type} (m : H A) (f : A -> H B) :
  keeps_runs m -> (forall a, keeps_runs (f a)) -> keeps_runs (bindM m f).
Proof.
  intros Hm Hf s. unfold bindM. specialize (Hm s).
  destruct (m s) as [ [a | e] s1]; cbn [snd] in *.
  - destruct (Hf a s1) as [H1 H2]. destruct Hm as [H3 H4].
    split; congruence.
  - exact Hm.
Qed.

Lemma keeps_try_except {A : Type} (body : H A) handler :
  keeps_runs body -> (forall e, keeps_runs (handler e)) ->
  keeps_runs (try_except_Exception body handler).
Proof.
  intros Hm Hf s. unfold try_except_Exception. specialize (Hm s).
  destruct (body s) as [ [a | e] s1]; cbn [snd] in *.
  - exact Hm.
  - destruct (is_Exception e); [ | exact Hm].
    destruct (Hf e s1) as [H1 H2]. destruct Hm as [H3 H4]. split; congruence.
Qed.

Lemma keeps_try_finally {A : Type} (body : H A) final :
  keeps_runs body -> keeps_runs final -> keeps_runs (try_finally body final).
Proof.
  intros Hm Hf s. unfold try_finally. specialize (Hm s).
  destruct (body s) as [r s1]. cbn [snd] in *. specialize (Hf s1).
  destruct (final s1) as [ [ [] | e] s2]; cbn [snd] in *;
    destruct Hm, Hf; split; congruence.
Qed.

Lemma keeps_for_each {A : Type} (xs : list A) (body : A -> H unit) :
  (forall x, keeps_runs (body x)) -> keeps_runs (for_each xs body).
Proof.
  intros Hb. induction xs as [ | x xs IH]; simpl.
  - apply keeps_ret.
  - apply keeps_bind; auto.
Qed.

Lemma keeps_send type payload :
  keeps_runs (send websocket transport time type payload).
Proof.
  intros s. destruct (send_run type payload s) as (r & m' & Hrun & _).
  rewrite Hrun. split; reflexivity.
Qed.

Lemma keeps_on_manager {A : Type} (m : @ConnectionManager.M WebSocketMessage.t A) :
  keeps_runs (on_manager m).
Proof.
  intros s. unfold on_manager. destruct (m (manager s)). split; reflexivity.
Qed.

Lemma keeps_create_task c : keeps_runs (create_task c).
Proof. intros s. split; reflexivity. Qed.

Lemma keeps_finish t : keeps_runs (finish t).
Proof. intros s. split; reflexivity. Qed.

Lemma keeps_cancel_and_await t : keeps_runs (cancel_and_await t).
Proof.
  apply keeps_update. intros s.
  destruct (nth_error (tasks s) t) as [ [c st] | ]; [ | split; reflexivity].
  destruct st as [ | r inside | ]; cbn; try (split; reflexivity).
  destruct inside, r, c; cbn; rewrite ?length_modify_nth; split; reflexivity.
Qed.

Lemma keeps_stop_api_service : keeps_runs stop_api_service.
Proof.
  apply keeps_update. intros s.
  destruct (api_service s); cbn; rewrite ?length_modify_nth; split; reflexivity.
Qed.

Lemma keeps_stop_agent_service : keeps_runs stop_agent_service.
Proof.
  apply keeps_update. intros s.
  destruct (agent_service s); cbn; split; reflexivity.
Qed.

#[local] Hint Resolve keeps_ret keeps_lift keeps_read keeps_send keeps_on_manager
  keeps_create_task keeps_finish keeps_cancel_and_await keeps_stop_api_service
  keeps_stop_agent_service : core.

Ltac keeps_step :=
  first [ apply keeps_bind; [ | intros ? ]
        | apply keeps_try_finally
        | apply keeps_try_except; [ | intros ? ]
        | apply keeps_for_each; intros ?
        | apply keeps_update; intros ?; cbn; rewrite ?length_modify_nth;
          split; reflexivity
        | solve [auto] ].

Lemma keeps__stop_agent : keeps_runs (_stop_agent websocket transport time).
Proof.
  unfold _stop_agent.
  apply keeps_bind; [auto | intros _]. apply keeps_bind; [auto | intros _].
  apply keeps_bind; [auto | intros at_].
  apply keeps_bind; [destruct at_; auto | intros _].
  apply keeps_bind; [auto | intros pt].
  apply keeps_bind; [destruct pt; auto | intros _]. auto.
Qed.

Lemma keeps__cleanup : keeps_runs (_cleanup websocket).
Proof. unfold _cleanup. repeat keeps_step. Qed.

Lemma keeps__start_agent : keeps_runs (_start_agent websocket transport time).
Proof.
  unfold _start_agent. apply keeps_bind; [auto | intros running].
  destruct running; repeat keeps_step.
Qed.

Lemma keeps__run_api endpoint :
  keeps_runs (_run_api websocket transport time str_of endpoint).
Proof.
  unfold _run_api. apply keeps_bind; [auto | intros running].
  destruct running; repeat keeps_step.
Qed.

Lemma keeps__handle_message message :
  keeps_runs (_handle_message websocket transport time str_of message).
Proof.
  unfold _handle_message. apply keeps_bind; [auto | intros msg_type].
  destruct (is_type msg_type MessageType.START_AGENT); [apply keeps__start_agent | ].
  destruct (is_type msg_type MessageType.STOP_AGENT); [apply keeps__stop_agent | ].
  destruct (is_type msg_type MessageType.RUN_API); [ | auto].
  apply keeps_bind; [auto | intros payload].
  apply keeps_bind; [auto | intros endpoint]. apply keeps__run_api.
Qed.

Lemma keeps_on_text data :
  keeps_runs (on_text websocket transport time str_of py data).
Proof.
  intros s. unfold on_text.
  destruct (receiving s); [ | split; reflexivity].
  assert (Hm : keeps_runs
                 (bindM (lift (Json.loads_str py data))
                        (_handle_message websocket transport time str_of))).
  { apply keeps_bind; [auto | intros message]. apply keeps__handle_message. }
  specialize (Hm s).
  destruct (bindM _ _ s) as [ [ [] | e] s1]; cbn [snd] in *; [exact Hm | ].
  destruct (is_Exception e); [ | exact Hm].
  assert (Hc : keeps_runs (bindM (_cleanup websocket)
                                 (fun _ => update (set_receiving false)))).
  { apply keeps_bind; [apply keeps__cleanup | intros _]. keeps_step. }
  destruct (Hc s1) as [H1 H2]. destruct Hm as [H3 H4]. split; congruence.
Qed.

Lemma keeps_advance_task t inside frames :
  keeps_runs (advance_task websocket transport time t inside frames).
Proof.
  unfold advance_task. apply keeps_bind; [auto | intros task].
  destruct task as [ [ [ | endpoint] [ | r i | ] ] | ]; auto.
  repeat keeps_step.
Qed.

Lemma keeps_finish_task t :
  keeps_runs (finish_task websocket transport time str_of t).
Proof.
  unfold finish_task. apply keeps_bind; [auto | intros task].
  destruct task as [ [ [ | endpoint] [ | [a | ] i | ] ] | ]; auto.
  - repeat keeps_step.
  - apply keeps_bind; [auto | intros r]. destruct r as [x | ]; [ | auto].
    repeat keeps_step.
    intros s. destruct (run_of (class x) (world x) (object x)) as [o obj].
    cbn. rewrite length_modify_nth. split; reflexivity.
Qed.

(** *** Every runner is run once *)

Lemma run_once_kept {A : Type} (m : H A) s :
  keeps_runs m -> run_once s -> run_once (snd (m s)).
Proof.
  intros Hm [Hnd Hall]. destruct (Hm s) as [Hlen Hcalls].
  unfold run_once. rewrite Hlen, Hcalls. split; assumption.
Qed.

(** A fresh runner is the only one whose [run] is called when a task
    enters [run_api]. *)
Lemma run_once_start_runner t c env s :
  run_once s -> run_once (snd (start_runner t c env s)).
Proof.
  intros [Hnd Hall]. unfold start_runner, bindM, read, update, run_once. cbn.
  rewrite length_app. cbn. rewrite Forall_forall in Hall. split.
  - apply NoDup_app; [exact Hnd | repeat constructor; intros [] | ].
    intros x Hx [Hin | []]. subst x. specialize (Hall _ Hx). lia.
  - apply Forall_app. split.
    + apply Forall_forall. intros x Hx. specialize (Hall _ Hx). lia.
    + repeat constructor. lia.
Qed.

Lemma run_once_enter_task t env s :
  run_once s -> run_once (snd (enter_task websocket transport time str_of t env s)).
Proof.
  intros Hs. unfold enter_task, bindM at 1, read at 1.
  destruct (nth_error (tasks s) t) as [ [ [ | endpoint] [ | r i | ] ] | ];
    try exact Hs.
  - apply run_once_kept; [ | exact Hs].
    apply keeps_bind; [auto | intros held].
    destruct held; repeat keeps_step.
  - destruct (equals endpoint "buses"); [apply run_once_start_runner, Hs | ].
    destruct (equals endpoint "contingency"); [apply run_once_start_runner, Hs | ].
    apply run_once_kept; [ | exact Hs]. repeat keeps_step.
Qed.

Lemma run_once_step e s :
  run_once s -> run_once (snd (step websocket transport time str_of py e s)).
Proof.
  intros Hs. destruct e as [data | t env | t inside frames | t]; simpl.
  - apply run_once_kept; [apply keeps_on_text | exact Hs].
  - apply run_once_enter_task, Hs.
  - apply run_once_kept; [apply keeps_advance_task | exact Hs].
  - apply run_once_kept; [apply keeps_finish_task | exact Hs].
Qed.

Lemma run_once_reachable s :
  reachable websocket accept transport time str_of py s -> run_once s.
Proof.
  induction 1 as [m | s e Hs IH].
  - apply run_once_kept.
    + unfold open_connection. repeat keeps_step.
    + split; [constructor | constructor].
  - apply run_once_step, IH.
Qed.

(** *** The stop command *)

Lemma bind_settled {A : Type} (m : H unit) (k : unit -> H A) s :
  fst (m s) = Returns tt -> bindM m k s = k tt (snd (m s)).
Proof.
  unfold bindM. destruct (m s) as [ [ [] | e] s']; cbn; intros E;
    [reflexivity | discriminate].
Qed.

(** Cancelling a task marks it finished at most, tears down one runner at
    most, and leaves the manager and the task handles alone. *)
Lemma cancel_and_await_run t s :
  fst (cancel_and_await t s) = Returns tt
  /\ (tasks (snd (cancel_and_await t s)) = tasks s
      \/ tasks (snd (cancel_and_await t s))
         = modify_nth t (set_state finished) (tasks s))
  /\ (runners (snd (cancel_and_await t s)) = runners s
      \/ exists a, runners (snd (cancel_and_await t s))
                   = modify_nth a torn_down (runners s))
  /\ manager (snd (cancel_and_await t s)) = manager s
  /\ api_task (snd (cancel_and_await t s)) = api_task s.
Proof.
  unfold cancel_and_await, update. cbn [fst snd].
  split; [reflexivity | ].
  destruct (nth_error (tasks s) t) as [ [c st] | ]; [ | cbn; auto].
  destruct st as [ | r inside | ]; cbn; auto.
  destruct inside, r as [a | ], c; cbn; repeat split; auto;
    right; exists a; reflexivity.
Qed.

Lemma torn_down_clears x : Runner.is_running (object (torn_down x)) = false.
Proof. unfold torn_down. cbn. apply teardown_clears. Qed.

Lemma settled_after_tasks t endpoint a s s' :
  settled t endpoint a s ->
  (tasks s' = tasks s \/ tasks s' = modify_nth t (set_state finished) (tasks s)
   \/ exists t', tasks s' = modify_nth t' (set_state finished) (tasks s)) ->
  (runners s' = runners s \/ exists a', runners s' = modify_nth a' torn_down (runners s)) ->
  settled t endpoint a s'.
Proof.
  intros [Ht (x & Hx & Hrun)] Htasks Hrunners. split.
  - destruct Htasks as [E | [E | [t' E] ] ]; rewrite E; try exact Ht;
      rewrite nth_error_modify_nth, Ht;
      match goal with |- context [Nat.eqb ?i ?j] => destruct (Nat.eqb i j) end;
      reflexivity.
  - destruct Hrunners as [E | [a' E] ]; rewrite E.
    + exists x. split; assumption.
    + rewrite nth_error_modify_nth, Hx. destruct (Nat.eqb a' a); cbn.
      * eexists. split; [reflexivity | apply torn_down_clears].
      * exists x. split; [reflexivity | assumption].
Qed.

Lemma settled_cancel_and_await t' t endpoint a s :
  settled t endpoint a s -> settled t endpoint a (snd (cancel_and_await t' s)).
Proof.
  intros Hs. destruct (cancel_and_await_run t' s) as (_ & Ht & Hr & _).
  apply (settled_after_tasks _ _ _ s); [exact Hs | | exact Hr].
  destruct Ht as [E | E]; [left; exact E | right; right; exists t'; exact E].
Qed.

Lemma inside_run_cancel_other t' t endpoint a s :
  t' <> t -> inside_run t endpoint a s ->
  inside_run t endpoint a (snd (cancel_and_await t' s)).
Proof.
  intros Hne [Ht Ha]. destruct (cancel_and_await_run t' s) as (_ & Htasks & Hr & _).
  split.
  - destruct Htasks as [E | E]; rewrite E; [exact Ht | ].
    rewrite nth_error_modify_nth.
    destruct (Nat.eqb_spec t' t) as [E' | _]; [contradiction | exact Ht].
  - destruct Hr as [E | [a' E] ]; rewrite E, ?length_modify_nth; exact Ha.
Qed.

(** Cancelling the task suspended inside [run()] runs the [finally] of that
    [run()]. *)
Lemma inside_run_cancel t endpoint a s :
  inside_run t endpoint a s -> settled t endpoint a (snd (cancel_and_await t s)).
Proof.
  intros [Ht Ha]. unfold settled, cancel_and_await, update. cbn [snd]. rewrite Ht.
  cbn -[modify_nth nth_error].
  split.
  - rewrite nth_error_modify_nth, Nat.eqb_refl, Ht. reflexivity.
  - rewrite nth_error_modify_nth, Nat.eqb_refl.
    destruct (nth_error (runners s) a) as [x | ] eqn:Hx.
    + cbn. eexists. split; [reflexivity | ]. apply teardown_clears.
    + apply nth_error_None in Hx. lia.
Qed.

Lemma bind_read {A B : Type} (f : self -> A) (k : A -> H B) s :
  bindM (read f) k s = k (f s) s.
Proof. reflexivity. Qed.

Lemma stop_agent_service_run s :
  fst (stop_agent_service s) = Returns tt
  /\ tasks (snd (stop_agent_service s)) = tasks s
  /\ runners (snd (stop_agent_service s)) = runners s
  /\ manager (snd (stop_agent_service s)) = manager s
  /\ api_task (snd (stop_agent_service s)) = api_task s.
Proof.
  unfold stop_agent_service, update. cbn [fst snd].
  destruct (agent_service s); cbn; auto.
Qed.

Lemma stop_api_service_run s :
  fst (stop_api_service s) = Returns tt
  /\ tasks (snd (stop_api_service s)) = tasks s
  /\ List.length (runners (snd (stop_api_service s))) = List.length (runners s)
  /\ manager (snd (stop_api_service s)) = manager s
  /\ api_task (snd (stop_api_service s)) = api_task s.
Proof.
  unfold stop_api_service, update. cbn [fst snd].
  destruct (api_service s); cbn -[modify_nth]; rewrite ?length_modify_nth; auto.
Qed.

(** The stop command settles the task it finds inside [run()], and its last
    act is the frame that says so. *)
Lemma _stop_agent_run t endpoint a s :
  api_task s = Some t -> inside_run t endpoint a s ->
  exists r s',
    _stop_agent websocket transport time s = (r, s')
    /\ settled t endpoint a s'
    /\ ConnectionManager.calls (manager s')
       = ConnectionManager.calls (manager s)
           ++ [sent websocket transport time (manager s) MessageType.STATUS
                 (WebSocketMessage.StatusPayload "stopped" (Some "Stopped by user"))].
Proof.
  intros Hapi [Ht Ha]. unfold _stop_agent.
  destruct (stop_agent_service_run s) as (R1 & T1 & U1 & M1 & A1).
  rewrite (bind_settled _ _ _ R1). set (s1 := snd (stop_agent_service s)) in *.
  destruct (stop_api_service_run s1) as (R2 & T2 & U2 & M2 & A2).
  rewrite (bind_settled _ _ _ R2). set (s2 := snd (stop_api_service s1)) in *.
  assert (Q2 : inside_run t endpoint a s2).
  { split; [rewrite T2, T1; exact Ht | rewrite U2, U1; exact Ha]. }
  rewrite bind_read. cbv beta.
  assert (H3 : exists s3,
             (match agent_task s2 with
              | Some t' => cancel_and_await t'
              | None => ret tt
              end) s2 = (Returns tt, s3)
             /\ (inside_run t endpoint a s3 \/ settled t endpoint a s3)
             /\ manager s3 = manager s2 /\ api_task s3 = api_task s2).
  { destruct (agent_task s2) as [t' | ].
    - exists (snd (cancel_and_await t' s2)).
      destruct (cancel_and_await_run t' s2) as (R & _ & _ & M & A).
      split; [rewrite <- R; apply surjective_pairing | ].
      split; [ | split; assumption].
      destruct (Nat.eq_dec t' t) as [E | N].
      + right. subst t'. apply inside_run_cancel, Q2.
      + left. apply inside_run_cancel_other; assumption.
    - exists s2. split; [reflexivity | ]. split; [left; exact Q2 | split; reflexivity]. }
  destruct H3 as (s3 & E3 & Q3 & M3 & A3).
  rewrite (bind_settled _ _ s2 (f_equal fst E3)). rewrite E3. cbn [snd].
  rewrite bind_read. cbv beta. rewrite A3, A2, A1, Hapi.
  destruct (cancel_and_await_run t s3) as (R4 & _ & _ & M4 & _).
  rewrite (bind_settled _ _ _ R4). set (s4 := snd (cancel_and_await t s3)) in *.
  assert (Q4 : settled t endpoint a s4).
  { destruct Q3 as [Q3 | Q3];
      [apply inside_run_cancel | apply settled_cancel_and_await]; exact Q3. }
  destruct (send_run MessageType.STATUS
              (WebSocketMessage.StatusPayload "stopped" (Some "Stopped by user")) s4)
    as (r & m' & Hrun & Hcalls).
  exists r, (set_manager m' s4). split; [exact Hrun | ]. split.
  - exact Q4.
  - cbn [manager set_manager]. rewrite Hcalls, M4, M3, M2, M1. reflexivity.
Qed.

End Session.

Lemma session_reachable :
  WebSocketHandler.reachable 7 Examples.accepts Examples.carries Examples.clock
                             Examples.repr Examples.cpython Examples.session.
Proof.
  unfold Examples.session, Examples.events, Examples.opened. cbn [fold_left].
  repeat apply WebSocketHandler.reachable_step.
  apply WebSocketHandler.reachable_open.
Qed.

(** C3.  Two start commands handled back to back, before the task of the
    first is entered: the guard of [_start_agent] reads [is_running], which
    only [run_task] sets, so the second command is not rejected.  It
    constructs a second service and a second task, and no ERROR frame is
    sent.  Both closures read [self.agent_service] when they run, which by
    then is the second service: when the two tasks have been entered, both
    are suspended in a [run_task()] of that one object (whose flag is set),
    each has sent its "connecting" frame, and the first service has never
    been run. *)
Theorem second_start_shares_the_service :
  let s := Examples.started_twice in
  WebSocketHandler.reachable 7 Examples.accepts Examples.carries Examples.clock
                             Examples.repr Examples.cpython s
  /\ WebSocketHandler.agent_service s = Some 1
  /\ map CUAAgentService.is_running (WebSocketHandler.agents s) = [false; true]
  /\ map WebSocketHandler.coro (WebSocketHandler.tasks s)
     = [WebSocketHandler.run_agent; WebSocketHandler.run_agent]
  /\ map WebSocketHandler.state (WebSocketHandler.tasks s)
     = [WebSocketHandler.suspended (Some 1) false;
        WebSocketHandler.suspended (Some 1) false]
  /\ map (fun c => (WebSocketMessage.type (ConnectionManager.frame c),
                    WebSocketMessage.payload_ (ConnectionManager.frame c)))
         (ConnectionManager.calls (WebSocketHandler.manager s))
     = [(MessageType.STATUS,
         WebSocketMessage.StatusPayload "idle" (Some "Connected. Ready to start."));
        (MessageType.STATUS,
         WebSocketMessage.StatusPayload
           "connecting" (Some "Connecting to Windows sandbox..."));
        (MessageType.STATUS,
         WebSocketMessage.StatusPayload
           "connecting" (Some "Connecting to Windows sandbox..."))].
Proof.
  intros s. split.
  - unfold s, Examples.started_twice, Examples.double_start, Examples.opened.
    cbn [fold_left].
    repeat apply WebSocketHandler.reachable_step.
    apply WebSocketHandler.reachable_open.
  - vm_compute. repeat split.
Qed.

(** In every state a session reaches: when the held agent service has
    [is_running] set, [_start_agent] does nothing but send the ERROR frame
    "Agent is already running" (no service is constructed, no task created:
    the handler differs from before in its manager only); when the held API
    runner has [is_running] set, [_run_api] likewise does nothing but send
    the ERROR frame "An API is already running"; and no API runner object
    has had more than one call of its [run()] (each [run_api] closure
    constructs the runner it runs).  The agent service, which the closure
    [run_agent] reads from the field of the handler when it runs, is not
    covered by the last part. *)
Theorem start_is_single_flight :
  forall websocket accept transport time str_of py s,
    WebSocketHandler.reachable websocket accept transport time str_of py s ->
    (WebSocketHandler.agent_is_running s = true ->
     exists r m',
       WebSocketHandler._start_agent websocket transport time s
       = (r, WebSocketHandler.set_manager m' s)
       /\ ConnectionManager.calls m'
          = ConnectionManager.calls (WebSocketHandler.manager s)
              ++ [Spec.sent websocket transport time (WebSocketHandler.manager s)
                    MessageType.ERROR
                    (WebSocketMessage.StatusPayload
                       "error" (Some "Agent is already running"))])
    /\ (forall endpoint,
        WebSocketHandler.api_is_running s = true ->
        exists r m',
          WebSocketHandler._run_api websocket transport time str_of endpoint s
          = (r, WebSocketHandler.set_manager m' s)
          /\ ConnectionManager.calls m'
             = ConnectionManager.calls (WebSocketHandler.manager s)
                 ++ [Spec.sent websocket transport time (WebSocketHandler.manager s)
                       MessageType.ERROR
                       (WebSocketMessage.StatusPayload
                          "error" (Some "An API is already running"))])
    /\ (forall a, WebSocketHandler.run_count a s <= 1).
Proof.
  intros websocket accept transport time str_of py s Hs. split; [ | split].
  - intros Ha.
    unfold WebSocketHandler._start_agent, Block.bindM, Block.read.
    rewrite Ha. apply send_run.
  - intros endpoint Ha.
    unfold WebSocketHandler._run_api, Block.bindM, Block.read.
    rewrite Ha. apply send_run.
  - intros a. unfold WebSocketHandler.run_count.
    apply (proj1 (NoDup_count_occ Nat.eq_dec _)).
    exact (proj1 (run_once_reachable _ _ _ _ _ _ _ Hs)).
Qed.

(** A session in which the agent and the bus extraction are both under
    way: a further start of either is answered by the notice alone, and the
    one runner there is has been run once. *)
Lemma start_is_single_flight_witness :
  WebSocketHandler.reachable 7 Examples.accepts Examples.carries Examples.clock
                             Examples.repr Examples.cpython Examples.session
  /\ WebSocketHandler.agent_is_running Examples.session = true
  /\ WebSocketHandler.api_is_running Examples.session = true
  /\ (exists r m',
        WebSocketHandler._start_agent 7 Examples.carries Examples.clock
                                      Examples.session
        = (r, WebSocketHandler.set_manager m' Examples.session)
        /\ ConnectionManager.calls m'
           = ConnectionManager.calls (WebSocketHandler.manager Examples.session)
               ++ [Spec.sent 7 Examples.carries Examples.clock
                     (WebSocketHandler.manager Examples.session)
                     MessageType.ERROR
                     (WebSocketMessage.StatusPayload
                        "error" (Some "Agent is already running"))])
  /\ (exists r m',
        WebSocketHandler._run_api 7 Examples.carries Examples.clock Examples.repr
                                  (Py.JStr "contingency") Examples.session
        = (r, WebSocketHandler.set_manager m' Examples.session)
        /\ ConnectionManager.calls m'
           = ConnectionManager.calls (WebSocketHandler.manager Examples.session)
               ++ [Spec.sent 7 Examples.carries Examples.clock
                     (WebSocketHandler.manager Examples.session)
                     MessageType.ERROR
                     (WebSocketMessage.StatusPayload
                        "error" (Some "An API is already running"))])
  /\ WebSocketHandler.run_count 0 Examples.session = 1.
Proof.
  assert (Ha : WebSocketHandler.agent_is_running Examples.session = true)
    by (vm_compute; reflexivity).
  assert (Hb : WebSocketHandler.api_is_running Examples.session = true)
    by (vm_compute; reflexivity).
  assert (Hc : WebSocketHandler.run_count 0 Examples.session = 1)
    by (vm_compute; reflexivity).
  destruct (start_is_single_flight 7 Examples.accepts Examples.carries
              Examples.clock Examples.repr Examples.cpython Examples.session session_reachable)
    as (H1 & H2 & _).
  exact (conj session_reachable
           (conj Ha (conj Hb (conj (H1 Ha)
             (conj (H2 (Py.JStr "contingency") Hb) Hc))))).
Defined.

(** The guard of [_start_agent] is the flag and nothing else: when no
    service is held or the held one has [is_running] clear, a service is
    constructed and held, the task [run_agent] is created and held, and no
    frame is sent.  The new service has [is_running] clear, as it stays
    until its task first runs: the guard is open in the state left. *)
Theorem start_agent_when_not_running :
  forall websocket transport time s,
    WebSocketHandler.agent_is_running s = false ->
    exists s',
      WebSocketHandler._start_agent websocket transport time s = (Py.Returns tt, s')
      /\ WebSocketHandler.agents s'
         = WebSocketHandler.agents s ++ [CUAAgentService.__init__]
      /\ WebSocketHandler.agent_service s'
         = Some (List.length (WebSocketHandler.agents s))
      /\ WebSocketHandler.tasks s'
         = WebSocketHandler.tasks s
             ++ [{| WebSocketHandler.coro := WebSocketHandler.run_agent;
                    WebSocketHandler.state := WebSocketHandler.created |}]
      /\ WebSocketHandler.agent_task s'
         = Some (List.length (WebSocketHandler.tasks s))
      /\ WebSocketHandler.manager s' = WebSocketHandler.manager s
      /\ WebSocketHandler.agent_is_running s' = false.
Proof.
  intros websocket transport time s Hflag.
  unfold WebSocketHandler._start_agent, Block.bindM, Block.read. rewrite Hflag.
  eexists. split; [reflexivity | ]. cbn.
  repeat split.
  unfold WebSocketHandler.agent_is_running. cbn.
  rewrite nth_error_app2, Nat.sub_diag by reflexivity. reflexivity.
Qed.

(** Two start commands, the second handled before the first task is
    entered. *)
Lemma start_agent_when_not_running_witness :
  WebSocketHandler.agent_is_running Examples.opened = false
  /\ exists s',
      WebSocketHandler._start_agent 7 Examples.carries Examples.clock Examples.opened
      = (Py.Returns tt, s')
      /\ WebSocketHandler.agents s' = [CUAAgentService.__init__]
      /\ WebSocketHandler.agent_service s' = Some 0
      /\ WebSocketHandler.tasks s'
         = [{| WebSocketHandler.coro := WebSocketHandler.run_agent;
               WebSocketHandler.state := WebSocketHandler.created |}]
      /\ WebSocketHandler.agent_task s' = Some 0
      /\ WebSocketHandler.manager s' = WebSocketHandler.manager Examples.opened
      /\ WebSocketHandler.agent_is_running s' = false.
Proof.
  assert (H : WebSocketHandler.agent_is_running Examples.opened = false)
    by (vm_compute; reflexivity).
  exact (conj H (start_agent_when_not_running 7 Examples.carries Examples.clock
                   Examples.opened H)).
Defined.

(** The guard of [_run_api] likewise: when no runner is held or the held one
    has [is_running] clear, the STATUS frame "running" is sent, the task
    [run_api] is created and held, and the reference to the runner stays as
    it is: the guard is open in the state left. *)
Theorem run_api_when_not_running :
  forall websocket transport time str_of endpoint s,
    (forall frame, Spec.contained (transport websocket frame)) ->
    WebSocketHandler.api_is_running s = false ->
    exists s',
      WebSocketHandler._run_api websocket transport time str_of endpoint s
      = (Py.Returns tt, s')
      /\ ConnectionManager.calls (WebSocketHandler.manager s')
         = ConnectionManager.calls (WebSocketHandler.manager s)
             ++ [Spec.sent websocket transport time (WebSocketHandler.manager s)
                   MessageType.STATUS
                   (WebSocketMessage.StatusPayload "running"
                      (Some ("Starting API: "
                             ++ WebSocketHandler.render str_of endpoint)%string))]
      /\ WebSocketHandler.tasks s'
         = WebSocketHandler.tasks s
             ++ [{| WebSocketHandler.coro := WebSocketHandler.run_api endpoint;
                    WebSocketHandler.state := WebSocketHandler.created |}]
      /\ WebSocketHandler.api_task s'
         = Some (List.length (WebSocketHandler.tasks s))
      /\ WebSocketHandler.runners s' = WebSocketHandler.runners s
      /\ WebSocketHandler.api_service s' = WebSocketHandler.api_service s
      /\ WebSocketHandler.api_is_running s' = false.
Proof.
  intros websocket transport time str_of endpoint s Hc Hflag.
  unfold WebSocketHandler._run_api. rewrite bind_read. cbv beta. rewrite Hflag.
  destruct (send_returns websocket transport time MessageType.STATUS
              (WebSocketMessage.StatusPayload "running"
                 (Some ("Starting API: "
                        ++ WebSocketHandler.render str_of endpoint)%string)) s Hc)
    as (m' & Hrun & Hcalls).
  unfold Block.bindM at 1. rewrite Hrun.
  eexists. split; [reflexivity | ]. cbn.
  repeat split; try assumption.
Qed.

(** A run command on a fresh connection. *)
Lemma run_api_when_not_running_witness :
  (forall frame, Spec.contained (Examples.carries 7 frame))
  /\ WebSocketHandler.api_is_running Examples.opened = false
  /\ exists s',
      WebSocketHandler._run_api 7 Examples.carries Examples.clock Examples.repr
                                (Py.JStr "buses") Examples.opened
      = (Py.Returns tt, s')
      /\ ConnectionManager.calls (WebSocketHandler.manager s')
         = ConnectionManager.calls (WebSocketHandler.manager Examples.opened)
             ++ [Spec.sent 7 Examples.carries Examples.clock
                   (WebSocketHandler.manager Examples.opened)
                   MessageType.STATUS
                   (WebSocketMessage.StatusPayload "running"
                      (Some "Starting API: buses"))]
      /\ WebSocketHandler.tasks s'
         = [{| WebSocketHandler.coro := WebSocketHandler.run_api (Py.JStr "buses");
               WebSocketHandler.state := WebSocketHandler.created |}]
      /\ WebSocketHandler.api_task s' = Some 0
      /\ WebSocketHandler.runners s' = []
      /\ WebSocketHandler.api_service s' = None
      /\ WebSocketHandler.api_is_running s' = false.
Proof.
  assert (Hc : forall frame, Spec.contained (Examples.carries 7 frame))
    by (intros frame; exact I).
  assert (H : WebSocketHandler.api_is_running Examples.opened = false)
    by (vm_compute; reflexivity).
  exact (conj Hc (conj H
           (run_api_when_not_running 7 Examples.carries Examples.clock Examples.repr
              (Py.JStr "buses") Examples.opened Hc H))).
Defined.

(** C10.  A received text that decodes to a JSON object whose ["type"] entry
    (or [None], when there is none) is none of ["start_agent"],
    ["stop_agent"] and ["run_api"] leaves the handler exactly as it was: no
    frame is sent, no task is created, the references the handler holds
    stay, and the loop goes on receiving. *)
Theorem unknown_type_is_ignored :
  forall websocket transport time str_of py data fields msg_type s,
    WebSocketHandler.receiving s = true ->
    Json.loads_str py data = Py.Returns (Py.JObj fields) ->
    Py.get (Py.JObj fields) "type" Py.JNull = Py.Returns msg_type ->
    msg_type <> Py.JStr "start_agent" ->
    msg_type <> Py.JStr "stop_agent" ->
    msg_type <> Py.JStr "run_api" ->
    WebSocketHandler._handle_message websocket transport time str_of
                                     (Py.JObj fields) s
    = (Py.Returns tt, s)
    /\ WebSocketHandler.on_text websocket transport time str_of py data s
       = (Py.Returns tt, s).
Proof.
  intros websocket transport time str_of py data fields msg_type s
         Hrec Hdata Htype H1 H2 H3.
  assert (Hno : forall m literal,
             msg_type <> Py.JStr literal -> MessageType.value m = literal ->
             WebSocketHandler.is_type msg_type m = false).
  { intros m literal Hne Hm. unfold WebSocketHandler.is_type, WebSocketHandler.equals.
    destruct msg_type; try reflexivity.
    apply String.eqb_neq. rewrite Hm. congruence. }
  assert (Hmsg : WebSocketHandler._handle_message websocket transport time str_of
                   (Py.JObj fields) s = (Py.Returns tt, s)).
  { unfold WebSocketHandler._handle_message, Block.bindM at 1, Block.lift at 1.
    rewrite Htype.
    rewrite (Hno MessageType.START_AGENT _ H1 eq_refl),
            (Hno MessageType.STOP_AGENT _ H2 eq_refl),
            (Hno MessageType.RUN_API _ H3 eq_refl).
    reflexivity. }
  split; [exact Hmsg | ].
  unfold WebSocketHandler.on_text. rewrite Hrec.
  unfold Block.bindM at 1, Block.lift at 1. rewrite Hdata, Hmsg. reflexivity.
Qed.

(** A frame of type ["ping"] in the middle of a session. *)
Lemma unknown_type_is_ignored_witness :
  WebSocketHandler.receiving Examples.session = true
  /\ Json.loads_str Examples.cpython (Examples.command "ping")
     = Py.Returns (Py.JObj [("type", Py.JStr "ping")])
  /\ WebSocketHandler._handle_message 7 Examples.carries Examples.clock
       Examples.repr (Py.JObj [("type", Py.JStr "ping")]) Examples.session
     = (Py.Returns tt, Examples.session)
  /\ WebSocketHandler.on_text 7 Examples.carries Examples.clock Examples.repr Examples.cpython
       (Examples.command "ping") Examples.session
     = (Py.Returns tt, Examples.session).
Proof.
  assert (Hrec : WebSocketHandler.receiving Examples.session = true)
    by (vm_compute; reflexivity).
  assert (Hdata : Json.loads_str Examples.cpython (Examples.command "ping")
                  = Py.Returns (Py.JObj [("type", Py.JStr "ping")]))
    by (vm_compute; reflexivity).
  assert (Htype : Py.get (Py.JObj [("type", Py.JStr "ping")]) "type" Py.JNull
                  = Py.Returns (Py.JStr "ping")) by reflexivity.
  destruct (unknown_type_is_ignored 7 Examples.carries Examples.clock Examples.repr Examples.cpython
              (Examples.command "ping") [("type", Py.JStr "ping")] (Py.JStr "ping")
              Examples.session Hrec Hdata Htype
              ltac:(discriminate) ltac:(discriminate) ltac:(discriminate))
    as [H1 H2].
  exact (conj Hrec (conj Hdata (conj H1 H2))).
Defined.

(** C5.  Whatever the collaborators do and whenever [stop()] is called on
    it in between, a runner has [is_running] cleared when its [run()] is
    left, by a [return] or by an exception.  And when the stop command finds
    the API task suspended inside the [run()] of a runner, then after
    [_stop_agent] that runner has [is_running] cleared, the task is over,
    and the last call made on the channel is the STATUS frame "stopped". *)
Theorem is_running_cleared_and_stop_reported :
  forall websocket transport time s t endpoint a,
    WebSocketHandler.api_task s = Some t ->
    nth_error (WebSocketHandler.tasks s) t
    = Some {| WebSocketHandler.coro := WebSocketHandler.run_api endpoint;
              WebSocketHandler.state := WebSocketHandler.suspended (Some a) true |} ->
    a < List.length (WebSocketHandler.runners s) ->
    (forall c env o,
        Runner.is_running (snd (WebSocketHandler.run_of c env o)) = false)
    /\ exists r s',
        WebSocketHandler._stop_agent websocket transport time s = (r, s')
        /\ (exists x, nth_error (WebSocketHandler.runners s') a = Some x
                      /\ Runner.is_running (WebSocketHandler.object x) = false)
        /\ nth_error (WebSocketHandler.tasks s') t
           = Some {| WebSocketHandler.coro := WebSocketHandler.run_api endpoint;
                     WebSocketHandler.state := WebSocketHandler.finished |}
        /\ ConnectionManager.calls (WebSocketHandler.manager s')
           = ConnectionManager.calls (WebSocketHandler.manager s)
               ++ [Spec.sent websocket transport time (WebSocketHandler.manager s)
                     MessageType.STATUS
                     (WebSocketMessage.StatusPayload
                        "stopped" (Some "Stopped by user"))].
Proof.
  intros websocket transport time s t endpoint a Hapi Ht Ha. split.
  - intros c env o. rewrite run_of_framed. apply framed_clears.
  - destruct (_stop_agent_run websocket transport time t endpoint a s Hapi
                (conj Ht Ha)) as (r & s' & Hrun & [Htask Hx] & Hcalls).
    exists r, s'. repeat split; assumption.
Qed.

(** The stop command in a session whose bus extraction is under way. *)
Lemma is_running_cleared_and_stop_reported_witness :
  WebSocketHandler.api_task Examples.session = Some 1
  /\ nth_error (WebSocketHandler.tasks Examples.session) 1
     = Some {| WebSocketHandler.coro := WebSocketHandler.run_api (Py.JStr "buses");
               WebSocketHandler.state := WebSocketHandler.suspended (Some 0) true |}
  /\ 0 < List.length (WebSocketHandler.runners Examples.session)
  /\ (forall c env o,
         Runner.is_running (snd (WebSocketHandler.run_of c env o)) = false)
  /\ exists r s',
      WebSocketHandler._stop_agent 7 Examples.carries Examples.clock Examples.session
      = (r, s')
      /\ (exists x, nth_error (WebSocketHandler.runners s') 0 = Some x
                    /\ Runner.is_running (WebSocketHandler.object x) = false)
      /\ nth_error (WebSocketHandler.tasks s') 1
         = Some {| WebSocketHandler.coro := WebSocketHandler.run_api (Py.JStr "buses");
                   WebSocketHandler.state := WebSocketHandler.finished |}
      /\ ConnectionManager.calls (WebSocketHandler.manager s')
         = ConnectionManager.calls (WebSocketHandler.manager Examples.session)
             ++ [Spec.sent 7 Examples.carries Examples.clock
                   (WebSocketHandler.manager Examples.session)
                   MessageType.STATUS
                   (WebSocketMessage.StatusPayload
                      "stopped" (Some "Stopped by user"))].
Proof.
  assert (Hapi : WebSocketHandler.api_task Examples.session = Some 1)
    by (vm_compute; reflexivity).
  assert (Ht : nth_error (WebSocketHandler.tasks Examples.session) 1
               = Some {| WebSocketHandler.coro :=
                           WebSocketHandler.run_api (Py.JStr "buses");
                         WebSocketHandler.state :=
                           WebSocketHandler.suspended (Some 0) true |})
    by (vm_compute; reflexivity).
  assert (Ha : 0 < List.length (WebSocketHandler.runners Examples.session))
    by (vm_compute; lia).
  exact (conj Hapi (conj Ht (conj Ha
           (is_running_cleared_and_stop_reported 7 Examples.carries Examples.clock
              Examples.session 1 (Py.JStr "buses") 0 Hapi Ht Ha)))).
Defined.

(* ================================================================= *)
(** ** More on the connection registry *)

Section RegistryMembership.
Import Py Block ConnectionManager Spec.

Lemma remove_first_last w l :
  registered w l = false -> remove_first w (l ++ [w]) = l.
Proof.
  unfold registered. induction l as [ | x l IH]; simpl.
  - rewrite Nat.eqb_refl. reflexivity.
  - intros H. apply orb_false_iff in H. destruct H as [Hx Hl].
    rewrite Hx, (IH Hl). reflexivity.
Qed.

Lemma registered_last w l : registered w (l ++ [w]) = true.
Proof.
  unfold registered. rewrite existsb_app. simpl. rewrite Nat.eqb_refl.
  rewrite orb_true_r. reflexivity.
Qed.

Lemma registered_filter_out w l :
  registered w (filter (fun x => negb (Nat.eqb w x)) l) = false.
Proof.
  unfold registered. apply not_true_is_false. intros H.
  apply existsb_exists in H. destruct H as (x & Hin & Hx).
  apply filter_In in Hin. destruct Hin as [_ Hne]. rewrite Hx in Hne. discriminate.
Qed.

(** An element that no entry of the prefix equals is first met after it. *)
Lemma remove_first_after w p l :
  Forall (fun y => Nat.eqb w y = false) p ->
  remove_first w (p ++ w :: l) = p ++ l.
Proof.
  induction 1 as [ | y p Hy Hp IH]; simpl.
  - rewrite Nat.eqb_refl. reflexivity.
  - rewrite Hy, IH. reflexivity.
Qed.

(** Unregistering every channel on which the call failed, once per failed
    call, leaves the channels on which it returned. *)
Lemma prune_failed (acc : WebSocket -> bool) l :
  forall p,
    Forall (fun y => acc y = true) p ->
    fold_left (fun r w => without w r) (filter (fun w => negb (acc w)) l) (p ++ l)
    = p ++ filter acc l.
Proof.
  induction l as [ | x l IH]; intros p Hp; simpl.
  - reflexivity.
  - destruct (acc x) eqn:E; simpl.
    + change (p ++ x :: l) with (p ++ [x] ++ l). rewrite app_assoc.
      rewrite IH.
      * rewrite <- app_assoc. reflexivity.
      * apply Forall_app. split; [exact Hp | repeat constructor; exact E].
    + assert (Hw : without x (p ++ x :: l) = p ++ l).
      { unfold without, registered. rewrite existsb_app. simpl.
        rewrite Nat.eqb_refl, orb_true_r.
        apply remove_first_after. eapply Forall_impl; [ | exact Hp].
        intros y Hy. simpl in Hy. apply Nat.eqb_neq. intros ->. congruence. }
      rewrite Hw. apply IH, Hp.
Qed.

(** [disconnect] in one equation. *)
Lemma disconnect_run {Data : Type} w (s : @self Data) :
  disconnect w s
  = (Returns tt, {| active_connections := without w (active_connections s);
                    calls := calls s |}).
Proof.
  unfold disconnect, update, without. destruct s as [l c]. cbn [active_connections calls].
  destruct (registered w l); reflexivity.
Qed.

End RegistryMembership.

(** [connect] followed by [disconnect] is a round trip: a channel that was
    not registered and whose [accept()] returns is registered by [connect],
    at the end of the list, and [disconnect] then leaves the manager exactly
    as it was before. *)
Theorem connect_then_disconnect :
  forall (Data : Type) (accept : ConnectionManager.WebSocket -> Py.outcome unit)
         websocket (s : @ConnectionManager.self Data),
    accept websocket = Py.Returns tt ->
    ConnectionManager.registered websocket (ConnectionManager.active_connections s)
    = false ->
    exists s1,
      ConnectionManager.connect accept websocket s = (Py.Returns tt, s1)
      /\ ConnectionManager.active_connections s1
         = ConnectionManager.active_connections s ++ [websocket]
      /\ ConnectionManager.calls s1 = ConnectionManager.calls s
      /\ ConnectionManager.disconnect websocket s1 = (Py.Returns tt, s).
Proof.
  intros Data accept websocket [l c] Hacc Hreg. simpl in Hreg.
  unfold ConnectionManager.connect, Block.bindM, Block.lift, Block.update.
  rewrite Hacc. eexists. split; [reflexivity | ]. cbn.
  repeat split.
  unfold ConnectionManager.disconnect, Block.update.
  cbn -[ConnectionManager.registered ConnectionManager.remove_first].
  rewrite registered_last, (remove_first_last _ _ Hreg). reflexivity.
Qed.

Lemma connect_then_disconnect_witness :
  Examples.accepts 4 = Py.Returns tt
  /\ ConnectionManager.registered
       4 (ConnectionManager.active_connections Examples.three_channels) = false
  /\ exists s1,
      ConnectionManager.connect Examples.accepts 4 Examples.three_channels
      = (Py.Returns tt, s1)
      /\ ConnectionManager.active_connections s1 = [1; 2; 3; 4]
      /\ ConnectionManager.calls s1 = []
      /\ ConnectionManager.disconnect 4 s1 = (Py.Returns tt, Examples.three_channels).
Proof.
  assert (H1 : Examples.accepts 4 = Py.Returns tt) by reflexivity.
  assert (H2 : ConnectionManager.registered
                 4 (ConnectionManager.active_connections Examples.three_channels)
               = false) by reflexivity.
  exact (conj H1 (conj H2
           (connect_then_disconnect string Examples.accepts 4
              Examples.three_channels H1 H2))).
Defined.

(** Unregistering is idempotent on a registry without repeats: [disconnect]
    removes the channel and keeps the others in their order, and a second
    [disconnect] of the same channel changes nothing. *)
Theorem disconnect_twice :
  forall (Data : Type) websocket (s : @ConnectionManager.self Data),
    NoDup (ConnectionManager.active_connections s) ->
    exists s1,
      ConnectionManager.disconnect websocket s = (Py.Returns tt, s1)
      /\ ConnectionManager.active_connections s1
         = filter (fun x => negb (Nat.eqb websocket x))
                  (ConnectionManager.active_connections s)
      /\ ConnectionManager.calls s1 = ConnectionManager.calls s
      /\ ConnectionManager.registered websocket
           (ConnectionManager.active_connections s1) = false
      /\ ConnectionManager.disconnect websocket s1 = (Py.Returns tt, s1).
Proof.
  intros Data websocket s Hnd. rewrite disconnect_run.
  eexists. split; [reflexivity | ]. cbn [ConnectionManager.active_connections
                                        ConnectionManager.calls].
  rewrite (without_filter websocket _ Hnd).
  split; [reflexivity | ]. split; [reflexivity | ].
  split; [apply registered_filter_out | ].
  rewrite disconnect_run. cbn [ConnectionManager.active_connections
                               ConnectionManager.calls].
  unfold Spec.without at 1. rewrite registered_filter_out. reflexivity.
Qed.

Lemma disconnect_twice_witness :
  NoDup (ConnectionManager.active_connections Examples.three_channels)
  /\ exists s1,
      ConnectionManager.disconnect 2 Examples.three_channels = (Py.Returns tt, s1)
      /\ ConnectionManager.active_connections s1 = [1; 3]
      /\ ConnectionManager.calls s1 = []
      /\ ConnectionManager.registered 2 (ConnectionManager.active_connections s1)
         = false
      /\ ConnectionManager.disconnect 2 s1 = (Py.Returns tt, s1).
Proof.
  assert (Hnd : NoDup (ConnectionManager.active_connections Examples.three_channels)).
  { simpl. repeat constructor; simpl; intuition discriminate. }
  exact (conj Hnd (disconnect_twice string 2 Examples.three_channels Hnd)).
Defined.

(** [send_json] heals the registry: when the call on the channel raises an
    [Exception] the channel loses its (first) registration, when it returns
    the registry stays; either way one call is made and [send_json] itself
    returns. *)
Theorem send_json_unregisters_on_failure :
  forall (Data : Type)
         (transport : ConnectionManager.WebSocket -> Data -> Py.outcome unit)
         websocket (data : Data) (s : ConnectionManager.self),
    Spec.contained (transport websocket data) ->
    exists s',
      ConnectionManager.send_json transport websocket data s = (Py.Returns tt, s')
      /\ ConnectionManager.calls s'
         = ConnectionManager.calls s ++ [Spec.attempt_on transport data websocket]
      /\ ConnectionManager.active_connections s'
         = if Spec.accepted transport data websocket
           then ConnectionManager.active_connections s
           else Spec.without websocket (ConnectionManager.active_connections s).
Proof.
  intros Data transport websocket data s Hc.
  unfold ConnectionManager.send_json, Block.try_except_Exception,
    ConnectionManager.websocket_send_json, Spec.attempt_on, Spec.accepted.
  cbn zeta. destruct (transport websocket data) as [ [] | e]; cbn [Py.returned].
  - eexists. split; [reflexivity | ]. split; reflexivity.
  - cbn in Hc. rewrite Hc. rewrite disconnect_run.
    eexists. split; [reflexivity | ]. split; reflexivity.
Qed.

Lemma send_json_unregisters_on_failure_witness :
  Spec.contained (Examples.broken_2 2 "frame")
  /\ exists s',
      ConnectionManager.send_json Examples.broken_2 2 "frame" Examples.three_channels
      = (Py.Returns tt, s')
      /\ ConnectionManager.calls s'
         = [ {| ConnectionManager.to := 2; ConnectionManager.frame := "frame";
                ConnectionManager.delivered := false |} ]
      /\ ConnectionManager.active_connections s' = [1; 3].
Proof.
  assert (Hc : Spec.contained (Examples.broken_2 2 "frame")) by reflexivity.
  exact (conj Hc (send_json_unregisters_on_failure string Examples.broken_2 2
                    "frame" Examples.three_channels Hc)).
Defined.

(** [broadcast] on any registry, repeats included: every registration is
    called once, in order, and the registrations left are those of the
    channels on which the call returned; a failing channel registered
    twice is called twice and loses both registrations. *)
Theorem broadcast_with_repeats :
  forall (Data : Type)
         (transport : ConnectionManager.WebSocket -> Data -> Py.outcome unit)
         (data : Data) (s : ConnectionManager.self),
    (forall websocket, Spec.contained (transport websocket data)) ->
    exists s',
      ConnectionManager.broadcast transport data s = (Py.Returns tt, s')
      /\ ConnectionManager.calls s'
         = ConnectionManager.calls s
             ++ map (Spec.attempt_on transport data)
                    (ConnectionManager.active_connections s)
      /\ ConnectionManager.active_connections s'
         = filter (Spec.accepted transport data)
                  (ConnectionManager.active_connections s).
Proof.
  intros Data transport data s Hc.
  unfold ConnectionManager.broadcast, Block.bindM at 1, Block.read.
  unfold Block.bindM at 1.
  destruct (deliver_run transport data Hc (ConnectionManager.active_connections s) [] s)
    as (s1 & Hrun & Hcalls & Hactive).
  rewrite Hrun. simpl app.
  destruct (disconnect_all_run (Data := Data)
              (filter (fun w => negb (Spec.accepted transport data w))
                      (ConnectionManager.active_connections s)) s1)
    as (s2 & Hrun2 & Hcalls2 & Hactive2).
  exists s2. rewrite Hrun2. split; [reflexivity | ]. split.
  - rewrite Hcalls2, Hcalls. reflexivity.
  - rewrite Hactive2, Hactive.
    exact (prune_failed (Spec.accepted transport data)
             (ConnectionManager.active_connections s) [] (Forall_nil _)).
Qed.

Lemma broadcast_with_repeats_witness :
  (forall websocket, Spec.contained (Examples.broken_2 websocket "frame"))
  /\ exists s',
      ConnectionManager.broadcast Examples.broken_2 "frame"
        {| ConnectionManager.active_connections := [2; 1; 2; 3];
           ConnectionManager.calls := [] |}
      = (Py.Returns tt, s')
      /\ ConnectionManager.calls s'
         = map (Spec.attempt_on Examples.broken_2 "frame") [2; 1; 2; 3]
      /\ ConnectionManager.active_connections s' = [1; 3].
Proof.
  assert (Hc : forall websocket, Spec.contained (Examples.broken_2 websocket "frame")).
  { intros websocket. unfold Examples.broken_2.
    destruct (Nat.eqb websocket 2); reflexivity. }
  exact (conj Hc (broadcast_with_repeats string Examples.broken_2 "frame"
                    {| ConnectionManager.active_connections := [2; 1; 2; 3];
                       ConnectionManager.calls := [] |} Hc)).
Defined.

(* ================================================================= *)
(** ** More on the extraction functions *)

Section ImageBlocks.
Import Py AnthropicProcessor Spec.

Lemma strip_prefix_app p s t r :
  Re.strip_prefix p s = Some r -> Re.strip_prefix p (s ++ t) = Some (r ++ t)%string.
Proof.
  revert s. induction p as [ | a p IH]; intros [ | b s]; simpl; intros H;
    try discriminate.
  - inversion H. reflexivity.
  - inversion H. reflexivity.
  - destruct (Ascii.eqb a b); [apply IH; exact H | discriminate].
Qed.

Lemma startswith_app p s t : startswith p s = true -> startswith p (s ++ t) = true.
Proof.
  unfold startswith. destruct (Re.strip_prefix p s) as [r | ] eqn:E;
    [ | discriminate].
  rewrite (strip_prefix_app _ _ t _ E). reflexivity.
Qed.

(** The text is split at its first comma. *)
Lemma split_comma_app head tail :
  contains "," head = false ->
  split_comma (head ++ "," ++ tail) = Some (head, tail).
Proof.
  induction head as [ | c head IH]; intros H; [reflexivity | ].
  cbn [contains] in H. apply orb_false_iff in H. destruct H as [Hc Hrest].
  unfold startswith in Hc. cbn [Re.strip_prefix] in Hc.
  cbn [String.append split_comma]. rewrite Ascii.eqb_sym.
  destruct (Ascii.eqb "," c); [discriminate | ].
  cbn [String.append] in IH. rewrite (IH Hrest). reflexivity.
Qed.

End ImageBlocks.

(** How a screenshot reaches the request.  The data URL a runner builds
    from a file is taken apart again into the file's base64 text, as PNG;
    any data URL is split at its first comma, and is JPEG when the part
    before it mentions [jpeg]; a text that is not a data URL is sent as it
    is, as PNG. *)
Theorem image_of_data_url :
  (forall image_data,
      AnthropicProcessor.image_of (Spec.data_url image_data)
      = {| AnthropicProcessor.media_type := "image/png";
           AnthropicProcessor.data := image_data |})
  /\ (forall head tail,
         AnthropicProcessor.startswith "data:" head = true ->
         AnthropicProcessor.contains "," head = false ->
         AnthropicProcessor.image_of (head ++ "," ++ tail)
         = {| AnthropicProcessor.media_type :=
                if AnthropicProcessor.contains "jpeg" head
                then "image/jpeg" else "image/png";
              AnthropicProcessor.data := tail |})
  /\ (forall raw,
         AnthropicProcessor.startswith "data:" raw = false ->
         AnthropicProcessor.image_of raw
         = {| AnthropicProcessor.media_type := "image/png";
              AnthropicProcessor.data := raw |}).
Proof.
  assert (Hurl : forall head tail,
             AnthropicProcessor.startswith "data:" head = true ->
             AnthropicProcessor.contains "," head = false ->
             AnthropicProcessor.image_of (head ++ "," ++ tail)
             = {| AnthropicProcessor.media_type :=
                    if AnthropicProcessor.contains "jpeg" head
                    then "image/jpeg" else "image/png";
                  AnthropicProcessor.data := tail |}).
  { intros head tail Hs Hc. unfold AnthropicProcessor.image_of.
    rewrite (startswith_app _ _ _ Hs), (split_comma_app _ _ Hc). reflexivity. }
  split; [ | split].
  - intros image_data.
    exact (Hurl "data:image/png;base64" image_data eq_refl eq_refl).
  - exact Hurl.
  - intros raw Hraw. unfold AnthropicProcessor.image_of. rewrite Hraw. reflexivity.
Qed.

(** A reply whose status is outside 2xx: each extraction function returns
    its key mapped to the empty value and the error ["API error: <status>"];
    the body of the reply is not read. *)
Theorem status_error_shapes :
  forall py (post : AnthropicProcessor.oracle) reply screenshot_base64 screenshots api_key,
    (forall req, post req = Py.Returns reply) ->
    (200 <=? AnthropicProcessor.status_code reply)
      && (AnthropicProcessor.status_code reply <? 300) = false ->
    let error :=
      Py.JStr ("API error: " ++ Py.str_nat (AnthropicProcessor.status_code reply)) in
    AnthropicProcessor.extract_bus_data py post screenshot_base64 api_key
    = Py.Returns (Py.JObj [("buses", Py.JArr []); ("error", error)])
    /\ AnthropicProcessor.extract_contingency_data py post screenshot_base64 api_key
       = Py.Returns (Py.JObj [("contingencies", Py.JArr []); ("error", error)])
    /\ AnthropicProcessor.extract_contingency_data_multi py post screenshots api_key
       = Py.Returns (Py.JObj [("contingencies", Py.JArr []); ("error", error)])
    /\ AnthropicProcessor.extract_grid_data py post screenshot_base64 api_key
       = Py.Returns (Py.JObj [("grid", Py.JObj []); ("error", error)]).
Proof.
  intros py post reply screenshot_base64 screenshots api_key Hpost Hstatus error.
  unfold AnthropicProcessor.extract_bus_data,
    AnthropicProcessor.extract_contingency_data,
    AnthropicProcessor.extract_contingency_data_multi,
    AnthropicProcessor.extract_grid_data.
  cbv zeta. rewrite !Hpost. cbn [Py.bind].
  unfold AnthropicProcessor.raise_for_status.
  rewrite Hstatus. repeat split.
Qed.

Lemma status_error_shapes_witness :
  (forall req, Examples.status_500 req
               = Py.Returns {| AnthropicProcessor.status_code := 500;
                               AnthropicProcessor.content :=
                                 AnthropicProcessor.Undecodable
                                   "JSONDecodeError"
                                   "Expecting value: line 1 column 1 (char 0)";
                               AnthropicProcessor.status_message := "Server error" |})
  /\ AnthropicProcessor.extract_bus_data Examples.cpython Examples.status_500 "AAAA" "key"
     = Py.Returns (Py.JObj [("buses", Py.JArr []);
                            ("error", Py.JStr "API error: 500")])
  /\ AnthropicProcessor.extract_contingency_data Examples.cpython Examples.status_500 "AAAA" "key"
     = Py.Returns (Py.JObj [("contingencies", Py.JArr []);
                            ("error", Py.JStr "API error: 500")])
  /\ AnthropicProcessor.extract_contingency_data_multi
       Examples.cpython Examples.status_500 ["AAAA"; "BBBB"] "key"
     = Py.Returns (Py.JObj [("contingencies", Py.JArr []);
                            ("error", Py.JStr "API error: 500")])
  /\ AnthropicProcessor.extract_grid_data Examples.cpython Examples.status_500 "AAAA" "key"
     = Py.Returns (Py.JObj [("grid", Py.JObj []);
                            ("error", Py.JStr "API error: 500")]).
Proof.
  assert (H : forall req,
             Examples.status_500 req
             = Py.Returns {| AnthropicProcessor.status_code := 500;
                             AnthropicProcessor.content :=
                               AnthropicProcessor.Undecodable
                                 "JSONDecodeError"
                                 "Expecting value: line 1 column 1 (char 0)";
                             AnthropicProcessor.status_message := "Server error" |})
    by reflexivity.
  exact (conj H (status_error_shapes Examples.cpython Examples.status_500 _ "AAAA"
                   ["AAAA"; "BBBB"] "key" H eq_refl)).
Defined.

(** A failure of the HTTP call itself (an [Exception] that is not a status
    error): each extraction function returns its key mapped to the empty
    value and the text of the exception as the error. *)
Theorem transport_error_shapes :
  forall py (post : AnthropicProcessor.oracle) e screenshot_base64 screenshots api_key,
    (forall req, post req = Py.Raises e) ->
    Py.is_Exception e = true ->
    AnthropicProcessor.is_HTTPStatusError e = false ->
    let error := Py.JStr (Py.str_exn e) in
    AnthropicProcessor.extract_bus_data py post screenshot_base64 api_key
    = Py.Returns (Py.JObj [("buses", Py.JArr []); ("error", error)])
    /\ AnthropicProcessor.extract_contingency_data py post screenshot_base64 api_key
       = Py.Returns (Py.JObj [("contingencies", Py.JArr []); ("error", error)])
    /\ AnthropicProcessor.extract_contingency_data_multi py post screenshots api_key
       = Py.Returns (Py.JObj [("contingencies", Py.JArr []); ("error", error)])
    /\ AnthropicProcessor.extract_grid_data py post screenshot_base64 api_key
       = Py.Returns (Py.JObj [("grid", Py.JObj []); ("error", error)]).
Proof.
  intros py post e screenshot_base64 screenshots api_key Hpost He Hstatus error.
  unfold AnthropicProcessor.extract_bus_data,
    AnthropicProcessor.extract_contingency_data,
    AnthropicProcessor.extract_contingency_data_multi,
    AnthropicProcessor.extract_grid_data.
  cbv zeta. rewrite !Hpost. cbn [Py.bind AnthropicProcessor.try_except find fst snd].
  rewrite Hstatus, He. repeat split.
Qed.

Lemma transport_error_shapes_witness :
  let timeout := Py.PyException "ReadTimeout" "The read operation timed out" in
  Py.is_Exception timeout = true
  /\ AnthropicProcessor.is_HTTPStatusError timeout = false
  /\ AnthropicProcessor.extract_bus_data Examples.cpython (fun _ => Py.Raises timeout) "AAAA" "key"
     = Py.Returns (Py.JObj [("buses", Py.JArr []);
                            ("error", Py.JStr "The read operation timed out")])
  /\ AnthropicProcessor.extract_contingency_data
       Examples.cpython (fun _ => Py.Raises timeout) "AAAA" "key"
     = Py.Returns (Py.JObj [("contingencies", Py.JArr []);
                            ("error", Py.JStr "The read operation timed out")])
  /\ AnthropicProcessor.extract_contingency_data_multi
       Examples.cpython (fun _ => Py.Raises timeout) ["AAAA"] "key"
     = Py.Returns (Py.JObj [("contingencies", Py.JArr []);
                            ("error", Py.JStr "The read operation timed out")])
  /\ AnthropicProcessor.extract_grid_data Examples.cpython (fun _ => Py.Raises timeout) "AAAA" "key"
     = Py.Returns (Py.JObj [("grid", Py.JObj []);
                            ("error", Py.JStr "The read operation timed out")]).
Proof.
  intros timeout.
  exact (conj eq_refl (conj eq_refl
           (transport_error_shapes Examples.cpython (fun _ => Py.Raises timeout)
              timeout
              "AAAA" ["AAAA"] "key" (fun _ => eq_refl) eq_refl eq_refl))).
Defined.

(** A 2xx reply whose JSON body has no [content], or a [content] that
    counts as false (an empty list, dictionary or string, [None], [False],
    a zero of either number type): each extraction function returns its
    key mapped to the empty value and the error ["Empty response from
    Anthropic"]. *)
Theorem empty_reply_shapes :
  forall py (post : AnthropicProcessor.oracle) reply body content
         screenshot_base64 screenshots api_key,
    (forall req, post req = Py.Returns reply) ->
    AnthropicProcessor.raise_for_status reply = Py.Returns tt ->
    AnthropicProcessor.response_json reply = Py.Returns body ->
    Py.get body "content" (Py.JArr []) = Py.Returns content ->
    Py.truthy content = false ->
    let error := Py.JStr "Empty response from Anthropic" in
    AnthropicProcessor.extract_bus_data py post screenshot_base64 api_key
    = Py.Returns (Py.JObj [("buses", Py.JArr []); ("error", error)])
    /\ AnthropicProcessor.extract_contingency_data py post screenshot_base64 api_key
       = Py.Returns (Py.JObj [("contingencies", Py.JArr []); ("error", error)])
    /\ AnthropicProcessor.extract_contingency_data_multi py post screenshots api_key
       = Py.Returns (Py.JObj [("contingencies", Py.JArr []); ("error", error)])
    /\ AnthropicProcessor.extract_grid_data py post screenshot_base64 api_key
       = Py.Returns (Py.JObj [("grid", Py.JObj []); ("error", error)]).
Proof.
  intros py post reply body content screenshot_base64 screenshots api_key
         Hpost Hstatus Hbody Hcontent Hfalse error.
  unfold AnthropicProcessor.extract_bus_data,
    AnthropicProcessor.extract_contingency_data,
    AnthropicProcessor.extract_contingency_data_multi,
    AnthropicProcessor.extract_grid_data.
  cbv zeta. rewrite !Hpost. cbn [Py.bind]. rewrite Hstatus. cbn [Py.bind].
  rewrite Hbody. cbn [Py.bind]. rewrite Hcontent. cbn [Py.bind].
  unfold AnthropicProcessor.has_items. rewrite Hfalse. repeat split.
Qed.

(** A reply whose [content] is the float [0.0]. *)
Lemma empty_reply_shapes_witness :
  let body := Py.JObj [("id", Py.JStr "msg_01"); ("content", Py.JFloat "0.0")] in
  let reply := {| AnthropicProcessor.status_code := 200;
                  AnthropicProcessor.content := AnthropicProcessor.Document body;
                  AnthropicProcessor.status_message := "" |} in
  AnthropicProcessor.raise_for_status reply = Py.Returns tt
  /\ AnthropicProcessor.response_json reply = Py.Returns body
  /\ Py.get body "content" (Py.JArr []) = Py.Returns (Py.JFloat "0.0")
  /\ Py.truthy (Py.JFloat "0.0") = false
  /\ AnthropicProcessor.extract_bus_data Examples.cpython
       (fun _ => Py.Returns reply) "AAAA" "key"
     = Py.Returns (Py.JObj [("buses", Py.JArr []);
                            ("error", Py.JStr "Empty response from Anthropic")])
  /\ AnthropicProcessor.extract_contingency_data
       Examples.cpython (fun _ => Py.Returns reply) "AAAA" "key"
     = Py.Returns (Py.JObj [("contingencies", Py.JArr []);
                            ("error", Py.JStr "Empty response from Anthropic")])
  /\ AnthropicProcessor.extract_contingency_data_multi
       Examples.cpython (fun _ => Py.Returns reply) ["AAAA"] "key"
     = Py.Returns (Py.JObj [("contingencies", Py.JArr []);
                            ("error", Py.JStr "Empty response from Anthropic")])
  /\ AnthropicProcessor.extract_grid_data Examples.cpython
       (fun _ => Py.Returns reply) "AAAA" "key"
     = Py.Returns (Py.JObj [("grid", Py.JObj []);
                            ("error", Py.JStr "Empty response from Anthropic")]).
Proof.
  intros body reply.
  assert (H4 : Py.truthy (Py.JFloat "0.0") = false) by (vm_compute; reflexivity).
  exact (conj eq_refl (conj eq_refl (conj eq_refl (conj H4
           (empty_reply_shapes Examples.cpython (fun _ => Py.Returns reply) reply
              body (Py.JFloat "0.0") "AAAA" ["AAAA"] "key"
              (fun _ => eq_refl) eq_refl eq_refl eq_refl H4))))).
Defined.

(** *** The shape of what is returned *)

Section Shapes.
Import Py Json Re AnthropicProcessor Spec.

Variable py : interpreter.

Lemma parse_object_dict fuel :
  forall depth s idx pairs v r i,
    parse_object py fuel depth s idx pairs = Scanned v r i -> is_dict v = true.
Proof.
  induction fuel as [ | fuel IH]; intros depth s idx pairs v r i H.
  - discriminate.
  - cbn [parse_object] in H.
    repeat match type of H with
    | parse_object _ fuel _ _ _ _ = _ => fail 1
    | context [match ?x with _ => _ end] => destruct x eqn:?; try discriminate
    | context [let (_, _) := ?x in _] => destruct x eqn:?; try discriminate
    end.
    all: try (inversion H; subst; reflexivity).
    all: try (eapply IH; exact H).
Qed.

Lemma scan_once_brace fuel depth r idx v r' i' :
  scan_once py fuel depth (String "{" r) idx = Scanned v r' i' ->
  is_dict v = true.
Proof.
  destruct fuel as [ | fuel]; [discriminate | ].
  cbn [scan_once].
  replace (Ascii.eqb "{" dquote) with false by reflexivity.
  replace (Ascii.eqb "{" "{") with true by reflexivity.
  destruct depth as [ | depth]; [discriminate | ].
  destruct (skip_whitespace r (idx + 1)) as [r1 i1].
  intros E.
  repeat match type of E with
  | parse_object _ _ _ _ _ _ = _ => fail 1
  | context [match ?x with _ => _ end] => destruct x eqn:?
  end;
  try (eapply parse_object_dict; exact E).
  inversion E. reflexivity.
Qed.

Lemma loads_str_brace r v :
  loads_str py (String "{" r) = Returns v -> is_dict v = true.
Proof.
  unfold loads_str. intros H.
  replace (Re.strip_prefix BOM (String "{" r)) with (@None string) in H
    by reflexivity.
  replace (skip_whitespace (String "{" r) 0) with (String "{" r, 0) in H
    by reflexivity.
  destruct (scan_once py (S (String.length (String "{" r))) (recursion_left py)
                      (String "{" r) 0)
    as [v' r' i' | m i | cls m] eqn:E; [ | discriminate | discriminate].
  destruct (skip_whitespace r' i') as [r'' i''].
  destruct r''; [ | discriminate]. inversion H; subst v'.
  eapply scan_once_brace. exact E.
Qed.

Lemma strip_prefix_length p : forall s s',
  strip_prefix p s = Some s' -> String.length s' <= String.length s.
Proof.
  induction p as [ | a p IH]; intros s s' H.
  - simpl in H. inversion H. lia.
  - destruct s as [ | b s]; simpl in H; [discriminate | ].
    destruct (Ascii.eqb a b); [ | discriminate]. apply IH in H. simpl. lia.
Qed.

Lemma strip_prefix_brace s s' :
  strip_prefix "{" s = Some s' -> s = String "{" s'.
Proof.
  destruct s as [ | b s]; cbn [strip_prefix]; [discriminate | ].
  destruct (Ascii.eqb "{" b) eqn:E; [ | discriminate].
  apply Ascii.eqb_eq in E. subst b. intros H. inversion H. reflexivity.
Qed.

Section Backtracking.
Context {R : Type}.

Lemma star_greedy_cont cls : forall s g (k : @cont R) x,
  star_greedy cls s g k = Some x ->
  exists s', k s' g = Some x /\ String.length s' <= String.length s.
Proof.
  induction s as [ | c s IH]; intros g k x; simpl; intros H.
  - exists "". split; [exact H | simpl; lia].
  - destruct (cls c).
    + destruct (star_greedy cls s g k) as [y | ] eqn:E.
      * inversion H; subst y. destruct (IH _ _ _ E) as (s' & Hk & Hl).
        exists s'. split; [exact Hk | simpl; lia].
      * exists (String c s). split; [exact H | simpl; lia].
    + exists (String c s). split; [exact H | simpl; lia].
Qed.

Lemma star_lazy_cont cls : forall s g (k : @cont R) x,
  star_lazy cls s g k = Some x ->
  exists s', k s' g = Some x /\ String.length s' <= String.length s.
Proof.
  induction s as [ | c s IH]; intros g k x; simpl; intros H.
  - destruct (k "" g) eqn:E; [ | discriminate].
    exists "". split; [congruence | simpl; lia].
  - destruct (k (String c s) g) eqn:E.
    + exists (String c s). split; [congruence | simpl; lia].
    + destruct (cls c); [ | discriminate].
      destruct (IH _ _ _ H) as (s' & Hk & Hl).
      exists s'. split; [exact Hk | simpl; lia].
Qed.

Lemma spaces_greedy_cont : forall n s g (k : @cont R) x,
  String.length s <= n ->
  spaces_greedy s g k = Some x ->
  exists s', k s' g = Some x /\ String.length s' <= String.length s.
Proof.
  induction n as [ | n IH]; intros s g k x Hn H.
  - destruct s; [ | simpl in Hn; lia]. exists "". split; [exact H | lia].
  - destruct s as [ | a s1]; [exists ""; split; [exact H | lia] | ].
    cbn [spaces_greedy] in H. cbn [String.length] in Hn.
    destruct (space1 a).
    { destruct (spaces_greedy s1 g k) as [y | ] eqn:E.
      - inversion H; subst y.
        destruct (IH s1 g k x) as (s' & Hk & Hl); [lia | exact E | ].
        exists s'. split; [exact Hk | cbn [String.length]; lia].
      - exists (String a s1). split; [exact H | lia]. }
    destruct s1 as [ | b s2]; [exists (String a ""); split; [exact H | lia] | ].
    cbn [String.length] in Hn.
    destruct (space2 a b).
    { destruct (spaces_greedy s2 g k) as [y | ] eqn:E.
      - inversion H; subst y.
        destruct (IH s2 g k x) as (s' & Hk & Hl); [lia | exact E | ].
        exists s'. split; [exact Hk | cbn [String.length]; lia].
      - exists (String a (String b s2)). split; [exact H | lia]. }
    destruct s2 as [ | c s3];
      [exists (String a (String b "")); split; [exact H | lia] | ].
    cbn [String.length] in Hn.
    destruct (space3 a b c).
    { destruct (spaces_greedy s3 g k) as [y | ] eqn:E.
      - inversion H; subst y.
        destruct (IH s3 g k x) as (s' & Hk & Hl); [lia | exact E | ].
        exists s'. split; [exact Hk | cbn [String.length]; lia].
      - exists (String a (String b (String c s3))). split; [exact H | lia]. }
    exists (String a (String b (String c s3))). split; [exact H | lia].
Qed.

Lemma lit_cont l s g (k : @cont R) x :
  run (Lit l) s g k = Some x ->
  exists s', k s' g = Some x /\ String.length s' <= String.length s.
Proof.
  simpl. destruct (strip_prefix l s) as [s' | ] eqn:E; [ | discriminate].
  intros H. exists s'. split; [exact H | eapply strip_prefix_length; exact E].
Qed.

(** The continuation is entered on a suffix of the input. *)
Lemma run_cont r : forall s g (k : @cont R) x,
  run r s g k = Some x ->
  exists s' g', k s' g' = Some x /\ String.length s' <= String.length s.
Proof.
  induction r as [l | cls | cls | | r1 IH1 | r1 IH1 r2 IH2 | r1 IH1];
    intros s g k x H.
  - destruct (lit_cont _ _ _ _ _ H) as (s' & Hk & Hl). eauto.
  - destruct (star_greedy_cont _ _ _ _ _ H) as (s' & Hk & Hl). eauto.
  - destruct (star_lazy_cont _ _ _ _ _ H) as (s' & Hk & Hl). eauto.
  - destruct (spaces_greedy_cont _ _ _ _ _ (Nat.le_refl _) H) as (s' & Hk & Hl).
    eauto.
  - simpl in H. destruct (run r1 s g k) as [y | ] eqn:E.
    + inversion H; subst y. eapply IH1; exact E.
    + exists s, g. split; [exact H | simpl; lia].
  - simpl in H. destruct (IH1 _ _ _ _ H) as (s1 & g1 & H1 & L1).
    destruct (IH2 _ _ _ _ H1) as (s2 & g2 & H2 & L2).
    exists s2, g2. split; [exact H2 | simpl; lia].
  - simpl in H. destruct (IH1 _ _ _ _ H) as (s1 & g1 & H1 & L1).
    eauto.
Qed.

End Backtracking.

Lemma consumed_brace s1 s' :
  String.length s' <= String.length s1 ->
  exists r, consumed (String "{" s1) s' = String "{" r.
Proof.
  intros H. unfold consumed.
  replace (String.length (String "{" s1) - String.length s')
    with (S (String.length s1 - String.length s'))
    by (cbn [String.length]; lia).
  cbn [String.substring]. eauto.
Qed.

Lemma search_match_at r : forall t m,
  search r t = Some m -> exists t', match_at r t' = Some m.
Proof.
  induction t as [ | c t IH]; intros m; simpl; intros H.
  - destruct (match_at r "") eqn:E; [ | discriminate]. exists "". congruence.
  - destruct (match_at r (String c t)) eqn:E.
    + exists (String c t). congruence.
    + apply IH. exact H.
Qed.

(** A match of a pattern that opens with a brace opens with a brace. *)
Lemma group0_brace rest t m :
  search (Cat (Lit "{") rest) t = Some m -> exists r, group0 m = String "{" r.
Proof.
  intros H. apply search_match_at in H. destruct H as (t' & H).
  unfold match_at in H. cbn [run] in H.
  destruct (strip_prefix "{" t') as [s1 | ] eqn:E; [ | discriminate].
  apply strip_prefix_brace in E. subst t'.
  apply run_cont in H. destruct H as (s' & g' & Hk & Hl).
  inversion Hk; subst m. simpl. apply consumed_brace. exact Hl.
Qed.

Lemma run_Cat {R : Type} r1 r2 s g (k : @cont R) :
  run (Cat r1 r2) s g k = run r1 s g (fun s' g' => run r2 s' g' k).
Proof. reflexivity. Qed.

Lemma run_Grp {R : Type} r1 s g (k : @cont R) :
  run (Grp r1) s g k = run r1 s g (fun s' _ => k s' (Some (consumed s s'))).
Proof. reflexivity. Qed.

Lemma run_Lit {R : Type} l s g (k : @cont R) :
  run (Lit l) s g k
  = match strip_prefix l s with Some s' => k s' g | None => None end.
Proof. reflexivity. Qed.

Lemma run_Spaces {R : Type} s g (k : @cont R) :
  run Spaces s g k = spaces_greedy s g k.
Proof. reflexivity. Qed.


(** The group of a fenced block opens with a brace. *)
Lemma group1_brace t m :
  search code_block_re t = Some m -> exists r, Re.group1 m = Some (String "{" r).
Proof.
  intros H. apply search_match_at in H. destruct H as (t' & H).
  unfold match_at, code_block_re, cat in H. cbn [fold_right] in H.
  rewrite run_Cat in H. apply run_cont in H. destruct H as (s1 & g1 & H & _).
  rewrite run_Cat in H. apply run_cont in H. destruct H as (s2 & g2 & H & _).
  rewrite run_Cat in H. apply run_cont in H. destruct H as (s3 & g3 & H & _).
  rewrite run_Cat, run_Grp, run_Cat, run_Lit in H.
  destruct (strip_prefix "{" s3) as [s3' | ] eqn:E; [ | discriminate].
  apply strip_prefix_brace in E. subst s3.
  apply run_cont in H. destruct H as (s4 & g4 & H & Hl).
  rewrite run_Cat, run_Spaces in H.
  apply (spaces_greedy_cont _ _ _ _ _ (Nat.le_refl _)) in H.
  destruct H as (s5 & H & _).
  rewrite run_Cat in H. apply lit_cont in H. destruct H as (s6 & H & _).
  apply lit_cont in H. destruct H as (s7 & H & _).
  inversion H; subst m. cbn [Re.group1].
  destruct (consumed_brace s3' s4 Hl) as (r & Hr). rewrite Hr. eauto.
Qed.


Lemma yields_dict_bind {A : Type} (m : outcome A) (f : A -> outcome json) :
  (forall a, m = Returns a -> yields_dict (f a)) -> yields_dict (bind m f).
Proof. destruct m as [a | e]; simpl; intros H; [apply H; reflexivity | exact I]. Qed.

Lemma yields_dict_try_except (body : outcome json) clauses :
  yields_dict body ->
  Forall (fun c => forall e, yields_dict (snd c e)) clauses ->
  yields_dict (try_except body clauses).
Proof.
  intros Hb Hc. unfold try_except. destruct body as [v | e]; [exact Hb | ].
  destruct (find (fun c => fst c e) clauses) as [c | ] eqn:E; [ | exact I].
  apply find_some in E. destruct E as [Hin _].
  rewrite Forall_forall in Hc. apply Hc. exact Hin.
Qed.

(** A value whose [get] returned is a [dict]. *)
Lemma yields_dict_checked v key default :
  yields_dict (bind (get v key default) (fun x =>
               bind (len x) (fun _ => Returns v))).
Proof.
  destruct v; try exact I. simpl.
  destruct (dict_lookup key fields) as [x | ]; simpl.
  - destruct (len x); simpl; [reflexivity | exact I].
  - destruct (len default); simpl; [reflexivity | exact I].
Qed.

Lemma re_search_some r v m :
  re_search r v = Returns (Some m) -> exists s, v = JStr s /\ Re.search r s = Some m.
Proof.
  destruct v; simpl; intros H; try discriminate.
  inversion H. eauto.
Qed.

Lemma yields_dict_loads_group1 v m :
  re_search code_block_re v = Returns (Some m) ->
  yields_dict (Json.loads py (AnthropicProcessor.group1 m)).
Proof.
  intros H. apply re_search_some in H. destruct H as (s & _ & H).
  apply group1_brace in H. destruct H as (r & Hr).
  unfold AnthropicProcessor.group1. rewrite Hr. cbn [Json.loads].
  destruct (Json.loads_str py (String "{" r)) as [x | e] eqn:E; [ | exact I].
  exact (loads_str_brace _ _ E).
Qed.

Lemma yields_dict_loads_group0 rest v m :
  re_search (Cat (Lit "{") rest) v = Returns (Some m) ->
  yields_dict (Json.loads py (JStr (Re.group0 m))).
Proof.
  intros H. apply re_search_some in H. destruct H as (s & _ & H).
  apply group0_brace in H. destruct H as (r & Hr).
  rewrite Hr. cbn [Json.loads].
  destruct (Json.loads_str py (String "{" r)) as [x | e] eqn:E; [ | exact I].
  exact (loads_str_brace _ _ E).
Qed.

Ltac dict_step :=
  first
    [ exact I
    | reflexivity
    | apply yields_dict_checked
    | eapply yields_dict_loads_group1; eassumption
    | eapply (yields_dict_loads_group0 _ _ _); eassumption
    | apply yields_dict_try_except
    | apply Forall_cons; [ intros ? | ]
    | apply Forall_nil
    | apply yields_dict_bind; intros ? ?
    | match goal with
      | |- yields_dict (if ?b then _ else _) => destruct b
      | |- yields_dict (match ?x with Some _ => _ | None => _ end) => destruct x
      end ].

Lemma extract_bus_data_yields_dict post screenshot_base64 api_key :
  yields_dict (extract_bus_data py post screenshot_base64 api_key).
Proof. unfold extract_bus_data. cbv zeta. repeat dict_step. Qed.

Lemma extract_contingency_data_yields_dict post screenshot_base64 api_key :
  yields_dict (extract_contingency_data py post screenshot_base64 api_key).
Proof. unfold extract_contingency_data. cbv zeta. repeat dict_step. Qed.

Lemma extract_contingency_data_multi_yields_dict post screenshots api_key :
  yields_dict (extract_contingency_data_multi py post screenshots api_key).
Proof. unfold extract_contingency_data_multi. cbv zeta. repeat dict_step. Qed.

End Shapes.

(** Three of the four extraction functions hand their caller a [dict] on
    every path: whatever the oracle answers or raises, short of a
    cancellation, [extract_bus_data], [extract_contingency_data] and
    [extract_contingency_data_multi] return, and what they return is a
    dictionary.  (A document that parses to something else is turned into
    the error shape by the [.get] of the success path, and both patterns
    only match texts that open with a brace.) *)
Theorem three_extractions_return_dicts :
  forall py (post : AnthropicProcessor.oracle) screenshot_base64 screenshots api_key,
    (forall req, Spec.contained (post req)) ->
    (exists fields,
        AnthropicProcessor.extract_bus_data py post screenshot_base64 api_key
        = Py.Returns (Py.JObj fields))
    /\ (exists fields,
           AnthropicProcessor.extract_contingency_data py post screenshot_base64 api_key
           = Py.Returns (Py.JObj fields))
    /\ (exists fields,
           AnthropicProcessor.extract_contingency_data_multi py post screenshots api_key
           = Py.Returns (Py.JObj fields)).
Proof.
  intros py post screenshot_base64 screenshots api_key Hpost.
  assert (Hdict : forall o : Py.outcome Py.json,
             (exists v, o = Py.Returns v) -> Spec.yields_dict o ->
             exists fields, o = Py.Returns (Py.JObj fields)).
  { intros o [v ->] Hv. destruct v; try discriminate Hv. eauto. }
  split; [ | split]; apply Hdict.
  - apply extract_bus_data_returns, Hpost.
  - apply extract_bus_data_yields_dict.
  - apply extract_contingency_data_returns, Hpost.
  - apply extract_contingency_data_yields_dict.
  - apply extract_contingency_data_multi_returns, Hpost.
  - apply extract_contingency_data_multi_yields_dict.
Qed.

(** The oracle answers with a JSON list: a document, but not an object. *)
Lemma three_extractions_return_dicts_witness :
  let post : AnthropicProcessor.oracle :=
    fun _ => Py.Returns (Spec.completion "[1, 2]") in
  (forall req, Spec.contained (post req))
  /\ Json.loads_str Examples.cpython "[1, 2]" = Py.Returns (Py.JArr [Py.JInt 1; Py.JInt 2])
  /\ (exists fields,
         AnthropicProcessor.extract_bus_data Examples.cpython post "AAAA" "key"
         = Py.Returns (Py.JObj fields))
  /\ (exists fields,
         AnthropicProcessor.extract_contingency_data Examples.cpython post "AAAA" "key"
         = Py.Returns (Py.JObj fields))
  /\ (exists fields,
         AnthropicProcessor.extract_contingency_data_multi Examples.cpython post ["AAAA"] "key"
         = Py.Returns (Py.JObj fields)).
Proof.
  intros post.
  assert (H : forall req, Spec.contained (post req)) by (intros req; exact I).
  assert (H2 : Json.loads_str Examples.cpython "[1, 2]" = Py.Returns (Py.JArr [Py.JInt 1; Py.JInt 2]))
    by (vm_compute; reflexivity).
  exact (conj H (conj H2
           (three_extractions_return_dicts Examples.cpython post "AAAA" ["AAAA"] "key" H))).
Defined.

Section DirectParse.
Import Py AnthropicProcessor Spec.

(** What a reply went through when its text was read. *)
Lemma text_response_inv reply t :
  text_response reply = Returns (Some t) ->
  exists result content first,
    raise_for_status reply = Returns tt
    /\ response_json reply = Returns result
    /\ get result "content" (JArr []) = Returns content
    /\ has_items content = Returns true
    /\ item0 content = Returns first
    /\ get first "text" (JStr "") = Returns t.
Proof.
  unfold text_response. intros H.
  destruct (raise_for_status reply) as [ [] | e] eqn:E1; simpl in H;
    [ | discriminate].
  destruct (response_json reply) as [result | e] eqn:E2; simpl in H;
    [ | discriminate].
  destruct (get result "content" (JArr [])) as [content | e] eqn:E3;
    simpl in H; [ | discriminate].
  destruct (has_items content) as [ [ | ] | e] eqn:E4; simpl in H;
    try discriminate.
  destruct (item0 content) as [first | e] eqn:E5; simpl in H; [ | discriminate].
  destruct (get first "text" (JStr "")) as [t' | e] eqn:E6; simpl in H;
    [ | discriminate].
  inversion H; subst t'. exists result, content, first.
  repeat split; assumption.
Qed.

End DirectParse.

(** The success path: when the text of the reply is itself a JSON object
    that [json.loads] accepts under the interpreter's limits (and the
    entries the log lines measure have a length), each extraction function
    returns that object as parsed, with every key the model wrote and
    nothing added. *)
Theorem direct_parse_is_returned :
  forall py (post : AnthropicProcessor.oracle) reply t document n1 n2
         screenshot_base64 screenshots api_key,
    (forall req, post req = Py.Returns reply) ->
    Spec.text_response reply = Py.Returns (Some (Py.JStr t)) ->
    Json.loads_str py t = Py.Returns (Py.JObj document) ->
    Py.bind (Py.get (Py.JObj document) "buses" (Py.JArr [])) Py.len = Py.Returns n1 ->
    Py.bind (Py.get (Py.JObj document) "contingencies" (Py.JArr [])) Py.len
    = Py.Returns n2 ->
    AnthropicProcessor.extract_bus_data py post screenshot_base64 api_key
    = Py.Returns (Py.JObj document)
    /\ AnthropicProcessor.extract_contingency_data py post screenshot_base64 api_key
       = Py.Returns (Py.JObj document)
    /\ AnthropicProcessor.extract_contingency_data_multi py post screenshots api_key
       = Py.Returns (Py.JObj document)
    /\ AnthropicProcessor.extract_grid_data py post screenshot_base64 api_key
       = Py.Returns (Py.JObj document).
Proof.
  intros py post reply t document n1 n2 screenshot_base64 screenshots api_key
         Hpost Htext Hloads Hbuses Hcont.
  destruct (text_response_inv _ _ Htext)
    as (result & content & first & E1 & E2 & E3 & E4 & E5 & E6).
  unfold AnthropicProcessor.extract_bus_data,
    AnthropicProcessor.extract_contingency_data,
    AnthropicProcessor.extract_contingency_data_multi,
    AnthropicProcessor.extract_grid_data.
  cbv zeta. rewrite !Hpost. cbn [Py.bind].
  rewrite E1. cbn [Py.bind]. rewrite E2. cbn [Py.bind]. rewrite E3. cbn [Py.bind].
  rewrite E4. cbn [Py.bind]. rewrite E5. cbn [Py.bind]. rewrite E6. cbn [Py.bind].
  cbn [Json.loads]. rewrite Hloads. cbn [Py.bind].
  destruct (Py.get (Py.JObj document) "buses" (Py.JArr [])) as [b | e];
    [ | discriminate Hbuses].
  destruct (Py.get (Py.JObj document) "contingencies" (Py.JArr [])) as [c | e];
    [ | discriminate Hcont].
  cbn [Py.bind] in *. rewrite Hbuses, Hcont. repeat split.
Qed.

(** The oracle answers with two buses and a key of its own. *)
Lemma direct_parse_is_returned_witness :
  let t := ("{" ++ AnthropicProcessor.quoted "buses" ++ ": [1, 2], "
                ++ AnthropicProcessor.quoted "source" ++ ": "
                ++ AnthropicProcessor.quoted "screenshot" ++ "}")%string in
  let document :=
    [("buses", Py.JArr [Py.JInt 1; Py.JInt 2]); ("source", Py.JStr "screenshot")] in
  let post : AnthropicProcessor.oracle := fun _ => Py.Returns (Spec.completion t) in
  Spec.text_response (Spec.completion t) = Py.Returns (Some (Py.JStr t))
  /\ Json.loads_str Examples.cpython t = Py.Returns (Py.JObj document)
  /\ AnthropicProcessor.extract_bus_data Examples.cpython post "AAAA" "key"
     = Py.Returns (Py.JObj document)
  /\ AnthropicProcessor.extract_contingency_data Examples.cpython post "AAAA" "key"
     = Py.Returns (Py.JObj document)
  /\ AnthropicProcessor.extract_contingency_data_multi Examples.cpython post
       ["AAAA"] "key"
     = Py.Returns (Py.JObj document)
  /\ AnthropicProcessor.extract_grid_data Examples.cpython post "AAAA" "key"
     = Py.Returns (Py.JObj document).
Proof.
  intros t document post.
  assert (H1 : Spec.text_response (Spec.completion t)
               = Py.Returns (Some (Py.JStr t))) by (vm_compute; reflexivity).
  assert (H2 : Json.loads_str Examples.cpython t = Py.Returns (Py.JObj document))
    by (vm_compute; reflexivity).
  exact (conj H1 (conj H2
           (direct_parse_is_returned Examples.cpython post (Spec.completion t) t
              document 2 0 "AAAA" ["AAAA"] "key" (fun _ => eq_refl) H1 H2
              eq_refl eq_refl))).
Defined.

(* ================================================================= *)
(** ** More on the session *)

Section SessionEdges.
Import Py Block WebSocketHandler Spec.

Variable websocket : ConnectionManager.WebSocket.
Variable transport :
  ConnectionManager.WebSocket -> WebSocketMessage.t -> outcome unit.
Variable time : nat -> Z.
Variable str_of : json -> string.

Lemma agent_stopped s : agent_is_running (snd (stop_agent_service s)) = false.
Proof.
  unfold stop_agent_service, update, agent_is_running. cbn [snd].
  destruct (agent_service s) as [a | ] eqn:E; cbn -[modify_nth nth_error];
    rewrite E; [ | reflexivity].
  rewrite nth_error_modify_nth, Nat.eqb_refl.
  destruct (nth_error (agents s) a); reflexivity.
Qed.

Lemma api_stopped s : api_is_running (snd (stop_api_service s)) = false.
Proof.
  unfold stop_api_service, update, api_is_running. cbn [snd].
  destruct (api_service s) as [a | ] eqn:E; cbn -[modify_nth nth_error];
    rewrite E; [ | reflexivity].
  rewrite nth_error_modify_nth, Nat.eqb_refl.
  destruct (nth_error (runners s) a); reflexivity.
Qed.

Lemma agent_is_running_stop_api_service s :
  agent_is_running (snd (stop_api_service s)) = agent_is_running s.
Proof.
  unfold stop_api_service, update, agent_is_running. cbn [snd].
  destruct (api_service s); reflexivity.
Qed.

(** [_cleanup] in one equation: both services are told to stop and the
    channel is unregistered; nothing is sent and no task is cancelled. *)
Lemma _cleanup_run s :
  exists s',
    _cleanup websocket s = (Returns tt, s')
    /\ agent_is_running s' = false
    /\ api_is_running s' = false
    /\ tasks s' = tasks s
    /\ agent_task s' = agent_task s
    /\ api_task s' = api_task s
    /\ receiving s' = receiving s
    /\ ConnectionManager.calls (manager s') = ConnectionManager.calls (manager s)
    /\ ConnectionManager.active_connections (manager s')
       = without websocket (ConnectionManager.active_connections (manager s)).
Proof.
  unfold _cleanup.
  rewrite (bind_settled _ _ _ (proj1 (stop_agent_service_run s))).
  set (s1 := snd (stop_agent_service s)).
  rewrite (bind_settled _ _ _ (proj1 (stop_api_service_run s1))).
  set (s2 := snd (stop_api_service s1)).
  unfold on_manager. rewrite disconnect_run.
  eexists. split; [reflexivity | ].
  destruct (stop_agent_service_run s) as (_ & T1 & _ & M1 & A1).
  destruct (stop_api_service_run s1) as (_ & T2 & _ & M2 & A2).
  fold s1 in T1, M1, A1. fold s2 in T2, M2, A2.
  assert (Ha : agent_is_running s2 = false).
  { unfold s2. rewrite agent_is_running_stop_api_service. apply agent_stopped. }
  assert (Hb : api_is_running s2 = false) by apply api_stopped.
  repeat split.
  - exact Ha.
  - exact Hb.
  - cbn [tasks set_manager]. rewrite T2, T1. reflexivity.
  - unfold s2, s1, stop_api_service, stop_agent_service, update. cbn [snd].
    destruct (agent_service s);
      match goal with
      | |- context [api_service ?x] => destruct (api_service x)
      end; reflexivity.
  - cbn [api_task set_manager]. rewrite A2, A1. reflexivity.
  - unfold s2, s1, stop_api_service, stop_agent_service, update. cbn [snd].
    destruct (agent_service s);
      match goal with
      | |- context [api_service ?x] => destruct (api_service x)
      end; reflexivity.
  - cbn [manager set_manager ConnectionManager.calls]. rewrite M2, M1. reflexivity.
  - cbn [manager set_manager ConnectionManager.active_connections].
    rewrite M2, M1. reflexivity.
Qed.


End SessionEdges.

(** A text frame that is not a JSON object ends the session through
    [_cleanup]: whether it fails to decode or decodes to a list, a number,
    a string, [true], [false] or [null], the loop stops receiving, both
    held services are told to stop, the channel is unregistered, and
    nothing is sent; the tasks are not cancelled. *)
Theorem malformed_frame_ends_session :
  forall websocket transport time str_of py data s,
    WebSocketHandler.receiving s = true ->
    (forall fields, Json.loads_str py data <> Py.Returns (Py.JObj fields)) ->
    exists s',
      WebSocketHandler.on_text websocket transport time str_of py data s
      = (Py.Returns tt, s')
      /\ WebSocketHandler.receiving s' = false
      /\ WebSocketHandler.agent_is_running s' = false
      /\ WebSocketHandler.api_is_running s' = false
      /\ WebSocketHandler.tasks s' = WebSocketHandler.tasks s
      /\ ConnectionManager.calls (WebSocketHandler.manager s')
         = ConnectionManager.calls (WebSocketHandler.manager s)
      /\ ConnectionManager.active_connections (WebSocketHandler.manager s')
         = Spec.without websocket
             (ConnectionManager.active_connections (WebSocketHandler.manager s)).
Proof.
  intros websocket transport time str_of py data s Hrec Hdata.
  assert (Hraise : exists e,
             Block.bindM (Block.lift (Json.loads_str py data))
               (fun message =>
                  WebSocketHandler._handle_message websocket transport time str_of
                                                   message) s
             = (Py.Raises e, s) /\ Py.is_Exception e = true).
  { unfold Block.bindM, Block.lift.
    destruct (Json.loads_str py data) as [v | e] eqn:E.
    - unfold WebSocketHandler._handle_message, Block.bindM, Block.lift.
      destruct v; try (eexists; split; reflexivity).
      elim (Hdata fields). reflexivity.
    - exists e. split; [reflexivity | ].
      pose proof (contained_loads_str py data) as C. rewrite E in C.
      exact C. }
  destruct Hraise as (e & Hrun & He).
  unfold WebSocketHandler.on_text. rewrite Hrec, Hrun, He.
  destruct (_cleanup_run websocket s)
    as (s1 & Hc & Ha & Hb & Ht & _ & _ & _ & Hcalls & Hreg).
  unfold Block.bindM. rewrite Hc. unfold Block.update.
  eexists. split; [reflexivity | ].
  repeat split; assumption.
Qed.

(** A frame that is not JSON, and one that is a JSON list. *)
Lemma malformed_frame_ends_session_witness :
  WebSocketHandler.receiving Examples.session = true
  /\ (forall fields, Json.loads_str Examples.cpython "stop" <> Py.Returns (Py.JObj fields))
  /\ exists s',
      WebSocketHandler.on_text 7 Examples.carries Examples.clock Examples.repr Examples.cpython
                               "stop" Examples.session
      = (Py.Returns tt, s')
      /\ WebSocketHandler.receiving s' = false
      /\ WebSocketHandler.agent_is_running s' = false
      /\ WebSocketHandler.api_is_running s' = false
      /\ WebSocketHandler.tasks s' = WebSocketHandler.tasks Examples.session
      /\ ConnectionManager.calls (WebSocketHandler.manager s')
         = ConnectionManager.calls (WebSocketHandler.manager Examples.session)
      /\ ConnectionManager.active_connections (WebSocketHandler.manager s')
         = Spec.without 7
             (ConnectionManager.active_connections
                (WebSocketHandler.manager Examples.session)).
Proof.
  assert (Hrec : WebSocketHandler.receiving Examples.session = true)
    by (vm_compute; reflexivity).
  assert (Hdata : forall fields, Json.loads_str Examples.cpython "stop" <> Py.Returns (Py.JObj fields)).
  { intros fields H. vm_compute in H. discriminate. }
  exact (conj Hrec (conj Hdata
           (malformed_frame_ends_session 7 Examples.carries Examples.clock
              Examples.repr Examples.cpython "stop" Examples.session Hrec Hdata))).
Defined.

(** The closure [run_api] on an endpoint that is neither ["buses"] nor
    ["contingency"]: when its task is entered it sends the ERROR frame
    ["Unknown API endpoint: <endpoint>"], constructs no runner and calls no
    [run()], and its [finally] sets [self.api_service] to [None], whatever
    the field referred to before. *)
Theorem unknown_endpoint_is_reported :
  forall websocket transport time str_of t env endpoint s,
    (forall frame, Spec.contained (transport websocket frame)) ->
    nth_error (WebSocketHandler.tasks s) t
    = Some {| WebSocketHandler.coro := WebSocketHandler.run_api endpoint;
              WebSocketHandler.state := WebSocketHandler.created |} ->
    WebSocketHandler.equals endpoint "buses" = false ->
    WebSocketHandler.equals endpoint "contingency" = false ->
    exists s',
      WebSocketHandler.enter_task websocket transport time str_of t env s
      = (Py.Returns tt, s')
      /\ ConnectionManager.calls (WebSocketHandler.manager s')
         = ConnectionManager.calls (WebSocketHandler.manager s)
             ++ [Spec.sent websocket transport time (WebSocketHandler.manager s)
                   MessageType.ERROR
                   (WebSocketMessage.StatusPayload "error"
                      (Some ("Unknown API endpoint: "
                             ++ WebSocketHandler.render str_of endpoint)%string))]
      /\ WebSocketHandler.api_service s' = None
      /\ WebSocketHandler.runners s' = WebSocketHandler.runners s
      /\ WebSocketHandler.run_calls s' = WebSocketHandler.run_calls s
      /\ nth_error (WebSocketHandler.tasks s') t
         = Some {| WebSocketHandler.coro := WebSocketHandler.run_api endpoint;
                   WebSocketHandler.state := WebSocketHandler.finished |}.
Proof.
  intros websocket transport time str_of t env endpoint s Hc Ht H1 H2.
  unfold WebSocketHandler.enter_task. rewrite bind_read. cbv beta.
  rewrite Ht. cbv iota. rewrite H1, H2.
  unfold Block.try_finally.
  destruct (send_returns websocket transport time MessageType.ERROR
              (WebSocketMessage.StatusPayload "error"
                 (Some ("Unknown API endpoint: "
                        ++ WebSocketHandler.render str_of endpoint)%string)) s Hc)
    as (m' & Hrun & Hcalls).
  rewrite Hrun. unfold Block.bindM, Block.update, WebSocketHandler.finish.
  eexists. split; [reflexivity | ].
  cbn -[WebSocketHandler.modify_nth nth_error].
  repeat split; try assumption.
  rewrite nth_error_modify_nth, Nat.eqb_refl, Ht. reflexivity.
Qed.

Lemma unknown_endpoint_is_reported_witness :
  let s := snd (WebSocketHandler._run_api 7 Examples.carries Examples.clock
                  Examples.repr (Py.JStr "grid") Examples.opened) in
  let env := Examples.environment (Py.Returns tt) Examples.three_files
                                  Examples.prose in
  (forall frame, Spec.contained (Examples.carries 7 frame))
  /\ nth_error (WebSocketHandler.tasks s) 0
     = Some {| WebSocketHandler.coro := WebSocketHandler.run_api (Py.JStr "grid");
               WebSocketHandler.state := WebSocketHandler.created |}
  /\ exists s',
      WebSocketHandler.enter_task 7 Examples.carries Examples.clock Examples.repr
                                  0 env s
      = (Py.Returns tt, s')
      /\ ConnectionManager.calls (WebSocketHandler.manager s')
         = ConnectionManager.calls (WebSocketHandler.manager s)
             ++ [Spec.sent 7 Examples.carries Examples.clock
                   (WebSocketHandler.manager s) MessageType.ERROR
                   (WebSocketMessage.StatusPayload "error"
                      (Some "Unknown API endpoint: grid"))]
      /\ WebSocketHandler.api_service s' = None
      /\ WebSocketHandler.runners s' = WebSocketHandler.runners s
      /\ WebSocketHandler.run_calls s' = WebSocketHandler.run_calls s
      /\ nth_error (WebSocketHandler.tasks s') 0
         = Some {| WebSocketHandler.coro := WebSocketHandler.run_api (Py.JStr "grid");
                   WebSocketHandler.state := WebSocketHandler.finished |}.
Proof.
  intros s env.
  assert (Hc : forall frame, Spec.contained (Examples.carries 7 frame))
    by (intros frame; exact I).
  assert (Ht : nth_error (WebSocketHandler.tasks s) 0
               = Some {| WebSocketHandler.coro :=
                           WebSocketHandler.run_api (Py.JStr "grid");
                         WebSocketHandler.state := WebSocketHandler.created |})
    by (vm_compute; reflexivity).
  exact (conj Hc (conj Ht
           (unknown_endpoint_is_reported 7 Examples.carries Examples.clock
              Examples.repr 0 env (Py.JStr "grid") s Hc Ht eq_refl eq_refl))).
Defined.

(** The payload of a [run_api] command.  Without a [payload] entry, or with
    a payload object that has no [endpoint], the command is handled as
    [run_api] of the endpoint [""]; with a payload that is not an object
    the handler raises the [AttributeError] of [payload.get], having done
    nothing (the receive loop then ends through [_cleanup]). *)
Theorem run_api_payload_edges :
  forall websocket transport time str_of fields s,
    Py.get (Py.JObj fields) "type" Py.JNull = Py.Returns (Py.JStr "run_api") ->
    (Py.dict_lookup "payload" fields = None ->
     WebSocketHandler._handle_message websocket transport time str_of
                                      (Py.JObj fields) s
     = WebSocketHandler._run_api websocket transport time str_of (Py.JStr "") s)
    /\ (forall payload,
           Py.dict_lookup "payload" fields = Some (Py.JObj payload) ->
           Py.dict_lookup "endpoint" payload = None ->
           WebSocketHandler._handle_message websocket transport time str_of
                                            (Py.JObj fields) s
           = WebSocketHandler._run_api websocket transport time str_of
                                       (Py.JStr "") s)
    /\ (forall payload,
           Py.dict_lookup "payload" fields = Some payload ->
           Py.is_dict payload = false ->
           WebSocketHandler._handle_message websocket transport time str_of
                                            (Py.JObj fields) s
           = (Py.Raises (Py.AttributeError payload "get"), s)).
Proof.
  intros websocket transport time str_of fields s Htype.
  assert (Hm : WebSocketHandler._handle_message websocket transport time str_of
                 (Py.JObj fields) s
               = Block.bindM (Block.lift (Py.get (Py.JObj fields) "payload"
                                                 (Py.JObj [])))
                   (fun payload =>
                      Block.bindM (Block.lift (Py.get payload "endpoint" (Py.JStr "")))
                        (fun endpoint =>
                           WebSocketHandler._run_api websocket transport time str_of
                                                     endpoint)) s).
  { unfold WebSocketHandler._handle_message, Block.bindM at 1, Block.lift at 1.
    rewrite Htype. reflexivity. }
  rewrite Hm. unfold Block.bindM, Block.lift. cbn [Py.get].
  split; [ | split].
  - intros ->. reflexivity.
  - intros payload -> Hp. cbn [Py.get]. rewrite Hp. reflexivity.
  - intros payload -> Hp. destruct payload; try reflexivity. discriminate.
Qed.

Lemma run_api_payload_edges_witness :
  Py.get (Py.JObj [("type", Py.JStr "run_api")]) "type" Py.JNull
  = Py.Returns (Py.JStr "run_api")
  /\ Py.dict_lookup "payload" [("type", Py.JStr "run_api")] = None
  /\ WebSocketHandler._handle_message 7 Examples.carries Examples.clock Examples.repr
       (Py.JObj [("type", Py.JStr "run_api")]) Examples.opened
     = WebSocketHandler._run_api 7 Examples.carries Examples.clock Examples.repr
                                 (Py.JStr "") Examples.opened.
Proof.
  exact (conj eq_refl (conj eq_refl
           (proj1 (run_api_payload_edges 7 Examples.carries Examples.clock
                     Examples.repr [("type", Py.JStr "run_api")] Examples.opened
                     eq_refl) eq_refl))).
Defined.

Section ApiTask.
Import Py Block WebSocketHandler Spec.

Variable websocket : ConnectionManager.WebSocket.
Variable transport :
  ConnectionManager.WebSocket -> WebSocketMessage.t -> outcome unit.
Variable time : nat -> Z.
Variable str_of : json -> string.

(** [run()] of either class returns when nothing cancels it. *)
Lemma run_of_returns c env o :
  no_cancellation env ->
  exists r o', run_of c env o = (Returns r, o') /\ Runner.is_running o' = false.
Proof.
  intros Hq. rewrite run_of_framed.
  assert (Hatt : containedM (attempt_of c env)).
  { destruct c; [apply containedM_bus_attempt | apply containedM_contingency_attempt];
      exact Hq. }
  destruct (framed_returns env (attempt_of c env) o
              (nc_computer_disconnect _ Hq) Hatt)
    as (r & o' & Hrun & Hflag & _).
  exists r, o'. split; assumption.
Qed.

(** The rest of the closure [run_api] once [run()] is called: the result
    is reported, then the completion; with the [finally] of the closure. *)
Lemma finish_task_unfold t endpoint a inside x s :
  nth_error (tasks s) t
  = Some {| coro := run_api endpoint; state := suspended (Some a) inside |} ->
  nth_error (runners s) a = Some x ->
  finish_task websocket transport time str_of t s
  = try_finally
      (try_except_Exception
         (bindM
            (fun s0 =>
               let (o, obj) := run_of (class x) (world x) (object x) in
               (o, set_runners (modify_nth a (set_object obj) (runners s0)) s0))
            (fun result =>
               bindM
                 (send websocket transport time MessageType.API_RESPONSE
                    (WebSocketMessage.APIResponsePayload (render str_of endpoint)
                       (APIResult.status result) (APIResult.data result)
                       (APIResult.error result)))
                 (fun _ =>
                    send websocket transport time MessageType.STATUS
                      (WebSocketMessage.StatusPayload "completed"
                         (Some ("API " ++ render str_of endpoint
                                       ++ " completed")%string)))))
         (fun e =>
            send websocket transport time MessageType.ERROR
              (WebSocketMessage.StatusPayload "error" (Some (str_exn e)))))
      (bindM (update (set_api_service None)) (fun _ => finish t)) s.
Proof.
  intros Ht Hx. unfold finish_task. rewrite bind_read. cbv beta. rewrite Ht.
  cbv iota. rewrite bind_read. cbv beta. rewrite Hx. reflexivity.
Qed.

(** Whatever [run()] and the channel do, the closure leaves the handler
    with the runner as [run()] left it and a manager of its own making. *)
Lemma report_run a x endpoint s :
  exists r m',
    try_except_Exception
      (bindM
         (fun s0 =>
            let (o, obj) := run_of (class x) (world x) (object x) in
            (o, set_runners (modify_nth a (set_object obj) (runners s0)) s0))
         (fun result =>
            bindM
              (send websocket transport time MessageType.API_RESPONSE
                 (WebSocketMessage.APIResponsePayload (render str_of endpoint)
                    (APIResult.status result) (APIResult.data result)
                    (APIResult.error result)))
              (fun _ =>
                 send websocket transport time MessageType.STATUS
                   (WebSocketMessage.StatusPayload "completed"
                      (Some ("API " ++ render str_of endpoint
                                    ++ " completed")%string)))))
      (fun e =>
         send websocket transport time MessageType.ERROR
           (WebSocketMessage.StatusPayload "error" (Some (str_exn e)))) s
    = (r, set_manager m'
            (set_runners
               (modify_nth a
                  (set_object (snd (run_of (class x) (world x) (object x))))
                  (runners s)) s)).
Proof.
  unfold try_except_Exception, bindM at 1.
  destruct (run_of (class x) (world x) (object x)) as [ [result | e] obj]; cbn [snd].
  - set (s1 := set_runners (modify_nth a (set_object obj) (runners s)) s).
    unfold bindM.
    destruct (send_run websocket transport time MessageType.API_RESPONSE
                (WebSocketMessage.APIResponsePayload (render str_of endpoint)
                   (APIResult.status result) (APIResult.data result)
                   (APIResult.error result)) s1) as (r1 & m1 & H1 & _).
    rewrite H1. destruct r1 as [ [] | e1].
    + destruct (send_run websocket transport time MessageType.STATUS
                  (WebSocketMessage.StatusPayload "completed"
                     (Some ("API " ++ render str_of endpoint
                                   ++ " completed")%string))
                  (set_manager m1 s1)) as (r2 & m2 & H2 & _).
      rewrite H2. destruct r2 as [ [] | e2].
      * exists (Returns tt), m2. reflexivity.
      * destruct (is_Exception e2).
        -- destruct (send_run websocket transport time MessageType.ERROR
                       (WebSocketMessage.StatusPayload "error" (Some (str_exn e2)))
                       (set_manager m2 (set_manager m1 s1)))
             as (r3 & m3 & H3 & _).
           rewrite H3. exists r3, m3. reflexivity.
        -- exists (Raises e2), m2. reflexivity.
    + destruct (is_Exception e1).
      * destruct (send_run websocket transport time MessageType.ERROR
                    (WebSocketMessage.StatusPayload "error" (Some (str_exn e1)))
                    (set_manager m1 s1)) as (r3 & m3 & H3 & _).
        rewrite H3. exists r3, m3. reflexivity.
      * exists (Raises e1), m1. reflexivity.
  - set (s1 := set_runners (modify_nth a (set_object obj) (runners s)) s).
    destruct (is_Exception e).
    + destruct (send_run websocket transport time MessageType.ERROR
                  (WebSocketMessage.StatusPayload "error" (Some (str_exn e))) s1)
        as (r3 & m3 & H3 & _).
      rewrite H3. exists r3, m3. reflexivity.
    + exists (Raises e), (manager s1). destruct s; reflexivity.
Qed.

(** The same when nothing is cancelled: both frames are sent. *)
Lemma report_returns a x endpoint result obj s :
  (forall frame, contained (transport websocket frame)) ->
  run_of (class x) (world x) (object x) = (Returns result, obj) ->
  exists m1 m2,
    try_except_Exception
      (bindM
         (fun s0 =>
            let (o, obj) := run_of (class x) (world x) (object x) in
            (o, set_runners (modify_nth a (set_object obj) (runners s0)) s0))
         (fun result =>
            bindM
              (send websocket transport time MessageType.API_RESPONSE
                 (WebSocketMessage.APIResponsePayload (render str_of endpoint)
                    (APIResult.status result) (APIResult.data result)
                    (APIResult.error result)))
              (fun _ =>
                 send websocket transport time MessageType.STATUS
                   (WebSocketMessage.StatusPayload "completed"
                      (Some ("API " ++ render str_of endpoint
                                    ++ " completed")%string)))))
      (fun e =>
         send websocket transport time MessageType.ERROR
           (WebSocketMessage.StatusPayload "error" (Some (str_exn e)))) s
    = (Returns tt,
       set_manager m2
         (set_runners (modify_nth a (set_object obj) (runners s)) s))
    /\ ConnectionManager.calls m2
       = ConnectionManager.calls (manager s)
           ++ [sent websocket transport time (manager s) MessageType.API_RESPONSE
                 (WebSocketMessage.APIResponsePayload (render str_of endpoint)
                    (APIResult.status result) (APIResult.data result)
                    (APIResult.error result));
               sent websocket transport time m1 MessageType.STATUS
                 (WebSocketMessage.StatusPayload "completed"
                    (Some ("API " ++ render str_of endpoint
                                  ++ " completed")%string))].
Proof.
  intros Hc Hrun. unfold try_except_Exception, bindM at 1. rewrite Hrun.
  set (s1 := set_runners (modify_nth a (set_object obj) (runners s)) s).
  unfold bindM.
  destruct (send_returns websocket transport time MessageType.API_RESPONSE
              (WebSocketMessage.APIResponsePayload (render str_of endpoint)
                 (APIResult.status result) (APIResult.data result)
                 (APIResult.error result)) s1 Hc) as (m1 & H1 & C1).
  rewrite H1.
  destruct (send_returns websocket transport time MessageType.STATUS
              (WebSocketMessage.StatusPayload "completed"
                 (Some ("API " ++ render str_of endpoint ++ " completed")%string))
              (set_manager m1 s1) Hc) as (m2 & H2 & C2).
  rewrite H2. exists m1, m2. split; [reflexivity | ].
  rewrite C2. cbn [manager set_manager]. rewrite C1.
  rewrite <- app_assoc. reflexivity.
Qed.

End ApiTask.

(** The closure [run_api] from its call of [run()] to its end.  Whatever
    [run()] and the channel do, its [finally] leaves [self.api_service]
    [None], the task over and the runner not running.  When nothing is
    cancelled, the closure itself makes two [send_json] calls, in this
    order: the API_RESPONSE frame with the status, data and error of the
    result, then the STATUS frame ["completed"]. *)
Theorem run_api_reports_and_releases :
  forall websocket transport time str_of t endpoint a inside x s,
    nth_error (WebSocketHandler.tasks s) t
    = Some {| WebSocketHandler.coro := WebSocketHandler.run_api endpoint;
              WebSocketHandler.state := WebSocketHandler.suspended (Some a) inside |} ->
    nth_error (WebSocketHandler.runners s) a = Some x ->
    (exists r s',
        WebSocketHandler.finish_task websocket transport time str_of t s = (r, s')
        /\ WebSocketHandler.api_service s' = None
        /\ nth_error (WebSocketHandler.tasks s') t
           = Some {| WebSocketHandler.coro := WebSocketHandler.run_api endpoint;
                     WebSocketHandler.state := WebSocketHandler.finished |}
        /\ exists x', nth_error (WebSocketHandler.runners s') a = Some x'
                      /\ Runner.is_running (WebSocketHandler.object x') = false)
    /\ ((forall frame, Spec.contained (transport websocket frame)) ->
        Spec.no_cancellation (WebSocketHandler.world x) ->
        exists result s' c1 c2,
          WebSocketHandler.finish_task websocket transport time str_of t s
          = (Py.Returns tt, s')
          /\ fst (WebSocketHandler.run_of (WebSocketHandler.class x)
                    (WebSocketHandler.world x) (WebSocketHandler.object x))
             = Py.Returns result
          /\ ConnectionManager.calls (WebSocketHandler.manager s')
             = ConnectionManager.calls (WebSocketHandler.manager s) ++ [c1; c2]
          /\ ConnectionManager.to c1 = websocket
          /\ WebSocketMessage.type (ConnectionManager.frame c1)
             = MessageType.API_RESPONSE
          /\ WebSocketMessage.payload_ (ConnectionManager.frame c1)
             = WebSocketMessage.APIResponsePayload
                 (WebSocketHandler.render str_of endpoint)
                 (APIResult.status result) (APIResult.data result)
                 (APIResult.error result)
          /\ ConnectionManager.to c2 = websocket
          /\ WebSocketMessage.type (ConnectionManager.frame c2) = MessageType.STATUS
          /\ WebSocketMessage.payload_ (ConnectionManager.frame c2)
             = WebSocketMessage.StatusPayload "completed"
                 (Some ("API " ++ WebSocketHandler.render str_of endpoint
                               ++ " completed")%string)).
Proof.
  intros websocket transport time str_of t endpoint a inside x s Ht Hx.
  rewrite (finish_task_unfold websocket transport time str_of t endpoint a inside x s
             Ht Hx).
  split.
  - unfold Block.try_finally.
    destruct (report_run websocket transport time str_of a x endpoint s)
      as (r & m' & Hrun).
    rewrite Hrun. unfold Block.bindM, Block.update, WebSocketHandler.finish.
    do 2 eexists. split; [reflexivity | ].
    cbn -[WebSocketHandler.modify_nth nth_error WebSocketHandler.run_of].
    split; [reflexivity | ]. split.
    + rewrite nth_error_modify_nth, Nat.eqb_refl, Ht. reflexivity.
    + rewrite nth_error_modify_nth, Nat.eqb_refl, Hx. cbn [option_map].
      eexists. split; [reflexivity | ].
      cbn [WebSocketHandler.object WebSocketHandler.set_object].
      rewrite run_of_framed. apply framed_clears.
  - intros Hc Hq.
    destruct (run_of_returns (WebSocketHandler.class x) (WebSocketHandler.world x)
                (WebSocketHandler.object x) Hq) as (result & obj & Hrun & _).
    destruct (report_returns websocket transport time str_of a x endpoint result obj
                s Hc Hrun) as (m1 & m2 & Hbody & Hcalls).
    unfold Block.try_finally. rewrite Hbody.
    unfold Block.bindM, Block.update, WebSocketHandler.finish.
    exists result. eexists. do 2 eexists.
    split; [reflexivity | ]. split; [rewrite Hrun; reflexivity | ].
    cbn [WebSocketHandler.manager WebSocketHandler.set_manager
         WebSocketHandler.set_api_service WebSocketHandler.set_tasks].
    split; [exact Hcalls | ]. repeat split.
Qed.

(** The bus extraction of the example session runs to its end. *)
Lemma run_api_reports_and_releases_witness :
  let env := Examples.environment (Py.Returns tt) Examples.three_files
                                  Examples.prose in
  let x := {| WebSocketHandler.class := WebSocketHandler.bus_runner;
              WebSocketHandler.world := env;
              WebSocketHandler.object :=
                Runner.set_is_running true (Runner.__init__ true) |} in
  nth_error (WebSocketHandler.tasks Examples.session) 1
  = Some {| WebSocketHandler.coro := WebSocketHandler.run_api (Py.JStr "buses");
            WebSocketHandler.state := WebSocketHandler.suspended (Some 0) true |}
  /\ nth_error (WebSocketHandler.runners Examples.session) 0 = Some x
  /\ (forall frame, Spec.contained (Examples.carries 7 frame))
  /\ Spec.no_cancellation env
  /\ exists result s' c1 c2,
      WebSocketHandler.finish_task 7 Examples.carries Examples.clock Examples.repr
                                   1 Examples.session
      = (Py.Returns tt, s')
      /\ fst (WebSocketHandler.run_of WebSocketHandler.bus_runner env
                (Runner.set_is_running true (Runner.__init__ true)))
         = Py.Returns result
      /\ ConnectionManager.calls (WebSocketHandler.manager s')
         = ConnectionManager.calls (WebSocketHandler.manager Examples.session)
             ++ [c1; c2]
      /\ ConnectionManager.to c1 = 7
      /\ WebSocketMessage.type (ConnectionManager.frame c1) = MessageType.API_RESPONSE
      /\ WebSocketMessage.payload_ (ConnectionManager.frame c1)
         = WebSocketMessage.APIResponsePayload
             "buses" (APIResult.status result) (APIResult.data result)
             (APIResult.error result)
      /\ ConnectionManager.to c2 = 7
      /\ WebSocketMessage.type (ConnectionManager.frame c2) = MessageType.STATUS
      /\ WebSocketMessage.payload_ (ConnectionManager.frame c2)
         = WebSocketMessage.StatusPayload "completed" (Some "API buses completed").
Proof.
  intros env x.
  assert (Ht : nth_error (WebSocketHandler.tasks Examples.session) 1
               = Some {| WebSocketHandler.coro :=
                           WebSocketHandler.run_api (Py.JStr "buses");
                         WebSocketHandler.state :=
                           WebSocketHandler.suspended (Some 0) true |})
    by (vm_compute; reflexivity).
  assert (Hx : nth_error (WebSocketHandler.runners Examples.session) 0 = Some x)
    by (vm_compute; reflexivity).
  assert (Hc : forall frame, Spec.contained (Examples.carries 7 frame))
    by (intros frame; exact I).
  assert (Hq : Spec.no_cancellation env).
  { apply no_cancellation_example; intros; exact I. }
  exact (conj Ht (conj Hx (conj Hc (conj Hq
           (proj2 (run_api_reports_and_releases 7 Examples.carries Examples.clock
                     Examples.repr 1 (Py.JStr "buses") 0 true x Examples.session
                     Ht Hx) Hc Hq))))).
Defined.

(* ================================================================= *)
(** ** More on the job runners *)

Section Stopping.
Import Py Block Runner Spec.

Variable env : environment.

Lemma is_running_stop now s : is_running (stop now s) = false.
Proof. reflexivity. Qed.

Lemma final_screenshot__log now message level s :
  final_screenshot (_log now message level s) = final_screenshot s.
Proof. unfold _log. simpl. destruct (log_callback s); reflexivity. Qed.

(** [stop()] calls touch the flag and the log only; one of them clears the
    flag, and a cleared flag stays cleared. *)
Lemma interrupted_flag p s :
  is_running s = false \/ 0 < stops env p ->
  is_running (snd (interrupted env p s)) = false.
Proof.
  unfold interrupted, update. cbn [snd].
  destruct (stops env p) as [ | k]; intros [H | H]; simpl;
    try reflexivity; try lia; exact H.
Qed.

Lemma interrupted_final_screenshot p s :
  final_screenshot (snd (interrupted env p s)) = final_screenshot s.
Proof.
  unfold interrupted, update. cbn [snd].
  induction (stops env p) as [ | k IH]; simpl; [reflexivity | ].
  unfold stop. cbn [final_screenshot set_is_running].
  rewrite final_screenshot__log. exact IH.
Qed.

End Stopping.

(** The loop over the stream reads the flag before each value.  When the
    runner is stopped (the flag is already clear, or a [stop()] arrives
    while the loop waits for the next value) and the stream has a value,
    the loop ends there: that value and those after it are not read, no
    screenshot is recorded, and the statements after the loop go on. *)
Theorem stopped_runner_skips_stream :
  forall env n result rest on_item s,
    Runner.is_running s = false \/ 0 < Runner.stops env (Runner.at_next_result n) ->
    Runner.observe env n (result :: rest) on_item s
    = (Py.Returns tt, snd (Runner.interrupted env (Runner.at_next_result n) s))
    /\ Runner.is_running (snd (Runner.interrupted env (Runner.at_next_result n) s))
       = false
    /\ Runner.final_screenshot
         (snd (Runner.interrupted env (Runner.at_next_result n) s))
       = Runner.final_screenshot s.
Proof.
  intros env n result rest on_item s H.
  pose proof (interrupted_flag env _ s H) as Hflag.
  split; [ | split; [exact Hflag | apply interrupted_final_screenshot] ].
  cbn [Runner.observe]. unfold Block.bindM at 1.
  change (Runner.interrupted env (Runner.at_next_result n) s)
    with (Py.Returns tt, snd (Runner.interrupted env (Runner.at_next_result n) s)).
  unfold Block.bindM at 1, Block.read at 1. rewrite Hflag. reflexivity.
Qed.

(** A stream whose first value would raise, on a stopped runner. *)
Lemma stopped_runner_skips_stream_witness :
  let env := Examples.environment (Py.Returns tt) Examples.three_files
                                  Examples.prose in
  let broken : Engine.result := Py.Raises (Py.PyException "RuntimeError" "boom") in
  Runner.is_running (Runner.__init__ false) = false
  /\ Runner.observe env 0 [broken] (BusAPIService.on_item env) (Runner.__init__ false)
     = (Py.Returns tt, Runner.__init__ false).
Proof.
  intros env broken.
  exact (conj eq_refl
           (proj1 (stopped_runner_skips_stream env 0 broken []
                     (BusAPIService.on_item env) (Runner.__init__ false)
                     (or_introl eq_refl)))).
Defined.

Section Dispatch.
Import Py Block Runner Spec.

Variable env : environment.

Lemma appends_refl s : appends s s.
Proof.
  split; [reflexivity | ]. exists []. rewrite !app_nil_r.
  destruct (log_callback s); rewrite ?app_nil_r; split; reflexivity.
Qed.

Lemma appends_fields s s' :
  logs s' = logs s -> dispatched s' = dispatched s ->
  log_callback s' = log_callback s -> appends s s'.
Proof.
  intros L D C. split; [exact C | ]. exists []. rewrite !app_nil_r, L, D.
  destruct (log_callback s); rewrite ?app_nil_r; split; reflexivity.
Qed.

Lemma appends_trans s1 s2 s3 : appends s1 s2 -> appends s2 s3 -> appends s1 s3.
Proof.
  intros [C1 (l1 & L1 & D1)] [C2 (l2 & L2 & D2)].
  split; [congruence | ]. exists (l1 ++ l2). split.
  - rewrite L2, L1, app_assoc. reflexivity.
  - rewrite D2, D1, C1. destruct (log_callback s1);
      rewrite <- ?app_assoc; reflexivity.
Qed.

Lemma appends__log now message level s : appends s (_log now message level s).
Proof.
  unfold _log, appends. cbn [logs set_logs log_callback].
  destruct (log_callback s) eqn:E; cbn [log_callback set_dispatched set_logs logs
                                        dispatched];
    (split; [exact E | ]); eexists; (split; [reflexivity | ]).
  - reflexivity.
  - rewrite app_nil_r. reflexivity.
Qed.

Lemma appendsM_ret {A : Type} (a : A) : appendsM (ret a).
Proof. intros s. apply appends_refl. Qed.

Lemma appendsM_lift {A : Type} (o : outcome A) : appendsM (lift o).
Proof. intros s. apply appends_refl. Qed.

Lemma appendsM_raise {A : Type} e : appendsM (A := A) (raise e).
Proof. intros s. apply appends_refl. Qed.

Lemma appendsM_read {A : Type} (f : self -> A) : appendsM (read f).
Proof. intros s. apply appends_refl. Qed.

Lemma appendsM_update f : (forall s, appends s (f s)) -> appendsM (update f).
Proof. intros H s. apply H. Qed.

Lemma appendsM_bind {A B : Type} (m : M A) (f : A -> M B) :
  appendsM m -> (forall a, appendsM (f a)) -> appendsM (bindM m f).
Proof.
  intros Hm Hf s. unfold bindM. specialize (Hm s).
  destruct (m s) as [ [a | e] s1]; cbn [snd] in *; [ | exact Hm].
  eapply appends_trans; [exact Hm | apply Hf].
Qed.

Lemma appendsM_try_except {A : Type} (body : M A) handler :
  appendsM body -> (forall e, appendsM (handler e)) ->
  appendsM (try_except_Exception body handler).
Proof.
  intros Hm Hf s. unfold try_except_Exception. specialize (Hm s).
  destruct (body s) as [ [a | e] s1]; cbn [snd] in *; [exact Hm | ].
  destruct (is_Exception e); [ | exact Hm].
  eapply appends_trans; [exact Hm | apply Hf].
Qed.

Lemma appendsM_try_finally {A : Type} (body : M A) final :
  appendsM body -> appendsM final -> appendsM (try_finally body final).
Proof.
  intros Hm Hf s. unfold try_finally. specialize (Hm s).
  destruct (body s) as [r s1]. cbn [snd] in *. specialize (Hf s1).
  destruct (final s1) as [ [ [] | e] s2]; cbn [snd] in *;
    eapply appends_trans; eassumption.
Qed.

Lemma appendsM_for_each {A : Type} (xs : list A) (body : A -> M unit) :
  (forall x, appendsM (body x)) -> appendsM (for_each xs body).
Proof.
  intros Hb. induction xs as [ | x xs IH]; simpl.
  - apply appendsM_ret.
  - apply appendsM_bind; auto.
Qed.

Lemma appendsM_log message level : appendsM (log env message level).
Proof. intros s. apply appends__log. Qed.

Lemma appends_stop now s : appends s (stop now s).
Proof.
  eapply appends_trans; [apply appends__log | ].
  unfold stop. split; [reflexivity | ]. exists []. cbn.
  rewrite !app_nil_r. destruct (log_callback _); rewrite ?app_nil_r; split; reflexivity.
Qed.

Lemma appendsM_interrupted p : appendsM (interrupted env p).
Proof.
  intros s. unfold interrupted, update. cbn [snd].
  induction (stops env p) as [ | k IH]; simpl; [apply appends_refl | ].
  eapply appends_trans; [exact IH | apply appends_stop].
Qed.

Lemma appendsM_await {A : Type} p (o : outcome A) : appendsM (await env p o).
Proof.
  unfold await. apply appendsM_bind; [apply appendsM_interrupted | intros _].
  apply appendsM_lift.
Qed.

Ltac appends_step :=
  first
    [ apply appendsM_ret | apply appendsM_lift | apply appendsM_raise
    | apply appendsM_read | apply appendsM_log | apply appendsM_interrupted
    | apply appendsM_await
    | apply appendsM_update; intros ?; apply appends_fields; reflexivity
    | apply appendsM_bind; [ | intros ? ]
    | apply appendsM_try_finally
    | apply appendsM_try_except; [ | intros ? ]
    | apply appendsM_for_each; intros ?
    | match goal with
      | |- appendsM (if ?b then _ else _) => destruct b
      | |- appendsM (match ?x with _ => _ end) => destruct x
      end ].

Lemma appendsM_initialize : appendsM (initialize env).
Proof. unfold initialize. repeat appends_step. Qed.

Lemma appendsM_create_agent prefix budget : appendsM (create_agent env prefix budget).
Proof. unfold create_agent. repeat appends_step. Qed.

Lemma appendsM_log_message content : appendsM (log_message env content).
Proof. unfold log_message. repeat appends_step. Qed.

Lemma appendsM_observe on_item :
  (forall item, appendsM (on_item item)) ->
  forall results n, appendsM (observe env n results on_item).
Proof.
  intros Hitem results. induction results as [ | r rest IH]; intros n; simpl.
  - apply appendsM_await.
  - apply appendsM_bind; [apply appendsM_interrupted | intros _].
    apply appendsM_bind; [apply appendsM_read | intros running].
    destruct (negb running); [apply appendsM_ret | ].
    apply appendsM_bind; [apply appendsM_lift | intros output].
    apply appendsM_bind; [ | intros _; apply IH].
    apply appendsM_for_each. intros i.
    apply appendsM_bind; [apply appendsM_lift | intros item]. apply Hitem.
Qed.

Lemma appendsM_teardown : appendsM (teardown env).
Proof. unfold teardown. repeat appends_step. Qed.

Lemma appendsM_bus_on_item item : appendsM (BusAPIService.on_item env item).
Proof.
  destruct item; simpl; try apply appendsM_ret.
  - apply appendsM_log_message.
  - repeat appends_step.
  - unfold log_action. apply appendsM_log.
Qed.

Lemma appendsM_contingency_on_item item :
  appendsM (ContingencyAPIService.on_item env item).
Proof.
  destruct item; simpl; try apply appendsM_ret.
  - apply appendsM_log_message.
  - unfold log_action. apply appendsM_log.
Qed.

Lemma appendsM_attempt_of c : appendsM (attempt_of c env).
Proof.
  destruct c; simpl.
  - apply appendsM_bind; [ | intros _ ].
    + unfold BusAPIService.connect_and_observe.
      repeat first [ apply appendsM_initialize | apply appendsM_create_agent
                   | apply appendsM_observe; intros ?; apply appendsM_bus_on_item
                   | appends_step ].
    + unfold BusAPIService.collect_and_extract, BusAPIService._get_latest_screenshot,
        BusAPIService.no_screenshot, BusAPIService.extract.
      repeat appends_step.
  - apply appendsM_bind; [ | intros _ ].
    + unfold ContingencyAPIService.connect_and_observe.
      repeat first [ apply appendsM_initialize | apply appendsM_create_agent
                   | apply appendsM_observe; intros ?;
                     apply appendsM_contingency_on_item
                   | appends_step ].
    + unfold ContingencyAPIService.collect_and_extract,
        ContingencyAPIService._get_all_screenshots,
        ContingencyAPIService.no_screenshots, ContingencyAPIService.extract.
      repeat appends_step.
Qed.

(** From the reset that opens it, a run only logs. *)
Lemma run_of_appends c s :
  appends (BusAPIService.reset s) (snd (WebSocketHandler.run_of c env s)).
Proof.
  rewrite run_of_framed. unfold framed, returning.
  assert (H : appendsM
                (try_finally
                   (try_except_Exception (attempt_of c env)
                                         (BusAPIService.on_exception env))
                   (teardown env))).
  { apply appendsM_try_finally; [ | apply appendsM_teardown].
    apply appendsM_try_except; [apply appendsM_attempt_of | intros e].
    unfold BusAPIService.on_exception. repeat appends_step. }
  unfold bindM at 1, update at 1. specialize (H (BusAPIService.reset s)).
  destruct (try_finally _ _ (BusAPIService.reset s)) as [ [r | e] s']; exact H.
Qed.

End Dispatch.

(** What [run()] leaves in the log, for either runner, any collaborators and
    any [stop()] calls in between: [self.logs] is started afresh, every entry
    appended to it is also handed to [log_callback], in the same order, when
    there is a callback (and none is when there is not), and the [logs] of the
    result is the list the runner is left with. *)
Theorem every_log_entry_is_dispatched :
  forall c env s,
    Runner.log_callback (snd (WebSocketHandler.run_of c env s))
    = Runner.log_callback s
    /\ Runner.dispatched (snd (WebSocketHandler.run_of c env s))
       = Runner.dispatched s
           ++ (if Runner.log_callback s
               then Runner.logs (snd (WebSocketHandler.run_of c env s))
               else [])
    /\ (forall r,
           fst (WebSocketHandler.run_of c env s) = Py.Returns r ->
           APIResult.logs r = Runner.logs (snd (WebSocketHandler.run_of c env s))).
Proof.
  intros c env s.
  destruct (run_of_appends env c s) as [Hc (l & Hl & Hd)].
  split; [exact Hc | ]. split.
  - rewrite Hd, Hl. reflexivity.
  - intros r. rewrite run_of_framed. unfold Spec.framed, Runner.returning.
    match goal with
    | |- context [match ?m with _ => _ end] => destruct m as [ [r0 | e] s']
    end; cbn [fst snd]; intros H; inversion H. reflexivity.
Qed.

Section ConnectFailure.
Import Py Block Runner Spec.

(** A failure of [computer.run()] leaves the [try] block at once. *)
Lemma attempt_connect_failure c env s e :
  new_Computer env = Returns tt ->
  computer_run env = Raises e ->
  attempt_of c env (BusAPIService.reset s)
  = (Raises e, snd (interrupted env at_computer_run (connecting env s))).
Proof.
  intros Hnew Hrun.
  destruct c; unfold attempt_of, BusAPIService.connect_and_observe,
    ContingencyAPIService.connect_and_observe, initialize, await, connecting;
    unfold bindM, log, update, lift, interrupted; rewrite Hnew, Hrun; reflexivity.
Qed.

Lemma teardown_with_later a b c d f p env :
  teardown (with_later a b c d f p env) = teardown env.
Proof. reflexivity. Qed.

Lemma on_exception_with_later a b c d f p env e :
  BusAPIService.on_exception (with_later a b c d f p env) e
  = BusAPIService.on_exception env e.
Proof. reflexivity. Qed.

Lemma interrupted_with_later a b c d f p env q :
  interrupted (with_later a b c d f p env) q = interrupted env q.
Proof. reflexivity. Qed.

Lemma connecting_with_later a b c d f p env s :
  connecting (with_later a b c d f p env) s = connecting env s.
Proof. reflexivity. Qed.

End ConnectFailure.

(** When [computer.run()] raises, the rest of the [try] block is skipped:
    [run()] returns the error result with the text of the exception, and
    the directory, the agent, its stream, the file system and the oracle
    play no part in it. *)
Theorem connect_failure_skips_the_rest :
  forall c env s e,
    Runner.new_Computer env = Py.Returns tt ->
    Runner.computer_run env = Py.Raises e ->
    Py.is_Exception e = true ->
    Spec.contained (Runner.computer_disconnect env) ->
    (exists r s',
        WebSocketHandler.run_of c env s = (Py.Returns r, s')
        /\ APIResult.status r = "error"
        /\ APIResult.error r = Some (Py.str_exn e)
        /\ APIResult.data r = None
        /\ APIResult.final_screenshot r = None
        /\ Spec.logged ("Error: " ++ Py.str_exn e)%string "error" (APIResult.logs r))
    /\ (forall makedirs new_ComputerAgent agent_run agent_run_end files post,
           WebSocketHandler.run_of c
             (Spec.with_later makedirs new_ComputerAgent agent_run agent_run_end
                              files post env) s
           = WebSocketHandler.run_of c env s).
Proof.
  intros c env s e Hnew Hrun He Hd. split.
  - pose proof (attempt_connect_failure c env s e Hnew Hrun) as Hatt.
    rewrite run_of_framed, framed_unfold.
    unfold Runner.returning, Block.try_finally, Block.try_except_Exception.
    rewrite Hatt, He, on_exception_run.
    match goal with
    | |- context [Runner.teardown env ?s1] =>
        destruct (teardown_returns env s1 Hd) as (s2 & Htd & l & Hl)
    end.
    rewrite Htd. do 2 eexists. split; [reflexivity | ].
    cbn [APIResult.status APIResult.error APIResult.data APIResult.final_screenshot
         APIResult.logs].
    do 4 (split; [reflexivity | ]). rewrite Hl, logs__log.
    eexists. split.
    + apply in_or_app. left. apply in_or_app. right. left. reflexivity.
    + split; reflexivity.
  - intros makedirs new_ComputerAgent agent_run agent_run_end files post.
    rewrite !run_of_framed, !framed_unfold.
    unfold Runner.returning, Block.try_finally, Block.try_except_Exception.
    rewrite (attempt_connect_failure c
               (Spec.with_later makedirs new_ComputerAgent agent_run agent_run_end
                                files post env) s e Hnew Hrun).
    rewrite (attempt_connect_failure c env s e Hnew Hrun).
    rewrite teardown_with_later, on_exception_with_later, interrupted_with_later,
      connecting_with_later.
    reflexivity.
Qed.

Lemma connect_failure_skips_the_rest_witness :
  let env := Examples.environment Examples.unreachable Examples.three_files
                                  Examples.prose in
  let s := Runner.__init__ false in
  Runner.new_Computer env = Py.Returns tt
  /\ Runner.computer_run env
     = Py.Raises (Py.PyException "ConnectionError" "sandbox unreachable")
  /\ Spec.contained (Runner.computer_disconnect env)
  /\ (exists r s',
         WebSocketHandler.run_of WebSocketHandler.contingency_runner env s
         = (Py.Returns r, s')
         /\ APIResult.status r = "error"
         /\ APIResult.error r = Some "sandbox unreachable"
         /\ APIResult.data r = None
         /\ APIResult.final_screenshot r = None
         /\ Spec.logged "Error: sandbox unreachable" "error" (APIResult.logs r))
  /\ (forall makedirs new_ComputerAgent agent_run agent_run_end files post,
         WebSocketHandler.run_of WebSocketHandler.contingency_runner
           (Spec.with_later makedirs new_ComputerAgent agent_run agent_run_end
                            files post env) s
         = WebSocketHandler.run_of WebSocketHandler.contingency_runner env s).
Proof.
  intros env s.
  exact (conj eq_refl (conj eq_refl (conj I
           (connect_failure_skips_the_rest WebSocketHandler.contingency_runner env s
              (Py.PyException "ConnectionError" "sandbox unreachable")
              eq_refl eq_refl eq_refl I)))).
Defined.

Section ResultShapes.
Import Py Block Runner Spec.

Variable env : environment.

Lemma shapedM_ret r : well_formed r -> shapedM (ret r).
Proof. intros H s. exact H. Qed.

Lemma shapedM_bind {A : Type} (m : M A) k :
  (forall a, shapedM (k a)) -> shapedM (bindM m k).
Proof.
  intros H s. unfold bindM. destruct (m s) as [ [a | e] s1]; [apply H | exact I].
Qed.

Lemma shapedM_bind_await {A : Type} p (o : outcome A) k :
  (forall a, o = Returns a -> shapedM (k a)) -> shapedM (bindM (await env p o) k).
Proof.
  intros H s. unfold bindM, await, interrupted, update, lift.
  destruct o as [a | e]; [apply H; reflexivity | exact I].
Qed.

Lemma shapedM_try_except body handler :
  shapedM body -> (forall e, shapedM (handler e)) ->
  shapedM (try_except_Exception body handler).
Proof.
  intros Hb Hh s. unfold try_except_Exception. specialize (Hb s).
  destruct (body s) as [ [r | e] s1]; cbn [fst] in *; [exact Hb | ].
  destruct (is_Exception e); [apply Hh | exact I].
Qed.

Lemma shapedM_try_finally body final :
  shapedM body -> shapedM (try_finally body final).
Proof.
  intros Hb s. unfold try_finally. specialize (Hb s).
  destruct (body s) as [r s1]. destruct (final s1) as [ [ [] | e] s2];
    cbn [fst] in *; [exact Hb | exact I].
Qed.

Lemma well_formed_error msg l :
  well_formed {| APIResult.status := "error"; APIResult.data := None;
                 APIResult.error := Some msg; APIResult.logs := l;
                 APIResult.final_screenshot := None |}.
Proof. right. cbn. repeat split. exists msg. reflexivity. Qed.

Lemma well_formed_success v l screenshot :
  is_dict v = true ->
  well_formed {| APIResult.status := "success"; APIResult.data := Some v;
                 APIResult.error := None; APIResult.logs := l;
                 APIResult.final_screenshot := Some screenshot |}.
Proof.
  intros H. destruct v; try discriminate H. left. cbn.
  split; [reflexivity | ]. split; [eexists; reflexivity | ].
  split; [reflexivity | eexists; reflexivity].
Qed.

Lemma shapedM_on_exception e : shapedM (BusAPIService.on_exception env e).
Proof.
  unfold BusAPIService.on_exception. cbv zeta.
  apply shapedM_bind. intros _. apply shapedM_bind. intros l.
  apply shapedM_ret, well_formed_error.
Qed.

Lemma shapedM_attempt_of c : shapedM (attempt_of c env).
Proof.
  destruct c; unfold attempt_of; apply shapedM_bind; intros _.
  - unfold BusAPIService.collect_and_extract.
    apply shapedM_bind. intros shot. apply shapedM_bind. intros _.
    assert (Hno : shapedM (BusAPIService.no_screenshot env)).
    { unfold BusAPIService.no_screenshot. apply shapedM_bind. intros p. cbv zeta.
      apply shapedM_bind. intros _. apply shapedM_bind. intros l.
      apply shapedM_ret, well_formed_error. }
    destruct shot as [screenshot | ]; [ | exact Hno].
    destruct (String.eqb screenshot ""); [exact Hno | ].
    unfold BusAPIService.extract. apply shapedM_bind. intros _.
    apply shapedM_bind_await. intros bus_data Hdata.
    pose proof (extract_bus_data_yields_dict (interpreter env) (post env) screenshot
                  (Settings.anthropic_api_key (settings env))) as Hdict.
    rewrite Hdata in Hdict.
    do 4 (apply shapedM_bind; intros ?).
    apply shapedM_ret, well_formed_success, Hdict.
  - unfold ContingencyAPIService.collect_and_extract.
    apply shapedM_bind. intros screenshots.
    destruct screenshots as [ | shot rest].
    + unfold ContingencyAPIService.no_screenshots.
      apply shapedM_bind. intros p. cbv zeta.
      apply shapedM_bind. intros _. apply shapedM_bind. intros l.
      apply shapedM_ret, well_formed_error.
    + unfold ContingencyAPIService.extract. apply shapedM_bind. intros _.
      apply shapedM_bind_await. intros contingency_data Hdata.
      pose proof (extract_contingency_data_multi_yields_dict (interpreter env) (post env)
                    (shot :: rest)
                    (Settings.anthropic_api_key (settings env))) as Hdict.
      rewrite Hdata in Hdict.
      do 4 (apply shapedM_bind; intros ?).
      apply shapedM_ret, well_formed_success, Hdict.
Qed.

(** A result of [run] has one of the two shapes. *)
Lemma run_of_shaped c s r :
  fst (WebSocketHandler.run_of c env s) = Returns r -> well_formed r.
Proof.
  rewrite run_of_framed, framed_unfold. unfold returning.
  pose proof (shapedM_try_finally _ (teardown env)
                (shapedM_try_except _ _ (shapedM_attempt_of c) shapedM_on_exception)
                (BusAPIService.reset s)) as H.
  destruct (try_finally _ _ (BusAPIService.reset s)) as [ [r0 | e] s'];
    cbn [fst] in *; intros E; inversion E; subst r.
  exact H.
Qed.

(** What leaves the [finally] block is not an [Exception]. *)
Lemma teardown_escapes s e :
  fst (teardown env s) = Raises e -> is_Exception e = false.
Proof.
  unfold teardown, bindM, update, read, try_except_Exception, ret.
  destruct (computer (set_is_running false s)); [ | discriminate].
  match goal with
  | |- context [match ?m with _ => _ end] => destruct m as [ [ [] | e0] s1]
  end; [discriminate | ].
  destruct (is_Exception e0) eqn:E; [discriminate | ].
  cbn [fst]. intros H. inversion H. subst. exact E.
Qed.

(** What leaves [run] is not an [Exception]. *)
Lemma run_of_escapes c s e :
  fst (WebSocketHandler.run_of c env s) = Raises e -> is_Exception e = false.
Proof.
  rewrite run_of_framed, framed_unfold.
  unfold returning, try_finally, try_except_Exception.
  destruct (attempt_of c env (BusAPIService.reset s)) as [ [r0 | e0] s1].
  - pose proof (teardown_escapes s1) as Ht.
    destruct (teardown env s1) as [ [ [] | e1] s2]; cbn [fst] in *;
      [discriminate | ].
    intros H. inversion H. subst. apply Ht. reflexivity.
  - destruct (is_Exception e0) eqn:E0.
    + rewrite on_exception_run.
      match goal with
      | |- context [teardown env ?x] =>
          pose proof (teardown_escapes x) as Ht;
          destruct (teardown env x) as [ [ [] | e1] s2]
      end; cbn [fst] in *; [discriminate | ].
      intros H. inversion H. subst. apply Ht. reflexivity.
    + pose proof (teardown_escapes s1) as Ht.
      destruct (teardown env s1) as [ [ [] | e1] s2]; cbn [fst] in *;
        intros H; inversion H; subst; [exact E0 | apply Ht; reflexivity].
Qed.

Lemma bindM_assoc {A B C : Type} (m : M A) (f : A -> M B) (g : B -> M C) s :
  bindM (bindM m f) g s = bindM m (fun x => bindM (f x) g) s.
Proof. unfold bindM. destruct (m s) as [ [a | e] s1]; reflexivity. Qed.

Ltac appends_step :=
  first
    [ apply appendsM_ret | apply appendsM_lift | apply appendsM_raise
    | apply appendsM_read | apply appendsM_log | apply appendsM_interrupted
    | apply appendsM_await
    | apply appendsM_update; intros ?; apply appends_fields; reflexivity
    | apply appendsM_bind; [ | intros ? ]
    | apply appendsM_try_finally
    | apply appendsM_try_except; [ | intros ? ]
    | apply appendsM_for_each; intros ?
    | match goal with
      | |- appendsM (if ?b then _ else _) => destruct b
      | |- appendsM (match ?x with _ => _ end) => destruct x
      end ].

(** After its first entry the [try] block only logs. *)
Lemma attempt_of_first_entry c s :
  appends (snd (log env "Connecting to Windows sandbox..." "info"
                  (BusAPIService.reset s)))
          (snd (attempt_of c env (BusAPIService.reset s))).
Proof.
  destruct c; unfold attempt_of, BusAPIService.connect_and_observe,
    ContingencyAPIService.connect_and_observe, initialize;
    rewrite !bindM_assoc;
    match goal with
    | |- appends _ (snd (bindM (log env ?m ?l) ?k ?s0)) =>
        change (bindM (log env m l) k s0) with (k tt (snd (log env m l s0)));
        cbv beta;
        generalize (snd (log env m l s0))
    end; intros s1.
  - match goal with
    | |- appends s1 (snd (?m s1)) => assert (H : appendsM m); [ | exact (H s1)]
    end.
    unfold BusAPIService.collect_and_extract, BusAPIService._get_latest_screenshot,
      BusAPIService.no_screenshot, BusAPIService.extract.
    repeat first [ apply appendsM_create_agent
                 | apply appendsM_observe; intros ?; apply appendsM_bus_on_item
                 | appends_step ].
  - match goal with
    | |- appends s1 (snd (?m s1)) => assert (H : appendsM m); [ | exact (H s1)]
    end.
    unfold ContingencyAPIService.collect_and_extract,
      ContingencyAPIService._get_all_screenshots,
      ContingencyAPIService.no_screenshots, ContingencyAPIService.extract.
    repeat first [ apply appendsM_create_agent
                 | apply appendsM_observe; intros ?;
                   apply appendsM_contingency_on_item
                 | appends_step ].
Qed.

(** The log a run leaves opens with the entry of [initialize]. *)
Lemma run_of_first_entry c s :
  exists rest,
    logs (snd (WebSocketHandler.run_of c env s)) = first_entry env :: rest.
Proof.
  rewrite run_of_framed, framed_unfold. unfold returning.
  assert (H : appends (snd (log env "Connecting to Windows sandbox..." "info"
                              (BusAPIService.reset s)))
                      (snd (try_finally
                              (try_except_Exception (attempt_of c env)
                                 (BusAPIService.on_exception env))
                              (teardown env) (BusAPIService.reset s)))).
  { pose proof (attempt_of_first_entry c s) as Ha.
    unfold try_finally, try_except_Exception.
    destruct (attempt_of c env (BusAPIService.reset s)) as [ [r0 | e0] s1];
      cbn [snd] in Ha.
    - pose proof (appendsM_teardown env s1) as Ht.
      destruct (teardown env s1) as [ [ [] | e1] s2]; cbn [snd] in *;
        eapply appends_trans; eassumption.
    - assert (He : appendsM (BusAPIService.on_exception env e0)).
      { unfold BusAPIService.on_exception. repeat appends_step. }
      specialize (He s1).
      destruct (is_Exception e0).
      + destruct (BusAPIService.on_exception env e0 s1) as [r2 s2]. cbn [snd] in He.
        pose proof (appendsM_teardown env s2) as Ht.
        destruct (teardown env s2) as [ [ [] | e1] s3]; cbn [snd] in *;
          (eapply appends_trans; [exact Ha | ]);
          eapply appends_trans; eassumption.
      + pose proof (appendsM_teardown env s1) as Ht.
        destruct (teardown env s1) as [ [ [] | e1] s2]; cbn [snd] in *;
          eapply appends_trans; eassumption. }
  destruct H as [_ (l & Hl & _)].
  match goal with
  | |- context [match ?m with _ => _ end] =>
      destruct m as [ [r | e] s']
  end; cbn [snd] in *; exists l; rewrite Hl; unfold log, update; cbn [snd];
    rewrite logs__log; reflexivity.
Qed.

(** The result holds the log list of the runner. *)
Lemma result_logs c s r :
  fst (WebSocketHandler.run_of c env s) = Returns r ->
  APIResult.logs r = logs (snd (WebSocketHandler.run_of c env s)).
Proof.
  rewrite run_of_framed. unfold framed, returning.
  match goal with
  | |- context [match ?m with _ => _ end] => destruct m as [ [r0 | e] s']
  end; cbn [fst snd]; intros H; inversion H. reflexivity.
Qed.

End ResultShapes.

(** Every result of [run()], of either runner and whatever its
    collaborators do, has one of two shapes: status ["success"] with a
    dictionary as data, a final screenshot and no error text, or status
    ["error"] with an error text and neither data nor screenshot.  Its log
    opens with the entry of [initialize].  What [run()] raises instead of
    returning is never an [Exception]. *)
Theorem run_result_is_well_formed :
  forall c env s,
    match fst (WebSocketHandler.run_of c env s) with
    | Py.Returns r =>
        Spec.well_formed r
        /\ exists rest, APIResult.logs r = Spec.first_entry env :: rest
    | Py.Raises e => Py.is_Exception e = false
    end.
Proof.
  intros c env s.
  pose proof (run_of_shaped env c s) as Hshape.
  pose proof (run_of_escapes env c s) as Hesc.
  destruct (run_of_first_entry env c s) as [rest Hfirst].
  pose proof (result_logs env c s) as Hlogs.
  destruct (fst (WebSocketHandler.run_of c env s)) as [r | e].
  - split; [apply Hshape; reflexivity | ].
    exists rest. rewrite (Hlogs r eq_refl). exact Hfirst.
  - apply Hesc. reflexivity.
Qed.

Section RouteFacts.
Import Py Spec.

Variable not_a_dict : json -> outcome json.
Variable env : Runner.environment.

(** The body of a route, on a run that keeps to the two shapes. *)
Lemma respond_run c new_Response :
  (forall status data error logs,
      new_Response status data error logs
      = bind (Routes.Optional_Dict not_a_dict data) (fun d =>
          Returns {| Routes.status := status; Routes.data := d;
                     Routes.error := error; Routes.logs := logs |})) ->
  Routes.respond (WebSocketHandler.run_of c env) new_Response
  = bind (fst (WebSocketHandler.run_of c env (Runner.__init__ false)))
         (fun result => Returns (response_of result)).
Proof.
  intros Hnew. unfold Routes.respond. cbv zeta.
  pose proof (run_of_shaped env c (Runner.__init__ false)) as Hshape.
  pose proof (run_of_escapes env c (Runner.__init__ false)) as Hesc.
  destruct (fst (WebSocketHandler.run_of c env (Runner.__init__ false)))
    as [result | e]; cbn [bind].
  - destruct (Hshape result eq_refl)
      as [ (Hs & (fields & Hd) & He & _) | (Hs & Hd & (msg & He) & _) ];
      rewrite Hs; cbn [String.eqb Ascii.eqb Bool.eqb andb]; rewrite Hnew;
      unfold response_of; rewrite ?Hs, ?Hd, ?He; reflexivity.
  - rewrite (Hesc e eq_refl). reflexivity.
Qed.

(** A response built from a well-formed result. *)
Lemma response_of_shape result rest :
  well_formed result ->
  APIResult.logs result = first_entry env :: rest ->
  Routes.logs (response_of result) <> []
  /\ ((Routes.status (response_of result) = "success"
       /\ (exists fields, Routes.data (response_of result) = Some (JObj fields))
       /\ Routes.error (response_of result) = None)
      \/ (Routes.status (response_of result) = "error"
          /\ Routes.data (response_of result) = None
          /\ exists msg, Routes.error (response_of result) = Some msg)).
Proof.
  intros Hshape Hlogs. unfold response_of. cbn [Routes.logs Routes.status
    Routes.data Routes.error]. split.
  - rewrite Hlogs. discriminate.
  - destruct Hshape as [ (Hs & Hd & He & _) | (Hs & Hd & He & _) ];
      [left | right]; repeat split; assumption.
Qed.

End RouteFacts.

(** The two HTTP routes answer from the result of [run()] alone.  Their
    response is that result field by field, its log entries converted one
    by one; the [except Exception] clause of the route, which would answer
    with an empty log, is never taken, and the validation of [data] never
    fails.  A response therefore has a log, and is either a success with a
    dictionary as data and no error, or an error with a text and no data.
    What a route raises is what [run()] raised. *)
Theorem routes_answer_from_the_result :
  forall not_a_dict env,
    let answers (route : Py.outcome Routes.Response)
                (run : Runner.M APIResult.t) : Prop :=
      route = Py.bind (fst (run (Runner.__init__ false)))
                      (fun result => Py.Returns (Spec.response_of result))
      /\ forall response,
          route = Py.Returns response ->
          Routes.logs response <> []
          /\ ((Routes.status response = "success"
               /\ (exists fields, Routes.data response = Some (Py.JObj fields))
               /\ Routes.error response = None)
              \/ (Routes.status response = "error"
                  /\ Routes.data response = None
                  /\ exists msg, Routes.error response = Some msg)) in
    answers (Routes.get_buses not_a_dict env)
            (BusAPIService.run (Routes.unshared env))
    /\ answers (Routes.run_contingency_analysis not_a_dict env)
               (ContingencyAPIService.run (Routes.unshared env)).
Proof.
  intros not_a_dict env answers.
  assert (H : forall c new_Response,
             (forall status data error logs,
                 new_Response status data error logs
                 = Py.bind (Routes.Optional_Dict not_a_dict data) (fun d =>
                     Py.Returns {| Routes.status := status; Routes.data := d;
                                   Routes.error := error; Routes.logs := logs |})) ->
             answers (Routes.respond (WebSocketHandler.run_of c (Routes.unshared env))
                                     new_Response)
                     (WebSocketHandler.run_of c (Routes.unshared env))).
  { intros c new_Response Hnew. unfold answers.
    rewrite (respond_run not_a_dict (Routes.unshared env) c new_Response Hnew).
    split; [reflexivity | ]. intros response.
    pose proof (run_of_shaped (Routes.unshared env) c (Runner.__init__ false))
      as Hshape.
    pose proof (result_logs (Routes.unshared env) c (Runner.__init__ false))
      as Hlogs.
    destruct (run_of_first_entry (Routes.unshared env) c (Runner.__init__ false))
      as [rest Hfirst].
    destruct (fst (WebSocketHandler.run_of c (Routes.unshared env)
                     (Runner.__init__ false))) as [result | e];
      cbn [Py.bind]; intros E; inversion E; subst response.
    apply (response_of_shape (Routes.unshared env) result rest).
    - apply Hshape. reflexivity.
    - rewrite (Hlogs result eq_refl). exact Hfirst. }
  split.
  - exact (H WebSocketHandler.bus_runner (Routes.BusesResponse not_a_dict)
             (fun _ _ _ _ => eq_refl)).
  - exact (H WebSocketHandler.contingency_runner
             (Routes.ContingencyResponse not_a_dict) (fun _ _ _ _ => eq_refl)).
Qed.

Section TaskStream.
Import Py Block AgentTask Spec.

Variable env : environment.

Lemma streamsM_same {A : Type} (m : G A) :
  (forall g, yielded (snd (m g)) = yielded g) -> streamsM m.
Proof.
  intros H g. exists []. rewrite app_nil_r. split; [apply H | constructor].
Qed.

Lemma streamsM_ret {A : Type} (a : A) : streamsM (ret a).
Proof. apply streamsM_same. reflexivity. Qed.

Lemma streamsM_lift {A : Type} (o : outcome A) : streamsM (lift o).
Proof. apply streamsM_same. reflexivity. Qed.

Lemma streamsM_raise {A : Type} e : streamsM (A := A) (raise e).
Proof. apply streamsM_same. reflexivity. Qed.

Lemma streamsM_read {A : Type} (f : generator -> A) : streamsM (read f).
Proof. apply streamsM_same. reflexivity. Qed.

Lemma streamsM_on_service f : streamsM (on_service f).
Proof. apply streamsM_same. reflexivity. Qed.

Lemma streamsM_interrupted p : streamsM (interrupted env p).
Proof.
  apply streamsM_same. intros g. unfold interrupted.
  destruct (stops env p); reflexivity.
Qed.

Lemma streamsM_bind {A B : Type} (m : G A) (k : A -> G B) :
  streamsM m -> (forall a, streamsM (k a)) -> streamsM (bindM m k).
Proof.
  intros Hm Hk g. unfold bindM. destruct (Hm g) as (b1 & E1 & F1).
  destruct (m g) as [ [a | e] g1]; cbn [snd] in *.
  - destruct (Hk a g1) as (b2 & E2 & F2). exists (b1 ++ b2).
    rewrite E2, E1, app_assoc. split; [reflexivity | ].
    apply Forall_app. split; assumption.
  - exists b1. split; assumption.
Qed.

Lemma streamsM_await {A : Type} p (o : outcome A) : streamsM (await env p o).
Proof.
  unfold await. apply streamsM_bind; [apply streamsM_interrupted | intros _].
  apply streamsM_lift.
Qed.

Lemma streamsM_for_each {A : Type} (xs : list A) (body : A -> G unit) :
  (forall x, streamsM (body x)) -> streamsM (for_each xs body).
Proof.
  intros Hb. induction xs as [ | x xs IH]; simpl.
  - apply streamsM_ret.
  - apply streamsM_bind; auto.
Qed.

(** A [yield] hands over one message and returns. *)
Lemma yield__run type payload g :
  fst (yield_ env type payload g) = Returns tt
  /\ yielded (snd (yield_ env type payload g))
     = yielded g ++ [{| WebSocketMessage.type := type;
                        WebSocketMessage.payload_ := payload;
                        WebSocketMessage.timestamp
                          := time env (List.length (yielded g)) |}].
Proof.
  unfold yield_, bindM, read, update, interrupted, on_service, ret.
  destruct (stops env _); split; reflexivity.
Qed.

Lemma yield__step_count type payload g :
  CUAAgentService.step_count (service (snd (yield_ env type payload g)))
  = CUAAgentService.step_count (service g).
Proof.
  unfold yield_, bindM, read, update, interrupted, on_service, ret.
  destruct (stops env _); reflexivity.
Qed.

Lemma streamsM_yield type payload :
  progress {| WebSocketMessage.type := type; WebSocketMessage.payload_ := payload;
              WebSocketMessage.timestamp := 0%Z |} ->
  streamsM (yield_ env type payload).
Proof.
  intros H g. destruct (yield__run type payload g) as [_ E].
  eexists. split; [exact E | ]. constructor; [exact H | constructor].
Qed.

Ltac streams_step :=
  first
    [ apply streamsM_ret | apply streamsM_lift | apply streamsM_raise
    | apply streamsM_read | apply streamsM_on_service | apply streamsM_interrupted
    | apply streamsM_await
    | apply streamsM_yield; exact I
    | apply streamsM_bind; [ | intros ? ]
    | apply streamsM_for_each; intros ?
    | match goal with
      | |- streamsM (if ?b then _ else _) => destruct b
      | |- streamsM (match ?x with _ => _ end) => destruct x
      end ].

Lemma streamsM_on_item i : streamsM (on_item env i).
Proof.
  destruct i; cbn [on_item]; unfold yield_text, yield_screenshot;
    repeat streams_step.
Qed.

Lemma streamsM_observe results : forall n, streamsM (observe env n results).
Proof.
  induction results as [ | r rest IH]; intros n; cbn [observe].
  - apply streamsM_await.
  - apply streamsM_bind; [apply streamsM_interrupted | intros _].
    apply streamsM_bind; [apply streamsM_read | intros running].
    destruct (negb running); [apply streamsM_ret | ].
    apply streamsM_bind; [apply streamsM_lift | intros output].
    apply streamsM_bind; [ | intros _; apply IH].
    apply streamsM_for_each. intros i.
    apply streamsM_bind; [apply streamsM_on_service | intros _].
    apply streamsM_bind; [apply streamsM_lift | intros the_item].
    apply streamsM_on_item.
Qed.

(** After its first message the [try] block yields progress messages until
    the stream is over. *)
Lemma connect_and_stream_yields g :
  exists body,
    yielded (snd (connect_and_stream env g))
    = yielded g ++ connecting_message (time env (List.length (yielded g))) :: body
    /\ Forall progress body.
Proof.
  unfold connect_and_stream.
  match goal with
  | |- context [bindM (yield_ env ?t ?p) ?k g] =>
      destruct (yield__run t p g) as [R Y];
      assert (E : bindM (yield_ env t p) k g = k tt (snd (yield_ env t p g)))
        by (unfold bindM at 1; destruct (yield_ env t p g) as [ [ [] | e] g1];
            [reflexivity | discriminate R]);
      rewrite E; cbv beta;
      assert (H : streamsM (k tt))
  end.
  { cbv beta. unfold initialize, create_agent.
    repeat first [ apply streamsM_observe | streams_step ]. }
  destruct (H (snd (yield_ env MessageType.STATUS
                      (WebSocketMessage.StatusPayload
                         "connecting" (Some "Connecting to Windows sandbox...")) g)))
    as (body & E1 & F1).
  exists body. split; [ | exact F1].
  cbv beta in E1. rewrite E1, Y, <- app_assoc. reflexivity.
Qed.

Hypothesis quiet : no_task_cancellation env.

Lemma containedM_task_interrupted p : containedM (interrupted env p).
Proof. intros g. unfold interrupted. destruct (stops env p); exact I. Qed.

Lemma containedM_task_await {A : Type} p (o : outcome A) :
  contained o -> containedM (await env p o).
Proof.
  intros H. apply containedM_bind; [apply containedM_task_interrupted | intros _].
  apply containedM_lift. exact H.
Qed.

Lemma containedM_yield type payload : containedM (yield_ env type payload).
Proof.
  intros g. destruct (yield__run type payload g) as [R _]. rewrite R. exact I.
Qed.

Lemma containedM_yield_text role text : containedM (yield_text env role text).
Proof.
  unfold yield_text. destruct (String.eqb text "");
    [apply containedM_ret | apply containedM_yield].
Qed.

Lemma containedM_yield_screenshot image_url :
  containedM (yield_screenshot env image_url).
Proof.
  unfold yield_screenshot. destruct (String.eqb image_url "");
    [apply containedM_ret | ].
  apply containedM_bind; [apply containedM_read | intros step].
  apply containedM_yield.
Qed.

Lemma containedM_task_on_item i :
  quiet_task_item (Returns i) -> containedM (on_item env i).
Proof.
  destruct i; cbn [quiet_task_item on_item]; intros H.
  - apply containedM_for_each. eapply Forall_impl; [ | exact H].
    intros b Hb. apply containedM_bind_lift. destruct b as [the_block | e];
      [ | exact Hb].
    destruct (String.eqb _ "text"); [apply containedM_yield_text | ].
    destruct (String.eqb _ "output_text");
      [apply containedM_yield_text | apply containedM_ret].
  - apply containedM_for_each. eapply Forall_impl; [ | exact H].
    intros o Ho. apply containedM_bind_lift. destruct o as [output_item | e];
      [ | exact Ho].
    destruct (String.eqb _ "computer_screenshot");
      [apply containedM_yield_screenshot | ].
    destruct (String.eqb _ "input_image");
      [apply containedM_yield_screenshot | apply containedM_ret].
  - apply containedM_yield.
  - apply containedM_for_each. eapply Forall_impl; [ | exact H].
    intros t Ht. apply containedM_bind_lift. destruct t as [text | e];
      [apply containedM_yield_text | exact Ht].
  - apply containedM_ret.
Qed.

Lemma containedM_task_observe results :
  Forall quiet_task_result results ->
  forall n, containedM (observe env n results).
Proof.
  induction 1 as [ | r rest Hr _ IH]; intros n; cbn [observe].
  - apply containedM_task_await. apply (ntc_agent_run_end _ quiet).
  - apply containedM_bind; [apply containedM_task_interrupted | intros _].
    apply containedM_bind; [apply containedM_read | intros running].
    destruct (negb running); [apply containedM_ret | ].
    apply containedM_bind_lift. destruct r as [output | e]; [ | exact Hr].
    apply containedM_bind; [ | intros _; apply IH].
    apply containedM_for_each. eapply Forall_impl; [ | exact Hr].
    intros i Hi. apply containedM_bind; [apply containedM_update | intros _].
    apply containedM_bind_lift. destruct i as [the_item | e]; [ | exact Hi].
    apply containedM_task_on_item. exact Hi.
Qed.

Lemma containedM_connect_and_stream : containedM (connect_and_stream env).
Proof.
  unfold connect_and_stream.
  apply containedM_bind; [apply containedM_yield | intros _].
  apply containedM_bind; [ | intros _].
  { unfold initialize. apply containedM_bind; [ | intros _; apply containedM_update].
    apply containedM_lift. apply (ntc_new_Computer _ quiet). }
  apply containedM_bind;
    [apply containedM_task_await; apply (ntc_computer_run _ quiet) | intros _].
  apply containedM_bind; [ | intros _].
  { unfold create_agent. apply containedM_bind; [apply containedM_read | intros c].
    destruct c; [ | apply containedM_raise; reflexivity].
    apply containedM_bind; [ | intros _; apply containedM_update].
    apply containedM_lift. apply (ntc_new_ComputerAgent _ quiet). }
  apply containedM_bind; [apply containedM_yield | intros _].
  apply containedM_task_observe. apply (ntc_agent_run _ quiet).
Qed.

(** The [finally] block returns, yields nothing and clears the flag. *)
Lemma task_teardown_run g :
  contained (computer_disconnect env) ->
  exists g',
    teardown env g = (Returns tt, g')
    /\ yielded g' = yielded g
    /\ CUAAgentService.is_running (service g') = false
    /\ CUAAgentService.step_count (service g')
       = CUAAgentService.step_count (service g).
Proof.
  intros Hd.
  unfold teardown, bindM, on_service, update, read, try_except_Exception, await,
    interrupted, lift, ret.
  cbn [service yielded CUAAgentService.computer CUAAgentService.set_is_running].
  destruct (CUAAgentService.computer (service g));
    [ | eexists; split; [reflexivity | repeat split] ].
  destruct (stops env at_disconnect);
    cbn [fst snd bindM update on_service];
    destruct (computer_disconnect env) as [ [] | e]; cbn in Hd |- *;
      rewrite ?Hd; eexists; (split; [reflexivity | repeat split]).
Qed.

End TaskStream.

(** A run of [run_task] in which nothing is cancelled, driven to its end:
    the generator returns; what it yields opens with the STATUS message
    ["connecting"], goes on with progress messages only (STATUS, MESSAGE,
    SCREENSHOT), and closes with exactly one message that ends the run, and
    which one is decided by the [try] block: AGENT_COMPLETE ["completed"]
    when the set-up and the loop over the stream returned, and ERROR with
    the text of the exception when they raised one; and [is_running] is
    [False] afterwards. *)
Theorem run_task_ends_with_one_terminal_message :
  forall env g,
    Spec.no_task_cancellation env ->
    exists g' body last,
      AgentTask.run_task env g = (Py.Returns tt, g')
      /\ AgentTask.yielded g'
         = AgentTask.yielded g
             ++ Spec.connecting_message
                  (AgentTask.time env (List.length (AgentTask.yielded g)))
             :: body ++ [last]
      /\ Forall Spec.progress body
      /\ match fst (AgentTask.connect_and_stream env
                      {| AgentTask.service
                           := CUAAgentService.begin_run_task (AgentTask.service g);
                         AgentTask.yielded := AgentTask.yielded g |}) with
         | Py.Returns _ =>
             Spec.frame_of last
             = (MessageType.AGENT_COMPLETE,
                WebSocketMessage.StatusPayload
                  "completed" (Some "Agent task completed successfully"))
         | Py.Raises e =>
             Py.is_Exception e = true
             /\ Spec.frame_of last
                = (MessageType.ERROR,
                   WebSocketMessage.StatusPayload "error" (Some (Py.str_exn e)))
         end
      /\ CUAAgentService.is_running (AgentTask.service g') = false.
Proof.
  intros env g quiet.
  unfold AgentTask.run_task.
  set (g0 := {| AgentTask.service
                  := CUAAgentService.begin_run_task (AgentTask.service g);
                AgentTask.yielded := AgentTask.yielded g |}).
  change (Block.bindM (AgentTask.on_service CUAAgentService.begin_run_task) ?k g)
    with (k tt g0).
  cbv beta. unfold Block.try_finally, Block.try_except_Exception.
  unfold Block.bindM at 1.
  destruct (connect_and_stream_yields env g0) as (body & Hbody & Hprogress).
  pose proof (containedM_connect_and_stream env quiet g0) as Hcontained.
  destruct (AgentTask.connect_and_stream env g0) as [ [ [] | e] g1];
    cbn [fst snd] in *.
  - unfold AgentTask.report_completion.
    match goal with
    | |- context [AgentTask.yield_ env ?t ?p g1] =>
        destruct (yield__run env t p g1) as [R Y];
        destruct (AgentTask.yield_ env t p g1) as [r g2]
    end.
    cbn [fst snd] in *. subst r.
    destruct (task_teardown_run env g2 (Spec.ntc_computer_disconnect _ quiet))
      as (g3 & T & Y3 & F3 & _).
    rewrite T. eexists g3, body, _. split; [reflexivity | ].
    split; [rewrite Y3, Y, Hbody, <- app_assoc; reflexivity | ].
    split; [exact Hprogress | split; [reflexivity | exact F3] ].
  - rewrite Hcontained. unfold AgentTask.on_exception.
    match goal with
    | |- context [AgentTask.yield_ env ?t ?p g1] =>
        destruct (yield__run env t p g1) as [R Y];
        destruct (AgentTask.yield_ env t p g1) as [r g2]
    end.
    cbn [fst snd] in *. subst r.
    destruct (task_teardown_run env g2 (Spec.ntc_computer_disconnect _ quiet))
      as (g3 & T & Y3 & F3 & _).
    rewrite T. eexists g3, body, _. split; [reflexivity | ].
    split; [rewrite Y3, Y, Hbody, <- app_assoc; reflexivity | ].
    split; [exact Hprogress | split; [ | exact F3] ].
    split; reflexivity.
Qed.

(** The sandbox cannot be reached: the [try] block raises, and the run
    closes with the ERROR message that carries the text. *)
Lemma run_task_ends_with_one_terminal_message_witness :
  let env := Examples.task_environment (fun _ => false) Examples.unreachable in
  let g := {| AgentTask.service := CUAAgentService.__init__;
              AgentTask.yielded := [] |} in
  Spec.no_task_cancellation env
  /\ fst (AgentTask.connect_and_stream env
            {| AgentTask.service
                 := CUAAgentService.begin_run_task (AgentTask.service g);
               AgentTask.yielded := AgentTask.yielded g |})
     = Py.Raises (Py.PyException "ConnectionError" "sandbox unreachable")
  /\ exists g' body last,
      AgentTask.run_task env g = (Py.Returns tt, g')
      /\ AgentTask.yielded g'
         = AgentTask.yielded g
             ++ Spec.connecting_message
                  (AgentTask.time env (List.length (AgentTask.yielded g)))
             :: body ++ [last]
      /\ Forall Spec.progress body
      /\ match fst (AgentTask.connect_and_stream env
                      {| AgentTask.service
                           := CUAAgentService.begin_run_task (AgentTask.service g);
                         AgentTask.yielded := AgentTask.yielded g |}) with
         | Py.Returns _ =>
             Spec.frame_of last
             = (MessageType.AGENT_COMPLETE,
                WebSocketMessage.StatusPayload
                  "completed" (Some "Agent task completed successfully"))
         | Py.Raises e =>
             Py.is_Exception e = true
             /\ Spec.frame_of last
                = (MessageType.ERROR,
                   WebSocketMessage.StatusPayload "error" (Some (Py.str_exn e)))
         end
      /\ CUAAgentService.is_running (AgentTask.service g') = false.
Proof.
  intros env g.
  assert (quiet : Spec.no_task_cancellation env).
  { constructor; try exact I; try reflexivity.
    repeat constructor. }
  assert (Hraise :
            fst (AgentTask.connect_and_stream env
                   {| AgentTask.service
                        := CUAAgentService.begin_run_task (AgentTask.service g);
                      AgentTask.yielded := AgentTask.yielded g |})
            = Py.Raises (Py.PyException "ConnectionError" "sandbox unreachable"))
    by (vm_compute; reflexivity).
  exact (conj quiet
           (conj Hraise (run_task_ends_with_one_terminal_message env g quiet))).
Defined.

(** A [stop()] that reaches the service before the loop reads the first
    value of the stream (while the consumer handles one of the two STATUS
    messages, during [computer.run()], or while the loop waits for the
    value): the loop is left at once, no item is counted, and the run
    reports AGENT_COMPLETE ["Agent task completed successfully"] all the
    same. *)
Theorem stop_before_the_stream_reports_completion :
  forall env s first rest,
    AgentTask.new_Computer env = Py.Returns tt ->
    AgentTask.computer_run env = Py.Returns tt ->
    AgentTask.new_ComputerAgent env = Py.Returns tt ->
    AgentTask.agent_run env = first :: rest ->
    Spec.contained (AgentTask.computer_disconnect env) ->
    AgentTask.stops env (AgentTask.at_yield 0)
    || AgentTask.stops env AgentTask.at_computer_run
    || AgentTask.stops env (AgentTask.at_yield 1)
    || AgentTask.stops env (AgentTask.at_next_result 0) = true ->
    exists g',
      AgentTask.run_task env {| AgentTask.service := s; AgentTask.yielded := [] |}
      = (Py.Returns tt, g')
      /\ map Spec.frame_of (AgentTask.yielded g')
         = [(MessageType.STATUS,
             WebSocketMessage.StatusPayload
               "connecting" (Some "Connecting to Windows sandbox..."));
            (MessageType.STATUS,
             WebSocketMessage.StatusPayload
               "running" (Some "Agent started, navigating to PowerWorld..."));
            (MessageType.AGENT_COMPLETE,
             WebSocketMessage.StatusPayload
               "completed" (Some "Agent task completed successfully"))]
      /\ CUAAgentService.step_count (AgentTask.service g') = 0
      /\ CUAAgentService.is_running (AgentTask.service g') = false.
Proof.
  intros env s first rest Hnew Hrun Hagent Hstream Hd Hstop.
  unfold AgentTask.run_task.
  set (g0 := {| AgentTask.service := CUAAgentService.begin_run_task s;
                AgentTask.yielded := [] |}).
  change (Block.bindM (AgentTask.on_service CUAAgentService.begin_run_task) ?k
                      {| AgentTask.service := s; AgentTask.yielded := [] |})
    with (k tt g0).
  cbv beta. unfold Block.try_finally, Block.try_except_Exception.
  unfold Block.bindM at 1.
  assert (Hstreamed :
            exists g1,
              AgentTask.connect_and_stream env g0 = (Py.Returns tt, g1)
              /\ map Spec.frame_of (AgentTask.yielded g1)
                 = [(MessageType.STATUS,
                     WebSocketMessage.StatusPayload
                       "connecting" (Some "Connecting to Windows sandbox..."));
                    (MessageType.STATUS,
                     WebSocketMessage.StatusPayload
                       "running"
                       (Some "Agent started, navigating to PowerWorld..."))]
              /\ CUAAgentService.step_count (AgentTask.service g1) = 0).
  { subst g0.
    destruct (AgentTask.stops env (AgentTask.at_yield 0)) eqn:E0;
      destruct (AgentTask.stops env AgentTask.at_computer_run) eqn:E1;
      destruct (AgentTask.stops env (AgentTask.at_yield 1)) eqn:E2;
      destruct (AgentTask.stops env (AgentTask.at_next_result 0)) eqn:E3;
      try discriminate Hstop;
      unfold AgentTask.connect_and_stream, AgentTask.initialize,
        AgentTask.create_agent, AgentTask.yield_, AgentTask.await;
      rewrite Hstream, Hnew, Hrun, Hagent; cbn [AgentTask.observe];
      unfold AgentTask.interrupted, AgentTask.on_service, Block.bindM,
        Block.update, Block.read, Block.lift, Block.ret;
      repeat (cbn [AgentTask.service AgentTask.yielded List.length app fst snd negb
                   CUAAgentService.is_running CUAAgentService.stop
                   CUAAgentService.set_is_running CUAAgentService.begin_run_task
                   CUAAgentService.computer CUAAgentService.step_count
                   AgentTask.set_computer AgentTask.set_agent];
              rewrite ?E0, ?E1, ?E2, ?E3);
      eexists; repeat split. }
  destruct Hstreamed as (g1 & Hrun1 & Hframes & Hcount). rewrite Hrun1.
  unfold AgentTask.report_completion.
  match goal with
  | |- context [AgentTask.yield_ env ?t ?p g1] =>
      destruct (yield__run env t p g1) as [R Y];
      pose proof (yield__step_count env t p g1) as C;
      destruct (AgentTask.yield_ env t p g1) as [r g2]
  end.
  cbn [fst snd] in *. subst r.
  destruct (task_teardown_run env g2 Hd) as (g3 & T & Y3 & F3 & C3).
  rewrite T. exists g3. split; [reflexivity | ].
  split; [rewrite Y3, Y, map_app, Hframes; reflexivity | ].
  split; [congruence | exact F3].
Qed.

Lemma stop_before_the_stream_reports_completion_witness :
  let env := Examples.task_environment Examples.stop_while_connecting
                                       (Py.Returns tt) in
  AgentTask.agent_run env = Examples.task_stream
  /\ AgentTask.stops env AgentTask.at_computer_run = true
  /\ exists g',
      AgentTask.run_task env {| AgentTask.service := CUAAgentService.__init__;
                                AgentTask.yielded := [] |}
      = (Py.Returns tt, g')
      /\ map Spec.frame_of (AgentTask.yielded g')
         = [(MessageType.STATUS,
             WebSocketMessage.StatusPayload
               "connecting" (Some "Connecting to Windows sandbox..."));
            (MessageType.STATUS,
             WebSocketMessage.StatusPayload
               "running" (Some "Agent started, navigating to PowerWorld..."));
            (MessageType.AGENT_COMPLETE,
             WebSocketMessage.StatusPayload
               "completed" (Some "Agent task completed successfully"))]
      /\ CUAAgentService.step_count (AgentTask.service g') = 0
      /\ CUAAgentService.is_running (AgentTask.service g') = false.
Proof.
  intros env.
  exact (conj eq_refl (conj eq_refl
           (stop_before_the_stream_reports_completion env CUAAgentService.__init__
              _ _ eq_refl eq_refl eq_refl eq_refl I eq_refl))).
Defined.

Section TaskSteps.
Import Py Block AgentTask Spec.

Variable env : environment.

Lemma stable_numbered : stable numbered.
Proof. intros g g' Hs Hc. unfold numbered. rewrite Hs, Hc. auto. Qed.

Lemma stable_counted : stable counted.
Proof.
  intros g g' Hs Hc [Hn H1]. split; [exact (stable_numbered g g' Hs Hc Hn) | ].
  rewrite Hc. exact H1.
Qed.

Lemma steps_app l l' : steps (l ++ l') = steps l ++ steps l'.
Proof. unfold steps. apply flat_map_app. Qed.

Lemma preserves_ret {A : Type} P (a : A) : preserves P (ret a).
Proof. intros g H. exact H. Qed.

Lemma preserves_lift {A : Type} P (o : outcome A) : preserves P (lift o).
Proof. intros g H. exact H. Qed.

Lemma preserves_raise {A : Type} P e : preserves (A := A) P (raise e).
Proof. intros g H. exact H. Qed.

Lemma preserves_read {A : Type} P (f : generator -> A) : preserves P (read f).
Proof. intros g H. exact H. Qed.

Lemma preserves_bind {A B : Type} P (m : G A) (k : A -> G B) :
  preserves P m -> (forall a, preserves P (k a)) -> preserves P (bindM m k).
Proof.
  intros Hm Hk g H. unfold bindM. specialize (Hm g H).
  destruct (m g) as [ [a | e] g1]; cbn [snd] in *; [apply Hk; exact Hm | exact Hm].
Qed.

Lemma preserves_for_each {A : Type} P (xs : list A) (body : A -> G unit) :
  (forall x, preserves P (body x)) -> preserves P (for_each xs body).
Proof.
  intros Hb. induction xs as [ | x xs IH]; simpl.
  - apply preserves_ret.
  - apply preserves_bind; auto.
Qed.

Lemma preserves_try_except {A : Type} P (body : G A) handler :
  preserves P body -> (forall e, preserves P (handler e)) ->
  preserves P (try_except_Exception body handler).
Proof.
  intros Hb Hh g H. unfold try_except_Exception. specialize (Hb g H).
  destruct (body g) as [ [a | e] g1]; cbn [snd] in *; [exact Hb | ].
  destruct (is_Exception e); [apply Hh; exact Hb | exact Hb].
Qed.

Lemma preserves_try_finally {A : Type} P (body : G A) final :
  preserves P body -> preserves P final -> preserves P (try_finally body final).
Proof.
  intros Hb Hf g H. unfold try_finally. specialize (Hb g H).
  destruct (body g) as [r g1]. cbn [snd] in Hb. specialize (Hf g1 Hb).
  destruct (final g1) as [ [ [] | e] g2]; exact Hf.
Qed.

Lemma preserves_on_service P f :
  stable P ->
  (forall s, CUAAgentService.step_count (f s) = CUAAgentService.step_count s) ->
  preserves P (on_service f).
Proof. intros HP Hf g. apply HP; [reflexivity | apply Hf]. Qed.

Lemma preserves_interrupted P p : stable P -> preserves P (interrupted env p).
Proof.
  intros HP. unfold interrupted. destruct (stops env p);
    [apply preserves_on_service; [exact HP | reflexivity] | apply preserves_ret].
Qed.

Lemma preserves_await {A : Type} P p (o : outcome A) :
  stable P -> preserves P (await env p o).
Proof.
  intros HP. unfold await. apply preserves_bind;
    [apply preserves_interrupted, HP | intros _; apply preserves_lift].
Qed.

(** A message that is not a screenshot adds no step number. *)
Lemma preserves_yield P type payload :
  stable P ->
  steps [{| WebSocketMessage.type := type; WebSocketMessage.payload_ := payload;
            WebSocketMessage.timestamp := 0%Z |}] = [] ->
  preserves P (yield_ env type payload).
Proof.
  intros HP Hnone g. apply HP.
  - destruct (yield__run env type payload g) as [_ Y]. rewrite Y, steps_app.
    unfold steps at 2. cbn [flat_map WebSocketMessage.payload_].
    unfold steps in Hnone. cbn [flat_map WebSocketMessage.payload_] in Hnone.
    rewrite Hnone. apply app_nil_r.
  - apply yield__step_count.
Qed.

Lemma StronglySorted_snoc (l : list nat) c :
  StronglySorted le l -> Forall (fun step => step <= c) l ->
  StronglySorted le (l ++ [c]).
Proof.
  induction 1 as [ | x l Hl IH Hx]; intros Hc; simpl.
  - repeat constructor.
  - inversion Hc; subst. constructor; [apply IH; assumption | ].
    apply Forall_app. split; [exact Hx | repeat constructor; assumption].
Qed.

(** A screenshot is numbered with the count of the item that carries it. *)
Lemma counted_yield_screenshot image_url :
  preserves counted (yield_screenshot env image_url).
Proof.
  unfold yield_screenshot. destruct (String.eqb image_url "");
    [apply preserves_ret | ].
  intros g [ [Hsorted Hbound] H1].
  change (bindM (read ?f) ?k g) with (k (f g) g). cbv beta.
  match goal with
  | |- counted (snd (yield_ env ?t ?p g)) =>
      destruct (yield__run env t p g) as [_ Y];
      pose proof (yield__step_count env t p g) as C
  end.
  unfold counted, numbered. rewrite Y, C, steps_app.
  unfold steps at 2 4. cbn [flat_map WebSocketMessage.payload_ app].
  split; [split | exact H1].
  - apply StronglySorted_snoc; [exact Hsorted | ].
    eapply Forall_impl; [ | exact Hbound]. intros step [_ H]. exact H.
  - apply Forall_app. split; [exact Hbound | ].
    constructor; [split; [exact H1 | apply Nat.le_refl] | constructor].
Qed.

Lemma counted_yield_text role text : preserves counted (yield_text env role text).
Proof.
  unfold yield_text. destruct (String.eqb text ""); [apply preserves_ret | ].
  apply preserves_yield; [exact stable_counted | reflexivity].
Qed.

Lemma counted_on_item i : preserves counted (on_item env i).
Proof.
  destruct i; cbn [on_item].
  - apply preserves_for_each. intros b.
    apply preserves_bind; [apply preserves_lift | intros the_block].
    destruct (String.eqb _ "text"); [apply counted_yield_text | ].
    destruct (String.eqb _ "output_text");
      [apply counted_yield_text | apply preserves_ret].
  - apply preserves_for_each. intros o.
    apply preserves_bind; [apply preserves_lift | intros output_item].
    destruct (String.eqb _ "computer_screenshot");
      [apply counted_yield_screenshot | ].
    destruct (String.eqb _ "input_image");
      [apply counted_yield_screenshot | apply preserves_ret].
  - apply preserves_yield; [exact stable_counted | reflexivity].
  - apply preserves_for_each. intros t.
    apply preserves_bind; [apply preserves_lift | intros text].
    apply counted_yield_text.
  - apply preserves_ret.
Qed.

(** An item is counted before it is read. *)
Lemma numbered_item i :
  preserves numbered
    (bindM (on_service count_step)
       (fun _ => bindM (lift i) (fun the_item => on_item env the_item))).
Proof.
  intros g [Hsorted Hbound].
  change (bindM (on_service count_step) ?k g)
    with (k tt {| service := count_step (service g); yielded := yielded g |}).
  cbv beta.
  assert (H : preserves counted
                (bindM (lift i) (fun the_item => on_item env the_item))).
  { apply preserves_bind; [apply preserves_lift | intros the_item].
    apply counted_on_item. }
  apply H. split; [split | ]; cbn [service yielded count_step
                                   CUAAgentService.step_count].
  - exact Hsorted.
  - eapply Forall_impl; [ | exact Hbound]. intros step [H1 H2].
    split; [exact H1 | apply le_S; exact H2].
  - apply le_n_S, Nat.le_0_l.
Qed.

Lemma numbered_observe results : forall n, preserves numbered (observe env n results).
Proof.
  induction results as [ | r rest IH]; intros n; cbn [observe].
  - apply preserves_await, stable_numbered.
  - apply preserves_bind; [apply preserves_interrupted, stable_numbered | intros _].
    apply preserves_bind; [apply preserves_read | intros running].
    destruct (negb running); [apply preserves_ret | ].
    apply preserves_bind; [apply preserves_lift | intros output].
    apply preserves_bind; [ | intros _; apply IH].
    apply preserves_for_each. intros i. apply numbered_item.
Qed.

Lemma numbered_run_task : preserves numbered
  (try_finally
     (try_except_Exception
        (bindM (connect_and_stream env) (fun _ => report_completion env))
        (on_exception env))
     (teardown env)).
Proof.
  pose proof stable_numbered as HP.
  apply preserves_try_finally; [apply preserves_try_except | ].
  - apply preserves_bind; [ | intros _].
    + unfold connect_and_stream, initialize, create_agent.
      repeat first
        [ apply numbered_observe
        | apply preserves_yield; [exact HP | reflexivity]
        | apply preserves_await; exact HP
        | apply preserves_on_service; [exact HP | reflexivity]
        | apply preserves_lift | apply preserves_read | apply preserves_raise
        | apply preserves_bind; [ | intros ? ]
        | match goal with
          | |- preserves _ (match ?x with _ => _ end) => destruct x
          end ].
    + apply preserves_yield; [exact HP | reflexivity].
  - intros e. apply preserves_yield; [exact HP | reflexivity].
  - unfold teardown.
    apply preserves_bind;
      [apply preserves_on_service; [exact HP | reflexivity] | intros _].
    apply preserves_bind; [apply preserves_read | intros c].
    destruct c; [ | apply preserves_ret].
    apply preserves_try_except; [apply preserves_await; exact HP | intros _].
    apply preserves_ret.
Qed.

End TaskSteps.

(** The step numbers of the screenshots a run of [run_task] yields,
    whatever its collaborators do and whenever it is stopped: they start
    at 1 or above, never decrease from one screenshot to the next, and
    none exceeds the [step_count] the service is left with. *)
Theorem screenshot_steps_are_ordered :
  forall env s,
    let g' := snd (AgentTask.run_task env {| AgentTask.service := s;
                                             AgentTask.yielded := [] |}) in
    StronglySorted le (Spec.steps (AgentTask.yielded g'))
    /\ Forall (fun step =>
                 1 <= step
                 /\ step <= CUAAgentService.step_count (AgentTask.service g'))
              (Spec.steps (AgentTask.yielded g')).
Proof.
  intros env s g'. subst g'. unfold AgentTask.run_task.
  change (Block.bindM (AgentTask.on_service CUAAgentService.begin_run_task) ?k
                      {| AgentTask.service := s; AgentTask.yielded := [] |})
    with (k tt {| AgentTask.service := CUAAgentService.begin_run_task s;
                  AgentTask.yielded := [] |}).
  cbv beta. apply (numbered_run_task env).
  split; constructor.
Qed.
